(* ===== verification/_CoqProject ===== *)
-Q . S2P
Prelude.v
Analyzer.v
Config.v
Dates.v
Calendar.v
HttpClient.v
TokenResolver.v
MarketClient.v
Normalizer.v
Forecast.v
LocalStore.v
News.v
Utils.v
Stats.v
Correlation.v
App.v
Layout.v
Launcher.v
