(* ===== verification/Prelude.v ===== *)
(** * A verification development for the crypto market dashboard (crptt)

    The repository is a Streamlit dashboard ([src/app.py]) that fetches
    cryptocurrency market data from CoinGecko ([src/api_service.py]),
    reshapes it with pandas ([src/data_processor.py]), stores it in SQLite
    ([src/database.py]), forecasts prices ([src/ml_predictor.py]) and
    summarises whitepapers and news ([src/ai_analyzer.py],
    [src/news_analyzer.py]), with helpers in [src/utils.py] and
    [src/page_layout.py], static configuration in [src/config.py], and a
    launcher ([src/run.py], [src/setup.py]) that checks or installs the
    dependencies, prepares [.env] and the database, and starts Streamlit.

    ** How the program is modelled

    Python is modelled by a shallow embedding.  Every effect the code
    performs goes through the small monad [M] of this file: a computation
    takes a [world] and returns an [outcome] (a value, or a raised Python
    exception of type [exn]) and the new world.  The world holds what the
    program reads from outside and what it leaves behind:
    - [w_sent]: the requests sent (URL and query parameters), in order;
    - [w_net]: the scripted answers of successive [requests.get] calls
      (a status code and a decoded JSON body, or a connection failure);
    - [w_rand]: the successive draws of [random.random()] (in [0,1));
      [random.uniform(a, b)] is [a + (b-a) * random()], as in CPython;
    - [w_now]: [datetime.now()] as seconds;
    - [w_slept]: the arguments of the [time.sleep] calls, in order;
    - [w_log]: the exceptions the code printed and swallowed.
    [try/except] is [py_try]; [raise] is [py_raise].  Python floats are
    modelled by [num]: exact rationals extended with the IEEE values
    [+inf], [-inf] and [NaN] and the IEEE case rules for them (rounding
    is not modelled: arithmetic on finite values is exact).  A pandas
    column is a list of [num], [NaN] standing for a missing value.

    ** Files (in dependency order, see _CoqProject)
    - [Prelude]    (this file): the Python runtime model above, ASCII
      string helpers (str.upper, str.lower, the [in] operator), the
      notation scope [py_scope], the hint databases [pyrt] and [pyrw] and
      the shared lemmas on lists, strings, options and rationals.
    - [Config]     src/config.py: the timeframe enumeration, the default
      watch-list, [API_CONFIG], [ML_CONFIG], [AI_CONFIG], the chart
      colours, the UI stylesheet and [DB_CONFIG].
    - [Dates]      utils.calculate_date_range, the two copies of the
      timeframe table in api_service, pandas' [date_range] used by the
      fallbacks, and utils.extract_time_period.
    - [Calendar]   the proleptic Gregorian calendar behind
      [datetime.strftime('%Y-%m-%d %H:%M:%S')] (database.save_data) and
      the parser of such strings used by [pd.to_datetime]
      (database.get_historical_data), on instants as seconds (UTC).
    - [HttpClient] api_service.make_api_request: the retry loop with
      exponential back-off, a function in [M] recursive on the number of
      attempts left, and its closed form [retry_result].
    - [TokenResolver] api_service._get_token_id and get_token_list.
    - [MarketClient] api_service.get_token_data and get_market_data:
      response parsing, timestamp alignment, the back-filled volume and
      dominance estimates, and the synthetic fallback series.
    - [Normalizer] data_processor.process_historical_data: sorting,
      pct_change, rolling windows, the volume/market-cap ratio and
      backward fill.
    - [LocalStore] database.py: the four SQLite tables with their
      primary keys (a [gmap] from table names to tables), pandas'
      [to_sql(if_exists='append')] as one transaction per call, INSERT OR
      REPLACE, the three reads with their text filters and ORDER BY, and
      the store as a step relation [store_step] whose steps are the
      writing functions of database.py.
    - [Forecast]   ml_predictor.py: predict_prices and the ARIMA, LSTM
      and Prophet predictors around an interface [ForecastModels] for
      the fitted models; the sorted history, min-max scaling, the
      autoregressive window, forecast dates and bounds, numpy
      broadcasting and pandas' [iloc].
    - [Analyzer]   ai_analyzer.py: analyze_whitepaper against an
      interface [WhitepaperServices] (download, PDF pages, language
      model), the tag-stripping [re.sub], the two rating patterns of
      extract_rating and generate_mock_analysis.
    - [News]       news_analyzer.py: get_trending_topics with News API,
      CryptoPanic and the mock fallback, process_articles (grouping by
      shared title words, random order) and the token-mention count and
      word-list sentiment of extract_tokens_from_articles.
    - [Utils]      utils.py: format_currency and format_percentage
      (Python's [:.pf] on exact values), generate_random_data,
      get_comparable_tokens and sanitize_input.
    - [Stats]      data_processor.py: calculate_stats (tables of
      formatted statistics), detect_outliers and calculate_risk_metrics
      (Sharpe ratio, drawdown, VaR and CVaR with numpy's percentile).
    - [Correlation] data_processor.calculate_correlation_matrix: the
      price series by date, the union of their indexes with pandas'
      reindexing rules, and [DataFrame.corr()] as pandas' [nancorr]
      computes it (Welford's one-pass update).
    - [App]        app.py: one run of the Streamlit script in the page
      monad [R] (the world monad plus the list of rendered elements, a
      result that is a value or an exception that stopped the script):
      the page configuration and stylesheet, the sidebar, data loading,
      the seven tabs and the footer, with the
      widget values as the record [inputs].
    - [Layout]     page_layout.py in the same page monad: header, sidebar
      filters, metric cards in columns, charts with their colour map,
      section headers, footer and theme.
    - [Launcher]   run.py and setup.py on a host record (files,
      directories, environment, installed modules, SQLite databases by
      file, output, commands run): the imports at start with the top
      level of database.py, argparse, the dependency check, pip,
      setup_environment and the streamlit command.  The python-dotenv
      parser and pip's outcome are parameters.

    ** What the theorems show (by group)
    - Dates: each timeframe's window has the documented length, the three
      copies of the table agree, extract_time_period's keyword order.
    - Calendar: reading back a stored date gives the instant written
      (for every instant of years 1 to 9999), and the text order of
      stored dates is the order of their instants.
    - HttpClient: the loop equals its closed form on every script of
      answers; at most [retries] requests are made; a success is
      returned at once; only HTTP 429 is retried; the sleeps follow
      [backoff * 2^i + jitter] with jitter in [0,1).  The loop is
      structural on the attempts left, so it terminates by construction.
    - TokenResolver: table hits make no request and are idempotent; the
      coin-list scan returns the first case-insensitive match; failures
      give [None].
    - MarketClient: the aligned series have the price series' length and
      the last value of each timestamp; every failure gives the 30-point
      fallback; the dominance estimate is capped at 90.
    - Normalizer: the output columns and their lengths, the rows are
      sorted by date and a permutation of the input, backward fill
      leaves no gap before the last defined value, the rolling windows
      leave no NaN on a series of 30 positive rows or more, and a zero
      market cap gives NaN ratios.
    - LocalStore: every reachable store keeps the configured schemas and
      unique primary keys; the processed frame the dashboard passes to
      save_data is refused by SQLite, so nothing is stored; appending an
      existing key fails the whole call while INSERT OR REPLACE keeps the
      last value; the reload's text filter is the filter on instants,
      except that a day given as end date is excluded; a saved raw
      series is read back completely, sorted by date.
    - Forecast: predict_with_arima always raises (its in-sample
      prediction has one value more than the prices it is compared
      with), so the dashboard gets the error dict; predict_with_lstm
      returns one price per forecast day on a history of 15 rows or
      more, its loop equals its specification, its lower bound can be
      negative, and a shorter history raises ValueError; a zero-day
      Prophet forecast returns the whole fitted history.
    - Analyzer: the rating pattern reads tenths as written and mock
      ratings read back; the tag stripping equals its fuelled reference
      [sub_tags]; analyze_whitepaper never raises; a PDF page error
      sends the partial text without the length cut.
    - News: get_trending_topics never raises and returns the shape the
      dashboard reads (scores and breakdowns in [-1,1]); process_articles
      returns at most seven topics, and a first title of at most one
      word swallows every later article; when no token is mentioned,
      extract_tokens_from_articles raises KeyError and the providers
      fall back.
    - Utils: get_comparable_tokens' result (group peers first, no
      duplicates, at most [count]); format_currency's rounding rollover
      to [$1000.00K]; sanitize_input leaves none of the blacklisted
      characters; generate_random_data's length and its ValueError on a
      reversed range.
    - Stats: the risk metrics' bounds (drawdown in [-1,0], CVaR at most
      VaR); the 7- and 30-day changes look 6 and 29 rows back;
      detect_outliers reads positions of the column without its NaNs in
      the whole frame, so a missing value before an outlier shifts the
      row it returns.
    - Correlation: Welford's loop equals the two-pass Pearson
      coefficient (up to the representation of rationals); on price
      series without repeated dates the matrix is returned, square,
      symmetric, with entries NaN or in [-1, 1] (Cauchy-Schwarz).
    - App: on a default run the statistics tab raises KeyError
      'price_stats' on the market frame, so the script stops before the
      comparison tab; the comparison's percentage loop raises ValueError
      from its second column on; the market-share pie sums to the larger
      of the market cap and the tokens' total.
    - Layout: the light theme's stylesheet is written without <style>
      tags, so it is shown as text; every token missing from
      CHART_COLORS gets the same colour; metric cards go round-robin over
      the columns; a coin list without one of the default tokens stops
      the sidebar.
    - Launcher: database.py reads DB_PATH at import, so a first
      [run.py --setup] initialises crypto_data.db while the app then
      uses the configured file; without python-dotenv or pandas every
      run, --check-deps included, dies at its imports; no run changes a
      file except by creating a missing .env from the template; argparse
      accepts the three-character prefixes of the options.

    ** Bounds
    The calendar theorems quantify over all instants of years 1 to 9999
    ([MIN_TIMESTAMP], [MAX_TIMESTAMP], the range of Python's datetime).
    The conversion between days and dates is proved correct by one
    exhaustive evaluation over a single 400-year era (146097 days, the
    period of the Gregorian calendar) and periodicity for the other
    eras; that evaluation takes a few seconds with [vm_compute] and a
    few minutes in the kernel checker.  No function of the model uses
    fuel: every recursion of the model is structural, except three
    bounded ones: [era_check]'s counter is the length of the exhaustive
    check; [sub_tags] (Analyzer) takes the string's length as fuel, and
    a theorem shows it equals the well-founded [strip_tags]; [log10_fuel]
    (Stats) takes the binary length of its argument, which bounds the
    number of divisions by ten.

    ** Not modelled (and why)
    The forecasting libraries (statsmodels, TensorFlow, Prophet), the PDF
    reader, the language model, python-dotenv's parser and pip are
    external: their outputs enter through interfaces or parameters.
    Plotly figures are records of their kind, arguments, title and
    height: their drawing, legend and margins and plotly's argument
    checks other than column names are not modelled.  Streamlit widgets
    enter as the values the user chose.  In database.py the PostgreSQL
    server (reached only with DB_TYPE other than sqlite and psycopg2
    installed) and the JSON encoding of stored results (the text is
    stored as given) are not modelled.  The [__main__] block of setup.py
    (an argument parser without options around setup_environment) is not
    modelled separately.
    *)

From Stdlib Require Export QArith Qround ZArith String Ascii Lqa.
From stdpp Require Export base list strings sorting gmap.

Declare Scope py_scope.
Delimit Scope py_scope with py.

(** ** Python floats *)

Inductive num : Type :=
  | Fin (q : Q)
  | PInf
  | NInf
  | NaN.

(** Syntactic equality of rationals (not [Qeq]): [1/2] and [2/4] differ. *)
#[export] Instance Q_syn_eq_dec : EqDecision Q.
Proof. intros [a b] [c d]; unfold Decision; decide equality; apply decide; apply _. Defined.

#[export] Instance num_eq_dec : EqDecision num.
Proof. solve_decision. Defined.

Definition is_nan (x : num) : bool := match x with NaN => true | _ => false end.
Definition qltb (a b : Q) : bool := negb (Qle_bool b a).

Definition nneg (x : num) : num :=
  match x with Fin q => Fin (- q) | PInf => NInf | NInf => PInf | NaN => NaN end.

Definition nadd (x y : num) : num :=
  match x, y with
  | Fin a, Fin b => Fin (a + b)
  | NaN, _ | _, NaN => NaN
  | PInf, NInf | NInf, PInf => NaN
  | PInf, _ | _, PInf => PInf
  | NInf, _ | _, NInf => NInf
  end.

Definition nsub (x y : num) : num := nadd x (nneg y).

(** The sign of an infinite result: [inf_of_sign s] for a nonzero sign. *)
Definition inf_of_sign (positive : bool) : num := if positive then PInf else NInf.

Definition nmul (x y : num) : num :=
  match x, y with
  | Fin a, Fin b => Fin (a * b)
  | NaN, _ | _, NaN => NaN
  | Fin a, PInf | PInf, Fin a =>
      if Qeq_bool a 0 then NaN else inf_of_sign (qltb 0 a)
  | Fin a, NInf | NInf, Fin a =>
      if Qeq_bool a 0 then NaN else inf_of_sign (qltb a 0)
  | PInf, PInf | NInf, NInf => PInf
  | PInf, NInf | NInf, PInf => NInf
  end.

(** IEEE division: [x/0] is [+-inf] for [x <> 0] and [NaN] for [0/0]. *)
Definition ndiv (x y : num) : num :=
  match x, y with
  | NaN, _ | _, NaN => NaN
  | Fin a, Fin b =>
      if Qeq_bool b 0 then
        (if Qeq_bool a 0 then NaN else inf_of_sign (qltb 0 a))
      else Fin (a / b)
  | Fin _, (PInf | NInf) => Fin 0
  | (PInf | NInf), (PInf | NInf) => NaN
  | PInf, Fin b => inf_of_sign (negb (qltb b 0))
  | NInf, Fin b => inf_of_sign (qltb b 0)
  end.

(** ** Python exceptions and JSON values *)

Inductive exn : Type :=
  | RequestException (status : option Z)   (** requests: [e.response.status_code], if any *)
  | ValueError (msg : string)
  | KeyError (key : string)
  | TypeError
  | AttributeError
  | IndexError
  | ZeroDivisionError
  | IntegrityError (table : string)        (** sqlite3: UNIQUE/PRIMARY KEY violated *)
  | OperationalError (msg : string).       (** sqlite3: e.g. no such column *)

#[local] Set Warnings "-register-all".
Inductive json : Type :=
  | JNull
  | JBool (b : bool)
  | JNum (x : Q)
  | JStr (s : string)
  | JArr (xs : list json)
  | JObj (kvs : list (string * json)).

(** One answer of [requests.get]: a response (status, body decoded by
    [response.json()] or [None] when the body is not JSON), or a failure
    before any response (timeout, DNS, connection refused). *)
Inductive http_outcome : Type :=
  | HttpResp (status : Z) (body : option json)
  | HttpFail.

(** ** The world and the monad *)

Record world : Type := mk_world {
  w_sent : list (string * list (string * json));
  w_net : list http_outcome;
  w_rand : list Q;
  w_now : Z;
  w_slept : list Q;
  w_log : list exn
}.

Inductive outcome (A : Type) : Type :=
  | Ret (a : A)
  | Raise (e : exn).
Arguments Ret {A} a.
Arguments Raise {A} e.

Definition M (A : Type) : Type := world -> outcome A * world.

Definition mret {A} (a : A) : M A := fun w => (Ret a, w).
Definition mbind {A B} (c : M A) (k : A -> M B) : M B :=
  fun w => match c w with
           | (Ret a, w') => k a w'
           | (Raise e, w') => (Raise e, w')
           end.

Notation "x <- c ;; k" := (mbind c (fun x => k))
  (at level 100, c at next level, right associativity) : py_scope.
Notation "c ;;; k" := (mbind c (fun _ => k))
  (at level 100, right associativity) : py_scope.
Open Scope py_scope.

Definition py_raise {A} (e : exn) : M A := fun w => (Raise e, w).

(** [try: c except: h e] catching every exception. *)
Definition py_try {A} (c : M A) (h : exn -> M A) : M A :=
  fun w => match c w with
           | (Ret a, w') => (Ret a, w')
           | (Raise e, w') => h e w'
           end.

(** [print(f"... {e}")]: the exception is recorded in the log. *)
Definition py_print_exn (e : exn) : M unit :=
  fun w => (Ret tt, mk_world (w_sent w) (w_net w) (w_rand w) (w_now w) (w_slept w)
                             (w_log w ++ [e])).

(** [requests.get(url, params=params, ...)]: the request is recorded and
    the next scripted answer is returned (an exhausted script answers
    with a connection failure). *)
Definition http_get (url : string) (params : list (string * json)) : M http_outcome :=
  fun w =>
    let sent := w_sent w ++ [(url, params)] in
    match w_net w with
    | [] => (Ret HttpFail, mk_world sent [] (w_rand w) (w_now w) (w_slept w) (w_log w))
    | r :: rs => (Ret r, mk_world sent rs (w_rand w) (w_now w) (w_slept w) (w_log w))
    end.

(** [random.random()]; an exhausted script draws 0. *)
Definition py_random : M Q :=
  fun w => match w_rand w with
           | [] => (Ret 0%Q, w)
           | r :: rs => (Ret r, mk_world (w_sent w) (w_net w) rs (w_now w) (w_slept w) (w_log w))
           end.

Definition uniform_value (a b r : Q) : Q := (a + (b - a) * r)%Q.
Definition py_uniform (a b : Q) : M Q := r <- py_random ;; mret (uniform_value a b r).

Definition py_sleep (t : Q) : M unit :=
  fun w => (Ret tt, mk_world (w_sent w) (w_net w) (w_rand w) (w_now w) (w_slept w ++ [t])
                             (w_log w)).

Definition py_now : M Z := fun w => (Ret (w_now w), w).

(** The list comprehension [[f() for _ in range(n)]]. *)
Fixpoint py_repeat {A} (n : nat) (c : M A) : M (list A) :=
  match n with
  | O => mret []
  | S n' => x <- c ;; xs <- py_repeat n' c ;; mret (x :: xs)
  end.

(** ** Python operations on decoded JSON values *)

(** [json.loads] keeps the last of duplicated keys. *)
Fixpoint json_lookup (k : string) (kvs : list (string * json)) : option json :=
  match kvs with
  | [] => None
  | (k', v) :: rest =>
      match json_lookup k rest with
      | Some v' => Some v'
      | None => if String.eqb k' k then Some v else None
      end
  end.

(** [obj[k]] on a decoded JSON value: a dict raises [KeyError] for a
    missing key, any other value raises [TypeError]. *)
Definition py_getitem (j : json) (k : string) : M json :=
  match j with
  | JObj kvs => match json_lookup k kvs with
                | Some v => mret v
                | None => py_raise (KeyError k)
                end
  | _ => py_raise TypeError
  end.

(** [for x in j]: a list yields its items, a dict its keys, a string its
    characters; [None] and numbers raise [TypeError]. *)
Definition py_iter (j : option json) : M (list json) :=
  match j with
  | Some (JArr xs) => mret xs
  | Some (JObj kvs) => mret ((fun kv => JStr (fst kv)) <$> kvs)
  | Some (JStr s) => mret ((fun c => JStr (String c EmptyString)) <$> list_ascii_of_string s)
  | _ => py_raise TypeError
  end.

(** [x[i]] for an integer index [i >= 0]: lists and strings are indexed,
    a dict has no integer keys after [json.loads]. *)
Definition py_index (j : json) (i : nat) : M json :=
  match j with
  | JArr xs => match xs !! i with Some v => mret v | None => py_raise IndexError end
  | JStr s => match String.get i s with
              | Some c => mret (JStr (String c EmptyString))
              | None => py_raise IndexError
              end
  | JObj _ => py_raise (KeyError "")
  | _ => py_raise TypeError
  end.

(** A decoded value used in arithmetic: numbers, and booleans as 0/1. *)
Definition py_num (j : json) : M Q :=
  match j with
  | JNum x => mret x
  | JBool b => mret (if b then 1 else 0)%Q
  | _ => py_raise TypeError
  end.

(** [datetime.fromtimestamp(t)] accepts years 1 to 9999 only. *)
Definition MIN_TIMESTAMP : Z := -62135596800.
Definition MAX_TIMESTAMP : Z := 253402300799.
Definition py_fromtimestamp (t : Q) : M Q :=
  if Qle_bool (inject_Z MIN_TIMESTAMP) t && Qle_bool t (inject_Z MAX_TIMESTAMP)
  then mret t else py_raise (ValueError "year is out of range").

(** ** Python dicts with decoded keys *)

(** Key equality of Python: numbers by value ([1 == 1.0 == True]),
    strings and [None] structurally. *)
Definition json_key_eq (a b : json) : bool :=
  match a, b with
  | JNum x, JNum y => Qeq_bool x y
  | JNum x, JBool c | JBool c, JNum x => Qeq_bool x (if c then 1 else 0)
  | JBool c, JBool d => Bool.eqb c d
  | JStr s, JStr t => String.eqb s t
  | JNull, JNull => true
  | _, _ => false
  end.

Definition hashable (j : json) : bool :=
  match j with JArr _ | JObj _ => false | _ => true end.

(** A dict as its items in insertion order; [d[k] = v] on an existing key
    keeps the key's position and first key object. *)
Definition pydict : Type := list (json * json).

Fixpoint dict_set (k v : json) (d : pydict) : pydict :=
  match d with
  | [] => [(k, v)]
  | (k', v') :: rest => if json_key_eq k k' then (k', v) :: rest else (k', v') :: dict_set k v rest
  end.

(** [d.get(k, default)]. *)
Fixpoint dict_get (d : pydict) (k : json) (default : json) : json :=
  match d with
  | [] => default
  | (k', v) :: rest => if json_key_eq k k' then v else dict_get rest k default
  end.

(** [{entry[0]: entry[1] for entry in entries}]. *)
Fixpoint dict_comprehension (acc : pydict) (entries : list json) : M pydict :=
  match entries with
  | [] => mret acc
  | e :: rest =>
      k <- py_index e 0 ;;
      v <- py_index e 1 ;;
      if hashable k then dict_comprehension (dict_set k v acc) rest
      else py_raise TypeError
  end.

(** [truth value] of a decoded JSON value, as in [if not x]. *)
Definition py_truthy (j : json) : bool :=
  match j with
  | JNull => false
  | JBool b => b
  | JNum x => negb (Qeq_bool x 0)
  | JStr s => negb (String.eqb s "")
  | JArr xs => negb (bool_decide (xs = []))
  | JObj kvs => negb (bool_decide (kvs = []))
  end.

(** The outcome of [c] as a value: a [try] block whose assignments made
    before an exception survive it is written with this. *)
Definition py_catch {A} (c : M A) : M (outcome A) :=
  fun w => let '(o, w') := c w in (Ret o, w').

(** A list comprehension [[f(x) for x in xs]] whose body may raise. *)
Fixpoint py_map {A B} (f : A -> M B) (xs : list A) : M (list B) :=
  match xs with
  | [] => mret []
  | x :: xs' => y <- f x ;; ys <- py_map f xs' ;; mret (y :: ys)
  end.

(** ** ASCII strings: [str.upper], [str.lower] and [sub in s] *)

Definition ascii_upper (c : ascii) : ascii :=
  let n := nat_of_ascii c in
  if (97 <=? n) && (n <=? 122) then ascii_of_nat (n - 32) else c.

Definition ascii_lower (c : ascii) : ascii :=
  let n := nat_of_ascii c in
  if (65 <=? n) && (n <=? 90) then ascii_of_nat (n + 32) else c.

Fixpoint str_map (f : ascii -> ascii) (s : string) : string :=
  match s with
  | EmptyString => EmptyString
  | String c s' => String (f c) (str_map f s')
  end.

Definition str_upper : string -> string := str_map ascii_upper.
Definition str_lower : string -> string := str_map ascii_lower.

(** [x.upper()] on a decoded JSON value: only strings have it. *)
Definition py_upper (j : json) : M string :=
  match j with JStr s => mret (str_upper s) | _ => py_raise AttributeError end.

(** Python's [sub in s]: [sub] occurs at some position of [s]. *)
Fixpoint str_contains (sub s : string) : bool :=
  String.prefix sub s ||
  match s with
  | EmptyString => false
  | String _ s' => str_contains sub s'
  end.

(** ** Automation and shared lemmas *)

Create HintDb pyrt.
Create Rewrite HintDb pyrw.

Lemma ascii_upper_idem (c : ascii) : ascii_upper (ascii_upper c) = ascii_upper c.
Proof. destruct c as [[] [] [] [] [] [] [] []]; reflexivity. Qed.

Lemma str_upper_idem (s : string) : str_upper (str_upper s) = str_upper s.
Proof. induction s as [|c s IH]; cbn; [reflexivity|]. by rewrite ascii_upper_idem, IH. Qed.

#[export] Hint Rewrite ascii_upper_idem str_upper_idem : pyrw.

(** An [except Exception] handler that prints and returns a value
    catches everything: the guarded code never raises. *)
Lemma py_try_print_ret {A} (c : M A) (x : A) (w : world) :
  exists a w', py_try c (fun e => py_print_exn e ;;; mret x) w = (Ret a, w').
Proof. unfold py_try. destruct (c w) as [[a|e] w']; eauto. Qed.

Lemma py_try_raise_print {A} (c : M A) (x : A) (w w' : world) (e : exn) :
  c w = (Raise e, w') ->
  py_try c (fun e => py_print_exn e ;;; mret x) w =
  (Ret x, mk_world (w_sent w') (w_net w') (w_rand w') (w_now w') (w_slept w') (w_log w' ++ [e])).
Proof. unfold py_try. intros ->. reflexivity. Qed.

Lemma py_try_ret {A} (c : M A) (h : exn -> M A) (a : A) (w w' : world) :
  c w = (Ret a, w') -> py_try c h w = (Ret a, w').
Proof. unfold py_try. intros ->. reflexivity. Qed.

Lemma mbind_ret {A B} (c : M A) (k : A -> M B) (a : A) (w w' : world) :
  c w = (Ret a, w') -> mbind c k w = k a w'.
Proof. unfold mbind. intros ->. reflexivity. Qed.

Lemma mbind_raise {A B} (c : M A) (k : A -> M B) (e : exn) (w w' : world) :
  c w = (Raise e, w') -> mbind c k w = (Raise e, w').
Proof. unfold mbind. intros ->. reflexivity. Qed.

Ltac py_unfold :=
  cbv beta iota zeta delta [mbind mret py_raise py_try py_print_exn http_get py_random
                            py_uniform py_sleep py_now py_repeat py_map py_getitem py_iter py_upper
                            py_index py_num py_fromtimestamp].

Lemma mbind_inv {A B} (c : M A) (k : A -> M B) (b : B) (w w' : world) :
  mbind c k w = (Ret b, w') -> exists a w1, c w = (Ret a, w1) /\ k a w1 = (Ret b, w').
Proof. unfold mbind. destruct (c w) as [[a|e] w1]; [eauto | intros [=]]. Qed.

Lemma py_map_length {A B} (f : A -> M B) (xs : list A) (ys : list B) (w w' : world) :
  py_map f xs w = (Ret ys, w') -> length ys = length xs.
Proof.
  revert ys w w'. induction xs as [|x xs IH]; intros ys w w' H; cbn in H.
  - unfold mret in H. by injection H as <- _.
  - apply mbind_inv in H as (y & w1 & _ & H). apply mbind_inv in H as (ys' & w2 & Hys & H).
    unfold mret in H. injection H as <- _. cbn. f_equal. eauto.
Qed.

Lemma drop_tail {A} (m : nat) (l : list A) : drop m (tail l) = drop (S m) l.
Proof. destruct l; cbn; [by rewrite drop_nil | reflexivity]. Qed.

(** [n] successive [random.random()] draws (0 once the script is
    exhausted). *)
Definition draws (n : nat) (l : list Q) : list Q := (fun i => nth i l 0%Q) <$> seq 0 n.

Definition with_rand (w : world) (l : list Q) : world :=
  mk_world (w_sent w) (w_net w) l (w_now w) (w_slept w) (w_log w).

Lemma py_random_eq (w : world) :
  py_random w = (Ret (nth 0 (w_rand w) 0%Q), with_rand w (tail (w_rand w))).
Proof. unfold py_random, with_rand. by destruct w as [? ? [|u us] ? ? ?]. Qed.

Lemma draws_S (n : nat) (l : list Q) : draws (S n) l = nth 0 l 0%Q :: draws n (tail l).
Proof.
  unfold draws. cbn [seq fmap list_fmap]. f_equal. rewrite <- fmap_S_seq, <- list_fmap_compose.
  apply list_fmap_ext. intros i k _. destruct l; cbn; [by destruct k | reflexivity].
Qed.

(** [[f(random.random()) for _ in range(n)]]. *)
Lemma py_repeat_random (n : nat) (f : Q -> json) (w : world) :
  py_repeat n (u <- py_random ;; mret (f u)) w =
  (Ret (f <$> draws n (w_rand w)), with_rand w (drop n (w_rand w))).
Proof.
  revert w. induction n as [|n IH]; intros w.
  - cbn. unfold with_rand. by destruct w.
  - cbn [py_repeat]. unfold mbind at 1. unfold mbind at 1. rewrite py_random_eq.
    unfold mret at 1. unfold mbind at 1. rewrite IH. rewrite draws_S.
    unfold with_rand, mret; cbn. by rewrite drop_tail.
Qed.

Lemma py_repeat_ext {A} (n : nat) (c1 c2 : M A) (w : world) :
  (forall w, c1 w = c2 w) -> py_repeat n c1 w = py_repeat n c2 w.
Proof.
  intros Hc. revert w. induction n as [|n IH]; intros w; [reflexivity|].
  cbn [py_repeat]. unfold mbind at 1 3. rewrite Hc. destruct (c2 w) as [[a|e] w1]; [|reflexivity].
  unfold mbind. by rewrite IH.
Qed.

Lemma py_uniform_map {B} (a b : Q) (g : Q -> B) (w : world) :
  (u <- py_uniform a b ;; mret (g u)) w = (u <- py_random ;; mret (g (uniform_value a b u))) w.
Proof. unfold py_uniform, mbind, mret. by destruct (py_random w) as [[u|e] w1]. Qed.

Lemma uniform_value_bounds (a b u : Q) :
  (a <= b)%Q -> (0 <= u < 1)%Q -> (a <= uniform_value a b u <= b)%Q.
Proof. unfold uniform_value. intros Hab [H0 H1]. nra. Qed.

(** [print(e)] appends [e] to the log. *)
Definition log_exn (w : world) (e : exn) : world :=
  mk_world (w_sent w) (w_net w) (w_rand w) (w_now w) (w_slept w) (w_log w ++ [e]).

Lemma py_print_exn_eq (e : exn) (w : world) : py_print_exn e w = (Ret tt, log_exn w e).
Proof. reflexivity. Qed.

Ltac key_cases a b :=
  destruct a as [|ba|qa|sa| |], b as [|bb|qb|sb| |]; cbn;
  try destruct ba; try destruct bb; cbn.

Lemma json_key_eq_sym (a b : json) : json_key_eq a b = json_key_eq b a.
Proof.
  key_cases a b; try reflexivity; try apply String.eqb_sym;
    apply eq_true_iff_eq; rewrite !Qeq_bool_iff; lra.
Qed.

Lemma json_key_eq_trans (a b c : json) :
  json_key_eq a b = true -> json_key_eq b c = true -> json_key_eq a c = true.
Proof.
  key_cases a b; destruct c as [|bc|qc|sc| |]; try destruct bc; cbn; try discriminate;
    rewrite ?Qeq_bool_iff, ?String.eqb_eq; intros; subst; try reflexivity;
    try apply String.eqb_refl; lra.
Qed.

Lemma dict_get_set (d : pydict) (k v t dflt : json) :
  dict_get (dict_set k v d) t dflt = if json_key_eq t k then v else dict_get d t dflt.
Proof.
  induction d as [|[k' v'] d IH]; cbn; [by destruct (json_key_eq t k)|].
  destruct (json_key_eq k k') eqn:Hkk'; cbn.
  - destruct (json_key_eq t k') eqn:Htk', (json_key_eq t k) eqn:Htk; try reflexivity.
    + exfalso. rewrite json_key_eq_sym in Hkk'.
      pose proof (json_key_eq_trans _ _ _ Htk' Hkk'). congruence.
    + exfalso. pose proof (json_key_eq_trans _ _ _ Htk Hkk'). congruence.
  - rewrite IH. destruct (json_key_eq t k') eqn:Htk', (json_key_eq t k) eqn:Htk; try reflexivity.
    exfalso. rewrite json_key_eq_sym in Htk.
    pose proof (json_key_eq_trans _ _ _ Htk Htk'). congruence.
Qed.

(** ** Finite arithmetic on [num] *)

Lemma qltb_spec (a b : Q) : qltb a b = true <-> (a < b)%Q.
Proof.
  unfold qltb. rewrite negb_true_iff. split; intros H.
  - apply Qnot_le_lt. intros H'. apply Qle_bool_iff in H'. congruence.
  - destruct (Qle_bool b a) eqn:E; [apply Qle_bool_iff in E; lra | reflexivity].
Qed.

Lemma qltb_false (a b : Q) : (b <= a)%Q -> qltb a b = false.
Proof. intros H. unfold qltb. apply Qle_bool_iff in H. by rewrite H. Qed.

Lemma Qeq_bool_false (a b : Q) : ~ (a == b)%Q -> Qeq_bool a b = false.
Proof. intros H. destruct (Qeq_bool a b) eqn:E; [apply Qeq_bool_iff in E; contradiction | done]. Qed.

Lemma inject_Z_nonzero (z : Z) : z <> 0%Z -> ~ (inject_Z z == 0)%Q.
Proof. intros Hz H. apply Hz, inject_Z_injective. exact H. Qed.

Lemma ndiv_fin (a b : Q) : ~ (b == 0)%Q -> ndiv (Fin a) (Fin b) = Fin (a / b).
Proof. intros Hb. cbn. by rewrite Qeq_bool_false. Qed.

Lemma nsub_fin (a b : Q) : nsub (Fin a) (Fin b) = Fin (a - b).
Proof. reflexivity. Qed.

Lemma nmul_fin (a b : Q) : nmul (Fin a) (Fin b) = Fin (a * b).
Proof. reflexivity. Qed.

#[export] Hint Rewrite nsub_fin nmul_fin : pyrw.

Lemma Qsquare_mul_nonneg (d : Q) : (0 <= d * d)%Q.
Proof.
  destruct (Qlt_le_dec d 0) as [H|H].
  - assert (E : (d * d == (- d) * (- d))%Q) by ring. rewrite E. apply Qmult_le_0_compat; lra.
  - apply Qmult_le_0_compat; lra.
Qed.

Lemma string_app_empty (s : string) : (s ++ "")%string = s.
Proof. induction s as [|c s IH]; [reflexivity|]. change (String c (s ++ "")%string = String c s). by rewrite IH. Qed.

Lemma string_compare_cons (c : ascii) (s1 s2 : string) :
  String.compare (String c s1) (String c s2) = String.compare s1 s2.
Proof. cbn. unfold Ascii.compare. by rewrite N.compare_refl. Qed.

Lemma string_app_cons (c : ascii) (s1 s2 : string) :
  (String c s1 ++ s2)%string = String c (s1 ++ s2).
Proof. reflexivity. Qed.

Lemma option_bind_some {A B} (x : A) (f : A -> option B) : (Some x ≫= f) = f x.
Proof. reflexivity. Qed.

Lemma string_app_nil_l (s : string) : ("" ++ s)%string = s.
Proof. reflexivity. Qed.

Lemma string_app_assoc (a b c : string) : ((a ++ b) ++ c)%string = (a ++ (b ++ c))%string.
Proof. induction a as [|x a IH]; [reflexivity|]. rewrite !string_app_cons. by rewrite IH. Qed.

(** [Sorted] is carried through a map when the relations correspond on
    the elements of the list. *)
Lemma Sorted_fmap_on {A B} (P : A -> Prop) (R1 : A -> A -> Prop) (R2 : B -> B -> Prop)
    (f : A -> B) (l : list A) :
  Forall P l -> (forall x y, P x -> P y -> R1 x y -> R2 (f x) (f y)) ->
  Sorted R1 l -> Sorted R2 (f <$> l).
Proof.
  intros HP HR HS. induction HS as [|x l HS IH Hd]; cbn; constructor.
  - apply IH. by inversion HP.
  - inversion HP as [|? ? Hx Hl]; subst. destruct Hd as [|y l' Hxy]; cbn; constructor.
    inversion Hl; subst. by apply HR.
Qed.

Lemma string_compare_refl (s : string) : String.compare s s = Eq.
Proof. induction s as [|c s IH]; [reflexivity|]. by rewrite string_compare_cons. Qed.

Lemma string_app_ne_empty (a b : string) : b <> "" -> (a ++ b)%string <> "".
Proof. destruct a as [|c a]; intros Hb; [by rewrite string_app_nil_l | rewrite string_app_cons; discriminate]. Qed.

Lemma py_catch_ret {A} (c : M A) (w : world) : py_catch c w = (Ret (fst (c w)), snd (c w)).
Proof. unfold py_catch. by destruct (c w). Qed.
