(* ===== verification/Analyzer.v ===== *)
(** The narrative analyzer of src/ai_analyzer.py: [extract_rating]
    (lines 158-185) with the two regular expressions it searches, the
    [re.sub] that strips HTML tags and the truncation applied to a
    downloaded whitepaper, [analyze_whitepaper] (lines 18-156) written
    against an interface for the download, PDF and language-model
    services, and the fallback [generate_mock_analysis] (lines 187-227). *)

From stdpp Require Import pretty.
From S2P Require Import Prelude.

Open Scope string_scope.

Module Analyzer.

(** ** Character classes of Python's [re] on ASCII text *)

(** [\d]. *)
Definition is_digit (c : ascii) : bool :=
  (48 <=? nat_of_ascii c)%nat && (nat_of_ascii c <=? 57)%nat.

(** [\s]: the characters [str.isspace] accepts, tab to carriage return,
    the separators 28-31 and space. *)
Definition is_space (c : ascii) : bool :=
  ((9 <=? nat_of_ascii c) && (nat_of_ascii c <=? 13))%nat ||
  ((28 <=? nat_of_ascii c) && (nat_of_ascii c <=? 32))%nat.

Definition digit_N (c : ascii) : N := N.of_nat (nat_of_ascii c - 48).

Definition nl : string := String "010"%char "".

Fixpoint str_drop (n : nat) (s : string) : string :=
  match n, s with
  | O, _ => s
  | S k, String _ s' => str_drop k s'
  | S _, "" => ""
  end.

(** [s.endswith(suffix)]. *)
Definition str_ends_with (suffix s : string) : bool :=
  (String.length suffix <=? String.length s)%nat &&
  String.eqb (str_drop (String.length s - String.length suffix) s) suffix.

(** ** The two patterns of extract_rating *)

(** [\d+] is greedy: the longest run of digits, and the rest. *)
Fixpoint span_digits (s : string) : string * string :=
  match s with
  | String c s' => if is_digit c then let '(d, r) := span_digits s' in (String c d, r) else ("", s)
  | "" => ("", "")
  end.

Fixpoint skip_spaces (s : string) : string :=
  match s with String c s' => if is_space c then skip_spaces s' else s | "" => "" end.

Fixpoint skip_nondigits (s : string) : string :=
  match s with String c s' => if is_digit c then s else skip_nondigits s' | "" => "" end.

(** The optional group [(\.\d+)?]: its digits, and the rest. *)
Definition span_fraction (s : string) : string * string :=
  match s with
  | String c s' =>
      if Ascii.eqb c "." then
        let '(f, r) := span_digits s' in if String.eqb f "" then ("", s) else (f, r)
      else ("", s)
  | "" => ("", "")
  end.

(** [int(d)] of a run of digits, read from the left. *)
Fixpoint digits_acc (acc : N) (s : string) : N :=
  match s with String c s' => digits_acc (10 * acc + digit_N c) s' | "" => acc end.

(** [float(d + "." + f)] ([f] empty: [float(d)]). *)
Definition decimal_value (d f : string) : Q :=
  (inject_Z (Z.of_N (digits_acc 0 d)) +
   inject_Z (Z.of_N (digits_acc 0 f)) / inject_Z (10 ^ Z.of_nat (String.length f)))%Q.

(** [(\d+(\.\d+)?)\s*(/|out of)\s*10] tried at the start of [s], with
    the value of group 1.  No quantifier can give back characters: what
    follows each greedy run cannot begin with a character of the run, so
    the greedy choice is the only one that can match. *)
Definition match_out_of_10 (s : string) : option Q :=
  let '(d, r1) := span_digits s in
  if String.eqb d "" then None else
  let '(f, r2) := span_fraction r1 in
  let r3 := skip_spaces r2 in
  let r4 := match r3 with
            | String c r =>
                if Ascii.eqb c "/" then Some r
                else if String.prefix "out of" r3 then Some (str_drop 6 r3) else None
            | "" => None
            end in
  match r4 with
  | Some r => if String.prefix "10" (skip_spaces r) then Some (decimal_value d f) else None
  | None => None
  end.

(** [rating\D*(\d+(\.\d+)?)] tried at the start of [s]: [\D*] runs to the
    first digit. *)
Definition match_rating (s : string) : option Q :=
  if String.prefix "rating" s then
    let '(d, r) := span_digits (skip_nondigits (str_drop 6 s)) in
    if String.eqb d "" then None else Some (decimal_value d (fst (span_fraction r)))
  else None.

(** [re.search]: the match at the leftmost position where there is one. *)
Fixpoint search (m : string -> option Q) (s : string) : option Q :=
  match m s with
  | Some v => Some v
  | None => match s with String _ s' => search m s' | "" => None end
  end.

(** extract_rating (lines 158-185). *)
Definition extract_rating (analysis_text : string) : Q :=
  match search match_out_of_10 analysis_text with
  | Some r => r
  | None =>
      match search match_rating (str_lower analysis_text) with
      | Some rating => if Qle_bool 0 rating && Qle_bool rating 10 then rating else 5%Q
      | None => 5%Q
      end
  end.

(** ** Stripping tags: [re.sub(r'<.*?>', ' ', text)] (line 51) *)

(** The text after the first ['>'] of [s], when no newline comes before
    it ([.] does not match a newline). *)
Fixpoint tag_end (s : string) : option string :=
  match s with
  | "" => None
  | String c s' => if Ascii.eqb c ">" then Some s' else if Ascii.eqb c "010" then None else tag_end s'
  end.

(** [re.sub] as the [re] module runs it: at each position the lazy
    pattern is tried; a match is replaced by a space and the scan goes on
    after it, otherwise the character is kept.  At most [length s] steps
    are taken. *)
Fixpoint sub_tags (fuel : nat) (s : string) : string :=
  match fuel with
  | O => s
  | S k =>
      match s with
      | "" => ""
      | String c s' =>
          if Ascii.eqb c "<" then
            match tag_end s' with
            | Some rest => String " " (sub_tags k rest)
            | None => String c (sub_tags k s')
            end
          else String c (sub_tags k s')
      end
  end.

(** The same substitution in one pass: [buf] holds the text of an open
    candidate tag; ['>'] turns it into a space, a newline or the end of
    the text shows that no match starts at its ['<'] (nor at any ['<']
    inside it), and it is kept as it was. *)
Fixpoint strip_tags_go (buf : option string) (s : string) : string :=
  match s with
  | "" => match buf with None => "" | Some b => String "<" b end
  | String c s' =>
      match buf with
      | None => if Ascii.eqb c "<" then strip_tags_go (Some "") s' else String c (strip_tags_go None s')
      | Some b =>
          if Ascii.eqb c ">" then String " " (strip_tags_go None s')
          else if Ascii.eqb c "010" then String "<" (b ++ String c (strip_tags_go None s'))
          else strip_tags_go (Some (b ++ String c "")) s'
      end
  end.

Definition strip_tags (s : string) : string := strip_tags_go None s.

(** What the one-pass scan emits after a ['<'] that starts no match: the
    rest of the line kept as it is, then the scan of the next lines. *)
Fixpoint copy_line (s : string) : string :=
  match s with
  | "" => ""
  | String c s' => if Ascii.eqb c "010" then String c (strip_tags_go None s') else String c (copy_line s')
  end.

(** [whitepaper_text[:15000]]. *)
Definition WHITEPAPER_MAX_LENGTH : nat := 15000.

Definition truncate (s : string) : string := String.substring 0 WHITEPAPER_MAX_LENGTH s.

(** ** The fallback analysis (lines 187-227) *)

(** [round(x, 1)] on the exact value: to the nearest tenth, ties to the
    even tenth. *)
Definition round_half_even (q : Q) : Z :=
  let f := Qfloor q in
  let r := (q - inject_Z f)%Q in
  if qltb r (1 # 2) then f else if qltb (1 # 2) r then f + 1 else if Z.even f then f else f + 1.

Definition round1 (x : Q) : Q := (inject_Z (round_half_even (x * 10)) / 10)%Q.

(** [f"{r}"] of a non-negative float with one decimal, as [round(x, 1)]
    returns it: [str(6.3) = "6.3"], [str(7.0) = "7.0"]. *)
Definition float_str_tenths (r : Q) : string :=
  let k := Z.to_N (round_half_even (r * 10)) in
  pretty (k / 10)%N ++ String "." (String (pretty_N_char (k mod 10)%N) "").

Definition mock_security (project_name : string) (security_rating : Q) : string :=
  "The " ++ project_name ++
  " project demonstrates a satisfactory security framework with some noteworthy " ++
  "features in its consensus mechanism. The smart contract architecture implements " ++
  "industry-standard security practices and has undergone external audits. However, " ++
  "there are some potential concerns regarding centralization of validators and certain " ++
  "edge case vulnerabilities that may require further attention. The project shows " ++
  "commitment to security through bug bounty programs and regular security updates. " ++
  "Rating: " ++
  float_str_tenths security_rating ++ "/10".

Definition mock_growth (project_name : string) (growth_rating : Q) : string :=
  "Analysis of " ++ project_name ++
  "'s growth potential reveals promising market positioning and a clear adoption " ++
  "strategy targeting both retail and institutional users. The project has established " ++
  "strategic partnerships that could accelerate mainstream adoption, though it faces " ++
  "significant competition in its target market segment. The tokenomics model appears " ++
  "designed to support sustainable growth, with mechanisms to incentivize long-term " ++
  "holding. The roadmap presents ambitious but generally achievable objectives. Rating: " ++
  float_str_tenths growth_rating ++ "/10".

Definition mock_risk (project_name : string) (risk_rating : Q) : string :=
  "The " ++ project_name ++
  " project faces several investment risks worth noting. From a regulatory perspective, " ++
  "there's uncertainty regarding compliance in certain jurisdictions, particularly as " ++
  "regulatory frameworks continue to evolve. Market competition is intense, with " ++
  "several established players offering similar solutions. Technical challenges include " ++
  "scaling issues that may impede performance under high load conditions. The " ++
  "tokenomics model, while thoughtful, has some concentration risks. Nevertheless, the " ++
  "team's experience and the project's current adoption trajectory are mitigating " ++
  "factors. Rating: " ++
  float_str_tenths risk_rating ++ "/10".

Definition mock_technology (project_name : string) (tech_rating : Q) : string :=
  "From a technological standpoint, " ++ project_name ++
  " demonstrates notable innovation in several areas. The project introduces a novel " ++
  "approach to scalability through its modified consensus mechanism, potentially " ++
  "offering significant advantages over existing solutions. The interoperability " ++
  "framework is well-designed, though similar to solutions found in other projects. The " ++
  "core technical architecture is sound and demonstrates a good balance between " ++
  "innovation and proven technologies. While not revolutionary, the technology stack " ++
  "represents a meaningful evolution in the space. Rating: " ++
  float_str_tenths tech_rating ++ "/10".

Definition mock_summary (project_name : string) : string :=
  "The " ++ project_name ++
  " project presents a balanced profile with particular strengths in its growth " ++
  "potential and technological innovation. The security foundation is solid though not " ++
  "exceptional, with room for improvement in decentralization aspects. The project's " ++
  "risk profile is manageable but investors should monitor regulatory developments " ++
  "closely." ++
  nl ++ nl ++
  "Key strengths include a well-articulated adoption strategy, strategic partnerships, " ++
  "and innovative technological approaches to scalability. Areas of concern center " ++
  "around competitive pressures and certain security edge cases that warrant attention." ++
  nl ++ nl ++ "Overall verdict: " ++ project_name ++
  " appears to be a promising project with above-average potential, particularly if the " ++
  "team can execute on its technical roadmap while addressing the identified security " ++
  "concerns. It represents a moderate-risk investment with good upside potential in the " ++
  "medium to long term.".

(** The result dict of analyze_whitepaper and generate_mock_analysis. *)
Record analysis : Type := mk_analysis {
  an_security : string;
  an_growth : string;
  an_risk : string;
  an_technology : string;
  an_summary : string;
  an_security_rating : Q;
  an_growth_rating : Q;
  an_risk_rating : Q;
  an_tech_rating : Q
}.

Definition generate_mock_analysis (project_name : string) : M analysis :=
  s <- py_uniform 5 (17 # 2) ;;
  g <- py_uniform 5 9 ;;
  r <- py_uniform 4 (15 # 2) ;;
  t <- py_uniform (11 # 2) (17 # 2) ;;
  let security_rating := round1 s in
  let growth_rating := round1 g in
  let risk_rating := round1 r in
  let tech_rating := round1 t in
  mret (mk_analysis (mock_security project_name security_rating)
                    (mock_growth project_name growth_rating)
                    (mock_risk project_name risk_rating)
                    (mock_technology project_name tech_rating)
                    (mock_summary project_name)
                    security_rating growth_rating risk_rating tech_rating).

(** ** The prompts (lines 71-109), as [PromptTemplate.format] fills them *)

Definition security_prompt (project text : string) : string :=
  "Analyze the security aspects of the " ++ project ++
  " cryptocurrency project based on this text: " ++ text ++ nl ++ nl ++
  "Focus on smart contract security, consensus mechanism safety, potential vulnerabilities, " ++
  "and overall security practices. Rate it from 0-10 and explain your rating.".

Definition growth_prompt (project text : string) : string :=
  "Analyze the growth potential of the " ++ project ++
  " cryptocurrency project based on this text: " ++ text ++ nl ++ nl ++
  "Focus on market opportunity, adoption strategy, competitive advantages, and ecosystem development. " ++
  "Rate it from 0-10 and explain your rating.".

Definition risk_prompt (project text : string) : string :=
  "Analyze the investment risks of the " ++ project ++
  " cryptocurrency project based on this text: " ++ text ++ nl ++ nl ++
  "Focus on regulatory concerns, market competition, technical challenges, and tokenomics issues. " ++
  "Rate it from 0-10 (where 10 is lowest risk) and explain your rating.".

Definition tech_prompt (project text : string) : string :=
  "Analyze the technological uniqueness and innovation of the " ++ project ++
  " cryptocurrency project " ++ "based on this text: " ++ text ++ nl ++ nl ++
  "Focus on novel approaches, improvements over existing solutions, technical feasibility, " ++
  "and potential impact on the blockchain space. Rate it from 0-10 and explain your rating.".

Definition summary_prompt (security growth risk tech project : string) : string :=
  "Based on the following analyses of the " ++ project ++ " cryptocurrency project:" ++ nl ++ nl ++
  "SECURITY ANALYSIS: " ++ security ++ nl ++ nl ++
  "GROWTH POTENTIAL: " ++ growth ++ nl ++ nl ++
  "RISK ASSESSMENT: " ++ risk ++ nl ++ nl ++
  "TECHNOLOGY UNIQUENESS: " ++ tech ++ nl ++ nl ++
  "Provide a concise summary of the project's overall outlook, highlighting key strengths " ++
  "and concerns. End with a final verdict on whether this project appears promising.".

Definition default_text (project_name : string) : string :=
  "Analysis requested for the " ++ project_name ++ " cryptocurrency project. " ++
  "No whitepaper provided, please analyze based on publicly known information.".

(** ** The external services *)

(** What analyze_whitepaper uses of requests, PyPDF2 and LangChain: the
    body of [requests.get(url, timeout=30)], the page count of
    [PdfReader(BytesIO(content))] and the text of one page, and the
    completion of a prompt by [LLMChain(llm=OpenAI(...), prompt).run].
    Each may raise; none draws from [random]. *)
Class WhitepaperServices : Type := {
  download : string -> M string;
  pdf_num_pages : string -> M nat;
  pdf_page_text : string -> nat -> M string;
  llm_complete : string -> M string;
  download_rand : forall u w, w_rand (snd (download u w)) = w_rand w;
  pdf_num_pages_rand : forall c w, w_rand (snd (pdf_num_pages c w)) = w_rand w;
  pdf_page_text_rand : forall c i w, w_rand (snd (pdf_page_text c i w)) = w_rand w;
  llm_complete_rand : forall p w, w_rand (snd (llm_complete p w)) = w_rand w
}.

Section WithServices.
Context `{WhitepaperServices}.
(** [OPENAI_API_KEY] (line 16). *)
Variable OPENAI_API_KEY : string.

(** [for page_num in range(len(pdf_reader.pages)): whitepaper_text +=
    page.extract_text()] from page [i] with [n] pages left: the text
    gathered, and the exception that stopped the loop, if any (the text
    gathered before it is kept by the [except]). *)
Fixpoint pdf_loop (content : string) (i n : nat) (acc : string) : M (string * option exn) :=
  match n with
  | O => mret (acc, None)
  | S k =>
      r <- py_catch (pdf_page_text content i) ;;
      match r with
      | Ret t => pdf_loop content (S i) k (acc ++ t)
      | Raise e => mret (acc, Some e)
      end
  end.

(** The [try] block of lines 33-57 on a non-empty URL. *)
Definition fetch_whitepaper (url : string) : M string :=
  r <- py_catch (download url) ;;
  match r with
  | Raise e => py_print_exn e ;;; mret ""
  | Ret content =>
      if str_ends_with ".pdf" (str_lower url) then
        n <- py_catch (pdf_num_pages content) ;;
        match n with
        | Raise e => py_print_exn e ;;; mret ""
        | Ret n =>
            res <- pdf_loop content 0 n "" ;;
            match res with
            | (t, Some e) => py_print_exn e ;;; mret t
            | (t, None) => mret (truncate t)
            end
        end
      else mret (truncate (strip_tags content))
  end.

(** Lines 30-63: the text sent to the model. *)
Definition whitepaper_text (project_name : string) (url : option string) : M string :=
  t <- match url with
       | Some u => if String.eqb u "" then mret "" else fetch_whitepaper u
       | None => mret ""
       end ;;
  mret (if String.eqb t "" then default_text project_name else t).

(** Lines 67-150: the four analyses, their ratings and the summary. *)
Definition llm_analysis (project_name text : string) : M analysis :=
  security <- llm_complete (security_prompt project_name text) ;;
  growth <- llm_complete (growth_prompt project_name text) ;;
  risk <- llm_complete (risk_prompt project_name text) ;;
  tech <- llm_complete (tech_prompt project_name text) ;;
  summary <- llm_complete (summary_prompt security growth risk tech project_name) ;;
  mret (mk_analysis security growth risk tech summary (extract_rating security)
                    (extract_rating growth) (extract_rating risk) (extract_rating tech)).

(** analyze_whitepaper (lines 18-156). *)
Definition analyze_whitepaper (project_name : string) (url : option string) : M analysis :=
  text <- whitepaper_text project_name url ;;
  if String.eqb OPENAI_API_KEY "" then generate_mock_analysis project_name
  else py_try (llm_analysis project_name text)
              (fun e => py_print_exn e ;;; generate_mock_analysis project_name).

End WithServices.

(** [''.join(pages)]. *)
Fixpoint str_concat (ps : list string) : string :=
  match ps with [] => "" | p :: ps' => p ++ str_concat ps' end.

(** Services answering from fixed data, none of them touching the world:
    the download gives [body], the PDF has [n] pages of which the first
    [length pages] have the given texts and the others fail, and the
    model answers [answer] to every prompt. *)
#[local, refine] Instance fixed_services (body : string) (n : nat) (pages : list string) (answer : string) :
    WhitepaperServices := {|
  download _ := mret body;
  pdf_num_pages _ := mret n;
  pdf_page_text _ i := if (i <? length pages)%nat then mret (nth i pages "") else py_raise IndexError;
  llm_complete _ := mret answer
|}.
Proof.
  all: intros; try reflexivity.
  cbv beta. destruct (_ <? _)%nat; reflexivity.
Defined.

(** ** Scanning lemmas *)

Fixpoint all_digits (s : string) : bool :=
  match s with "" => true | String c s' => is_digit c && all_digits s' end.

Fixpoint no_digits (s : string) : bool :=
  match s with "" => true | String c s' => negb (is_digit c) && no_digits s' end.

Lemma all_digits_app (a b : string) : all_digits (a ++ b) = all_digits a && all_digits b.
Proof. induction a as [|c a IH]; [reflexivity|]. rewrite string_app_cons. cbn. by rewrite IH, andb_assoc. Qed.

Lemma no_digits_app (a b : string) : no_digits (a ++ b) = no_digits a && no_digits b.
Proof. induction a as [|c a IH]; [reflexivity|]. rewrite string_app_cons. cbn. by rewrite IH, andb_assoc. Qed.

Lemma digits_acc_app (acc : N) (a b : string) :
  digits_acc acc (a ++ b) = digits_acc (digits_acc acc a) b.
Proof. revert acc. induction a as [|c a IH]; intros acc; [reflexivity|]. apply IH. Qed.

Lemma span_digits_app (d r : string) :
  all_digits d = true -> (forall c r', r = String c r' -> is_digit c = false) ->
  span_digits (d ++ r) = (d, r).
Proof.
  intros Hd Hr. induction d as [|c d IH].
  - rewrite string_app_nil_l. destruct r as [|c r']; [reflexivity|]. cbn.
    by rewrite (Hr c r' eq_refl).
  - cbn in Hd. apply andb_true_iff in Hd as [Hc Hd]. rewrite string_app_cons. cbn.
    rewrite Hc, IH by exact Hd. reflexivity.
Qed.

Lemma pretty_N_char_digit (d : N) :
  (d < 10)%N -> is_digit (pretty_N_char d) = true /\ digit_N (pretty_N_char d) = d.
Proof.
  intros Hd. assert (H : In d (N.of_nat <$> seq 0 10)) by (cbn; lia).
  by repeat destruct H as [<-|H].
Qed.

Lemma pretty_N_go_app (x : N) (s : string) : pretty_N_go x s = (pretty_N_go x "" ++ s)%string.
Proof.
  revert s. induction (N.lt_wf_0 x) as [x _ IH]; intros s.
  destruct (decide (x = 0)%N) as [->|Hx]; [reflexivity|].
  rewrite !(pretty_N_go_step x) by lia.
  rewrite (IH (x / 10)%N (N.div_lt x 10 ltac:(lia) ltac:(lia)) (String _ s)).
  rewrite (IH (x / 10)%N (N.div_lt x 10 ltac:(lia) ltac:(lia)) (String _ "")).
  by rewrite string_app_assoc.
Qed.

Lemma pretty_N_go_digits (x : N) :
  all_digits (pretty_N_go x "") = true /\ digits_acc 0 (pretty_N_go x "") = x.
Proof.
  induction (N.lt_wf_0 x) as [x _ IH].
  destruct (decide (x = 0)%N) as [->|Hx]; [split; reflexivity|].
  rewrite pretty_N_go_step by lia. rewrite pretty_N_go_app.
  destruct (IH (x / 10)%N) as [Hd Hv]; [apply N.div_lt; lia|].
  destruct (pretty_N_char_digit (x mod 10)%N) as [Hc Hcv]; [apply N.mod_lt; lia|].
  rewrite all_digits_app, digits_acc_app, Hd, Hv. cbn. rewrite Hc, Hcv. split; [reflexivity|].
  pose proof (N.div_mod x 10 ltac:(lia)). lia.
Qed.

(** [str(k)] is a non-empty run of digits worth [k]. *)
Lemma pretty_N_digits (k : N) :
  all_digits (pretty k) = true /\ pretty k <> "" /\ digits_acc 0 (pretty k) = k.
Proof.
  unfold pretty, pretty_N. destruct (decide (k = 0)%N) as [->|Hk]; [done|].
  destruct (pretty_N_go_digits k) as [Hd Hv]. split_and!; [exact Hd | | exact Hv].
  rewrite pretty_N_go_step by lia. rewrite pretty_N_go_app. by apply string_app_ne_empty.
Qed.

Lemma search_eq (m : string -> option Q) (s : string) :
  search m s = match m s with
               | Some v => Some v
               | None => match s with String _ s' => search m s' | "" => None end
               end.
Proof. by destruct s. Qed.

(** A pattern that must begin with a digit finds nothing in a prefix
    without digits. *)
Lemma search_skip (m : string -> option Q) (t s : string) :
  (forall c s', m (String c s') <> None -> is_digit c = true) -> m "" = None ->
  no_digits t = true -> search m (t ++ s) = search m s.
Proof.
  intros Hm Hnil Ht. induction t as [|c t IH]; [reflexivity|].
  cbn in Ht. apply andb_true_iff in Ht as [Hc Ht]. rewrite string_app_cons, search_eq.
  destruct (m (String c (t ++ s))) eqn:E.
  - exfalso. assert (is_digit c = true) by (apply (Hm c (t ++ s)); by rewrite E).
    by destruct (is_digit c).
  - by apply IH.
Qed.

Lemma match_out_of_10_digit (c : ascii) (s : string) :
  match_out_of_10 (String c s) <> None -> is_digit c = true.
Proof. unfold match_out_of_10. cbn. destruct (is_digit c); [done|]. by cbn. Qed.

Lemma round_half_even_int (q : Q) (z : Z) : (q == inject_Z z)%Q -> round_half_even q = z.
Proof.
  intros Hq. unfold round_half_even. rewrite (Qfloor_comp _ _ Hq), Qfloor_Z.
  rewrite (proj2 (qltb_spec _ _)) by lra. reflexivity.
Qed.

Lemma tenths_mul_10 (k : N) : (inject_Z (Z.of_N k) / 10 * 10 == inject_Z (Z.of_N k))%Q.
Proof. field. Qed.

(** The value [float("q.d")] written by [str()] for [k/10]. *)
Lemma decimal_value_tenths (k : N) :
  (decimal_value (pretty (k / 10)%N) (String (pretty_N_char (k mod 10)%N) "") ==
   inject_Z (Z.of_N k) / 10)%Q.
Proof.
  unfold decimal_value. destruct (pretty_N_digits (k / 10)%N) as (_ & _ & ->).
  destruct (pretty_N_char_digit (k mod 10)%N) as [_ Hv]; [apply N.mod_lt; lia|].
  cbn [digits_acc String.length]. rewrite Hv, N.mul_0_r, N.add_0_l.
  pose proof (N.div_mod k 10 ltac:(lia)) as E.
  set (q := (k / 10)%N) in *. set (m := (k mod 10)%N) in *. rewrite E.
  rewrite N2Z.inj_add, N2Z.inj_mul, inject_Z_plus, inject_Z_mult.
  change (inject_Z (10 ^ Z.of_nat 1)) with 10%Q. change (inject_Z (Z.of_N 10)) with 10%Q. field.
Qed.

(** The first pattern reads back the rating [str()] wrote before ["/10"]. *)
Lemma match_out_of_10_tenths (k : N) (rest : string) :
  match_out_of_10 (float_str_tenths (inject_Z (Z.of_N k) / 10) ++ "/10" ++ rest) =
  Some (decimal_value (pretty (k / 10)%N) (String (pretty_N_char (k mod 10)%N) "")).
Proof.
  unfold float_str_tenths. rewrite (round_half_even_int _ _ (tenths_mul_10 k)), N2Z.id.
  destruct (pretty_N_digits (k / 10)%N) as (Hd & Hne & _).
  destruct (pretty_N_char_digit (k mod 10)%N) as [Hc _]; [apply N.mod_lt; lia|].
  set (c := pretty_N_char (k mod 10)%N) in *.
  rewrite string_app_assoc, !string_app_cons, !string_app_nil_l.
  unfold match_out_of_10. rewrite span_digits_app by (done || (intros ? ? [= <- _]; reflexivity)).
  rewrite (proj2 (String.eqb_neq _ _) Hne). simpl. rewrite Hc.
  rewrite (proj2 (String.eqb_neq (String c "") "") ltac:(discriminate)). simpl. by destruct rest.
Qed.

(** ** Digit-free text *)

Lemma is_digit_lower (c : ascii) : is_digit (ascii_lower c) = is_digit c.
Proof. destruct c as [[] [] [] [] [] [] [] []]; reflexivity. Qed.

Lemma no_digits_lower (s : string) : no_digits (str_lower s) = no_digits s.
Proof. induction s as [|c s IH]; [reflexivity|]. cbn. by rewrite IH, is_digit_lower. Qed.

Lemma no_digits_drop (n : nat) (s : string) : no_digits s = true -> no_digits (str_drop n s) = true.
Proof.
  revert s. induction n as [|n IH]; intros [|c s] Hs; cbn; try done.
  apply IH. cbn in Hs. by apply andb_true_iff in Hs as [_ Hs].
Qed.

Lemma skip_nondigits_none (s : string) : no_digits s = true -> skip_nondigits s = "".
Proof.
  induction s as [|c s IH]; [done|]. cbn. intros Hs. apply andb_true_iff in Hs as [Hc Hs].
  destruct (is_digit c); [done|]. by apply IH.
Qed.

Lemma match_rating_none (s : string) : no_digits s = true -> match_rating s = None.
Proof.
  intros Hs. unfold match_rating. destruct (String.prefix "rating" s); [|done].
  rewrite skip_nondigits_none by (by apply no_digits_drop). reflexivity.
Qed.

Lemma search_none (m : string -> option Q) (s : string) :
  (forall s', no_digits s' = true -> m s' = None) -> no_digits s = true -> search m s = None.
Proof.
  intros Hm. induction s as [|c s IH]; intros Hs.
  - cbn. by rewrite Hm.
  - rewrite search_eq, Hm by exact Hs. cbn in Hs. apply andb_true_iff in Hs as [_ Hs]. by apply IH.
Qed.

Lemma search_out_of_10_skip (t s : string) :
  no_digits t = true -> search match_out_of_10 (t ++ s) = search match_out_of_10 s.
Proof. apply search_skip; [exact match_out_of_10_digit | reflexivity]. Qed.

(** ** The tag substitution *)

Lemma tag_end_length (s rest : string) : tag_end s = Some rest -> String.length rest < String.length s.
Proof.
  induction s as [|c s IH]; [done|]. cbn.
  destruct (Ascii.eqb c ">"); [intros [= <-]; lia|]. destruct (Ascii.eqb c "010"); [done|].
  intros H. specialize (IH H). lia.
Qed.

(** The scan inside a candidate tag: it closes at the first ['>'] of its
    line, or the candidate is kept with the rest of its line. *)
Lemma strip_tags_open (b s : string) :
  strip_tags_go (Some b) s =
  match tag_end s with
  | Some rest => String " " (strip_tags_go None rest)
  | None => String "<" (b ++ copy_line s)
  end.
Proof.
  revert b. induction s as [|c s IH]; intros b; cbn.
  - by rewrite string_app_empty.
  - destruct (Ascii.eqb c ">"); [reflexivity|]. destruct (Ascii.eqb c "010"); [reflexivity|].
    rewrite IH. destruct (tag_end s); [reflexivity|]. by rewrite string_app_assoc.
Qed.

Lemma strip_tags_sub (n : nat) :
  forall s, String.length s <= n -> strip_tags_go None s = sub_tags n s.
Proof.
  induction n as [n IH] using lt_wf_ind. intros s Hs.
  destruct n as [|n]; [destruct s; [reflexivity | cbn in Hs; lia]|].
  destruct s as [|c s]; [reflexivity|]. cbn in Hs. cbn [strip_tags_go sub_tags].
  destruct (Ascii.eqb c "<") eqn:Ec; [|f_equal; apply IH; lia].
  apply Ascii.eqb_eq in Ec as ->. rewrite strip_tags_open. destruct (tag_end s) as [rest|] eqn:Et.
  - f_equal. pose proof (tag_end_length s rest Et). apply IH; lia.
  - rewrite string_app_nil_l. f_equal.
    assert (IH' : forall m, m < S n -> forall s, String.length s <= m -> strip_tags_go None s = sub_tags m s)
      by exact IH.
    clear IH. revert n IH' Hs Et. induction s as [|d s IHs]; intros n IH Hs Et; [by destruct n|].
    destruct n as [|n]; [cbn in Hs; lia|]. cbn in Hs, Et |- *.
    destruct (Ascii.eqb d ">") eqn:Eg; [discriminate|].
    destruct (Ascii.eqb d "010") eqn:En.
    + apply Ascii.eqb_eq in En as ->. cbn. f_equal. apply IH; lia.
    + destruct (Ascii.eqb d "<"); [rewrite Et|]; f_equal; apply IHs; try done; try lia;
        intros m Hm; apply IH; lia.
Qed.

(** ** Rounding *)

Lemma round_half_even_bounds (A B : Z) (q : Q) :
  (inject_Z A <= q <= inject_Z B)%Q -> (A <= round_half_even q <= B)%Z.
Proof.
  intros [HA HB]. unfold round_half_even. set (f := Qfloor q).
  pose proof (Qfloor_le q) as Hf. pose proof (Qlt_floor q) as Hf1. fold f in Hf, Hf1.
  rewrite inject_Z_plus in Hf1.
  assert (A <= f)%Z by (rewrite <- (Qfloor_Z A); apply Qfloor_resp_le; exact HA).
  assert (f <= B)%Z by (rewrite Zle_Qle; lra).
  destruct (qltb (q - inject_Z f) (1 # 2)) eqn:E1; [lia|].
  assert (Hgt : ~ (q - inject_Z f < 1 # 2)%Q) by (intros Hlt; apply qltb_spec in Hlt; congruence).
  assert (f < B)%Z by (rewrite Zlt_Qlt; lra).
  destruct (qltb (1 # 2) (q - inject_Z f)); [lia|]. destruct (Z.even f); lia.
Qed.

(** [round(uniform(a, b), 1)] stays in [[a, b]] when [a] and [b] are
    tenths. *)
Lemma round1_bounds (A B : Z) (x : Q) :
  (inject_Z A <= x * 10 <= inject_Z B)%Q ->
  (inject_Z A <= round1 x * 10 <= inject_Z B)%Q /\ (A <= round_half_even (x * 10))%Z.
Proof.
  intros Hx. destruct (round_half_even_bounds A B (x * 10) Hx) as [H1 H2].
  assert (E : (round1 x * 10 == inject_Z (round_half_even (x * 10)))%Q) by (unfold round1; field).
  rewrite E, <- !Zle_Qle. lia.
Qed.

Lemma length_substring_0 (n : nat) (s : string) : String.length (String.substring 0 n s) <= n.
Proof. revert s. induction n as [|n IH]; intros [|c s]; cbn; try lia. specialize (IH s). lia. Qed.

Lemma draw_in_unit (l : list Q) (i : nat) :
  Forall (fun u => 0 <= u < 1)%Q l -> (0 <= nth i l 0 < 1)%Q.
Proof.
  intros Hl. destruct (nth_in_or_default i l 0%Q) as [Hin | ->]; [|lra].
  rewrite List.Forall_forall in Hl. by apply Hl.
Qed.

(** The four draws of the fallback, in the order of the dict. *)
Lemma generate_mock_analysis_eq (project_name : string) (w : world) :
  let u i := nth i (w_rand w) 0%Q in
  generate_mock_analysis project_name w =
  (Ret (mk_analysis (mock_security project_name (round1 (uniform_value 5 (17 # 2) (u 0%nat))))
                    (mock_growth project_name (round1 (uniform_value 5 9 (u 1%nat))))
                    (mock_risk project_name (round1 (uniform_value 4 (15 # 2) (u 2%nat))))
                    (mock_technology project_name (round1 (uniform_value (11 # 2) (17 # 2) (u 3%nat))))
                    (mock_summary project_name)
                    (round1 (uniform_value 5 (17 # 2) (u 0%nat))) (round1 (uniform_value 5 9 (u 1%nat)))
                    (round1 (uniform_value 4 (15 # 2) (u 2%nat)))
                    (round1 (uniform_value (11 # 2) (17 # 2) (u 3%nat)))),
   with_rand w (drop 4 (w_rand w))).
Proof.
  intros u. unfold generate_mock_analysis, py_uniform, mbind, mret, u.
  rewrite !py_random_eq. cbn. unfold with_rand; cbn.
  destruct w as [? ? rs ? ? ?]; cbn. by destruct rs as [|? [|? [|? [|? ?]]]].
Qed.

Lemma round_half_even_nonneg (q : Q) : (0 <= q)%Q -> (0 <= round_half_even q)%Z.
Proof.
  intros Hq. unfold round_half_even.
  assert (0 <= Qfloor q)%Z by (rewrite <- (Qfloor_Z 0); apply Qfloor_resp_le; exact Hq).
  destruct (qltb _ _); [lia|]. destruct (qltb _ _); [lia|]. destruct (Z.even _); lia.
Qed.

(** The first pattern reads [str(round(x, 1))] back before "/10". *)
Lemma search_written (x : Q) :
  (0 <= round_half_even (x * 10))%Z ->
  exists v, search match_out_of_10 (float_str_tenths (round1 x) ++ "/10") = Some v /\
            (v == round1 x)%Q.
Proof.
  intros HR. set (k := Z.to_N (round_half_even (x * 10))).
  assert (E : round1 x = (inject_Z (Z.of_N k) / 10)%Q) by (unfold k; rewrite Z2N.id by lia; reflexivity).
  rewrite E, <- (string_app_empty "/10"), search_eq, match_out_of_10_tenths.
  eexists. split; [reflexivity | apply decimal_value_tenths].
Qed.

Lemma search_mock_rating (a b u : Q) :
  (0 <= a <= b)%Q -> (0 <= u < 1)%Q ->
  exists v, search match_out_of_10 (float_str_tenths (round1 (uniform_value a b u)) ++ "/10") = Some v /\
            (v == round1 (uniform_value a b u))%Q.
Proof.
  intros Hab Hu. apply search_written, round_half_even_nonneg.
  pose proof (uniform_value_bounds a b u ltac:(lra) Hu). lra.
Qed.

Ltac skip_text := repeat (rewrite search_out_of_10_skip by (reflexivity || assumption)).

(** ** The rating extraction *)

(** C26: Reading a rating back: after a text without digits, the rating
    [k/10] written by [str()] and followed by "/10" is what extract_rating
    returns, for every [k]; in particular "7.5/10" gives 7.5, and
    "15.0/10" gives 15, since the first pattern has no range check. *)
Theorem extract_rating_tenths (t rest : string) (k : N) :
  no_digits t = true ->
  (extract_rating (t ++ float_str_tenths (inject_Z (Z.of_N k) / 10) ++ "/10" ++ rest) ==
   inject_Z (Z.of_N k) / 10)%Q.
Proof.
  intros Ht. unfold extract_rating. rewrite search_out_of_10_skip by exact Ht.
  rewrite search_eq, match_out_of_10_tenths. apply decimal_value_tenths.
Qed.

(** A text with no digit at all gets the neutral rating 5.0. *)
Theorem extract_rating_no_number (t : string) : no_digits t = true -> extract_rating t = 5%Q.
Proof.
  intros Ht. unfold extract_rating.
  rewrite <- (string_app_empty t), search_out_of_10_skip, string_app_empty by exact Ht. cbn.
  rewrite search_none; [reflexivity | exact match_rating_none | by rewrite no_digits_lower].
Qed.

(** When no "X/10" or "X out of 10" occurs, the rating is in
    [[0, 10]]: a number after "rating" outside that range is replaced by
    5.0. *)
Theorem extract_rating_fallback_bounded (t : string) :
  search match_out_of_10 t = None -> (0 <= extract_rating t <= 10)%Q.
Proof.
  intros Hs. unfold extract_rating. rewrite Hs.
  destruct (search match_rating (str_lower t)) as [r|]; [|split; discriminate].
  destruct (Qle_bool 0 r) eqn:E0, (Qle_bool r 10) eqn:E1; cbn; try (split; discriminate).
  apply Qle_bool_iff in E0, E1. lra.
Qed.


(** C24: The fallback's texts carry their own ratings: for a project name
    without digits and draws of [random()] in [[0, 1)], extract_rating
    reads back from each of the four texts exactly the rating stored
    beside it. *)
Theorem mock_ratings_roundtrip (project_name : string) (w : world) :
  no_digits project_name = true -> Forall (fun u => 0 <= u < 1)%Q (w_rand w) ->
  exists a w', generate_mock_analysis project_name w = (Ret a, w') /\
    (extract_rating (an_security a) == an_security_rating a)%Q /\
    (extract_rating (an_growth a) == an_growth_rating a)%Q /\
    (extract_rating (an_risk a) == an_risk_rating a)%Q /\
    (extract_rating (an_technology a) == an_tech_rating a)%Q.
Proof.
  intros Hp Hw. rewrite generate_mock_analysis_eq. eexists _, _. split; [reflexivity|].
  cbn [an_security an_growth an_risk an_technology an_security_rating an_growth_rating
       an_risk_rating an_tech_rating].
  destruct (search_mock_rating 5 (17 # 2) (nth 0 (w_rand w) 0%Q)) as (v1 & H1 & E1);
    [lra | exact (draw_in_unit _ _ Hw) |].
  destruct (search_mock_rating 5 9 (nth 1 (w_rand w) 0%Q)) as (v2 & H2 & E2);
    [lra | exact (draw_in_unit _ _ Hw) |].
  destruct (search_mock_rating 4 (15 # 2) (nth 2 (w_rand w) 0%Q)) as (v3 & H3 & E3);
    [lra | exact (draw_in_unit _ _ Hw) |].
  destruct (search_mock_rating (11 # 2) (17 # 2) (nth 3 (w_rand w) 0%Q)) as (v4 & H4 & E4);
    [lra | exact (draw_in_unit _ _ Hw) |].
  unfold extract_rating, mock_security, mock_growth, mock_risk, mock_technology.
  split_and!; skip_text; [rewrite H1 | rewrite H2 | rewrite H3 | rewrite H4]; assumption.
Qed.


Lemma mock_rating_bounds (a b u : Q) (A B : Z) :
  (a * 10 == inject_Z A)%Q -> (b * 10 == inject_Z B)%Q -> (a <= b)%Q -> (0 <= u < 1)%Q ->
  (a <= round1 (uniform_value a b u) <= b)%Q.
Proof.
  intros Ha Hb Hab Hu. pose proof (uniform_value_bounds a b u Hab Hu).
  destruct (round1_bounds A B (uniform_value a b u)) as [H1 _]; [rewrite <- Ha, <- Hb; lra|].
  rewrite <- Ha, <- Hb in H1. lra.
Qed.

Section Analysis.
Context `{WhitepaperServices}.
Variable OPENAI_API_KEY : string.

Lemma pdf_loop_ret (content : string) (i n : nat) (acc : string) (w : world) :
  exists r w', pdf_loop content i n acc w = (Ret r, w') /\ w_rand w' = w_rand w.
Proof.
  revert i acc w. induction n as [|n IH]; intros i acc w; [by eexists _, _|].
  cbn [pdf_loop]. unfold mbind at 1. rewrite py_catch_ret.
  pose proof (pdf_page_text_rand content i w) as Hr.
  destruct (pdf_page_text content i w) as [[t|e] w1]; cbn in Hr |- *.
  - destruct (IH (S i) (acc ++ t) w1) as (r & w' & -> & Hw). eexists _, _. split; [reflexivity | congruence].
  - eexists _, _. split; [reflexivity | exact Hr].
Qed.

Lemma fetch_whitepaper_ret (url : string) (w : world) :
  exists t w', fetch_whitepaper url w = (Ret t, w') /\ w_rand w' = w_rand w.
Proof.
  unfold fetch_whitepaper, mbind at 1. rewrite py_catch_ret.
  pose proof (download_rand url w) as Hd. destruct (download url w) as [[content|e] w1]; cbn in Hd |- *.
  - destruct (str_ends_with _ _); [|by eexists _, _].
    unfold mbind at 1. rewrite py_catch_ret. pose proof (pdf_num_pages_rand content w1) as Hn.
    destruct (pdf_num_pages content w1) as [[n|e] w2]; cbn in Hn |- *.
    + unfold mbind at 1. destruct (pdf_loop_ret content 0 n "" w2) as ([t [e|]] & w3 & -> & Hw);
        cbn; eexists _, _; split; try reflexivity; cbn; congruence.
    + eexists _, _. split; [reflexivity | cbn; congruence].
  - eexists _, _. split; [reflexivity | cbn; congruence].
Qed.

Lemma whitepaper_text_ret (project_name : string) (url : option string) (w : world) :
  exists t w', whitepaper_text project_name url w = (Ret t, w') /\ w_rand w' = w_rand w.
Proof.
  unfold whitepaper_text, mbind at 1.
  destruct url as [u|]; [destruct (String.eqb u "")|]; try by eexists _, _.
  destruct (fetch_whitepaper_ret u w) as (t & w' & -> & Hw). by eexists _, _.
Qed.

(** C30: analyze_whitepaper never raises: every failure of the download,
    of the PDF reader or of the model is printed and ends in the
    fallback analysis. *)
Theorem analyze_whitepaper_total (project_name : string) (url : option string) (w : world) :
  exists a w', analyze_whitepaper OPENAI_API_KEY project_name url w = (Ret a, w').
Proof.
  unfold analyze_whitepaper, mbind at 1. destruct (whitepaper_text_ret project_name url w) as (t & w1 & -> & _).
  destruct (String.eqb _ _); [rewrite generate_mock_analysis_eq; eauto|].
  unfold py_try. destruct (llm_analysis project_name t w1) as [[a|e] w2]; [eauto|].
  unfold mbind. rewrite py_print_exn_eq, generate_mock_analysis_eq. eauto.
Qed.

(** Without an API key the analysis is the fallback, whose four
    ratings lie in their fixed ranges (security 5.0-8.5, growth 5.0-9.0,
    risk 4.0-7.5, technology 5.5-8.5) whatever the whitepaper download
    did, when the draws of [random()] lie in [[0, 1)]. *)
Theorem analyze_whitepaper_offline_ratings (project_name : string) (url : option string) (w : world) :
  OPENAI_API_KEY = "" -> Forall (fun u => 0 <= u < 1)%Q (w_rand w) ->
  exists a w', analyze_whitepaper OPENAI_API_KEY project_name url w = (Ret a, w') /\
    (5 <= an_security_rating a <= 17 # 2)%Q /\ (5 <= an_growth_rating a <= 9)%Q /\
    (4 <= an_risk_rating a <= 15 # 2)%Q /\ (11 # 2 <= an_tech_rating a <= 17 # 2)%Q.
Proof.
  intros Hkey Hw. unfold analyze_whitepaper, mbind at 1.
  destruct (whitepaper_text_ret project_name url w) as (t & w1 & -> & Hw1). rewrite Hkey. cbn.
  rewrite generate_mock_analysis_eq, Hw1. eexists _, _. split; [reflexivity|]. cbn.
  split; [|split; [|split]]; [apply (mock_rating_bounds _ _ _ 50 85) | apply (mock_rating_bounds _ _ _ 50 90)
              | apply (mock_rating_bounds _ _ _ 40 75) | apply (mock_rating_bounds _ _ _ 55 85)];
    first [vm_compute; reflexivity | apply draw_in_unit, Hw | lra].
Qed.

(** A downloaded page that is not a PDF is sent to the model with its
    tags replaced by spaces and cut to the first 15000 characters. *)
Theorem fetch_whitepaper_html (url content : string) (w w1 : world) :
  download url w = (Ret content, w1) -> str_ends_with ".pdf" (str_lower url) = false ->
  fetch_whitepaper url w = (Ret (truncate (strip_tags content)), w1) /\
  String.length (truncate (strip_tags content)) <= WHITEPAPER_MAX_LENGTH.
Proof.
  intros Hd Hpdf. unfold fetch_whitepaper, mbind at 1. rewrite py_catch_ret, Hd. cbn.
  rewrite Hpdf. split; [reflexivity | apply length_substring_0].
Qed.

Lemma pdf_loop_pages (content : string) (ps : list string) (e : exn) :
  forall (i0 n : nat) (acc : string) (w : world),
  length ps < n ->
  (forall k w', k < length ps -> pdf_page_text content (i0 + k) w' = (Ret (nth k ps ""), w')) ->
  (forall w', pdf_page_text content (i0 + length ps) w' = (Raise e, w')) ->
  pdf_loop content i0 n acc w = (Ret (acc ++ str_concat ps, Some e), w).
Proof.
  induction ps as [|p ps IH]; intros i0 n acc w Hn Hok Hfail; (destruct n as [|n]; [cbn in Hn; lia|]);
    cbn [pdf_loop]; unfold mbind at 1; rewrite py_catch_ret.
  - rewrite <- (Nat.add_0_r i0), Hfail. cbn. by rewrite string_app_empty.
  - rewrite <- (Nat.add_0_r i0), (Hok 0) by (cbn; lia). cbn -[pdf_loop].
    rewrite Nat.add_0_r, (IH (S i0) n (acc ++ p)); cbn in Hn; try lia.
    + by rewrite string_app_assoc.
    + intros k w' Hk. rewrite <- (Hok (S k)) by (cbn; lia). f_equal. lia.
    + intros w'. rewrite <- (Hfail w'). f_equal. cbn. lia.
Qed.

(** A PDF whose page [j] cannot be read (after [j] readable pages) is
    sent with the text of pages [0..j-1] as gathered, without the
    15000-character cut: the [except] keeps the partial text, and the
    truncation that follows the loop is skipped. *)
Theorem fetch_whitepaper_pdf_page_error (url content : string) (n : nat) (ps : list string) (e : exn)
    (w w1 w2 : world) :
  download url w = (Ret content, w1) -> str_ends_with ".pdf" (str_lower url) = true ->
  pdf_num_pages content w1 = (Ret n, w2) -> length ps < n ->
  (forall i w', i < length ps -> pdf_page_text content i w' = (Ret (nth i ps ""), w')) ->
  (forall w', pdf_page_text content (length ps) w' = (Raise e, w')) ->
  fetch_whitepaper url w = (Ret (str_concat ps), log_exn w2 e).
Proof.
  intros Hd Hpdf Hn Hlen Hok Hfail. unfold fetch_whitepaper, mbind at 1. rewrite py_catch_ret, Hd. cbn.
  rewrite Hpdf. unfold mbind at 1. rewrite py_catch_ret, Hn. cbn. unfold mbind at 1.
  rewrite (pdf_loop_pages content ps e 0 n "" w2 Hlen Hok Hfail). cbn. reflexivity.
Qed.

End Analysis.

(** ** Witnesses *)

Lemma extract_rating_tenths_witness :
  no_digits "Security: " = true /\
  (extract_rating ("Security: " ++ float_str_tenths (inject_Z (Z.of_N 75) / 10) ++ "/10" ++ "") ==
   inject_Z (Z.of_N 75) / 10)%Q.
Proof. split; [reflexivity | apply (extract_rating_tenths "Security: " "" 75); reflexivity]. Defined.

Lemma extract_rating_no_number_witness :
  no_digits "No clear verdict." = true /\ extract_rating "No clear verdict." = 5%Q.
Proof. split; [reflexivity | apply extract_rating_no_number; reflexivity]. Defined.

Lemma extract_rating_fallback_bounded_witness :
  search match_out_of_10 "Overall rating: 42 points" = None /\
  (0 <= extract_rating "Overall rating: 42 points" <= 10)%Q.
Proof.
  assert (H : search match_out_of_10 "Overall rating: 42 points" = None) by (vm_compute; reflexivity).
  split; [exact H | apply extract_rating_fallback_bounded, H].
Defined.

Lemma mock_ratings_roundtrip_witness :
  let w := mk_world [] [] [1 # 2; 1 # 4; 0 # 1; 9 # 10] 0 [] [] in
  no_digits "Bitcoin" = true /\ Forall (fun u => 0 <= u < 1)%Q (w_rand w) /\
  exists a w', generate_mock_analysis "Bitcoin" w = (Ret a, w') /\
    (extract_rating (an_security a) == an_security_rating a)%Q /\
    (extract_rating (an_growth a) == an_growth_rating a)%Q /\
    (extract_rating (an_risk a) == an_risk_rating a)%Q /\
    (extract_rating (an_technology a) == an_tech_rating a)%Q.
Proof.
  intros w. assert (Hw : Forall (fun u => 0 <= u < 1)%Q (w_rand w)) by (repeat constructor; lra).
  split_and!; [reflexivity | exact Hw | apply (mock_ratings_roundtrip "Bitcoin" w); [reflexivity | exact Hw]].
Defined.

Lemma analyze_whitepaper_offline_ratings_witness :
  let w := mk_world [] [] [1 # 2; 1 # 4; 0 # 1; 9 # 10] 0 [] [] in
  "" = "" /\ Forall (fun u => 0 <= u < 1)%Q (w_rand w) /\
  exists a w', @analyze_whitepaper (fixed_services "" 0 [] "") "" "Bitcoin" None w = (Ret a, w') /\
    (5 <= an_security_rating a <= 17 # 2)%Q /\ (5 <= an_growth_rating a <= 9)%Q /\
    (4 <= an_risk_rating a <= 15 # 2)%Q /\ (11 # 2 <= an_tech_rating a <= 17 # 2)%Q.
Proof.
  intros w. assert (Hw : Forall (fun u => 0 <= u < 1)%Q (w_rand w)) by (repeat constructor; lra).
  split; [reflexivity|]. split; [exact Hw|].
  apply (@analyze_whitepaper_offline_ratings (fixed_services "" 0 [] "") "" "Bitcoin" None w);
    [reflexivity | exact Hw].
Defined.

Lemma fetch_whitepaper_html_witness :
  let S := fixed_services "<p>Peer-to-peer</p> cash" 0 [] "" in
  let w := mk_world [] [] [] 0 [] [] in
  @download S "https://bitcoin.org/en/bitcoin-paper" w = (Ret "<p>Peer-to-peer</p> cash", w) /\
  str_ends_with ".pdf" (str_lower "https://bitcoin.org/en/bitcoin-paper") = false /\
  @fetch_whitepaper S "https://bitcoin.org/en/bitcoin-paper" w =
    (Ret (truncate (strip_tags "<p>Peer-to-peer</p> cash")), w) /\
  String.length (truncate (strip_tags "<p>Peer-to-peer</p> cash")) <= WHITEPAPER_MAX_LENGTH.
Proof.
  intros S w. split; [reflexivity|]. split; [reflexivity|].
  apply (@fetch_whitepaper_html S); reflexivity.
Defined.

Lemma fetch_whitepaper_pdf_page_error_witness :
  let S := fixed_services "%PDF" 3 ["Abstract. "; "Introduction. "] "" in
  let w := mk_world [] [] [] 0 [] [] in
  @fetch_whitepaper S "https://bitcoin.org/bitcoin.PDF" w =
    (Ret (str_concat ["Abstract. "; "Introduction. "]), log_exn w IndexError).
Proof.
  intros S w. apply (@fetch_whitepaper_pdf_page_error S _ "%PDF" 3 _ _ w w w); try reflexivity.
  - cbn. lia.
  - intros i w' Hi. destruct i as [|[|i]]; [reflexivity | reflexivity | cbn in Hi; lia].
Defined.

End Analyzer.
