(* ===== verification/Config.v ===== *)
(** Static configuration of src/config.py: the timeframe options, the
    default watch-list, the provider table [API_CONFIG], the model
    settings [ML_CONFIG] and [AI_CONFIG], the chart colours, the UI
    stylesheet and the declared database schema.  Python's triple-quoted
    strings are written line by line and joined with newlines. *)

From S2P Require Import Prelude.

Open Scope string_scope.
Local Open Scope Z_scope.

Module Config.

(** [TIMEFRAMES] (config.py): the options of the sidebar selector. *)
Definition TIMEFRAMES : list string := ["24h"; "7d"; "30d"; "90d"; "1y"; "All Time"].

(** [TOP_TOKENS] (config.py): the default selection. *)
Definition TOP_TOKENS : list string :=
  ["BTC"; "ETH"; "BNB"; "XRP"; "ADA"; "SOL"; "DOT"; "DOGE"; "AVAX"; "LINK"].


(** [API_CONFIG] (lines 26-84): a provider's base URL, its endpoints, its
    request limit and the delay after the limit is hit (seconds). *)
Record api_provider : Type := mk_api_provider {
  ap_name : string;
  ap_base_url : string;
  ap_endpoints : list (string * string);
  ap_request_limit : Z;
  ap_retry_delay : Z
}.

Definition API_CONFIG : list api_provider :=
  [ mk_api_provider "coingecko" "https://api.coingecko.com/api/v3"
      [("market_data", "/global"); ("historical_market_data", "/global/history");
       ("coin_list", "/coins/list"); ("coin_data", "/coins/{id}");
       ("historical_coin_data", "/coins/{id}/market_chart/range")] 50 60;
    mk_api_provider "coinmarketcap" "https://pro-api.coinmarketcap.com/v1"
      [("listings", "/cryptocurrency/listings/latest"); ("quotes", "/cryptocurrency/quotes/latest");
       ("metadata", "/cryptocurrency/info")] 30 60;
    mk_api_provider "binance" "https://api.binance.com/api/v3"
      [("ticker", "/ticker/24hr"); ("klines", "/klines")] 1200 60;
    mk_api_provider "newsapi" "https://newsapi.org/v2"
      [("everything", "/everything"); ("top_headlines", "/top-headlines")] 100 86400;
    mk_api_provider "cryptopanic" "https://cryptopanic.com/api/v1"
      [("posts", "/posts/")] 60 3600 ].

(** [ML_CONFIG] (lines 87-107). *)
Record arima_config : Type := mk_arima_config {
  arima_order : Z * Z * Z;
  arima_seasonal_order : Z * Z * Z * Z;
  arima_trend : string
}.

Record lstm_config : Type := mk_lstm_config {
  lstm_units : Z;
  lstm_dropout : Q;
  lstm_epochs : Z;
  lstm_batch_size : Z;
  lstm_window_size : Z
}.

Record prophet_config : Type := mk_prophet_config {
  prophet_changepoint_prior_scale : Q;
  prophet_seasonality_mode : string;
  prophet_yearly_seasonality : bool;
  prophet_weekly_seasonality : bool;
  prophet_daily_seasonality : bool
}.

Record ml_config : Type := mk_ml_config {
  ml_arima : arima_config;
  ml_lstm : lstm_config;
  ml_prophet : prophet_config
}.

Definition ML_CONFIG : ml_config :=
  mk_ml_config (mk_arima_config (5, 1, 0) (1, 1, 0, 7) "c")
               (mk_lstm_config 50 (2 # 10) 50 32 14)
               (mk_prophet_config (5 # 100) "multiplicative" true true false).

(** [AI_CONFIG] (lines 110-116). *)
Record ai_config : Type := mk_ai_config {
  ai_model : string;
  ai_temperature : Q;
  ai_max_tokens : Z;
  ai_analysis_types : list string;
  ai_whitepaper_max_length : Z
}.

Definition AI_CONFIG : ai_config :=
  mk_ai_config "gpt-3.5-turbo" (2 # 10) 1000
    ["security"; "growth"; "risk"; "technology"; "summary"] 15000.

(** [CHART_COLORS] (lines 119-135), in the dict's order. *)
Definition CHART_COLORS : list (string * string) :=
  [("BTC", "#F7931A"); ("ETH", "#627EEA"); ("BNB", "#F3BA2F"); ("XRP", "#23292F");
   ("ADA", "#0033AD"); ("SOL", "#00FFA3"); ("DOT", "#E6007A"); ("DOGE", "#C3A634");
   ("AVAX", "#E84142"); ("LINK", "#2A5ADA"); ("default", "#4A90E2");
   ("total_market", "#7E57C2"); ("positive", "#4CAF50"); ("negative", "#F44336");
   ("neutral", "#9E9E9E")].

(** The double quote and the newline character. *)
Definition dq : string := String "034" EmptyString.
Definition nl : string := String "010" EmptyString.

(** A triple-quoted Python string given by its lines. *)
Fixpoint py_lines (ls : list string) : string :=
  match ls with
  | [] => ""
  | [l] => l
  | l :: rest => l ++ nl ++ py_lines rest
  end.

(** [UI_CONFIG] (lines 138-161): the theme and the stylesheet text. *)
Record ui_config : Type := mk_ui_config { ui_theme : string; ui_css : string }.

Definition UI_CONFIG : ui_config :=
  mk_ui_config "light"
    (py_lines
      [ "";
        "        .main {";
        "            background-color: #f5f5f5;";
        "        }";
        ("        .stTabs [data-baseweb=" ++ dq ++ "tab-list" ++ dq ++ "] {");
        "            gap: 24px;";
        "        }";
        ("        .stTabs [data-baseweb=" ++ dq ++ "tab" ++ dq ++ "] {");
        "            height: 50px;";
        "            white-space: pre-wrap;";
        "            background-color: #f0f2f6;";
        "            border-radius: 4px 4px 0px 0px;";
        "            gap: 1px;";
        "            padding-top: 10px;";
        "            padding-bottom: 10px;";
        "        }";
        ("        .stTabs [aria-selected=" ++ dq ++ "true" ++ dq ++ "] {");
        "            background-color: #4f8bf9;";
        "            color: white;";
        "        }";
        "    " ]).

(** A table's declared columns and primary key, as in [DB_CONFIG]. *)
Record table_config : Type := mk_table_config {
  tc_name : string;
  tc_columns : list string;
  tc_primary_key : list string
}.

Definition DB_CONFIG_tables : list table_config :=
  [ mk_table_config "market_data" ["date"; "market_cap"; "volume"; "btc_dominance"] ["date"];
    mk_table_config "token_data" ["token"; "date"; "price"; "market_cap"; "volume"] ["token"; "date"];
    mk_table_config "analysis_results" ["token"; "date"; "analysis_type"; "result"]
                    ["token"; "date"; "analysis_type"];
    mk_table_config "trending_topics" ["date"; "topics"] ["date"] ].

(** [DB_CONFIG] (lines 163-185): the engine, the file and the tables. *)
Record db_config : Type := mk_db_config {
  db_type : string;
  db_path : string;
  db_tables : list table_config
}.

Definition DB_CONFIG : db_config := mk_db_config "sqlite" "crypto_data.db" DB_CONFIG_tables.

End Config.
