(* ===== verification/Dates.v ===== *)
(** Date windows: utils.calculate_date_range, the two copies of the
    timeframe table inside api_service (get_token_data, get_market_data),
    pandas' [date_range(end=now, periods=n, freq='D')] used by the
    fallback series, and utils.extract_time_period.  Datetimes are
    seconds ([Z]); [timedelta(days=k)] is [k * DAY]. *)

From S2P Require Import Prelude Config.

Open Scope string_scope.
Open Scope Z_scope.

Module Dates.

Definition DAY : Z := 86400.

(** [datetime(2013, 4, 28)], Bitcoin's first day on CoinGecko, as Unix
    seconds (midnight UTC). *)
Definition ALL_TIME_START : Z := 1367107200.

(** utils.calculate_date_range: [(start_date, end_date)] with
    [end_date = datetime.now()]. *)
Definition calculate_date_range (timeframe : string) (now : Z) : Z * Z :=
  let end_date := now in
  let start_date :=
    if String.eqb timeframe "24h" then end_date - 1 * DAY
    else if String.eqb timeframe "7d" then end_date - 7 * DAY
    else if String.eqb timeframe "30d" then end_date - 30 * DAY
    else if String.eqb timeframe "90d" then end_date - 90 * DAY
    else if String.eqb timeframe "1y" then end_date - 365 * DAY
    else ALL_TIME_START in
  (start_date, end_date).

(** The window and sampling interval chosen at the top of
    api_service.get_token_data: [(start_date, end_date, interval)]. *)
Definition token_window (timeframe : string) (now : Z) : Z * Z * string :=
  let end_date := now in
  if String.eqb timeframe "24h" then (end_date - 1 * DAY, end_date, "hourly")
  else if String.eqb timeframe "7d" then (end_date - 7 * DAY, end_date, "hourly")
  else if String.eqb timeframe "30d" then (end_date - 30 * DAY, end_date, "daily")
  else if String.eqb timeframe "90d" then (end_date - 90 * DAY, end_date, "daily")
  else if String.eqb timeframe "1y" then (end_date - 365 * DAY, end_date, "daily")
  else (ALL_TIME_START, end_date, "daily").

(** The same table, written out a second time in get_market_data. *)
Definition market_window (timeframe : string) (now : Z) : Z * Z * string :=
  let end_date := now in
  if String.eqb timeframe "24h" then (end_date - 1 * DAY, end_date, "hourly")
  else if String.eqb timeframe "7d" then (end_date - 7 * DAY, end_date, "hourly")
  else if String.eqb timeframe "30d" then (end_date - 30 * DAY, end_date, "daily")
  else if String.eqb timeframe "90d" then (end_date - 90 * DAY, end_date, "daily")
  else if String.eqb timeframe "1y" then (end_date - 365 * DAY, end_date, "daily")
  else (ALL_TIME_START, end_date, "daily").

(** The documented length of each window, in days ([None]: since
    [ALL_TIME_START]). *)
Definition window_days (timeframe : string) : option Z :=
  if String.eqb timeframe "24h" then Some 1
  else if String.eqb timeframe "7d" then Some 7
  else if String.eqb timeframe "30d" then Some 30
  else if String.eqb timeframe "90d" then Some 90
  else if String.eqb timeframe "1y" then Some 365
  else None.

(** [pd.date_range(end=now, periods=n, freq='D')]: [n] instants one day
    apart, the last one [now]. *)
Definition date_range_end (now : Z) (periods : nat) : list Z :=
  map (fun i => now - (Z.of_nat periods - 1 - Z.of_nat i) * DAY) (seq 0 periods).

(** utils.extract_time_period: keyword tests on the lowered text, in
    the order of the code. *)
Definition extract_time_period (text : string) : string :=
  let text := str_lower text in
  if str_contains "24h" text || str_contains "24 hour" text || str_contains "day" text
  then "24h"
  else if str_contains "7d" text || str_contains "7 day" text || str_contains "week" text
  then "7d"
  else if str_contains "30d" text || str_contains "30 day" text || str_contains "month" text
  then "30d"
  else if str_contains "90d" text || str_contains "90 day" text
          || str_contains "3 month" text || str_contains "quarter" text
  then "90d"
  else if str_contains "1y" text || str_contains "year" text
          || str_contains "12 month" text || str_contains "365 day" text
  then "1y"
  else "All Time".

(** ** Lemmas *)

(** Case analysis on the timeframe string, as the [if/elif] chains do. *)
Ltac tf_cases tf :=
  unfold calculate_date_range, token_window, market_window, window_days;
  destruct (String.eqb_spec tf "24h"); [subst; cbn|
  destruct (String.eqb_spec tf "7d"); [subst; cbn|
  destruct (String.eqb_spec tf "30d"); [subst; cbn|
  destruct (String.eqb_spec tf "90d"); [subst; cbn|
  destruct (String.eqb_spec tf "1y"); [subst; cbn|]]]]].

(** calculate_date_range ends at [now], and its start lies exactly the
    documented number of days before (1, 7, 30, 90 or 365), or is
    2013-04-28 for every other timeframe string ("All Time" included). *)
Theorem calculate_date_range_window (tf : string) (now : Z) :
  snd (calculate_date_range tf now) = now /\
  match window_days tf with
  | Some d => now - fst (calculate_date_range tf now) = d * DAY
  | None => fst (calculate_date_range tf now) = ALL_TIME_START
  end.
Proof. tf_cases tf; cbn; split; try reflexivity; lia. Qed.

(** The two timeframe tables of api_service compute the same window as
    utils.calculate_date_range, for every timeframe string and instant;
    the sampling interval is hourly exactly for "24h" and "7d". *)
Theorem api_windows_agree (tf : string) (now : Z) :
  let '(s1, e1, iv1) := token_window tf now in
  let '(s2, e2, iv2) := market_window tf now in
  (s1, e1) = calculate_date_range tf now /\ (s2, e2) = calculate_date_range tf now /\
  iv1 = iv2 /\ (iv1 = "hourly" <-> tf = "24h" \/ tf = "7d").
Proof. tf_cases tf; cbn; repeat split; try reflexivity; intuition (try congruence). Qed.

Lemma length_date_range_end (now : Z) (n : nat) : length (date_range_end now n) = n.
Proof. unfold date_range_end. by rewrite length_map, length_seq. Qed.

Lemma date_range_end_lookup (now : Z) (n i : nat) :
  (i < n)%nat ->
  date_range_end now n !! i = Some (now - (Z.of_nat n - 1 - Z.of_nat i) * DAY).
Proof.
  intros Hi. unfold date_range_end. rewrite list_lookup_fmap.
  rewrite lookup_seq_lt by lia. reflexivity.
Qed.


(** Round trip: each option of [TIMEFRAMES], read back by
    extract_time_period, gives itself. *)
Theorem extract_time_period_roundtrip (tf : string) :
  In tf Config.TIMEFRAMES -> extract_time_period tf = tf.
Proof. cbn. intros H; repeat destruct H as [<-|H]; [reflexivity ..|contradiction]. Qed.

Lemma extract_time_period_roundtrip_witness :
  In "90d" Config.TIMEFRAMES /\ extract_time_period "90d" = "90d".
Proof. split; [cbn; tauto | apply extract_time_period_roundtrip; cbn; tauto]. Defined.

(** The test for "day" comes first: any text mentioning "day" in any
    case, "7 days", "30 days", "90 days" and "365 days" included, is
    read as "24h"; the later "7 day", "30 day", "90 day" and "365 day"
    tests can never succeed. *)
Theorem extract_time_period_day_first (text : string) :
  str_contains "day" (str_lower text) = true -> extract_time_period text = "24h".
Proof. intros H. unfold extract_time_period. rewrite H, !orb_true_r. reflexivity. Qed.

Lemma extract_time_period_day_first_witness :
  str_contains "day" (str_lower "Last 30 Days") = true /\
  extract_time_period "Last 30 Days" = "24h".
Proof. split; [reflexivity | apply extract_time_period_day_first; reflexivity]. Defined.

End Dates.
