(* ===== verification/Calendar.v ===== *)
(** The date strings of the local store: [dt.strftime('%Y-%m-%d %H:%M:%S')]
    (database.save_data) and [pd.to_datetime] on the stored text
    (database.get_historical_data).  Instants are Unix seconds read in
    UTC; the calendar is the proleptic Gregorian one of Python's
    [datetime], computed era by era (400 years, 146097 days) as in the
    usual civil-from-days conversion.  The facts about one era are
    checked exhaustively by evaluation; the general statements follow
    by the arithmetic of eras. *)

From S2P Require Import Prelude.

Open Scope string_scope.
Open Scope Z_scope.

Module Calendar.

(** ** The calendar *)

Definition is_leap (y : Z) : bool :=
  (y mod 4 =? 0) && (negb (y mod 100 =? 0) || (y mod 400 =? 0)).

Definition days_in_month (y m : Z) : Z :=
  if m =? 2 then (if is_leap y then 29 else 28)
  else if (m =? 4) || (m =? 6) || (m =? 9) || (m =? 11) then 30
  else 31.

(** Day of era (0 = 1 March of year 0 of the era) to the year of the era,
    month and day; the months are counted from March. *)
Definition civil_of_doe (doe : Z) : Z * Z * Z :=
  let yoe := (doe - doe / 1460 + doe / 36524 - doe / 146096) / 365 in
  let doy := doe - (365 * yoe + yoe / 4 - yoe / 100) in
  let mp := (5 * doy + 2) / 153 in
  let d := doy - (153 * mp + 2) / 5 + 1 in
  let m := if mp <? 10 then mp + 3 else mp - 9 in
  (yoe, m, d).

Definition doe_of_civil (yoe m d : Z) : Z :=
  let mp := if 2 <? m then m - 3 else m + 9 in
  let doy := (153 * mp + 2) / 5 + d - 1 in
  yoe * 365 + yoe / 4 - yoe / 100 + doy.

(** Days since 1970-01-01 to [(year, month, day)]. *)
Definition civil_from_days (z : Z) : Z * Z * Z :=
  let z := z + 719468 in
  let era := z / 146097 in
  let '(yoe, m, d) := civil_of_doe (z mod 146097) in
  (yoe + era * 400 + (if m <=? 2 then 1 else 0), m, d).

Definition days_from_civil (y m d : Z) : Z :=
  let y := if m <=? 2 then y - 1 else y in
  let era := y / 400 in
  era * 146097 + doe_of_civil (y - era * 400) m d - 719468.

(** ** Text *)

Definition digit (n : Z) : ascii := ascii_of_nat (48 + Z.to_nat n).

Definition digit_value (c : ascii) : option Z :=
  let n := Z.of_nat (nat_of_ascii c) - 48 in
  if (0 <=? n) && (n <? 10) then Some n else None.

(** [n] written with exactly [w] digits, zero-padded ([%Y], [%m], ...). *)
Fixpoint pad (w : nat) (n : Z) : string :=
  match w with
  | O => ""
  | S k => String (digit (n / 10 ^ Z.of_nat k)) (pad k (n mod 10 ^ Z.of_nat k))
  end.

(** [dt.strftime('%Y-%m-%d %H:%M:%S')] of the instant [t] (seconds). *)
Definition strftime (t : Z) : string :=
  let '(y, mo, d) := civil_from_days (t / 86400) in
  let s := t mod 86400 in
  pad 4 y ++ "-" ++ pad 2 mo ++ "-" ++ pad 2 d ++ " " ++
  pad 2 (s / 3600) ++ ":" ++ pad 2 (s mod 3600 / 60) ++ ":" ++ pad 2 (s mod 60).

(** Reads [w] digits. *)
Fixpoint take_digits_acc (w : nat) (acc : Z) (s : string) : option (Z * string) :=
  match w with
  | O => Some (acc, s)
  | S k =>
      match s with
      | String c rest =>
          match digit_value c with
          | Some v => take_digits_acc k (acc * 10 + v) rest
          | None => None
          end
      | EmptyString => None
      end
  end.

Definition expect (c : ascii) (s : string) : option string :=
  match s with
  | String c' rest => if Ascii.eqb c c' then Some rest else None
  | EmptyString => None
  end.

(** [pd.to_datetime] on a stored date string: the format written by
    [strftime], with the ranges [datetime] accepts; anything else is a
    parse error ([None]). *)
Definition to_datetime (s : string) : option Z :=
  '(y, s) ← take_digits_acc 4 0 s; s ← expect "-" s;
  '(mo, s) ← take_digits_acc 2 0 s; s ← expect "-" s;
  '(d, s) ← take_digits_acc 2 0 s; s ← expect " " s;
  '(hh, s) ← take_digits_acc 2 0 s; s ← expect ":" s;
  '(mi, s) ← take_digits_acc 2 0 s; s ← expect ":" s;
  '(ss, s) ← take_digits_acc 2 0 s;
  if String.eqb s "" && (1 <=? y) && (1 <=? mo) && (mo <=? 12) && (1 <=? d)
     && (d <=? days_in_month y mo) && (hh <? 24) && (mi <? 60) && (ss <? 60)
  then Some (days_from_civil y mo d * 86400 + hh * 3600 + mi * 60 + ss)
  else None.

(** ** Exhaustive check over one era *)

(** The sort key [y * 10^4 + m * 100 + d] of a civil date. *)
Definition date_key (ymd : Z * Z * Z) : Z :=
  let '(y, m, d) := ymd in y * 10000 + m * 100 + d.

(** The year of a day of era, relative to the era. *)
Definition era_civil (doe : Z) : Z * Z * Z :=
  let '(yoe, m, d) := civil_of_doe doe in (yoe + (if m <=? 2 then 1 else 0), m, d).

(** One pass over [fuel] consecutive days of era from [doe]: each date is
    valid, maps back to its day, and its key exceeds the previous one. *)
Fixpoint era_check (fuel : nat) (doe prev : Z) : bool :=
  match fuel with
  | O => true
  | S k =>
      let '(yoe, m, d) := civil_of_doe doe in
      let y := yoe + (if m <=? 2 then 1 else 0) in
      let key := y * 10000 + m * 100 + d in
      (0 <=? yoe) && (yoe <? 400) && (doe_of_civil yoe m d =? doe)
      && (1 <=? m) && (m <=? 12) && (1 <=? d) && (d <=? days_in_month y m)
      && (prev <? key) && era_check k (doe + 1) key
  end.

(** The numeral [YYYYMMDDhhmmss] read off an instant's date string. *)
Definition time_key (s : Z) : Z := s / 3600 * 10000 + s mod 3600 / 60 * 100 + s mod 60.

Definition stamp_key (t : Z) : Z := date_key (civil_from_days (t / 86400)) * 1000000 + time_key (t mod 86400).

(** What the check establishes of a day of era. *)
Definition era_facts (doe : Z) : Prop :=
  let '(yoe, m, d) := civil_of_doe doe in
  0 <= yoe < 400 /\ doe_of_civil yoe m d = doe /\ 1 <= m <= 12 /\
  1 <= d <= days_in_month (yoe + (if m <=? 2 then 1 else 0)) m.

(** ** One era *)

Lemma era_check_spec (fuel : nat) (doe0 prev : Z) :
  era_check fuel doe0 prev = true ->
  forall doe, doe0 <= doe < doe0 + Z.of_nat fuel ->
  era_facts doe /\ (doe = doe0 -> prev < date_key (era_civil doe)) /\
  (doe0 < doe -> date_key (era_civil (doe - 1)) < date_key (era_civil doe)).
Proof.
  revert doe0 prev. induction fuel as [|k IH]; intros doe0 prev H doe Hd; [lia|].
  cbn [era_check] in H. unfold era_facts, era_civil.
  destruct (civil_of_doe doe0) as [[yoe m] d] eqn:E.
  rewrite !andb_true_iff, !Z.leb_le, !Z.ltb_lt, !Z.eqb_eq in H.
  destruct H as [[[[[[[[H1 H2] H3] H4] H5] H6] H7] H8] Hrest].
  destruct (Z.eq_dec doe doe0) as [->|Hne].
  - rewrite E. cbn. repeat split; lia.
  - destruct (IH (doe0 + 1) _ Hrest doe) as (Hf & Hfirst & Hnext); [lia|].
    split; [exact Hf|]. split; [lia|]. intros _.
    destruct (Z.eq_dec doe (doe0 + 1)) as [->|Hne'].
    + replace (doe0 + 1 - 1) with doe0 by lia. rewrite E. apply Hfirst. reflexivity.
    + apply Hnext. lia.
Qed.

Lemma era_check_ok : era_check (Z.to_nat 146097) 0 0 = true.
Proof. vm_compute. reflexivity. Qed.

Lemma era_facts_all (doe : Z) : 0 <= doe < 146097 -> era_facts doe.
Proof. intros H. apply (era_check_spec _ _ _ era_check_ok). rewrite Z2Nat.id; lia. Qed.

Lemma era_key_step (doe : Z) :
  0 < doe < 146097 -> date_key (era_civil (doe - 1)) < date_key (era_civil doe).
Proof. intros H. apply (era_check_spec _ _ _ era_check_ok); rewrite ?Z2Nat.id; lia. Qed.

(** Within an era, later days have larger keys. *)
Lemma era_key_mono (d1 d2 : Z) :
  0 <= d1 < d2 -> d2 < 146097 -> date_key (era_civil d1) < date_key (era_civil d2).
Proof.
  intros H1 H2. remember (Z.to_nat (d2 - d1 - 1)) as k eqn:Hk.
  revert d2 H1 H2 Hk. induction k as [|k IH]; intros d2 H1 H2 Hk.
  - replace d1 with (d2 - 1) by lia. apply era_key_step. lia.
  - transitivity (date_key (era_civil (d2 - 1))); [apply IH; lia | apply era_key_step; lia].
Qed.

(** ** All days *)

Lemma era_facts_of (z : Z) : era_facts ((z + 719468) mod 146097).
Proof. apply era_facts_all. apply Z.mod_pos_bound. lia. Qed.

Lemma is_leap_400 (y k : Z) : is_leap (y + k * 400) = is_leap y.
Proof.
  unfold is_leap.
  replace (y + k * 400) with (y + (k * 100) * 4) by ring. rewrite Z_mod_plus_full.
  replace (y + k * 100 * 4) with (y + (k * 4) * 100) by ring. rewrite Z_mod_plus_full.
  replace (y + k * 4 * 100) with (y + k * 400) by ring. rewrite Z_mod_plus_full.
  reflexivity.
Qed.

Lemma days_in_month_400 (y k m : Z) : days_in_month (y + k * 400) m = days_in_month y m.
Proof. unfold days_in_month. by rewrite is_leap_400. Qed.

(** Reading a day's civil date back gives the day. *)
Lemma days_from_civil_from_days (z : Z) :
  let '(y, m, d) := civil_from_days z in days_from_civil y m d = z.
Proof.
  pose proof (era_facts_of z) as Hf. unfold era_facts in Hf. unfold civil_from_days.
  destruct (civil_of_doe ((z + 719468) mod 146097)) as [[yoe m] d].
  destruct Hf as (Hy & Hdoe & Hm & Hd). unfold days_from_civil.
  assert (Hy0 : (if m <=? 2 then yoe + (z + 719468) / 146097 * 400 + (if m <=? 2 then 1 else 0) - 1
                 else yoe + (z + 719468) / 146097 * 400 + (if m <=? 2 then 1 else 0))
                = yoe + (z + 719468) / 146097 * 400) by (destruct (m <=? 2); lia).
  rewrite Hy0.
  replace ((yoe + (z + 719468) / 146097 * 400) / 400) with ((z + 719468) / 146097) by
    (rewrite Z.div_add by lia; rewrite (Z.div_small yoe 400) by lia; lia).
  replace (yoe + (z + 719468) / 146097 * 400 - (z + 719468) / 146097 * 400) with yoe by lia.
  rewrite Hdoe. pose proof (Z.div_mod (z + 719468) 146097). lia.
Qed.

(** Every civil date produced is a valid date. *)
Lemma civil_from_days_valid (z : Z) :
  let '(y, m, d) := civil_from_days z in 1 <= m <= 12 /\ 1 <= d <= days_in_month y m.
Proof.
  pose proof (era_facts_of z) as Hf. unfold era_facts in Hf. unfold civil_from_days.
  destruct (civil_of_doe ((z + 719468) mod 146097)) as [[yoe m] d].
  destruct Hf as (_ & _ & Hm & Hd). split; [exact Hm|].
  replace (yoe + (z + 719468) / 146097 * 400 + (if m <=? 2 then 1 else 0))
    with (yoe + (if m <=? 2 then 1 else 0) + (z + 719468) / 146097 * 400) by ring.
  by rewrite days_in_month_400.
Qed.

Lemma date_key_civil (z : Z) :
  date_key (civil_from_days z) =
  (z + 719468) / 146097 * 4000000 + date_key (era_civil ((z + 719468) mod 146097)).
Proof.
  unfold civil_from_days, era_civil. destruct (civil_of_doe _) as [[yoe m] d]. cbn. ring.
Qed.

Lemma era_boundary : date_key (era_civil 146096) < 4000000 + date_key (era_civil 0).
Proof. vm_compute. reflexivity. Qed.

(** Later days have larger [(year, month, day)] keys. *)
Lemma civil_key_mono (z1 z2 : Z) : z1 < z2 -> date_key (civil_from_days z1) < date_key (civil_from_days z2).
Proof.
  intros H. rewrite !date_key_civil.
  pose proof (Z.mod_pos_bound (z1 + 719468) 146097 ltac:(lia)) as B1.
  pose proof (Z.mod_pos_bound (z2 + 719468) 146097 ltac:(lia)) as B2.
  pose proof (Z.div_mod (z1 + 719468) 146097 ltac:(lia)).
  pose proof (Z.div_mod (z2 + 719468) 146097 ltac:(lia)).
  set (e1 := (z1 + 719468) / 146097) in *. set (e2 := (z2 + 719468) / 146097) in *.
  set (r1 := (z1 + 719468) mod 146097) in *. set (r2 := (z2 + 719468) mod 146097) in *.
  assert (Hle : forall r, 0 <= r < 146097 -> date_key (era_civil 0) <= date_key (era_civil r)
                           /\ date_key (era_civil r) <= date_key (era_civil 146096)).
  { intros r Hr. split.
    - destruct (Z.eq_dec r 0) as [->|]; [lia|]. apply Z.lt_le_incl, era_key_mono; lia.
    - destruct (Z.eq_dec r 146096) as [->|]; [lia|]. apply Z.lt_le_incl, era_key_mono; lia. }
  destruct (Z.lt_trichotomy e1 e2) as [Hlt|[Heq|Hgt]].
  - pose proof (Hle r1 B1). pose proof (Hle r2 B2). pose proof era_boundary. nia.
  - rewrite Heq. assert (r1 < r2) by nia. pose proof (era_key_mono r1 r2 ltac:(lia) ltac:(lia)). lia.
  - nia.
Qed.

(** ** Fixed-width digits *)

Lemma digit_cases (n : Z) : 0 <= n < 10 -> In n (Z.of_nat <$> seq 0 10).
Proof. intros H. cbn. lia. Qed.

Lemma digit_value_digit (n : Z) : 0 <= n < 10 -> digit_value (digit n) = Some n.
Proof. intros H. apply digit_cases in H. by repeat destruct H as [<-|H]. Qed.

Lemma digit_compare (a b : Z) :
  0 <= a < 10 -> 0 <= b < 10 -> Ascii.compare (digit a) (digit b) = Z.compare a b.
Proof.
  intros Ha Hb. apply digit_cases in Ha, Hb.
  by repeat destruct Ha as [<-|Ha]; repeat destruct Hb as [<-|Hb].
Qed.

Lemma pow10_succ (k : nat) : 10 ^ Z.of_nat (S k) = 10 * 10 ^ Z.of_nat k.
Proof. rewrite Nat2Z.inj_succ, Z.pow_succ_r; lia. Qed.

Lemma pow10_pos (k : nat) : 0 < 10 ^ Z.of_nat k.
Proof. apply Z.pow_pos_nonneg; lia. Qed.

(** The leading digit and the rest of a [w+1]-digit number. *)
Lemma pad_split (k : nat) (n : Z) :
  0 <= n < 10 ^ Z.of_nat (S k) ->
  0 <= n / 10 ^ Z.of_nat k < 10 /\ 0 <= n mod 10 ^ Z.of_nat k < 10 ^ Z.of_nat k /\
  n = 10 ^ Z.of_nat k * (n / 10 ^ Z.of_nat k) + n mod 10 ^ Z.of_nat k.
Proof.
  rewrite pow10_succ. intros Hn. pose proof (pow10_pos k) as Hp.
  set (p := 10 ^ Z.of_nat k) in *. pose proof (Z.div_mod n p ltac:(lia)).
  pose proof (Z.mod_pos_bound n p Hp). split; [|split; [lia|lia]].
  split; [apply Z.div_pos; lia|]. apply Z.div_lt_upper_bound; lia.
Qed.

(** Reading back [w] written digits. *)
Lemma take_digits_pad (w : nat) (acc n : Z) (s : string) :
  0 <= n < 10 ^ Z.of_nat w ->
  take_digits_acc w acc (pad w n ++ s) = Some (acc * 10 ^ Z.of_nat w + n, s).
Proof.
  revert acc n. induction w as [|k IH]; intros acc n Hn.
  - cbn in *. f_equal. f_equal. lia.
  - destruct (pad_split k n Hn) as (Hq & Hr & Hdm). cbn [pad].
    rewrite string_app_cons. cbn [take_digits_acc]. rewrite digit_value_digit by exact Hq. rewrite IH by exact Hr. f_equal. f_equal.
    rewrite pow10_succ. lia.
Qed.

(** Fixed-width numerals compare like the numbers. *)
Lemma compare_pad_app (w : nat) (a b : Z) (s1 s2 : string) :
  0 <= a < 10 ^ Z.of_nat w -> 0 <= b < 10 ^ Z.of_nat w ->
  String.compare (pad w a ++ s1) (pad w b ++ s2) =
  match Z.compare a b with Eq => String.compare s1 s2 | c => c end.
Proof.
  revert a b. induction w as [|k IH]; intros a b Ha Hb.
  - cbn in *. replace a with 0 by lia. replace b with 0 by lia. reflexivity.
  - destruct (pad_split k a Ha) as (Hqa & Hra & Ea). destruct (pad_split k b Hb) as (Hqb & Hrb & Eb).
    cbn [pad]. rewrite !string_app_cons. cbn [String.compare]. rewrite digit_compare by assumption.
    pose proof (pow10_pos k). set (p := 10 ^ Z.of_nat k) in *.
    destruct (Z.compare_spec (a / p) (b / p)) as [Hq|Hq|Hq].
    + rewrite IH by assumption.
      assert (Hc : Z.compare a b = Z.compare (a mod p) (b mod p)).
      { destruct (Z.compare_spec (a mod p) (b mod p));
          [apply Z.compare_eq_iff | apply Z.compare_lt_iff | apply Z.compare_gt_iff]; lia. }
      by rewrite Hc.
    + by rewrite (proj2 (Z.compare_lt_iff a b)) by nia.
    + by rewrite (proj2 (Z.compare_gt_iff a b)) by nia.
Qed.

(** ** The stored date strings *)

Lemma days_in_month_le (y m : Z) : days_in_month y m <= 31.
Proof. unfold days_in_month. repeat destruct (_ =? _); destruct (is_leap y); cbn; lia. Qed.

Lemma civil_key_le (z1 z2 : Z) : z1 <= z2 -> date_key (civil_from_days z1) <= date_key (civil_from_days z2).
Proof. intros H. destruct (Z.eq_dec z1 z2) as [->|]; [lia|]. apply Z.lt_le_incl, civil_key_mono. lia. Qed.

(** The instants [datetime] can represent have four-digit years. *)
Lemma year_range (t : Z) :
  MIN_TIMESTAMP <= t <= MAX_TIMESTAMP ->
  let '(y, m, d) := civil_from_days (t / 86400) in 1 <= y <= 9999.
Proof.
  intros Ht.
  pose proof (civil_key_le (MIN_TIMESTAMP / 86400) (t / 86400) ltac:(apply Z.div_le_mono; lia)) as H1.
  pose proof (civil_key_le (t / 86400) (MAX_TIMESTAMP / 86400) ltac:(apply Z.div_le_mono; lia)) as H2.
  pose proof (civil_from_days_valid (t / 86400)) as Hv.
  change (date_key (civil_from_days (MIN_TIMESTAMP / 86400))) with 10101 in H1.
  change (date_key (civil_from_days (MAX_TIMESTAMP / 86400))) with 99991231 in H2.
  destruct (civil_from_days (t / 86400)) as [[y m] d]. cbn in H1, H2.
  pose proof (days_in_month_le y m). lia.
Qed.

Lemma expect_app (c : ascii) (s : string) : expect c (String c "" ++ s) = Some s.
Proof. unfold expect. rewrite string_app_cons. cbv iota beta. rewrite Ascii.eqb_refl. reflexivity. Qed.

Lemma lex_compare (a1 a2 b1 b2 B : Z) :
  0 <= b1 < B -> 0 <= b2 < B ->
  Z.compare (a1 * B + b1) (a2 * B + b2) = match Z.compare a1 a2 with Eq => Z.compare b1 b2 | c => c end.
Proof.
  intros H1 H2. destruct (Z.compare_spec a1 a2) as [->|H|H].
  - destruct (Z.compare_spec b1 b2);
      [apply Z.compare_eq_iff | apply Z.compare_lt_iff | apply Z.compare_gt_iff]; lia.
  - apply Z.compare_lt_iff. nia.
  - apply Z.compare_gt_iff. nia.
Qed.

Lemma time_key_mono (s1 s2 : Z) :
  0 <= s1 -> s1 < s2 -> s2 < 86400 -> time_key s1 < time_key s2.
Proof. unfold time_key. intros. Z.div_mod_to_equations. lia. Qed.

Lemma time_key_bound (s : Z) : 0 <= s < 86400 -> 0 <= time_key s < 1000000.
Proof. unfold time_key. intros. Z.div_mod_to_equations. lia. Qed.

(** Later instants have larger numerals. *)
Lemma stamp_key_mono (t1 t2 : Z) : t1 < t2 -> stamp_key t1 < stamp_key t2.
Proof.
  intros H. unfold stamp_key.
  pose proof (Z.mod_pos_bound t1 86400 ltac:(lia)). pose proof (Z.mod_pos_bound t2 86400 ltac:(lia)).
  pose proof (time_key_bound (t1 mod 86400) ltac:(lia)).
  pose proof (time_key_bound (t2 mod 86400) ltac:(lia)).
  assert (Hd : t1 / 86400 <= t2 / 86400) by (apply Z.div_le_mono; lia).
  destruct (Z.eq_dec (t1 / 86400) (t2 / 86400)) as [Heq|Hne].
  - rewrite Heq. assert (t1 mod 86400 < t2 mod 86400).
    { pose proof (Z.div_mod t1 86400 ltac:(lia)). pose proof (Z.div_mod t2 86400 ltac:(lia)). lia. }
    pose proof (time_key_mono (t1 mod 86400) (t2 mod 86400) ltac:(lia) ltac:(lia) ltac:(lia)). lia.
  - pose proof (civil_key_mono (t1 / 86400) (t2 / 86400) ltac:(lia)). lia.
Qed.

Lemma stamp_key_compare (t1 t2 : Z) : Z.compare (stamp_key t1) (stamp_key t2) = Z.compare t1 t2.
Proof.
  destruct (Z.compare_spec t1 t2) as [->|H|H].
  - apply Z.compare_refl.
  - apply Z.compare_lt_iff, stamp_key_mono, H.
  - apply Z.compare_gt_iff, stamp_key_mono, H.
Qed.

(** Bounds of a fixed-width field. *)
Ltac pad_bound :=
  match goal with
  | |- context [10 ^ Z.of_nat ?k] =>
      let v := eval vm_compute in (10 ^ Z.of_nat k) in change (10 ^ Z.of_nat k) with v
  end; first [lia | Z.div_mod_to_equations; lia].

(** One field of the parser on a field written by [pad]. *)
Ltac parse_step :=
  first [ rewrite take_digits_pad by pad_bound
        | rewrite expect_app
        | rewrite option_bind_some; cbv beta iota ].

(** The parser reads back what strftime writes. *)
Lemma to_datetime_strftime (t : Z) :
  MIN_TIMESTAMP <= t <= MAX_TIMESTAMP -> to_datetime (strftime t) = Some t.
Proof.
  intros Ht. pose proof (year_range t Ht) as Hy.
  pose proof (days_from_civil_from_days (t / 86400)) as Hrt.
  pose proof (civil_from_days_valid (t / 86400)) as Hv.
  pose proof (Z.mod_pos_bound t 86400 ltac:(lia)) as Hs.
  unfold strftime. destruct (civil_from_days (t / 86400)) as [[y mo] d].
  pose proof (days_in_month_le y mo).
  unfold to_datetime. rewrite <- (string_app_empty (pad 2 (t mod 86400 mod 60))).
  repeat parse_step.
  rewrite !Z.mul_0_l, !Z.add_0_l, Hrt.
  destruct Hv as [Hm Hd]. pose proof (Z.mod_pos_bound (t mod 86400) 3600 ltac:(lia)).
  match goal with |- (if ?b then _ else _) = _ => replace b with true end.
  - f_equal. Z.div_mod_to_equations. lia.
  - symmetry. rewrite !andb_true_iff, !Z.leb_le, !Z.ltb_lt.
    repeat split; try reflexivity; try lia; Z.div_mod_to_equations; lia.
Qed.

(** Round trip of the local store's dates: for every instant
    [datetime] can hold (years 1 to 9999), reading back with
    [pd.to_datetime] the string [strftime('%Y-%m-%d %H:%M:%S')] wrote
    gives the instant back. *)
Theorem strftime_roundtrip (t : Z) :
  MIN_TIMESTAMP <= t <= MAX_TIMESTAMP -> to_datetime (strftime t) = Some t.
Proof. exact (to_datetime_strftime t). Qed.


(** Comparing two date strings compares their fields in order. *)
Ltac str_compare_step :=
  first [ rewrite compare_pad_app by pad_bound
        | rewrite string_app_cons
        | rewrite string_compare_cons
        | rewrite string_app_nil_l ].

(** The text order of two written instants is their order. *)
Lemma compare_strftime (t1 t2 : Z) :
  MIN_TIMESTAMP <= t1 <= MAX_TIMESTAMP -> MIN_TIMESTAMP <= t2 <= MAX_TIMESTAMP ->
  String.compare (strftime t1) (strftime t2) = Z.compare t1 t2.
Proof.
  intros H1 H2. rewrite <- stamp_key_compare. unfold strftime, stamp_key, time_key.
  pose proof (year_range t1 H1) as Y1. pose proof (year_range t2 H2) as Y2.
  pose proof (civil_from_days_valid (t1 / 86400)) as V1.
  pose proof (civil_from_days_valid (t2 / 86400)) as V2.
  pose proof (Z.mod_pos_bound t1 86400 ltac:(lia)). pose proof (Z.mod_pos_bound t2 86400 ltac:(lia)).
  destruct (civil_from_days (t1 / 86400)) as [[y1 m1] d1].
  destruct (civil_from_days (t2 / 86400)) as [[y2 m2] d2]. cbn [date_key].
  pose proof (days_in_month_le y1 m1). pose proof (days_in_month_le y2 m2).
  rewrite <- (string_app_empty (pad 2 (t1 mod 86400 mod 60))).
  rewrite <- (string_app_empty (pad 2 (t2 mod 86400 mod 60))).
  repeat str_compare_step.
  set (s1 := t1 mod 86400) in *. set (s2 := t2 mod 86400) in *.
  assert (B1 : 0 <= s1 / 3600 < 24 /\ 0 <= s1 mod 3600 / 60 < 60 /\ 0 <= s1 mod 60 < 60)
    by (Z.div_mod_to_equations; lia).
  assert (B2 : 0 <= s2 / 3600 < 24 /\ 0 <= s2 mod 3600 / 60 < 60 /\ 0 <= s2 mod 60 < 60)
    by (Z.div_mod_to_equations; lia).
  set (h1 := s1 / 3600) in *. set (i1 := s1 mod 3600 / 60) in *. set (c1 := s1 mod 60) in *.
  set (h2 := s2 / 3600) in *. set (i2 := s2 mod 3600 / 60) in *. set (c2 := s2 mod 60) in *.
  replace ((y1 * 10000 + m1 * 100 + d1) * 1000000 + (h1 * 10000 + i1 * 100 + c1))
    with (y1 * 10000000000 + (m1 * 100000000 + (d1 * 1000000 + (h1 * 10000 + (i1 * 100 + c1)))))
    by ring.
  replace ((y2 * 10000 + m2 * 100 + d2) * 1000000 + (h2 * 10000 + i2 * 100 + c2))
    with (y2 * 10000000000 + (m2 * 100000000 + (d2 * 1000000 + (h2 * 10000 + (i2 * 100 + c2)))))
    by ring.
  rewrite !lex_compare by lia. change (("" ?= "")%string) with Eq.
  by destruct (c1 ?= c2).
Qed.

(** The stored date strings sort like the instants: SQLite's text
    comparison of two strings written by [strftime] (used by
    [ORDER BY date] and the [date >= ?]/[date <= ?] filters of
    get_historical_data) orders them exactly as the instants are ordered,
    for every pair of instants of years 1 to 9999. *)
Theorem strftime_compare (t1 t2 : Z) :
  MIN_TIMESTAMP <= t1 <= MAX_TIMESTAMP -> MIN_TIMESTAMP <= t2 <= MAX_TIMESTAMP ->
  String.compare (strftime t1) (strftime t2) = Z.compare t1 t2.
Proof. exact (compare_strftime t1 t2). Qed.


Lemma strftime_roundtrip_witness :
  MIN_TIMESTAMP <= 1700000000 <= MAX_TIMESTAMP /\
  strftime 1700000000 = "2023-11-14 22:13:20" /\
  to_datetime (strftime 1700000000) = Some 1700000000.
Proof.
  split; [unfold MIN_TIMESTAMP, MAX_TIMESTAMP; lia|]. split; [vm_compute; reflexivity|].
  apply strftime_roundtrip. unfold MIN_TIMESTAMP, MAX_TIMESTAMP; lia.
Defined.

Lemma strftime_compare_witness :
  MIN_TIMESTAMP <= 1699999999 <= MAX_TIMESTAMP /\ MIN_TIMESTAMP <= 1700000000 <= MAX_TIMESTAMP /\
  String.compare (strftime 1699999999) (strftime 1700000000) = Lt.
Proof.
  split; [unfold MIN_TIMESTAMP, MAX_TIMESTAMP; lia|]. split; [unfold MIN_TIMESTAMP, MAX_TIMESTAMP; lia|].
  rewrite (strftime_compare 1699999999 1700000000); [reflexivity | unfold MIN_TIMESTAMP, MAX_TIMESTAMP; lia ..].
Defined.

End Calendar.
