(* ===== verification/HttpClient.v ===== *)
(** The HTTP helper of src/api_service.py: [make_api_request] (lines
    23-26 and 101-115) with its retry loop.  One attempt is
    [requests.get], [response.raise_for_status()] and [response.json()];
    a [RequestException] is retried only when its response has status 429,
    after sleeping [backoff_factor * 2 ** i + random.uniform(0, 1)].

    (Lines 27-99 of the file, inside the [if headers is None] branch, are
    the misplaced body of [get_market_data]; the callers always pass a
    [headers] dictionary, so the branch is not part of this model: see
    MarketClient.) *)

From S2P Require Import Prelude.

Open Scope Z_scope.

Module HttpClient.

(** [COINGECKO_BASE_URL] (line 18). *)
Definition COINGECKO_BASE_URL : string := "https://api.coingecko.com/api/v3".

(** [response.raise_for_status()] raises for 4xx and 5xx statuses. *)
Definition is_http_error (status : Z) : bool := (400 <=? status) && (status <? 600).

(** The result of one attempt, given the answer of the network. *)
Definition classify (o : http_outcome) : outcome json :=
  match o with
  | HttpFail => Raise (RequestException None)
  | HttpResp st body =>
      if is_http_error st then Raise (RequestException (Some st))
      else match body with
           | Some j => Ret j
           | None => Raise (RequestException None)   (** requests' JSONDecodeError *)
           end
  end.

(** One attempt: lines 103-105. *)
Definition request_once (url : string) (params : list (string * json)) : M json :=
  r <- http_get url params ;;
  match r with
  | HttpFail => py_raise (RequestException None)
  | HttpResp st body =>
      if is_http_error st then py_raise (RequestException (Some st))
      else match body with
           | Some j => mret j
           | None => py_raise (RequestException None)
           end
  end.

(** The loop [for i in range(retries)], from iteration [i] with
    [remaining] iterations left (lines 101-115).  The loop falls through
    and the function returns [None] when no iteration is left. *)
Fixpoint retry_loop (url : string) (params : list (string * json)) (retries : nat)
    (backoff_factor : Q) (i remaining : nat) : M (option json) :=
  match remaining with
  | O => mret None
  | S remaining' =>
      py_try (j <- request_once url params ;; mret (Some j))
        (fun e =>
           match e with
           | RequestException status =>
               if Nat.eqb i (retries - 1) then py_raise e
               else if decide (status = Some 429) then
                 jitter <- py_uniform 0 1 ;;
                 py_sleep (backoff_factor * Qpower 2 (Z.of_nat i) + jitter)%Q ;;;
                 retry_loop url params retries backoff_factor (S i) remaining'
               else py_raise e
           | _ => py_raise e
           end)
  end.

Definition make_api_request (url : string) (params : list (string * json))
    (retries : nat) (backoff_factor : Q) : M (option json) :=
  retry_loop url params retries backoff_factor 0 retries.

(** The defaults [retries=3, backoff_factor=0.5] used by every caller. *)
Definition make_api_request_default (url : string) (params : list (string * json)) :
    M (option json) :=
  make_api_request url params 3 (1 # 2).

(** ** The world after one request *)

Definition after_get (w : world) (url : string) (params : list (string * json)) : world :=
  mk_world (w_sent w ++ [(url, params)]) (tail (w_net w)) (w_rand w) (w_now w)
           (w_slept w) (w_log w).

(** The sleeps of iterations [i0 .. i0+n-1], drawing the jitters from
    [draws] (an exhausted list draws 0). *)
Definition backoff_delays (b : Q) (draws : list Q) (i0 n : nat) : list Q :=
  map (fun k => b * Qpower 2 (Z.of_nat (i0 + k)) + uniform_value 0 1 (nth k draws 0%Q))%Q
      (seq 0 n).

Lemma request_once_eq (url : string) (params : list (string * json)) (w : world) :
  request_once url params w =
  (classify (default HttpFail (head (w_net w))), after_get w url params).
Proof.
  unfold request_once, after_get. py_unfold.
  destruct (w_net w) as [|[st [j|]|] rest]; cbn; try reflexivity;
    destruct (is_http_error _); reflexivity.
Qed.

Lemma classify_raise (o : http_outcome) (e : exn) :
  classify o = Raise e -> exists st, e = RequestException st.
Proof.
  destruct o as [st [j|]|]; cbn; try destruct (is_http_error st); intros [=]; eauto.
Qed.

(** ** The loop, summarised *)

(** The number of answers with status 429 at the head of the script. *)
Fixpoint leading_429 (net : list http_outcome) : nat :=
  match net with
  | HttpResp st _ :: rest => if Z.eqb st 429 then S (leading_429 rest) else 0
  | _ => 0
  end.

Definition lift_some (r : outcome json) : outcome (option json) :=
  match r with Ret j => Ret (Some j) | Raise e => Raise e end.

(** What [n] attempts, the first [n-1] of them followed by a back-off
    sleep from iteration [i0] on, leave in the world. *)
Definition world_after_attempts (w : world) (url : string) (params : list (string * json))
    (b : Q) (i0 n : nat) : world :=
  mk_world (w_sent w ++ repeat (url, params) n) (drop n (w_net w))
           (drop (n - 1) (w_rand w)) (w_now w)
           (w_slept w ++ backoff_delays b (w_rand w) i0 (n - 1)) (w_log w).

Lemma backoff_delays_cons (b : Q) (draws : list Q) (i0 m : nat) :
  backoff_delays b draws i0 (S m) =
  (b * Qpower 2 (Z.of_nat i0) + uniform_value 0 1 (nth 0 draws 0%Q))%Q
    :: backoff_delays b (tail draws) (S i0) m.
Proof.
  unfold backoff_delays. cbn [seq map]. rewrite Nat.add_0_r. f_equal.
  rewrite <- seq_shift, map_map. apply map_ext. intros k.
  destruct draws; cbn; [destruct k|]; do 3 f_equal; lia.
Qed.

Lemma length_backoff_delays (b : Q) (draws : list Q) (i0 n : nat) :
  length (backoff_delays b draws i0 n) = n.
Proof. unfold backoff_delays. by rewrite length_map, length_seq. Qed.

Lemma world_after_one (w : world) (url : string) (params : list (string * json)) (b : Q)
    (i : nat) :
  world_after_attempts w url params b i 1 = after_get w url params.
Proof.
  unfold world_after_attempts, after_get. cbn. rewrite app_nil_r.
  by destruct (w_net w).
Qed.

(** One attempt inside [py_try]: the answer decides the branch. *)
Lemma try_request_once_eq {A} (url : string) (params : list (string * json))
    (k : json -> M A) (h : exn -> M A) (w : world) :
  py_try (mbind (request_once url params) k) h w =
  match classify (default HttpFail (head (w_net w))) with
  | Ret j => match k j (after_get w url params) with
             | (Ret a, w') => (Ret a, w')
             | (Raise e, w') => h e w'
             end
  | Raise e => h e (after_get w url params)
  end.
Proof.
  unfold py_try, mbind at 1. rewrite request_once_eq.
  by destruct (classify _).
Qed.

Lemma retry_loop_eq (url : string) (params : list (string * json)) (retries : nat) (b : Q)
    (rem i : nat) (w : world) :
  (i + rem = retries)%nat -> (1 <= rem)%nat ->
  retry_loop url params retries b i rem w =
  ((if (leading_429 (w_net w) <? rem)%nat
    then lift_some (classify (nth (leading_429 (w_net w)) (w_net w) HttpFail))
    else Raise (RequestException (Some 429))),
   world_after_attempts w url params b i (Nat.min (S (leading_429 (w_net w))) rem)).
Proof.
  revert i w. induction rem as [|rem IH]; intros i w Hsum Hrem; [lia|].
  cbn [retry_loop]. rewrite try_request_once_eq.
  assert (Hlast : Nat.eqb i (retries - 1) = Nat.eqb rem 0).
  { apply eq_true_iff_eq. rewrite !Nat.eqb_eq. lia. }
  destruct (w_net w) as [|o rest] eqn:Hnet.
  - (* exhausted script: a connection failure *)
    cbn. rewrite Hlast, world_after_one. by destruct (Nat.eqb rem 0).
  - destruct o as [st body|]; cbn [leading_429 default head].
    2:{ cbn. rewrite Hlast, world_after_one. by destruct (Nat.eqb rem 0). }
    destruct (Z.eqb_spec st 429) as [->|Hst].
    + (* 429: retried unless this was the last iteration *)
      cbn [classify is_http_error]. cbn -[Nat.min]. rewrite Hlast.
      destruct rem as [|rem].
      { cbn. rewrite world_after_one. reflexivity. }
      cbn [Nat.eqb]. rewrite decide_True by reflexivity. py_unfold.
      unfold after_get. cbn [w_rand w_sent w_net w_now w_slept w_log].
      destruct (w_rand w) as [|u us] eqn:Hrand; cbn iota beta;
        rewrite IH by lia; cbn [w_net w_sent w_rand w_now w_slept w_log];
        rewrite ?Hnet; cbn [tail];
        f_equal; try reflexivity;
        unfold world_after_attempts; cbn [w_net w_sent w_rand w_now w_slept w_log Nat.min];
        rewrite Hnet, ?Hrand; cbn [Nat.sub]; rewrite ?Nat.sub_0_r;
        rewrite (backoff_delays_cons b _ i), <- !app_assoc, ?drop_nil; reflexivity.
    + (* any other status: not retried *)
      assert (Hc : forall e, classify (HttpResp st body) = Raise e ->
                   exists st', e = RequestException st' /\ st' <> Some 429).
      { cbn. destruct (is_http_error st), body; intros e [= <-]; eexists; split;
          try reflexivity; congruence. }
      rewrite ?(proj2 (Z.eqb_neq st 429) Hst). cbn [Nat.min Nat.ltb Nat.leb nth id].
      rewrite world_after_one.
      destruct (classify (HttpResp st body)) as [j|e] eqn:Hcl; [reflexivity|].
      destruct (Hc e eq_refl) as (st' & -> & Hst'). rewrite Hlast.
      destruct (Nat.eqb rem 0); [reflexivity|].
      rewrite decide_False by exact Hst'. reflexivity.
Qed.

(** The value the loop returns when the script has [p] leading 429s. *)
Definition retry_result (net : list http_outcome) (retries : nat) : outcome (option json) :=
  if (leading_429 net <? retries)%nat
  then lift_some (classify (nth (leading_429 net) net HttpFail))
  else Raise (RequestException (Some 429)).

(** C3: Functional summary of make_api_request (retries >= 1): the answer
    depends only on the network's answers (the first non-429 answer
    within [retries] attempts, or the last 429); it makes
    [min(1 + leading 429s, retries)] requests, sleeps after every attempt
    but the last with delays [backoff * 2^i + uniform(0,1)], consumes one
    random draw per sleep, and changes nothing else. *)
Theorem make_api_request_eq (url : string) (params : list (string * json)) (retries : nat)
    (b : Q) (w : world) :
  (1 <= retries)%nat ->
  make_api_request url params retries b w =
  (retry_result (w_net w) retries,
   world_after_attempts w url params b 0 (Nat.min (S (leading_429 (w_net w))) retries)).
Proof. intros H. apply retry_loop_eq; lia. Qed.

Lemma make_api_request_eq_witness :
  (1 <= 3)%nat /\
  make_api_request "u" [] 3 (1 # 2) (mk_world [] [HttpResp 429 None; HttpResp 200 (Some JNull)]
                                              [1 # 4] 0 [] []) =
  (retry_result [HttpResp 429 None; HttpResp 200 (Some JNull)] 3,
   world_after_attempts (mk_world [] [HttpResp 429 None; HttpResp 200 (Some JNull)]
                                  [1 # 4] 0 [] []) "u" [] (1 # 2) 0 2).
Proof. split; [lia | apply (make_api_request_eq "u" [] 3 (1 # 2)); lia]. Defined.

(** Rewrite a call of make_api_request into its closed form. *)
Ltac closed_form :=
  unfold make_api_request; rewrite retry_loop_eq by lia;
  lazymatch goal with
  | |- context [if (leading_429 ?n <? ?r)%nat then _ else _] => fold (retry_result n r)
  end.

(** Bounds: with [retries >= 1], make_api_request sends between 1 and
    [retries] requests, all to the same URL and parameters, sleeps
    exactly once less than it sends, and each sleep of iteration [i] lies
    in [[backoff * 2^i, backoff * 2^i + 1)] when the random draws lie in
    [[0, 1)]. *)
Theorem make_api_request_bounds (url : string) (params : list (string * json))
    (retries : nat) (b : Q) (w : world) :
  (1 <= retries)%nat ->
  Forall (fun u => 0 <= u < 1)%Q (w_rand w) ->
  let w' := snd (make_api_request url params retries b w) in
  exists n, (1 <= n <= retries)%nat /\
    w_sent w' = w_sent w ++ repeat (url, params) n /\
    length (w_slept w') = (length (w_slept w) + (n - 1))%nat /\
    forall k d, w_slept w' !! (length (w_slept w) + k)%nat = Some d ->
      (b * Qpower 2 (Z.of_nat k) <= d < b * Qpower 2 (Z.of_nat k) + 1)%Q.
Proof.
  intros H1 Hdraws. closed_form. cbn [snd].
  set (n := Nat.min _ _). exists n. split; [lia|]. unfold world_after_attempts.
  cbn [w_sent w_slept w_rand].
  split; [reflexivity|]. rewrite length_app, length_backoff_delays. split; [reflexivity|].
  intros k d Hk. rewrite lookup_app_r in Hk by lia.
  replace (length (w_slept w) + k - length (w_slept w))%nat with k in Hk by lia.
  unfold backoff_delays in Hk. rewrite list_lookup_fmap in Hk.
  destruct (seq 0 (n - 1) !! k) as [k'|] eqn:Hk'; [|discriminate]. injection Hk as <-.
  apply lookup_seq in Hk' as [-> Hlt]. cbn [Nat.add].
  assert (Hu : (0 <= nth k (w_rand w) 0 < 1)%Q).
  { destruct (nth_in_or_default k (w_rand w) 0%Q) as [Hin| ->].
    - rewrite List.Forall_forall in Hdraws. exact (Hdraws _ Hin).
    - split; [apply Qle_refl | reflexivity]. }
  unfold uniform_value. set (c := (b * Qpower 2 (Z.of_nat k))%Q). lra.
Qed.

Lemma make_api_request_bounds_witness :
  let w := mk_world [] [HttpResp 429 None; HttpResp 200 (Some JNull)] [1 # 4] 0 [] [] in
  (1 <= 3)%nat /\ Forall (fun u => 0 <= u < 1)%Q (w_rand w) /\
  let w' := snd (make_api_request "u" [] 3 (1 # 2) w) in
  exists n, (1 <= n <= 3)%nat /\
    w_sent w' = w_sent w ++ repeat ("u", []) n /\
    length (w_slept w') = (length (w_slept w) + (n - 1))%nat /\
    forall k d, w_slept w' !! (length (w_slept w) + k)%nat = Some d ->
      ((1 # 2) * Qpower 2 (Z.of_nat k) <= d < (1 # 2) * Qpower 2 (Z.of_nat k) + 1)%Q.
Proof.
  cbv zeta. split_and!; [lia | repeat constructor; cbn; discriminate |].
  apply make_api_request_bounds; [lia | repeat constructor; cbn; discriminate].
Defined.

(** Only 429 is retried: when the first answer is a failure that is not
    a 429 (a connection error, a 4xx/5xx other than 429, or a body that
    is not JSON), make_api_request raises it after one request, without
    sleeping, whatever [retries] is. *)
Theorem make_api_request_fails_fast (url : string) (params : list (string * json))
    (retries : nat) (b : Q) (w : world) (o : http_outcome) (rest : list http_outcome)
    (e : exn) :
  (1 <= retries)%nat -> w_net w = o :: rest -> classify o = Raise e ->
  leading_429 (o :: rest) = 0%nat ->
  make_api_request url params retries b w = (Raise e, after_get w url params).
Proof.
  intros H1 Hnet Hcl H0. closed_form.
  unfold retry_result. rewrite Hnet, H0, <- (world_after_one w url params b 0). cbn [Nat.min].
  destruct retries as [|r]; [lia|]. cbn. by rewrite Hcl.
Qed.

Lemma make_api_request_fails_fast_witness :
  let w := mk_world [] [HttpResp 500 None; HttpResp 200 (Some JNull)] [] 0 [] [] in
  (1 <= 3)%nat /\ w_net w = HttpResp 500 None :: [HttpResp 200 (Some JNull)] /\
  classify (HttpResp 500 None) = Raise (RequestException (Some 500)) /\
  leading_429 (HttpResp 500 None :: [HttpResp 200 (Some JNull)]) = 0%nat /\
  make_api_request "u" [] 3 (1 # 2) w = (Raise (RequestException (Some 500)), after_get w "u" []).
Proof.
  cbv zeta. split_and!; [lia | reflexivity | reflexivity | reflexivity |].
  apply (make_api_request_fails_fast _ _ _ _ _ (HttpResp 500 None) [HttpResp 200 (Some JNull)]);
    [lia | reflexivity ..].
Defined.

(** Exhaustion: when every one of the [retries] attempts answers 429,
    make_api_request sends exactly [retries] requests, sleeps
    [retries - 1] times, and raises the last 429 to its caller. *)
Theorem make_api_request_exhausted (url : string) (params : list (string * json))
    (retries : nat) (b : Q) (w : world) :
  (1 <= retries)%nat -> (retries <= leading_429 (w_net w))%nat ->
  let '(r, w') := make_api_request url params retries b w in
  r = Raise (RequestException (Some 429)) /\
  w_sent w' = w_sent w ++ repeat (url, params) retries /\
  w_slept w' = w_slept w ++ backoff_delays b (w_rand w) 0 (retries - 1).
Proof.
  intros H1 Hp. closed_form.
  unfold retry_result. rewrite (proj2 (Nat.ltb_ge _ _)) by exact Hp.
  rewrite Nat.min_r by lia. split_and!; reflexivity.
Qed.

Lemma make_api_request_exhausted_witness :
  let w := mk_world [] [HttpResp 429 None; HttpResp 429 None; HttpResp 429 None]
                    [0%Q; 0%Q] 0 [] [] in
  (1 <= 3)%nat /\ (3 <= leading_429 (w_net w))%nat /\
  fst (make_api_request "u" [] 3 (1 # 2) w) = Raise (RequestException (Some 429)).
Proof.
  cbv zeta. split_and!; [lia | cbn; lia |].
  pose proof (make_api_request_exhausted "u" [] 3 (1 # 2)
    (mk_world [] [HttpResp 429 None; HttpResp 429 None; HttpResp 429 None] [0%Q; 0%Q] 0 [] []))
    as H.
  destruct (make_api_request _ _ _ _ _) as [r w']. apply H; [lia | cbn; lia].
Defined.

(** C36: Rate limiting is retried: after [k < retries] answers 429, a
    successful answer (a non-error status with a JSON body) is returned,
    after [k + 1] requests and [k] sleeps, the [i]-th lasting
    [backoff * 2^i] plus the [i]-th uniform draw. *)
Theorem make_api_request_retry_success (url : string) (params : list (string * json))
    (retries : nat) (b : Q) (w : world) (k : nat) (st : Z) (j : json) :
  (k < retries)%nat -> leading_429 (w_net w) = k ->
  nth k (w_net w) HttpFail = HttpResp st (Some j) -> is_http_error st = false ->
  let '(r, w') := make_api_request url params retries b w in
  r = Ret (Some j) /\
  w_sent w' = w_sent w ++ repeat (url, params) (S k) /\
  w_slept w' = w_slept w ++ backoff_delays b (w_rand w) 0 k.
Proof.
  intros Hk Hp Hnth Hst. closed_form.
  unfold retry_result. rewrite Hp, (proj2 (Nat.ltb_lt _ _) Hk), Hnth, Nat.min_l by lia.
  cbn [classify lift_some]. rewrite Hst. split_and!; [reflexivity ..| cbn; by rewrite Nat.sub_0_r].
Qed.

Lemma make_api_request_retry_success_witness :
  let w := mk_world [] [HttpResp 429 None; HttpResp 200 (Some (JStr "ok"))] [1 # 4] 0 [] [] in
  (1 < 3)%nat /\ leading_429 (w_net w) = 1%nat /\
  nth 1 (w_net w) HttpFail = HttpResp 200 (Some (JStr "ok")) /\ is_http_error 200 = false /\
  fst (make_api_request "u" [] 3 (1 # 2) w) = Ret (Some (JStr "ok")).
Proof.
  cbv zeta. split_and!; [lia | reflexivity | reflexivity | reflexivity |].
  pose proof (make_api_request_retry_success "u" [] 3 (1 # 2)
    (mk_world [] [HttpResp 429 None; HttpResp 200 (Some (JStr "ok"))] [1 # 4] 0 [] [])
    1 200 (JStr "ok")) as H.
  destruct (make_api_request _ _ _ _ _) as [r w']. apply H; [lia | reflexivity ..].
Defined.

(** With [retries = 0] the loop body never runs: make_api_request
    returns [None] without sending anything, instead of raising. *)
Theorem make_api_request_zero_retries (url : string) (params : list (string * json))
    (b : Q) (w : world) :
  make_api_request url params 0 b w = (Ret None, w).
Proof. reflexivity. Qed.

(** ** The interface the callers rely on *)

(** What api_service's callers use of [make_api_request]: a successful
    first answer is returned after one request; every exception raised
    is a [RequestException]; nothing is printed and the clock is not
    read. *)
Class ApiClient : Type := {
  api_request : string -> list (string * json) -> M (option json);
  api_request_ok : forall url params w st j rest,
    w_net w = HttpResp st (Some j) :: rest -> is_http_error st = false ->
    api_request url params w = (Ret (Some j), after_get w url params);
  api_request_raises : forall url params w e w',
    api_request url params w = (Raise e, w') -> exists st, e = RequestException st;
  api_request_log : forall url params w,
    w_log (snd (api_request url params w)) = w_log w /\
    w_now (snd (api_request url params w)) = w_now w
}.

Lemma retry_result_raise (net : list http_outcome) (retries : nat) (e : exn) :
  retry_result net retries = Raise e -> exists st, e = RequestException st.
Proof.
  unfold retry_result. destruct (_ <? _)%nat; [|intros [= <-]; eauto].
  destruct (classify _) eqn:Hc; cbn; intros [= <-]. eauto using classify_raise.
Qed.

#[export] Program Instance make_api_request_client : ApiClient := {|
  api_request := make_api_request_default
|}.
Next Obligation.
  intros url params w st j rest Hnet Hst. unfold make_api_request_default.
  unfold make_api_request; rewrite retry_loop_eq by lia.
  rewrite Hnet. cbn [leading_429]. destruct (Z.eqb_spec st 429) as [->|_]; [discriminate|].
  cbn. rewrite Hst. f_equal. apply world_after_one.
Qed.
Next Obligation.
  intros url params w e w'. unfold make_api_request_default.
  closed_form. intros [= He _]. by apply retry_result_raise in He.
Qed.
Next Obligation.
  intros url params w. unfold make_api_request_default.
  unfold make_api_request; rewrite retry_loop_eq by lia. split; reflexivity.
Qed.

End HttpClient.
