(* ===== verification/TokenResolver.v ===== *)
(** The token-id resolver of src/api_service.py: [_get_token_id]
    (lines 225-281), a static table of twenty tickers with a fallback
    scan of CoinGecko's coin list, and [get_token_list] (lines 283-310),
    the sorted set of listed symbols with a static fallback.  Both are
    written against the [ApiClient] interface of HttpClient. *)

From S2P Require Import Prelude HttpClient.

Open Scope string_scope.

Module TokenResolver.
Import HttpClient.

(** The dictionary [symbol_to_id] (lines 236-257). *)
Definition symbol_to_id_entries : list (string * string) :=
  [("BTC", "bitcoin"); ("ETH", "ethereum"); ("BNB", "binancecoin"); ("XRP", "ripple");
   ("ADA", "cardano"); ("SOL", "solana"); ("DOT", "polkadot"); ("DOGE", "dogecoin");
   ("AVAX", "avalanche-2"); ("LINK", "chainlink"); ("MATIC", "matic-network");
   ("LTC", "litecoin"); ("UNI", "uniswap"); ("ATOM", "cosmos"); ("ETC", "ethereum-classic");
   ("XLM", "stellar"); ("ALGO", "algorand"); ("FIL", "filecoin"); ("VET", "vechain");
   ("THETA", "theta-token")].

Definition symbol_to_id : gmap string string := list_to_map symbol_to_id_entries.

Definition COINS_LIST_URL : string := COINGECKO_BASE_URL ++ "/coins/list".

(** The fallback list of [get_token_list] (lines 309-310). *)
Definition FALLBACK_TOKENS : list string :=
  ["BTC"; "ETH"; "BNB"; "XRP"; "ADA"; "SOL"; "DOT"; "DOGE"; "AVAX"; "LINK";
   "MATIC"; "LTC"; "UNI"; "ATOM"; "ETC"; "XLM"; "ALGO"; "FIL"; "VET"; "THETA"].

Section Resolver.
Context `{ApiClient}.

(** [for coin in response: if coin['symbol'].upper() == symbol.upper():
    return coin['id']] then [return None] (lines 273-277). *)
Fixpoint find_coin (symbol : string) (coins : list json) : M (option json) :=
  match coins with
  | [] => mret None
  | coin :: rest =>
      s <- py_getitem coin "symbol" ;;
      su <- py_upper s ;;
      if String.eqb su (str_upper symbol)
      then id <- py_getitem coin "id" ;; mret (Some id)
      else find_coin symbol rest
  end.

(** [_get_token_id(symbol)] (lines 225-281). *)
Definition _get_token_id (symbol : string) : M (option json) :=
  match symbol_to_id !! str_upper symbol with
  | Some id => mret (Some (JStr id))
  | None =>
      py_try (response <- api_request COINS_LIST_URL [] ;;
              coins <- py_iter response ;;
              find_coin symbol coins)
             (fun e => py_print_exn e ;;; mret None)
  end.

(** [get_token_list()] (lines 283-310): [sorted(list(set(tokens)))]. *)
Definition get_token_list : M (list string) :=
  py_try (response <- api_request COINS_LIST_URL [] ;;
          coins <- py_iter response ;;
          tokens <- py_map (fun coin => s <- py_getitem coin "symbol" ;; py_upper s) coins ;;
          mret (merge_sort String.le (remove_dups tokens)))
         (fun e => py_print_exn e ;;; mret FALLBACK_TOKENS).

(** ** Specification of the scan *)

(** The ticker and id of a well-formed coin-list entry. *)
Definition coin_fields (coin : json) : option (string * json) :=
  match coin with
  | JObj kvs =>
      match json_lookup "symbol" kvs, json_lookup "id" kvs with
      | Some (JStr s), Some id => Some (s, id)
      | _, _ => None
      end
  | _ => None
  end.

Fixpoint coin_entries (coins : list json) : list (string * json) :=
  match coins with
  | [] => []
  | c :: rest => match coin_fields c with
                 | Some e => e :: coin_entries rest
                 | None => coin_entries rest
                 end
  end.

(** The first entry whose ticker matches, ignoring case. *)
Fixpoint first_match (symbol : string) (entries : list (string * json)) : option json :=
  match entries with
  | [] => None
  | (s, id) :: rest =>
      if String.eqb (str_upper s) (str_upper symbol) then Some id else first_match symbol rest
  end.

Lemma find_coin_spec (symbol : string) (coins : list json) (w : world) :
  Forall (fun c => is_Some (coin_fields c)) coins ->
  find_coin symbol coins w = (Ret (first_match symbol (coin_entries coins)), w).
Proof.
  induction 1 as [|c coins [[s id] Hc] _ IH]; [reflexivity|].
  destruct c as [| | | | |kvs]; try discriminate. cbn in Hc.
  destruct (json_lookup "symbol" kvs) as [[| | | sym | |]|] eqn:Hs; try discriminate.
  destruct (json_lookup "id" kvs) as [id'|] eqn:Hi; try discriminate.
  injection Hc as <- <-. cbn [find_coin coin_entries coin_fields]. rewrite Hs, Hi.
  py_unfold. rewrite Hs. cbn [first_match].
  destruct (String.eqb _ _); [by rewrite Hi | exact IH].
Qed.

Lemma find_coin_upper (symbol : string) (coins : list json) :
  find_coin (str_upper symbol) coins = find_coin symbol coins.
Proof.
  induction coins as [|c coins IH]; [reflexivity|]. cbn [find_coin].
  by rewrite str_upper_idem, IH.
Qed.

(** A ticker of the static table (in any case) resolves to its id with
    no request, no output and no change to the world: resolving it
    again gives the same id, still without any request. *)
Theorem _get_token_id_static (symbol id : string) (w : world) :
  symbol_to_id !! str_upper symbol = Some id ->
  _get_token_id symbol w = (Ret (Some (JStr id)), w).
Proof. intros Hid. unfold _get_token_id. by rewrite Hid. Qed.

(** _get_token_id never raises: every failure of the request, of the
    iteration or of the field lookups becomes [None]. *)
Theorem _get_token_id_total (symbol : string) (w : world) :
  exists r w', _get_token_id symbol w = (Ret r, w').
Proof.
  unfold _get_token_id. destruct (symbol_to_id !! _); [eauto|]. apply py_try_print_ret.
Qed.

(** Resolution ignores case: [_get_token_id(s)] and
    [_get_token_id(s.upper())] behave identically in every world. *)
Theorem _get_token_id_upper (symbol : string) (w : world) :
  _get_token_id (str_upper symbol) w = _get_token_id symbol w.
Proof.
  unfold _get_token_id. rewrite str_upper_idem. destruct (symbol_to_id !! _); [reflexivity|].
  unfold py_try, mbind. destruct (api_request _ _ w) as [[r|e] w1]; [|reflexivity].
  destruct (py_iter r w1) as [[coins|e] w2]; [|reflexivity]. by rewrite find_coin_upper.
Qed.

(** On a table miss one request for the coin list is sent; when it
    returns a list of well-formed entries, the id of the first entry
    whose ticker matches (ignoring case) is returned, or [None]. *)
Theorem _get_token_id_scan (symbol : string) (w : world) (st : Z) (coins : list json)
    (rest : list http_outcome) :
  symbol_to_id !! str_upper symbol = None ->
  w_net w = HttpResp st (Some (JArr coins)) :: rest -> is_http_error st = false ->
  Forall (fun c => is_Some (coin_fields c)) coins ->
  _get_token_id symbol w =
  (Ret (first_match symbol (coin_entries coins)), after_get w COINS_LIST_URL []).
Proof.
  intros Hmiss Hnet Hst Hwf. unfold _get_token_id. rewrite Hmiss.
  apply py_try_ret. erewrite mbind_ret by (eapply api_request_ok; eassumption).
  py_unfold. by apply find_coin_spec.
Qed.

(** When the coin-list request fails (after its own retries), the
    exception is printed and _get_token_id answers [None]; nothing else
    happens after the request. *)
Theorem _get_token_id_request_fails (symbol : string) (w w' : world) (e : exn) :
  symbol_to_id !! str_upper symbol = None ->
  api_request COINS_LIST_URL [] w = (Raise e, w') ->
  _get_token_id symbol w =
  (Ret None, mk_world (w_sent w') (w_net w') (w_rand w') (w_now w') (w_slept w') (w_log w' ++ [e])).
Proof.
  intros Hmiss Hreq. unfold _get_token_id. rewrite Hmiss.
  apply py_try_raise_print. by apply mbind_raise.
Qed.

(** The ticker of a coin-list entry. *)
Definition coin_symbol (c : json) : option string :=
  match c with
  | JObj kvs => match json_lookup "symbol" kvs with Some (JStr s) => Some s | _ => None end
  | _ => None
  end.

Lemma py_map_symbols (coins : list json) (syms : list string) (w : world) :
  Forall2 (fun c s => coin_symbol c = Some s) coins syms ->
  py_map (fun coin => s <- py_getitem coin "symbol" ;; py_upper s) coins w =
  (Ret (str_upper <$> syms), w).
Proof.
  induction 1 as [|c s coins syms Hc _ IH]; [reflexivity|].
  destruct c as [| | | | |kvs]; try discriminate. cbn in Hc.
  destruct (json_lookup "symbol" kvs) as [[| | |s'| |]|] eqn:Hs; try discriminate.
  injection Hc as <-. cbn [py_map].
  assert (H1 : (s <- py_getitem (JObj kvs) "symbol" ;; py_upper s) w = (Ret (str_upper s'), w)).
  { py_unfold. by rewrite Hs. }
  erewrite mbind_ret by exact H1. erewrite mbind_ret by exact IH. reflexivity.
Qed.

(** get_token_list answers the listed tickers, upper-cased, without
    duplicates and sorted (Python's [sorted(set(...))]), after one
    request. *)
Theorem get_token_list_sorted_set (w : world) (st : Z) (coins : list json)
    (rest : list http_outcome) (syms : list string) :
  w_net w = HttpResp st (Some (JArr coins)) :: rest -> is_http_error st = false ->
  Forall2 (fun c s => coin_symbol c = Some s) coins syms ->
  exists r, get_token_list w = (Ret r, after_get w COINS_LIST_URL []) /\
    Sorted String.le r /\ NoDup r /\ (forall t, t ∈ r <-> t ∈ str_upper <$> syms).
Proof.
  intros Hnet Hst Hsyms. eexists. split.
  - unfold get_token_list. apply py_try_ret.
    erewrite mbind_ret by (eapply api_request_ok; eassumption).
    erewrite mbind_ret by reflexivity.
    erewrite mbind_ret by (apply py_map_symbols; exact Hsyms). reflexivity.
  - split_and!.
    + apply Sorted_merge_sort. apply _.
    + rewrite merge_sort_Permutation. apply NoDup_remove_dups.
    + intros t. rewrite merge_sort_Permutation. apply elem_of_remove_dups.
Qed.

End Resolver.

(** Every ticker of get_token_list's fallback list resolves through the
    static table, so the offline selector never needs the network; the
    fallback list has no duplicates. *)
Theorem fallback_tokens_resolve_statically :
  Forall (fun t => is_Some (symbol_to_id !! t)) FALLBACK_TOKENS /\ NoDup FALLBACK_TOKENS.
Proof.
  split; [|apply (bool_decide_unpack (NoDup FALLBACK_TOKENS)); vm_compute; reflexivity].
  repeat (constructor; [eexists; vm_compute; reflexivity|]). constructor.
Qed.

Definition coin (s id : string) : json := JObj [("id", JStr id); ("symbol", JStr s)].

Lemma _get_token_id_static_witness :
  symbol_to_id !! str_upper "eth" = Some "ethereum" /\
  @_get_token_id make_api_request_client "eth" (mk_world [] [] [] 0 [] []) =
  (Ret (Some (JStr "ethereum")), mk_world [] [] [] 0 [] []).
Proof. split; [reflexivity | apply _get_token_id_static; reflexivity]. Defined.

Lemma _get_token_id_scan_witness :
  let w := mk_world [] [HttpResp 200 (Some (JArr [coin "pepe" "pepe-coin"; coin "PEPE" "other"]))]
                    [] 0 [] [] in
  symbol_to_id !! str_upper "Pepe" = None /\
  @_get_token_id make_api_request_client "Pepe" w =
  (Ret (Some (JStr "pepe-coin")), after_get w COINS_LIST_URL []).
Proof.
  cbv zeta. split; [reflexivity|].
  rewrite (_get_token_id_scan _ _ 200 [coin "pepe" "pepe-coin"; coin "PEPE" "other"] []);
    [reflexivity | reflexivity | reflexivity | reflexivity |].
  repeat (constructor; [eexists; reflexivity|]). constructor.
Defined.

Lemma _get_token_id_request_fails_witness :
  let w := mk_world [] [HttpResp 404 None] [] 0 [] [] in
  let w' := after_get w COINS_LIST_URL [] in
  symbol_to_id !! str_upper "pepe" = None /\
  @api_request make_api_request_client COINS_LIST_URL [] w =
    (Raise (RequestException (Some 404)), w') /\
  @_get_token_id make_api_request_client "pepe" w =
  (Ret None, mk_world (w_sent w') (w_net w') (w_rand w') (w_now w') (w_slept w')
                      (w_log w' ++ [RequestException (Some 404)])).
Proof.
  cbv zeta. split_and!; [reflexivity | reflexivity |].
  apply _get_token_id_request_fails; reflexivity.
Defined.

Lemma get_token_list_sorted_set_witness :
  let coins := [coin "eth" "ethereum"; coin "BTC" "bitcoin"; coin "btc" "b2"] in
  let w := mk_world [] [HttpResp 200 (Some (JArr coins))] [] 0 [] [] in
  w_net w = HttpResp 200 (Some (JArr coins)) :: [] /\ HttpClient.is_http_error 200 = false /\
  Forall2 (fun c s => coin_symbol c = Some s) coins ["eth"; "BTC"; "btc"] /\
  exists r, @get_token_list make_api_request_client w = (Ret r, after_get w COINS_LIST_URL []) /\
    Sorted String.le r /\ NoDup r /\ (forall t, t ∈ r <-> t ∈ str_upper <$> ["eth"; "BTC"; "btc"]).
Proof.
  cbv zeta. split_and!; [reflexivity | reflexivity | repeat constructor |].
  apply (get_token_list_sorted_set _ 200 [coin "eth" "ethereum"; coin "BTC" "bitcoin"; coin "btc" "b2"] []);
    [reflexivity | reflexivity | repeat constructor].
Defined.

End TokenResolver.
