(* ===== verification/MarketClient.v ===== *)
(** The series fetchers of src/api_service.py: [get_token_data] (lines
    117-223) and [get_market_data] (lines 312-356, continued by the
    misplaced lines 29-99).  Both compute the window of the timeframe,
    query CoinGecko through the [ApiClient] interface, reshape the JSON
    answer into columns, and on any exception print it and return a
    synthetic 30-day series drawn from [random.uniform].  Series dates
    are [datetime] values as seconds ([Q]: [fromtimestamp(ms / 1000)]
    keeps fractions of a second). *)

From S2P Require Import Prelude Dates HttpClient TokenResolver.

Open Scope string_scope.

Module MarketClient.
Import HttpClient TokenResolver.

(** The dict [token_data] returned by get_token_data: four columns. *)
Record token_series : Type := mk_token_series {
  ts_date : list Q;
  ts_price : list json;
  ts_market_cap : list json;
  ts_volume : list json
}.

(** [f"{token_id}"] for the identifiers CoinGecko returns (strings);
    other JSON values are rendered by a placeholder. *)
Definition py_str (j : json) : string :=
  match j with
  | JStr s => s
  | JNull => "None"
  | JBool true => "True"
  | JBool false => "False"
  | _ => "<value>"
  end.

(** [x[k]] on the value returned by make_api_request ([None] is not
    subscriptable). *)
Definition py_getitem_opt (r : option json) (k : string) : M json :=
  match r with Some j => py_getitem j k | None => py_raise TypeError end.

(** One iteration of [for price_entry in response['prices']] (lines
    185-190): the date [fromtimestamp(entry[0] / 1000)] and the price
    [entry[1]]. *)
Definition parse_price_entry (entry : json) : M (Q * json) :=
  ms <- py_index entry 0 ;;
  t <- py_num ms ;;
  date <- py_fromtimestamp (t / 1000) ;;
  price <- py_index entry 1 ;;
  mret (date, price).

(** The three bases of the fallback series (lines 209-211). *)
Definition mock_bases (token : string) : Q * Q * Q :=
  if String.eqb token "BTC" then (100, 100000000000, 5000000000)%Q
  else if String.eqb token "ETH" then (1, 50000000000, 2000000000)%Q
  else (1 # 10, 1000000000, 500000000)%Q.

(** [[base * (1 + random.uniform(-spread, spread)) for _ in range(30)]]. *)
Definition mock_column (base spread : Q) : M (list json) :=
  py_repeat 30 (u <- py_uniform (- spread) spread ;; mret (JNum (base * (1 + u)))).

(** The fallback of get_token_data (lines 206-223). *)
Definition mock_token_data (token : string) : M token_series :=
  now <- py_now ;;
  let dates := (fun t => inject_Z t) <$> Dates.date_range_end now 30 in
  let '(price_base, market_cap_base, volume_base) := mock_bases token in
  prices <- mock_column price_base (5 # 100) ;;
  market_caps <- mock_column market_cap_base (5 # 100) ;;
  volumes <- mock_column volume_base (1 # 10) ;;
  mret (mk_token_series dates prices market_caps volumes).

(** get_token_data (lines 117-223). *)
Definition get_token_data `{ApiClient} (token timeframe : string) : M token_series :=
  py_try
    (now <- py_now ;;
     let '(start_date, end_date, _) := Dates.token_window timeframe now in
     token_id <- _get_token_id token ;;
     match token_id with
     | Some id =>
         if py_truthy id then
           let url := COINGECKO_BASE_URL ++ "/coins/" ++ py_str id ++ "/market_chart/range" in
           let params := [("vs_currency", JStr "usd"); ("from", JNum (inject_Z start_date));
                          ("to", JNum (inject_Z end_date))] in
           response <- api_request url params ;;
           prices <- py_getitem_opt response "prices" ;;
           price_entries <- py_iter (Some prices) ;;
           rows <- py_map parse_price_entry price_entries ;;
           mcaps <- py_getitem_opt response "market_caps" ;;
           mcap_entries <- py_iter (Some mcaps) ;;
           market_caps <- dict_comprehension [] mcap_entries ;;
           vols <- py_getitem_opt response "total_volumes" ;;
           vol_entries <- py_iter (Some vols) ;;
           volumes <- dict_comprehension [] vol_entries ;;
           prices' <- py_getitem_opt response "prices" ;;
           price_entries' <- py_iter (Some prices') ;;
           dates_ms <- py_map (fun entry => py_index entry 0) price_entries' ;;
           mret (mk_token_series (fst <$> rows) (snd <$> rows)
                   ((fun k => dict_get market_caps k (JNum 0)) <$> dates_ms)
                   ((fun k => dict_get volumes k (JNum 0)) <$> dates_ms))
         else py_raise (ValueError ("Token ID not found for symbol: " ++ token))
     | None => py_raise (ValueError ("Token ID not found for symbol: " ++ token))
     end)
    (fun e => py_print_exn e ;;; mock_token_data token).

(** ** The fallback series *)

(** The fallback series as a function of the clock and of the random
    draws: prices use draws 1-30, market caps 31-60, volumes 61-90. *)
Definition mock_col (base spread : Q) (us : list Q) : list json :=
  (fun u => JNum (base * (1 + uniform_value (- spread) spread u))) <$> draws 30 us.

Definition mock_series (token : string) (now : Z) (rand : list Q) : token_series :=
  let '(price_base, market_cap_base, volume_base) := mock_bases token in
  mk_token_series ((fun t => inject_Z t) <$> Dates.date_range_end now 30)
    (mock_col price_base (5 # 100) rand)
    (mock_col market_cap_base (5 # 100) (drop 30 rand))
    (mock_col volume_base (1 # 10) (drop 60 rand)).

Lemma mock_column_eq (base spread : Q) (w : world) :
  mock_column base spread w =
  (Ret (mock_col base spread (w_rand w)), with_rand w (drop 30 (w_rand w))).
Proof.
  unfold mock_column, mock_col.
  rewrite (py_repeat_ext _ _ (u <- py_random ;;
                              mret (JNum (base * (1 + uniform_value (- spread) spread u)))))
    by (intros; apply py_uniform_map).
  apply py_repeat_random.
Qed.

Lemma mock_token_data_eq (token : string) (w : world) :
  mock_token_data token w = (Ret (mock_series token (w_now w) (w_rand w)),
                             with_rand w (drop 90 (w_rand w))).
Proof.
  unfold mock_token_data, mock_series. unfold py_now, mbind at 1.
  destruct (mock_bases token) as [[pb mb] vb].
  unfold mbind at 1. rewrite mock_column_eq.
  unfold mbind at 1. rewrite mock_column_eq.
  unfold mbind at 1. rewrite mock_column_eq.
  unfold mret, with_rand; cbn. rewrite !drop_drop. reflexivity.
Qed.

(** ** get_market_data *)

(** The dict [market_data] returned by get_market_data. *)
Record market_series : Type := mk_market_series {
  ms_date : list Q;
  ms_market_cap : list json;
  ms_volume : list json;
  ms_btc_dominance : list json
}.

(** Python's [a / b] on numbers: [ZeroDivisionError] for [b == 0]. *)
Definition py_div (a b : json) : M Q :=
  x <- py_num a ;; y <- py_num b ;;
  if Qeq_bool y 0 then py_raise ZeroDivisionError else mret (x / y)%Q.

(** Python's [min(a, b)]: [b] only when [b < a]. *)
Definition py_min (a b : Q) : Q := if qltb b a then b else a.

(** The dominance estimate of lines 74-79 for a point [days_ago] days
    old, the latest dominance being [latest]. *)
Definition estimate_dominance (latest : Q) (days_ago : Z) : Q :=
  let additional := py_min (inject_Z days_ago * (1 # 100)) 30 in
  py_min (latest + additional) 90.

(** One iteration of lines 61-81: the volume (the latest one for the
    last point, else [market_cap * volume_factor * uniform(0.8, 1.2)])
    and the dominance ([latest] for a point of the last day, else the
    estimate). *)
Definition estimate_point (n i : nat) (last_date : Q) (volume_factor : Q)
    (latest_volume latest_btc_dominance : json) (row : Q * json) : M (json * json) :=
  volume <- (if Nat.eqb i (n - 1) then mret latest_volume
             else variation <- py_uniform (8 # 10) (12 # 10) ;;
                  market_cap <- py_num (snd row) ;;
                  mret (JNum (market_cap * volume_factor * variation)%Q)) ;;
  let days_ago := Qfloor ((last_date - fst row) / 86400) in
  dominance <- (if Z.eqb days_ago 0 then mret latest_btc_dominance
                else latest <- py_num latest_btc_dominance ;;
                     mret (JNum (estimate_dominance latest days_ago))) ;;
  mret (volume, dominance).

(** [for i, market_cap in enumerate(market_data['market_cap'])]. *)
Fixpoint estimate_points (n i : nat) (last_date volume_factor : Q)
    (latest_volume latest_btc_dominance : json) (rows : list (Q * json)) :
    M (list (json * json)) :=
  match rows with
  | [] => mret []
  | row :: rest =>
      p <- estimate_point n i last_date volume_factor latest_volume latest_btc_dominance row ;;
      ps <- estimate_points n (S i) last_date volume_factor latest_volume latest_btc_dominance rest ;;
      mret (p :: ps)
  end.

(** The fallback of get_market_data (lines 88-99). *)
Definition mock_market_data : M market_series :=
  now <- py_now ;;
  let dates := (fun t => inject_Z t) <$> Dates.date_range_end now 30 in
  market_cap <- mock_column 2100000000000 (5 # 100) ;;
  volume <- mock_column 120000000000 (1 # 10) ;;
  btc_dominance <- py_repeat 30 (u <- py_uniform (-5) 5 ;; mret (JNum (45 + u))) ;;
  mret (mk_market_series dates market_cap volume btc_dominance).

Definition GLOBAL_HISTORY_URL : string := COINGECKO_BASE_URL ++ "/global/history".
Definition GLOBAL_URL : string := COINGECKO_BASE_URL ++ "/global".

(** get_market_data: lines 322-356, continued by lines 29-99. *)
Definition get_market_data `{ApiClient} (timeframe : string) : M market_series :=
  py_try
    (now <- py_now ;;
     let '(start_date, end_date, _) := Dates.market_window timeframe now in
     response <- api_request GLOBAL_HISTORY_URL
                   [("from", JNum (inject_Z start_date)); ("to", JNum (inject_Z end_date))] ;;
     chart <- py_getitem_opt response "market_cap_chart" ;;
     by_date <- py_getitem chart "market_cap_by_date" ;;
     entries <- py_iter (Some by_date) ;;
     rows <- py_map parse_price_entry entries ;;
     response' <- api_request GLOBAL_URL [] ;;
     data <- py_getitem_opt response' "data" ;;
     total_volume <- py_getitem data "total_volume" ;;
     latest_volume <- py_getitem total_volume "usd" ;;
     percentages <- py_getitem data "market_cap_percentage" ;;
     latest_btc_dominance <- py_getitem percentages "btc" ;;
     last_row <- (match last rows with Some r => mret r | None => py_raise IndexError end) ;;
     volume_factor <- py_div latest_volume (snd last_row) ;;
     points <- estimate_points (length rows) 0 (fst last_row) volume_factor
                 latest_volume latest_btc_dominance rows ;;
     mret (mk_market_series (fst <$> rows) (snd <$> rows) (fst <$> points) (snd <$> points)))
    (fun e => py_print_exn e ;;; mock_market_data).

(** The four columns have one value per row. *)
Definition series_wf (s : token_series) : Prop :=
  length (ts_price s) = length (ts_date s) /\ length (ts_market_cap s) = length (ts_date s) /\
  length (ts_volume s) = length (ts_date s).

Lemma length_draws (n : nat) (l : list Q) : length (draws n l) = n.
Proof. unfold draws. by rewrite length_fmap, length_seq. Qed.

Lemma mock_series_wf (token : string) (now : Z) (rand : list Q) :
  series_wf (mock_series token now rand).
Proof.
  unfold mock_series, mock_col. destruct (mock_bases token) as [[pb mb] vb].
  unfold series_wf. cbn [ts_date ts_price ts_market_cap ts_volume].
  rewrite !length_fmap, !length_draws, Dates.length_date_range_end. auto.
Qed.

Lemma py_getitem_opt_det (r : option json) (k : string) (w1 w2 w1' w2' : world) (a b : json) :
  py_getitem_opt r k w1 = (Ret a, w1') -> py_getitem_opt r k w2 = (Ret b, w2') -> a = b.
Proof.
  destruct r as [[| | | | |kvs]|]; cbn; py_unfold; try congruence.
  destruct (json_lookup k kvs); congruence.
Qed.

Lemma py_iter_det (r : option json) (w1 w2 w1' w2' : world) (a b : list json) :
  py_iter r w1 = (Ret a, w1') -> py_iter r w2 = (Ret b, w2') -> a = b.
Proof. destruct r as [[| | | | |]|]; cbn; py_unfold; congruence. Qed.

(** Break a successful chain of binds into its steps. *)
Ltac inv_binds H :=
  repeat match type of H with
         | mbind _ _ _ = (Ret _, _) =>
             let a := fresh "a" in let w := fresh "w" in let Hs := fresh "Hs" in
             apply mbind_inv in H as (a & w & Hs & H); cbv beta in H
         end.

(** ** The reshaping of a well-formed answer *)

(** A [[timestamp_ms, value]] entry of the market-chart answer. *)
Definition pair_json (p : Q * json) : json := JArr [JNum (fst p); snd p].

Definition chart_json (prices market_caps volumes : list (Q * json)) : json :=
  JObj [("prices", JArr (pair_json <$> prices)); ("market_caps", JArr (pair_json <$> market_caps));
        ("total_volumes", JArr (pair_json <$> volumes))].

(** The value of the last entry whose timestamp equals [t], or 0: what
    [{entry[0]: entry[1] ...}.get(t, 0)] finds. *)
Definition last_value (t : Q) (pairs : list (Q * json)) : json :=
  fold_left (fun acc kv => if Qeq_bool t (fst kv) then snd kv else acc) pairs (JNum 0).

Definition in_timestamp_range (t : Q) : bool :=
  Qle_bool (inject_Z MIN_TIMESTAMP) t && Qle_bool t (inject_Z MAX_TIMESTAMP).

Definition chart_url (id : string) : string :=
  COINGECKO_BASE_URL ++ "/coins/" ++ id ++ "/market_chart/range".

Definition chart_params (timeframe : string) (now : Z) : list (string * json) :=
  let '(start_date, end_date, _) := Dates.token_window timeframe now in
  [("vs_currency", JStr "usd"); ("from", JNum (inject_Z start_date));
   ("to", JNum (inject_Z end_date))].

Lemma dict_comprehension_pairs (acc : pydict) (pairs : list (Q * json)) (w : world) :
  dict_comprehension acc (pair_json <$> pairs) w =
  (Ret (fold_left (fun d kv => dict_set (JNum (fst kv)) (snd kv) d) pairs acc), w).
Proof.
  revert acc. induction pairs as [|[t v] pairs IH]; intros acc; [reflexivity|].
  cbn [fmap list_fmap dict_comprehension]. py_unfold. cbn. apply IH.
Qed.

Lemma dict_get_fold (pairs : list (Q * json)) (acc : pydict) (t : Q) (dflt : json) :
  dict_get (fold_left (fun d kv => dict_set (JNum (fst kv)) (snd kv) d) pairs acc) (JNum t) dflt =
  fold_left (fun r kv => if Qeq_bool t (fst kv) then snd kv else r) pairs (dict_get acc (JNum t) dflt).
Proof.
  revert acc. induction pairs as [|[q v] pairs IH]; intros acc; [reflexivity|].
  cbn [fold_left]. rewrite IH, dict_get_set. reflexivity.
Qed.

Lemma parse_price_entries (ps : list (Q * json)) (w : world) :
  Forall (fun p => in_timestamp_range (fst p / 1000) = true) ps ->
  py_map parse_price_entry (pair_json <$> ps) w =
  (Ret ((fun p => (fst p / 1000, snd p)%Q) <$> ps), w).
Proof.
  induction 1 as [|[t v] ps Hr _ IH]; [reflexivity|].
  cbn [fmap list_fmap py_map]. unfold parse_price_entry.
  assert (Hp : (ms <- py_index (pair_json (t, v)) 0 ;; t' <- py_num ms ;;
                date <- py_fromtimestamp (t' / 1000) ;; price <- py_index (pair_json (t, v)) 1 ;;
                mret (date, price)) w = (Ret ((t / 1000)%Q, v), w)).
  { py_unfold. cbn in Hr |- *. unfold in_timestamp_range in Hr. by rewrite Hr. }
  erewrite mbind_ret by exact Hp. erewrite mbind_ret by exact IH. reflexivity.
Qed.

Lemma index0_entries (ps : list (Q * json)) (w : world) :
  py_map (fun entry => py_index entry 0) (pair_json <$> ps) w =
  (Ret ((fun p => JNum (fst p)) <$> ps), w).
Proof.
  induction ps as [|[t v] ps IH]; [reflexivity|].
  cbn [fmap list_fmap py_map]. erewrite mbind_ret by reflexivity.
  erewrite mbind_ret by exact IH. reflexivity.
Qed.

(** Every value of a column is a number within [base * (1 +- spread)]. *)
Definition col_within (base spread : Q) (col : list json) : Prop :=
  Forall (fun j => exists x, j = JNum x /\ (base * (1 - spread) <= x <= base * (1 + spread))%Q) col.

Lemma mock_col_within (base spread : Q) (us : list Q) :
  (0 <= base)%Q -> (0 <= spread)%Q -> Forall (fun u => 0 <= u < 1)%Q us ->
  col_within base spread (mock_col base spread us).
Proof.
  intros Hb Hs Hus. unfold col_within, mock_col, draws. rewrite <- list_fmap_compose.
  apply Forall_fmap, Forall_forall. intros i _. cbn. eexists; split; [reflexivity|].
  assert (Hu : (0 <= nth i us 0 < 1)%Q).
  { destruct (nth_in_or_default i us 0%Q) as [Hin| ->].
    - rewrite List.Forall_forall in Hus. exact (Hus _ Hin).
    - lra. }
  pose proof (uniform_value_bounds (- spread) spread (nth i us 0%Q) ltac:(lra) Hu). nra.
Qed.

Lemma inject_Z_sub (x y : Z) : (inject_Z x - inject_Z y)%Q = inject_Z (x - y).
Proof. unfold Qminus. by rewrite <- inject_Z_opp, <- inject_Z_plus. Qed.

(** Shape and bounds of the synthetic series: 30 dates one day
    apart, the last one [now]; with draws in [0,1) every price and market
    cap is within 5% of the token's base and every volume within 10%
    (bases 100, 1e11, 5e9 for BTC; 1, 5e10, 2e9 for ETH; 0.1, 1e9, 5e8
    otherwise). *)
Theorem mock_series_shape (token : string) (now : Z) (rand : list Q) :
  Forall (fun u => 0 <= u < 1)%Q rand ->
  let s := mock_series token now rand in
  let '(pb, mb, vb) := mock_bases token in
  length (ts_date s) = 30%nat /\ ts_date s !! 29%nat = Some (inject_Z now) /\
  (forall i a b, ts_date s !! i = Some a -> ts_date s !! S i = Some b -> (b - a)%Q = 86400%Q) /\
  col_within pb (5 # 100) (ts_price s) /\ col_within mb (5 # 100) (ts_market_cap s) /\
  col_within vb (1 # 10) (ts_volume s).
Proof.
  intros Hr. unfold mock_series. destruct (mock_bases token) as [[pb mb] vb] eqn:Hb.
  assert (Hpos : (0 <= pb /\ 0 <= mb /\ 0 <= vb)%Q).
  { unfold mock_bases in Hb.
    destruct (String.eqb token "BTC"); [|destruct (String.eqb token "ETH")];
      injection Hb as <- <- <-; split_and!; discriminate. }
  destruct Hpos as (Hp & Hm & Hv). cbn [ts_date ts_price ts_market_cap ts_volume].
  split_and!.
  - by rewrite length_fmap, Dates.length_date_range_end.
  - rewrite list_lookup_fmap, Dates.date_range_end_lookup by lia. cbn [fmap option_fmap option_map].
    do 2 f_equal. replace (Z.of_nat 30 - 1 - Z.of_nat 29)%Z with 0%Z by lia. lia.
  - intros i a b Ha Hb'. rewrite list_lookup_fmap in Ha, Hb'.
    destruct (decide (S i < 30)%nat) as [Hi|Hi].
    + rewrite Dates.date_range_end_lookup in Ha, Hb' by lia.
      injection Ha as <-. injection Hb' as <-. rewrite inject_Z_sub.
      match goal with |- inject_Z ?d = _ =>
        replace d with 86400%Z by (rewrite Nat2Z.inj_succ; unfold Dates.DAY; lia) end.
      reflexivity.
    + rewrite lookup_ge_None_2 in Hb'; [discriminate|].
      rewrite Dates.length_date_range_end. lia.
  - apply mock_col_within; [exact Hp | discriminate | exact Hr].
  - apply mock_col_within; [exact Hm | discriminate | by apply Forall_drop].
  - apply mock_col_within; [exact Hv | discriminate | by apply Forall_drop].
Qed.

Lemma mock_series_shape_witness :
  Forall (fun u => 0 <= u < 1)%Q [1 # 2; 0%Q; 3 # 4] /\
  length (ts_date (mock_series "BTC" 1700000000 [1 # 2; 0%Q; 3 # 4])) = 30%nat.
Proof.
  split; [repeat constructor; discriminate|].
  pose proof (mock_series_shape "BTC" 1700000000 [1 # 2; 0%Q; 3 # 4]) as H.
  cbn zeta in H. destruct (mock_bases "BTC") as [[pb mb] vb].
  apply H. repeat constructor; discriminate.
Defined.

Lemma py_min_cases (a b : Q) :
  (py_min a b = b /\ b < a)%Q \/ (py_min a b = a /\ a <= b)%Q.
Proof.
  unfold py_min, qltb. destruct (Qle_bool a b) eqn:Hab; cbn.
  - right. split; [reflexivity|]. by apply Qle_bool_iff.
  - left. split; [reflexivity|]. apply Qnot_le_lt. intros Hle. apply Qle_bool_iff in Hle. congruence.
Qed.

Lemma py_min_le_l (a b : Q) : (py_min a b <= a)%Q.
Proof. destruct (py_min_cases a b) as [[-> ?]|[-> ?]]; lra. Qed.

Lemma py_min_le_r (a b : Q) : (py_min a b <= b)%Q.
Proof. destruct (py_min_cases a b) as [[-> ?]|[-> ?]]; lra. Qed.

Lemma py_min_glb (a b c : Q) : (c <= a)%Q -> (c <= b)%Q -> (c <= py_min a b)%Q.
Proof. destruct (py_min_cases a b) as [[-> ?]|[-> ?]]; lra. Qed.

Lemma py_min_mono (a a' b : Q) : (a <= a')%Q -> (py_min a b <= py_min a' b)%Q.
Proof.
  intros H. apply py_min_glb; [|apply py_min_le_r].
  eapply Qle_trans; [apply py_min_le_l | exact H].
Qed.

(** The BTC dominance estimate of a point [d] days old is never
    above 90; for a point of the past (d >= 0) and a latest value
    [latest <= 90] it lies between [latest] and [latest + 30], and it
    does not decrease with age. *)
Theorem estimate_dominance_bounds (latest : Q) (d d' : Z) :
  (estimate_dominance latest d <= 90)%Q /\
  ((0 <= d)%Z -> (latest <= 90)%Q ->
   (latest <= estimate_dominance latest d <= latest + 30)%Q) /\
  ((d <= d')%Z -> (estimate_dominance latest d <= estimate_dominance latest d')%Q).
Proof.
  unfold estimate_dominance.
  assert (Hd : forall x y : Z, (x <= y)%Z -> (inject_Z x * (1 # 100) <= inject_Z y * (1 # 100))%Q).
  { intros x y Hxy. apply Qmult_le_r; [reflexivity|]. by rewrite <- Zle_Qle. }
  split_and!.
  - apply py_min_le_r.
  - intros Hd0 Hl. split.
    + apply py_min_glb; [|exact Hl]. pose proof (Hd 0%Z d Hd0) as H0.
      change (inject_Z 0) with 0%Q in H0.
      pose proof (py_min_glb (inject_Z d * (1 # 100)) 30 0 ltac:(lra) ltac:(lra)). lra.
    + eapply Qle_trans; [apply py_min_le_l|]. pose proof (py_min_le_r (inject_Z d * (1 # 100)) 30).
      lra.
  - intros Hdd. apply py_min_mono. apply Qplus_le_r. apply py_min_mono. by apply Hd.
Qed.

Lemma estimate_dominance_bounds_witness :
  (0 <= 400)%Z /\ (50 <= 90)%Q /\
  (50 <= estimate_dominance 50 400 <= 50 + 30)%Q.
Proof.
  split; [lia|]. split; [lra|].
  exact (proj1 (proj2 (estimate_dominance_bounds 50 400 500)) ltac:(lia) ltac:(lra)).
Defined.

Definition market_series_wf (m : market_series) : Prop :=
  length (ms_market_cap m) = length (ms_date m) /\ length (ms_volume m) = length (ms_date m) /\
  length (ms_btc_dominance m) = length (ms_date m).

Lemma estimate_points_length (n i : nat) (last vf : Q) (lv ld : json) (rows : list (Q * json))
    (ps : list (json * json)) (w w' : world) :
  estimate_points n i last vf lv ld rows w = (Ret ps, w') -> length ps = length rows.
Proof.
  revert i ps w w'. induction rows as [|r rows IH]; intros i ps w w' H; cbn in H.
  - unfold mret in H. by injection H as <- _.
  - apply mbind_inv in H as (p & w1 & _ & H). apply mbind_inv in H as (ps' & w2 & Hps & H).
    unfold mret in H. injection H as <- _. cbn. f_equal. eauto.
Qed.

Lemma mock_market_data_wf (w : world) :
  exists m w', mock_market_data w = (Ret m, w') /\ market_series_wf m /\
               length (ms_date m) = 30%nat.
Proof.
  unfold mock_market_data. unfold py_now, mbind at 1. cbv beta.
  unfold mbind at 1. rewrite mock_column_eq. unfold mbind at 1. rewrite mock_column_eq.
  unfold mbind at 1.
  rewrite (py_repeat_ext _ _ (u <- py_random ;; mret (JNum (45 + uniform_value (-5) 5 u))))
    by (intros; apply py_uniform_map).
  rewrite py_repeat_random. unfold mret. eexists _, _. split; [reflexivity|].
  unfold market_series_wf, mock_col. cbn [ms_date ms_market_cap ms_volume ms_btc_dominance].
  rewrite !length_fmap, !length_draws, Dates.length_date_range_end. auto.
Qed.

Section WithApi.
Context `{ApiClient}.

(** C15: For a token of the static table and a well-formed market-chart
    answer, get_token_data sends one request, for the timeframe's window,
    and returns one row per price entry: the date [ms / 1000], the price,
    and the market cap and volume of the last entry with the same
    timestamp, or 0 when there is none. *)
Theorem get_token_data_aligned (token tf id : string) (w : world) (st : Z)
    (ps ms vs : list (Q * json)) (rest : list http_outcome) :
  symbol_to_id !! str_upper token = Some id -> String.eqb id "" = false ->
  w_net w = HttpResp st (Some (chart_json ps ms vs)) :: rest -> is_http_error st = false ->
  Forall (fun p => in_timestamp_range (fst p / 1000) = true) ps ->
  get_token_data token tf w =
  (Ret (mk_token_series ((fun p => fst p / 1000)%Q <$> ps) (snd <$> ps)
          ((fun p => last_value (fst p) ms) <$> ps) ((fun p => last_value (fst p) vs) <$> ps)),
   after_get w (chart_url id) (chart_params tf (w_now w))).
Proof.
  intros Hid Hne Hnet Hst Hps. unfold get_token_data. apply py_try_ret.
  erewrite mbind_ret by reflexivity. cbv beta.
  unfold chart_params. destruct (Dates.token_window tf (w_now w)) as [[sd ed] iv].
  erewrite mbind_ret by (unfold _get_token_id; by rewrite Hid).
  cbn [py_truthy]. rewrite Hne. cbn [negb].
  erewrite mbind_ret by (eapply api_request_ok; eassumption).
  erewrite mbind_ret by reflexivity. erewrite mbind_ret by reflexivity.
  erewrite mbind_ret by (apply parse_price_entries; exact Hps).
  erewrite mbind_ret by reflexivity. erewrite mbind_ret by reflexivity.
  erewrite mbind_ret by apply dict_comprehension_pairs.
  erewrite mbind_ret by reflexivity. erewrite mbind_ret by reflexivity.
  erewrite mbind_ret by apply dict_comprehension_pairs.
  erewrite mbind_ret by reflexivity. erewrite mbind_ret by reflexivity.
  erewrite mbind_ret by apply index0_entries.
  unfold mret. rewrite <- !list_fmap_compose. do 2 f_equal.
  f_equal; apply list_fmap_ext; intros i [t v] _; cbn; rewrite ?dict_get_fold; reflexivity.
Qed.

(** An unknown ticker with the coin-list request failing (no
    network): get_token_data prints the request's exception and the
    ValueError, and returns the synthetic series of 30 daily points
    ending now, drawn from the next 90 random numbers. *)
Theorem get_token_data_offline (token tf : string) (w w1 : world) (e : exn) :
  symbol_to_id !! str_upper token = None ->
  api_request COINS_LIST_URL [] w = (Raise e, w1) ->
  get_token_data token tf w =
  (Ret (mock_series token (w_now w) (w_rand w1)),
   with_rand (log_exn (log_exn w1 e) (ValueError ("Token ID not found for symbol: " ++ token)))
             (drop 90 (w_rand w1))).
Proof.
  intros Hmiss Hreq. unfold get_token_data, py_try.
  erewrite mbind_ret by reflexivity. cbv beta.
  destruct (Dates.token_window tf (w_now w)) as [[sd ed] iv].
  erewrite mbind_ret by (unfold _get_token_id; rewrite Hmiss; apply py_try_raise_print; by apply mbind_raise).
  cbn iota beta. unfold py_raise. cbv beta iota zeta.
  unfold mbind. rewrite py_print_exn_eq, mock_token_data_eq.
  destruct (api_request_log COINS_LIST_URL [] w) as [_ Hnow]. rewrite Hreq in Hnow.
  cbn in Hnow. cbn. f_equal. by rewrite Hnow.
Qed.

(** C37: get_token_data never raises, and the series it returns (parsed
    from the answer or synthetic) always has four columns of equal
    length. *)
Theorem get_token_data_wf (token tf : string) (w : world) :
  exists s w', get_token_data token tf w = (Ret s, w') /\ series_wf s.
Proof.
  unfold get_token_data, py_try.
  match goal with |- context [match ?body w with _ => _ end] =>
    destruct (body w) as [[s|e] w1] eqn:Hbody end.
  - exists s, w1. split; [reflexivity|]. inv_binds Hbody.
    destruct (Dates.token_window tf a) as [[sd ed] iv]. inv_binds Hbody.
    destruct a0 as [id|]; [|discriminate]. destruct (py_truthy id); [|discriminate].
    inv_binds Hbody. unfold mret in Hbody. injection Hbody as <- _.
    pose proof (py_getitem_opt_det _ _ _ _ _ _ _ _ Hs2 Hs11) as <-.
    pose proof (py_iter_det _ _ _ _ _ _ _ Hs3 Hs12) as <-.
    apply py_map_length in Hs4, Hs13. unfold series_wf; cbn. rewrite !length_fmap. lia.
  - unfold mbind. rewrite py_print_exn_eq, mock_token_data_eq. eexists _, _.
    split; [reflexivity | apply mock_series_wf].
Qed.

(** get_market_data never raises, and the series it returns (parsed
    and estimated, or synthetic) always has four columns of equal
    length. *)
Theorem get_market_data_wf (tf : string) (w : world) :
  exists m w', get_market_data tf w = (Ret m, w') /\ market_series_wf m.
Proof.
  unfold get_market_data, py_try.
  match goal with |- context [match ?body w with _ => _ end] =>
    destruct (body w) as [[m|e] w1] eqn:Hbody end.
  - exists m, w1. split; [reflexivity|]. inv_binds Hbody.
    destruct (Dates.market_window tf a) as [[sd ed] iv]. inv_binds Hbody.
    unfold mret in Hbody. injection Hbody as <- _.
    match goal with H : estimate_points _ _ _ _ _ _ _ _ = _ |- _ => apply estimate_points_length in H end.
    unfold market_series_wf; cbn. rewrite !length_fmap. lia.
  - unfold mbind. rewrite py_print_exn_eq.
    destruct (mock_market_data_wf (log_exn w1 e)) as (m & w' & -> & Hwf & _). eauto.
Qed.

End WithApi.

Lemma get_token_data_aligned_witness :
  let ps := [(1000000%Q, JNum 5); (2000000%Q, JNum 6)] in
  let ms := [(1000000%Q, JNum 50); (1000000%Q, JNum 55)] in
  let w := mk_world [] [HttpResp 200 (Some (chart_json ps ms []))] [] 1700000000 [] [] in
  symbol_to_id !! str_upper "btc" = Some "bitcoin" /\ String.eqb "bitcoin" "" = false /\
  w_net w = HttpResp 200 (Some (chart_json ps ms [])) :: [] /\ is_http_error 200 = false /\
  Forall (fun p => in_timestamp_range (fst p / 1000) = true) ps /\
  @get_token_data make_api_request_client "btc" "7d" w =
  (Ret (mk_token_series ((fun p => fst p / 1000)%Q <$> ps) (snd <$> ps)
          ((fun p => last_value (fst p) ms) <$> ps) ((fun p => last_value (fst p) []) <$> ps)),
   after_get w (chart_url "bitcoin") (chart_params "7d" (w_now w))).
Proof.
  cbv zeta. split_and!; [reflexivity | reflexivity | reflexivity | reflexivity |
                         repeat constructor |].
  apply (get_token_data_aligned _ _ _ _ 200 _ _ _ []); [reflexivity | reflexivity | reflexivity | reflexivity |
                                 repeat constructor].
Defined.

Lemma get_token_data_offline_witness :
  let w := mk_world [] [HttpResp 404 None] [] 1700000000 [] [] in
  let w1 := after_get w COINS_LIST_URL [] in
  symbol_to_id !! str_upper "pepe" = None /\
  @api_request make_api_request_client COINS_LIST_URL [] w = (Raise (RequestException (Some 404)), w1) /\
  @get_token_data make_api_request_client "pepe" "30d" w =
  (Ret (mock_series "pepe" (w_now w) (w_rand w1)),
   with_rand (log_exn (log_exn w1 (RequestException (Some 404)))
                      (ValueError ("Token ID not found for symbol: " ++ "pepe")))
             (drop 90 (w_rand w1))).
Proof.
  cbv zeta. split_and!; [reflexivity | reflexivity |].
  apply get_token_data_offline; reflexivity.
Defined.

End MarketClient.
