(* ===== verification/Normalizer.v ===== *)
(** The data normalizer of src/data_processor.py: process_historical_data
    (lines 5-46).  A pandas DataFrame is a [frame]: the date column and
    the other columns by name, in insertion order, each a list of [num]
    ([NaN] for a missing value).  The pandas operations used are modelled
    one by one: [sort_values('date')], [pct_change()] (which pads missing
    values forward first, the default [fill_method='pad']),
    [rolling(w).mean()] and [rolling(w).std()] (defined once [w] valid
    values fill the window, sample standard deviation), elementwise
    division and [fillna(method='bfill')].  The square root of [.std()]
    is a parameter [fsqrt] of the section: nothing proved here depends on
    its values. *)

From S2P Require Import Prelude MarketClient.

Open Scope string_scope.

Module Normalizer.

Abbreviation column := (list num) (only parsing).

(** ** Column operations *)

(** [Series.ffill()]: a missing value takes the last valid one above. *)
Fixpoint ffill_from (last : num) (xs : column) : column :=
  match xs with
  | [] => []
  | x :: rest => let v := if is_nan x then last else x in v :: ffill_from v rest
  end.

Definition ffill (xs : column) : column := ffill_from NaN xs.

(** [Series.bfill()]: a missing value takes the next valid one below. *)
Fixpoint bfill (xs : column) : column :=
  match xs with
  | [] => []
  | x :: rest => let ys := bfill rest in (if is_nan x then hd NaN ys else x) :: ys
  end.

(** [x / x.shift(1) - 1] on the padded column. *)
Fixpoint ratios_minus_one (prev : num) (xs : column) : column :=
  match xs with
  | [] => []
  | x :: rest => nsub (ndiv x prev) (Fin 1) :: ratios_minus_one x rest
  end.

(** [Series.pct_change()]. *)
Definition pct_change (xs : column) : column :=
  match ffill xs with
  | [] => []
  | x :: rest => NaN :: ratios_minus_one x rest
  end.

Definition scale (k : Q) (xs : column) : column := (fun x => nmul x (Fin k)) <$> xs.

Definition nsum (xs : column) : num := fold_left nadd xs (Fin 0).

(** The window of [w] rows ending at row [i] (the first [w-1] rows have
    none). *)
Definition window (w i : nat) (xs : column) : option column :=
  if (S i <? w)%nat then None else Some (take w (drop (S i - w) xs)).

(** [rolling(w)] with [min_periods = w]: the statistic of a full window
    without missing value, else [NaN]. *)
Definition rolling (stat : column -> num) (w : nat) (xs : column) : column :=
  imap (fun i _ => match window w i xs with
                   | Some win => if existsb is_nan win then NaN else stat win
                   | None => NaN
                   end) xs.

Definition mean (win : column) : num := ndiv (nsum win) (Fin (inject_Z (Z.of_nat (length win)))).

Section WithSqrt.
Variable fsqrt : Q -> Q.

Definition nsqrt (x : num) : num :=
  match x with
  | Fin q => if qltb q 0 then NaN else Fin (fsqrt q)
  | PInf => PInf
  | _ => NaN
  end.

(** The sample standard deviation ([ddof=1]). *)
Definition std (win : column) : num :=
  let m := mean win in
  nsqrt (ndiv (nsum ((fun x => nmul (nsub x m) (nsub x m)) <$> win))
              (Fin (inject_Z (Z.of_nat (length win) - 1)))).

(** ** DataFrames *)

Record frame : Type := mk_frame {
  fr_date : list Q;
  fr_cols : list (string * column)
}.

Definition has_col (name : string) (cols : list (string * column)) : bool :=
  existsb (fun c => String.eqb (fst c) name) cols.

Definition get_col (name : string) (cols : list (string * column)) : column :=
  match List.find (fun c => String.eqb (fst c) name) cols with
  | Some c => snd c
  | None => []
  end.

(** [df[name] = v]: replaces the column in place, or appends it. *)
Fixpoint set_col (name : string) (v : column) (cols : list (string * column)) :
    list (string * column) :=
  match cols with
  | [] => [(name, v)]
  | c :: rest => if String.eqb (fst c) name then (name, v) :: rest else c :: set_col name v rest
  end.

(** A decoded value in a float column: numbers, and [None] as [NaN]. *)
Definition json_to_num (j : json) : option num :=
  match j with
  | JNum q => Some (Fin q)
  | JNull => Some NaN
  | _ => None
  end.

(** [pd.DataFrame(data_dict)]: the arrays must have one length; a
    non-numeric value makes the column unusable for the arithmetic below,
    modelled as a [TypeError]. *)
Definition pd_dataframe (dates : list Q) (cols : list (string * list json)) : M frame :=
  if forallb (fun c => Nat.eqb (length (snd c)) (length dates)) cols then
    match mapM (fun c => (fun v => (fst c, v)) <$> mapM json_to_num (snd c)) cols with
    | Some cs => mret (mk_frame dates cs)
    | None => py_raise TypeError
    end
  else py_raise (ValueError "All arrays must be of the same length").

#[export] Instance date_le_dec : RelDecision (fun a b : Q * nat => (fst a <= fst b)%Q).
Proof.
  intros a b. destruct (Qlt_le_dec (fst b) (fst a)) as [H|H]; [right; lra | left; exact H].
Defined.

(** The row order of [df.sort_values('date')] (a stable sort). *)
Definition date_order (dates : list Q) : list nat :=
  snd <$> merge_sort (fun a b : Q * nat => (fst a <= fst b)%Q) (zip dates (seq 0 (length dates))).

Definition reorder {A} (dflt : A) (idx : list nat) (xs : list A) : list A :=
  (fun i => nth i xs dflt) <$> idx.

Definition sort_by_date (fr : frame) : frame :=
  let idx := date_order (fr_date fr) in
  mk_frame (reorder 0%Q idx (fr_date fr))
           ((fun c => (fst c, reorder NaN idx (snd c))) <$> fr_cols fr).

(** The moving averages of lines 38-41, column by column. *)
Definition add_moving_averages (cols : list (string * column)) (col : string) :
    list (string * column) :=
  if has_col col cols then
    let cols := set_col (col ++ "_7d_ma") (rolling mean 7 (get_col col cols)) cols in
    set_col (col ++ "_30d_ma") (rolling mean 30 (get_col col cols)) cols
  else cols.

(** Lines 19-44 on a DataFrame. *)
Definition normalize (fr : frame) : frame :=
  let fr := sort_by_date fr in
  let cols := fr_cols fr in
  let cols :=
    if has_col "price" cols then
      let cols := set_col "daily_return" (scale 100 (pct_change (get_col "price" cols))) cols in
      set_col "volatility" (rolling std 10 (get_col "daily_return" cols)) cols
    else cols in
  let cols :=
    if has_col "market_cap" cols then
      set_col "market_cap_change" (scale 100 (pct_change (get_col "market_cap" cols))) cols
    else cols in
  let cols :=
    if has_col "volume" cols && has_col "market_cap" cols then
      set_col "volume_to_mcap" (zip_with ndiv (get_col "volume" cols) (get_col "market_cap" cols))
              cols
    else cols in
  let cols := fold_left add_moving_averages ["price"; "market_cap"; "volume"] cols in
  mk_frame (fr_date fr) ((fun c => (fst c, bfill (snd c))) <$> cols).

(** process_historical_data (lines 5-46). *)
Definition process_historical_data (dates : list Q) (cols : list (string * list json)) : M frame :=
  fr <- pd_dataframe dates cols ;; mret (normalize fr).

End WithSqrt.

(** The dicts passed by app.py. *)
Definition token_dict (s : MarketClient.token_series) : list (string * list json) :=
  [("price", MarketClient.ts_price s); ("market_cap", MarketClient.ts_market_cap s);
   ("volume", MarketClient.ts_volume s)].

Definition market_dict (m : MarketClient.market_series) : list (string * list json) :=
  [("market_cap", MarketClient.ms_market_cap m); ("volume", MarketClient.ms_volume m);
   ("btc_dominance", MarketClient.ms_btc_dominance m)].

(** Every column has one value per row. *)
Definition frame_wf (fr : frame) : Prop :=
  Forall (fun c => length (snd c) = length (fr_date fr)) (fr_cols fr).

Definition col_names (fr : frame) : list string := fst <$> fr_cols fr.

(** A present value: finite (not [NaN], not infinite). *)
Definition is_fin (x : num) : bool := match x with Fin _ => true | _ => false end.

Definition is_pos (x : num) : bool := match x with Fin q => qltb 0 q | _ => false end.

(** The column set the specification (section 4.3) requires of a
    normalized token series, besides [date]. *)
Definition TOKEN_COLUMNS : list string :=
  ["price"; "market_cap"; "volume"; "daily_return"; "volatility"; "market_cap_change";
   "volume_to_mcap"; "price_7d_ma"; "price_30d_ma"; "market_cap_7d_ma"; "market_cap_30d_ma";
   "volume_7d_ma"; "volume_30d_ma"].

(** ** Lengths *)

Lemma length_ffill_from (last : num) (xs : column) : length (ffill_from last xs) = length xs.
Proof. revert last. induction xs; intros; cbn; auto. Qed.

Lemma length_bfill (xs : column) : length (bfill xs) = length xs.
Proof. induction xs; cbn; auto. Qed.

Lemma length_ratios_minus_one (prev : num) (xs : column) :
  length (ratios_minus_one prev xs) = length xs.
Proof. revert prev. induction xs; intros; cbn; auto. Qed.

Lemma length_pct_change (xs : column) : length (pct_change xs) = length xs.
Proof.
  unfold pct_change. rewrite <- (length_ffill_from NaN xs). fold (ffill xs).
  destruct (ffill xs); cbn; [reflexivity|]. by rewrite length_ratios_minus_one.
Qed.

Lemma length_scale (k : Q) (xs : column) : length (scale k xs) = length xs.
Proof. apply length_fmap. Qed.

Lemma length_rolling (stat : column -> num) (w : nat) (xs : column) :
  length (rolling stat w xs) = length xs.
Proof. apply length_imap. Qed.

#[export] Hint Rewrite length_bfill length_pct_change length_scale length_rolling
  length_ffill_from : pyrw.

(** ** Backward fill *)

(** The first valid value of a column, or [NaN]. *)
Definition first_valid (xs : column) : num := hd NaN (filter (fun x => negb (is_nan x)) xs).

Lemma hd_bfill (xs : column) : hd NaN (bfill xs) = first_valid xs.
Proof.
  induction xs as [|x xs IH]; [reflexivity|]. cbn. rewrite IH. unfold first_valid; cbn.
  by destruct (is_nan x).
Qed.

(** Backward fill replaces each value by the first valid value at or
    below it (itself when valid), and leaves [NaN] only where no valid
    value follows. *)
Theorem bfill_spec (xs : column) (i : nat) :
  (i < length xs)%nat -> bfill xs !! i = Some (first_valid (drop i xs)).
Proof.
  revert i. induction xs as [|x xs IH]; intros i Hi; cbn in Hi; [lia|].
  destruct i as [|i].
  - cbn. rewrite hd_bfill. unfold first_valid; cbn. by destruct (is_nan x).
  - cbn. apply IH. lia.
Qed.

Lemma bfill_spec_witness :
  (1 < length [NaN; NaN; Fin 2; NaN])%nat /\
  bfill [NaN; NaN; Fin 2; NaN] !! 1%nat = Some (first_valid (drop 1 [NaN; NaN; Fin 2; NaN])).
Proof. split; [cbn; lia | apply bfill_spec; cbn; lia]. Defined.

Lemma bfill_last_valid (xs : column) (x : num) :
  is_nan x = false -> Forall (fun y => is_nan y = false) (bfill (xs ++ [x])%list).
Proof.
  intros Hx. induction xs as [|y ys IH]; cbn.
  - rewrite Hx. constructor; [exact Hx | constructor].
  - constructor; [|exact IH]. destruct (is_nan y) eqn:Hy; [|exact Hy].
    destruct (bfill (ys ++ [x])%list) as [|z zs] eqn:E.
    + exfalso. apply (f_equal length) in E. rewrite length_bfill, length_app in E. cbn in E. lia.
    + inversion IH; assumption.
Qed.

(** ** Sorting by date *)

Lemma zip_seq_nth (ds : list Q) (p : Q * nat) :
  p ∈ zip ds (seq 0 (length ds)) -> nth (snd p) ds 0%Q = fst p.
Proof.
  intros [k Hk]%list_elem_of_lookup. apply lookup_zip_with_Some in Hk as (x & y & -> & Hx & Hy).
  apply lookup_seq in Hy as [-> _]. by apply nth_lookup_Some.
Qed.

Lemma date_order_perm (ds : list Q) : date_order ds ≡ₚ seq 0 (length ds).
Proof.
  unfold date_order. rewrite merge_sort_Permutation, snd_zip; [done|].
  by rewrite length_seq.
Qed.

Lemma length_date_order (ds : list Q) : length (date_order ds) = length ds.
Proof. by rewrite date_order_perm, length_seq. Qed.

Lemma length_reorder {A} (d : A) (idx : list nat) (xs : list A) :
  length (reorder d idx xs) = length idx.
Proof. apply length_fmap. Qed.

(** Reordering a column by a permutation of its row numbers permutes it. *)
Lemma reorder_perm {A} (d : A) (idx : list nat) (xs : list A) :
  idx ≡ₚ seq 0 (length xs) -> reorder d idx xs ≡ₚ xs.
Proof.
  intros H. unfold reorder. rewrite H.
  apply reflexive_eq, list_eq. intros i. rewrite list_lookup_fmap.
  destruct (decide (i < length xs)%nat) as [Hi|Hi].
  - rewrite lookup_seq_lt by done. cbn.
    destruct (lookup_lt_is_Some_2 xs i Hi) as [x Hx]. rewrite Hx. f_equal. by apply nth_lookup_Some.
  - rewrite lookup_seq_ge, lookup_ge_None_2 by lia. reflexivity.
Qed.

(** The sorted date column is the merge sort of the (date, row) pairs,
    projected. *)
Lemma reorder_date_order (ds : list Q) :
  reorder 0%Q (date_order ds) ds =
  fst <$> merge_sort (fun a b : Q * nat => (fst a <= fst b)%Q) (zip ds (seq 0 (length ds))).
Proof.
  unfold reorder, date_order. rewrite <- list_fmap_compose. apply list_fmap_ext.
  intros i p Hp. apply zip_seq_nth.
  rewrite <- (merge_sort_Permutation (fun a b : Q * nat => (fst a <= fst b)%Q) (zip _ _)).
  by eapply list_elem_of_lookup_2.
Qed.

#[export] Instance date_le_total : Total (fun a b : Q * nat => (fst a <= fst b)%Q).
Proof. intros a b. cbn. destruct (Qlt_le_dec (fst b) (fst a)); [right; lra | left; lra]. Qed.

Lemma sort_by_date_sorted (fr : frame) : Sorted Qle (fr_date (sort_by_date fr)).
Proof.
  cbn. rewrite reorder_date_order.
  apply (Sorted_fmap _ (fun a b : Q * nat => (fst a <= fst b)%Q)); [done|].
  apply Sorted_merge_sort, _.
Qed.

Lemma sort_by_date_perm (fr : frame) : fr_date (sort_by_date fr) ≡ₚ fr_date fr.
Proof. cbn. apply reorder_perm, date_order_perm. Qed.

Lemma sort_by_date_wf (fr : frame) : frame_wf fr -> frame_wf (sort_by_date fr).
Proof.
  unfold frame_wf. intros H. cbn. rewrite Forall_fmap. eapply Forall_impl; [exact H|]. intros c _. cbn.
  by rewrite !length_reorder.
Qed.

(** ** Column updates *)

Lemma set_col_Forall (P : string * column -> Prop) (name : string) (v : column) cols :
  Forall P cols -> P (name, v) -> Forall P (set_col name v cols).
Proof.
  intros Hc Hv. induction Hc as [|c rest Hpc Hrest IH]; cbn; [by constructor|].
  destruct (String.eqb (fst c) name); constructor; assumption.
Qed.

Lemma length_get_col (name : string) (n : nat) cols :
  Forall (fun c => length (snd c) = n) cols -> has_col name cols = true ->
  length (get_col name cols) = n.
Proof.
  unfold has_col, get_col. intros Hcs. induction Hcs as [|c rest Hpc _ IH]; cbn; [discriminate|].
  destruct c as [nm v]; cbn in *. destruct (String.eqb nm name); cbn; [intros _; exact Hpc | exact IH].
Qed.

Lemma has_col_set_col (x name : string) (v : column) cols :
  has_col x (set_col name v cols) = has_col x cols || String.eqb name x.
Proof.
  unfold has_col. induction cols as [|[nm w] rest IH]; cbn; [by destruct (String.eqb name x)|].
  destruct (String.eqb_spec nm name) as [->|]; cbn.
  - by destruct (String.eqb name x), (existsb _ rest).
  - rewrite IH. by destruct (String.eqb nm x), (existsb _ rest), (String.eqb name x).
Qed.

Lemma get_col_cons (x nm : string) (w : column) rest :
  get_col x ((nm, w) :: rest) = if String.eqb nm x then w else get_col x rest.
Proof. unfold get_col. cbn. by destruct (String.eqb nm x). Qed.

Lemma get_col_set_col (x name : string) (v : column) cols :
  get_col x (set_col name v cols) = if String.eqb name x then v else get_col x cols.
Proof.
  induction cols as [|[nm w] rest IH]; cbn [set_col fst].
  - rewrite get_col_cons. by destruct (String.eqb name x).
  - destruct (String.eqb_spec nm name) as [->|Hne]; rewrite !get_col_cons.
    + by destruct (String.eqb name x).
    + rewrite IH. destruct (String.eqb_spec nm x) as [->|]; [|done].
      by rewrite (proj2 (String.eqb_neq name x)) by congruence.
Qed.

Lemma add_moving_averages_Forall (n : nat) cols (col : string) :
  Forall (fun c => length (snd c) = n) cols ->
  Forall (fun c => length (snd c) = n) (add_moving_averages cols col).
Proof.
  intros H. unfold add_moving_averages. destruct (has_col col cols) eqn:E; [|exact H].
  assert (Hm : Forall (fun c => length (snd c) = n)
                 (set_col (col ++ "_7d_ma") (rolling mean 7 (get_col col cols)) cols)).
  { apply set_col_Forall; [exact H|]. cbn. by rewrite length_rolling, (length_get_col _ n). }
  apply set_col_Forall; [exact Hm|]. cbn. rewrite length_rolling. apply (length_get_col _ n); [exact Hm|].
  by rewrite has_col_set_col, E.
Qed.

Lemma fold_moving_averages_Forall (n : nat) cols (names : list string) :
  Forall (fun c => length (snd c) = n) cols ->
  Forall (fun c => length (snd c) = n) (fold_left add_moving_averages names cols).
Proof.
  revert cols. induction names as [|nm names IH]; intros cols H; cbn; [exact H|].
  apply IH, add_moving_averages_Forall, H.
Qed.

(** Decides [has_col] on a column list built by [set_col], from the
    hypotheses on the columns it was built from. *)
Ltac has_col_solve :=
  rewrite ?has_col_set_col in *; simpl String.eqb in *;
  rewrite ?orb_false_r, ?orb_true_r in *;
  repeat match goal with H : _ && _ = true |- _ => apply andb_true_iff in H as [? ?] end;
  first [reflexivity | assumption].

(** Solves [length v = n] for a column built by the normalizer from
    columns of [n] rows. *)
Ltac col_length :=
  repeat first
    [ rewrite length_zip_with
    | progress (rewrite ?get_col_set_col; simpl String.eqb; cbv iota)
    | rewrite (length_get_col _ _ _ ltac:(eassumption)) by has_col_solve
    | progress autorewrite with pyrw ];
  lia.

(** Case analysis on the innermost [if] of the goal. *)
Ltac destr_inner_if :=
  match goal with
  | |- context [if ?b then _ else _] =>
      lazymatch b with context [if _ then _ else _] => fail | _ => destruct b eqn:? end
  end.

Ltac set_col_step :=
  first [ destr_inner_if
        | match goal with
          | |- Forall _ (set_col _ _ _) => apply set_col_Forall; [|cbn; col_length]
          end ].

(** The normalizer keeps every column at one value per date. *)
Lemma normalize_rectangular (fsqrt : Q -> Q) (fr : frame) :
  frame_wf fr -> frame_wf (normalize fsqrt fr).
Proof.
  intros H. pose proof (sort_by_date_wf fr H) as Hs. unfold frame_wf in *. unfold normalize.
  unfold frame_wf in Hs. destruct (sort_by_date fr) as [ds cols]. cbn [fr_cols fr_date] in *.
  rewrite Forall_fmap. eapply Forall_impl; [|intros c Hc; cbn; rewrite length_bfill; exact Hc].
  apply fold_moving_averages_Forall. repeat set_col_step; assumption.
Qed.

(** The normalizer keeps the table rectangular: when every column of
    the input DataFrame has one value per date, so has every column of
    [process_historical_data]'s result, the derived ones included. *)
Theorem normalize_wf (fsqrt : Q -> Q) (fr : frame) :
  frame_wf fr -> frame_wf (normalize fsqrt fr).
Proof. apply normalize_rectangular. Qed.

(** ** Present values *)

Lemma is_fin_spec (x : num) : is_fin x = true <-> exists q, x = Fin q.
Proof. destruct x; cbn; split; intros H; try discriminate; try (destruct H; discriminate); eauto. Qed.

Lemma is_fin_nan (x : num) : is_fin x = true -> is_nan x = false.
Proof. by destruct x. Qed.

Lemma is_pos_fin (x : num) : is_pos x = true -> is_fin x = true.
Proof. by destruct x. Qed.

#[export] Hint Resolve is_fin_nan is_pos_fin : pyrt.

(** The sum of present values is present; any property of [Q] closed
    under [+] and holding of [0] and of every summand holds of it. *)
Lemma nsum_Fin (P : Q -> Prop) (xs : column) :
  P 0%Q -> (forall a b, P a -> P b -> P (a + b)%Q) ->
  Forall (fun x => exists q, x = Fin q /\ P q) xs -> exists q, nsum xs = Fin q /\ P q.
Proof.
  intros H0 Hadd Hxs. unfold nsum.
  cut (forall a, P a -> exists q, fold_left nadd xs (Fin a) = Fin q /\ P q); [auto|].
  induction Hxs as [|x xs Hx _ IH]; intros a Ha; cbn; [eauto|].
  destruct Hx as (q & -> & Hq). apply IH, Hadd; assumption.
Qed.

Lemma Forall_fin_Fin (xs : column) :
  Forall (fun x => is_fin x = true) xs -> Forall (fun x => exists q, x = Fin q /\ True) xs.
Proof. intros H. eapply Forall_impl; [exact H|]. intros x [q ->]%is_fin_spec. eauto. Qed.

Lemma no_nan_window (win : column) :
  Forall (fun x => is_fin x = true) win -> existsb is_nan win = false.
Proof. induction 1 as [|x xs Hx _ IH]; cbn; [done|]. by rewrite is_fin_nan, IH. Qed.

Lemma mean_fin (win : column) :
  Forall (fun x => is_fin x = true) win -> win <> [] -> is_fin (mean win) = true.
Proof.
  intros Hw Hne. destruct (nsum_Fin (fun _ => True) win) as (s & Hs & _); auto using Forall_fin_Fin.
  unfold mean. rewrite Hs, ndiv_fin; [done|]. apply inject_Z_nonzero.
  destruct win; [done|]. cbn. lia.
Qed.

Section Std.
Variable fsqrt : Q -> Q.

(** The sample standard deviation of two or more present values is
    present: the variance is a non-negative number. *)
Lemma std_fin (win : column) :
  Forall (fun x => is_fin x = true) win -> (2 <= length win)%nat -> is_fin (std fsqrt win) = true.
Proof.
  intros Hw Hlen. assert (Hm : is_fin (mean win) = true) by (apply mean_fin; [done | intros ->; cbn in Hlen; lia]).
  apply is_fin_spec in Hm as [m Hm]. unfold std. rewrite Hm.
  destruct (nsum_Fin (fun q => 0 <= q)%Q ((fun x => nmul (nsub x (Fin m)) (nsub x (Fin m))) <$> win))
    as (s & Hs & Hs0).
  - lra.
  - intros; lra.
  - rewrite Forall_fmap. eapply Forall_impl; [exact Hw|]. intros x [q ->]%is_fin_spec. cbn.
    eexists; split; [reflexivity|]. apply Qsquare_mul_nonneg.
  - rewrite Hs, ndiv_fin; [|apply inject_Z_nonzero; lia]. cbn. rewrite qltb_false; [done|].
    apply Qle_shift_div_l; [|lra].
    change 0%Q with (inject_Z 0). rewrite <- Zlt_Qlt. lia.
Qed.

End Std.

Lemma ffill_from_fin (last : num) (xs : column) :
  Forall (fun x => is_fin x = true) xs -> ffill_from last xs = xs.
Proof. intros H. revert last. induction H as [|x xs Hx _ IH]; intros; cbn; [done|]. by rewrite is_fin_nan, IH. Qed.

Lemma ratios_fin (prev : num) (xs : column) :
  is_pos prev = true -> Forall (fun x => is_pos x = true) xs ->
  Forall (fun x => is_fin x = true) (ratios_minus_one prev xs).
Proof.
  intros Hp Hxs. revert prev Hp. induction Hxs as [|x xs Hx _ IH]; intros prev Hp; cbn; [done|].
  constructor; [|by apply IH].
  destruct x as [a| | |], prev as [b| | |]; try discriminate. apply qltb_spec in Hp.
  rewrite ndiv_fin by lra. reflexivity.
Qed.

Lemma pct_change_pos (x : num) (rest : column) :
  Forall (fun y => is_pos y = true) (x :: rest) -> pct_change (x :: rest) = NaN :: ratios_minus_one x rest.
Proof.
  intros H. unfold pct_change, ffill. rewrite ffill_from_fin; [done|].
  eapply Forall_impl; [exact H|]. auto with pyrt.
Qed.

Lemma scale_fin (k : Q) (xs : column) :
  Forall (fun x => is_fin x = true) xs -> Forall (fun x => is_fin x = true) (scale k xs).
Proof. intros H. unfold scale. rewrite Forall_fmap. eapply Forall_impl; [exact H|]. by intros [] ?. Qed.

Lemma zip_div_fin (v m : column) :
  Forall (fun x => is_fin x = true) v -> Forall (fun x => is_pos x = true) m ->
  Forall (fun x => is_fin x = true) (zip_with ndiv v m).
Proof.
  intros Hv. revert m. induction Hv as [|x xs Hx _ IH]; intros [|y ys] Hm; cbn; try done.
  inversion Hm as [|? ? Hy Hys]; subst. constructor; [|by apply IH].
  destruct x as [a| | |], y as [b| | |]; try discriminate. apply qltb_spec in Hy.
  rewrite ndiv_fin by lra. reflexivity.
Qed.

Lemma rolling_lookup_fin (stat : column -> num) (w i : nat) (xs : column) :
  (i < length xs)%nat -> (w <= S i)%nat -> Forall (fun x => is_fin x = true) (drop (S i - w) xs) ->
  (forall win, length win = w -> Forall (fun x => is_fin x = true) win -> is_fin (stat win) = true) ->
  exists y, rolling stat w xs !! i = Some y /\ is_fin y = true.
Proof.
  intros Hi Hw Hd Hstat. destruct (lookup_lt_is_Some_2 xs i Hi) as [x Hx].
  eexists; split; [unfold rolling; rewrite list_lookup_imap, Hx; reflexivity|]. unfold window.
  rewrite (proj2 (Nat.ltb_ge _ _)) by lia.
  assert (Hwin : Forall (fun x => is_fin x = true) (take w (drop (S i - w) xs))) by (by apply Forall_take).
  rewrite no_nan_window by exact Hwin. apply Hstat; [|exact Hwin].
  rewrite length_take, length_drop. lia.
Qed.

Lemma last_fin_drop (k : nat) (xs : column) :
  (k < length xs)%nat -> Forall (fun x => is_fin x = true) (drop k xs) ->
  exists y, last xs = Some y /\ is_fin y = true.
Proof.
  intros Hk Hd. rewrite last_lookup.
  destruct (lookup_lt_is_Some_2 xs (pred (length xs))) as [y Hy]; [lia|].
  exists y. split; [exact Hy|].
  apply (Forall_lookup_1 (fun x => is_fin x = true) (drop k xs) (pred (length xs) - k)); [exact Hd|].
  rewrite lookup_drop. replace (k + (pred (length xs) - k))%nat with (pred (length xs)) by lia.
  exact Hy.
Qed.

(** The last row of a rolling statistic is present when the last [w]
    rows hold present values. *)
Lemma rolling_last_fin (stat : column -> num) (w k : nat) (xs : column) :
  (w <= length xs)%nat -> (k <= length xs - w)%nat -> (0 < length xs)%nat ->
  Forall (fun x => is_fin x = true) (drop k xs) ->
  (forall win, length win = w -> Forall (fun x => is_fin x = true) win -> is_fin (stat win) = true) ->
  exists y, last (rolling stat w xs) = Some y /\ is_fin y = true.
Proof.
  intros Hw Hk Hn Hd Hstat. rewrite last_lookup, length_rolling.
  apply rolling_lookup_fin; [lia|lia| |exact Hstat].
  replace (S (pred (length xs)) - w)%nat with (k + (length xs - w - k))%nat by lia.
  rewrite <- drop_drop. by apply Forall_drop.
Qed.

Lemma bfill_fin_last (xs : column) :
  (exists y, last xs = Some y /\ is_fin y = true) -> Forall (fun y => is_nan y = false) (bfill xs).
Proof. intros (y & [l ->]%last_Some & Hy). apply bfill_last_valid. auto with pyrt. Qed.

Lemma daily_return_fin (p : column) :
  Forall (fun x => is_pos x = true) p -> Forall (fun x => is_fin x = true) (drop 1 (scale 100 (pct_change p))).
Proof.
  intros H. destruct p as [|x rest]; [done|]. rewrite pct_change_pos by exact H.
  inversion H; subst. apply scale_fin, ratios_fin; assumption.
Qed.

Lemma mean_window_fin (w : nat) (win : column) :
  (0 < w)%nat -> length win = w -> Forall (fun x => is_fin x = true) win -> is_fin (mean win) = true.
Proof. intros Hw Hl Hf. apply mean_fin; [exact Hf|]. intros ->. cbn in Hl. lia. Qed.

Lemma mapM_json_to_num (qs : list Q) : mapM json_to_num (JNum <$> qs) = Some (Fin <$> qs).
Proof. induction qs as [|q qs IH]; cbn; [done|]. by rewrite IH. Qed.

Lemma Forall_pos_fin (xs : column) :
  Forall (fun x => is_pos x = true) xs -> Forall (fun x => is_fin x = true) xs.
Proof. intros H. eapply Forall_impl; [exact H|]. auto with pyrt. Qed.

#[export] Hint Rewrite @length_reorder length_date_order : pyrw.

Lemma reorder_Forall {A} (P : A -> Prop) (d : A) (idx : list nat) (xs : list A) :
  idx ≡ₚ seq 0 (length xs) -> Forall P xs -> Forall P (reorder d idx xs).
Proof. intros Hidx H. by rewrite reorder_perm. Qed.

(** The columns [normalize] produces from a frame with the three columns
    of a token series, in the order the code adds them. *)
Lemma normalize_token_cols (fsqrt : Q -> Q) (ds : list Q) (p m v : column) :
  let idx := date_order ds in
  let p' := reorder NaN idx p in
  let m' := reorder NaN idx m in
  let v' := reorder NaN idx v in
  let dr := scale 100 (pct_change p') in
  fr_cols (normalize fsqrt (mk_frame ds [("price", p); ("market_cap", m); ("volume", v)])) =
  (fun c => (fst c, bfill (snd c))) <$>
    [("price", p'); ("market_cap", m'); ("volume", v'); ("daily_return", dr);
     ("volatility", rolling (std fsqrt) 10 dr);
     ("market_cap_change", scale 100 (pct_change m'));
     ("volume_to_mcap", zip_with ndiv v' m');
     ("price_7d_ma", rolling mean 7 p'); ("price_30d_ma", rolling mean 30 p');
     ("market_cap_7d_ma", rolling mean 7 m'); ("market_cap_30d_ma", rolling mean 30 m');
     ("volume_7d_ma", rolling mean 7 v'); ("volume_30d_ma", rolling mean 30 v')].
Proof. reflexivity. Qed.

(** [pd.DataFrame] on a token series whose arrays are numbers of one
    length builds the three float columns. *)
Lemma process_token_eq (fsqrt : Q -> Q) (s : MarketClient.token_series) (ps ms vs : list Q)
    (w : world) :
  MarketClient.ts_price s = JNum <$> ps -> MarketClient.ts_market_cap s = JNum <$> ms ->
  MarketClient.ts_volume s = JNum <$> vs -> MarketClient.series_wf s ->
  process_historical_data fsqrt (MarketClient.ts_date s) (token_dict s) w =
  (Ret (normalize fsqrt (mk_frame (MarketClient.ts_date s)
          [("price", Fin <$> ps); ("market_cap", Fin <$> ms); ("volume", Fin <$> vs)])), w).
Proof.
  intros Hp Hm Hv (Hlp & Hlm & Hlv). unfold process_historical_data, pd_dataframe, token_dict.
  rewrite Hp, Hm, Hv in *. cbn [forallb snd]. rewrite Hlp, Hlm, Hlv, Nat.eqb_refl. cbn.
  by rewrite !mapM_json_to_num.
Qed.

Ltac len_tac :=
  cbn [fst snd]; rewrite ?length_zip_with; autorewrite with pyrw; rewrite ?length_fmap, ?Nat.min_id; lia.

(** C10: Normalizing a token series of at least 30 rows whose prices and
    market capitalisations are positive numbers and whose volumes are
    numbers succeeds, yields exactly the columns price, market_cap,
    volume, daily_return, volatility, market_cap_change, volume_to_mcap
    and the 7- and 30-day averages of the three base columns, and leaves
    no missing value in any of them after the back-fill. *)
Theorem process_historical_data_complete (fsqrt : Q -> Q) (s : MarketClient.token_series)
    (ps ms vs : list Q) (w : world) :
  MarketClient.ts_price s = JNum <$> ps -> MarketClient.ts_market_cap s = JNum <$> ms ->
  MarketClient.ts_volume s = JNum <$> vs -> MarketClient.series_wf s ->
  (30 <= length (MarketClient.ts_date s))%nat ->
  Forall (fun q => 0 < q)%Q ps -> Forall (fun q => 0 < q)%Q ms ->
  exists fr, process_historical_data fsqrt (MarketClient.ts_date s) (token_dict s) w = (Ret fr, w) /\
    col_names fr = TOKEN_COLUMNS /\
    Forall (fun c => Forall (fun x => is_nan x = false) (snd c)) (fr_cols fr).
Proof.
  intros Hp Hm Hv Hwf Hn Hps Hms. eexists; split; [by apply process_token_eq|].
  destruct Hwf as (Hlp & Hlm & Hlv). rewrite Hp in Hlp. rewrite Hm in Hlm. rewrite Hv in Hlv.
  set (ds := MarketClient.ts_date s) in *. rewrite length_fmap in Hlp, Hlm, Hlv.
  unfold col_names. rewrite normalize_token_cols. split; [reflexivity|]. cbv zeta.
  assert (Hidx : forall qs : list Q, length qs = length ds ->
                 date_order ds ≡ₚ seq 0 (length (Fin <$> qs)))
    by (intros qs Hq; by rewrite length_fmap, Hq, date_order_perm).
  assert (Hpos : forall qs : list Q, length qs = length ds -> Forall (fun q => 0 < q)%Q qs ->
                 Forall (fun x => is_pos x = true) (reorder NaN (date_order ds) (Fin <$> qs))).
  { intros qs Hq H. apply reorder_Forall; [by apply Hidx|]. rewrite Forall_fmap.
    eapply Forall_impl; [exact H|]. intros q Hq0. by apply qltb_spec. }
  pose proof (Hpos ps Hlp Hps) as Pp. pose proof (Hpos ms Hlm Hms) as Pm.
  assert (Fv : Forall (fun x => is_fin x = true) (reorder NaN (date_order ds) (Fin <$> vs))).
  { apply reorder_Forall; [by apply Hidx|]. rewrite Forall_fmap. by apply Forall_true. }
  pose proof (Forall_pos_fin _ Pp) as Fp. pose proof (Forall_pos_fin _ Pm) as Fm.
  assert (Hstd : forall win, length win = 10%nat -> Forall (fun x => is_fin x = true) win ->
                 is_fin (std fsqrt win) = true) by (intros win Hl Hf; apply std_fin; [exact Hf|lia]).
  rewrite Forall_fmap.
  repeat (apply List.Forall_cons; [cbn [fst snd]; apply bfill_fin_last|]); [..|apply List.Forall_nil].
  8-13: cbn [fst snd]; eapply (rolling_last_fin _ _ 0); [len_tac..| assumption |];
    intros win Hl Hf; apply (mean_window_fin (length win) win); [lia | reflexivity | exact Hf].
  - apply (last_fin_drop 0); [len_tac|exact Fp].
  - apply (last_fin_drop 0); [len_tac|exact Fm].
  - apply (last_fin_drop 0); [len_tac|exact Fv].
  - apply (last_fin_drop 1); [len_tac|by apply daily_return_fin].
  - apply (rolling_last_fin _ 10 1); [len_tac..|by apply daily_return_fin|exact Hstd].
  - apply (last_fin_drop 1); [len_tac|by apply daily_return_fin].
  - apply (last_fin_drop 0); [len_tac|by apply zip_div_fin].
Qed.


(** [pd.DataFrame] rejects arrays of different lengths:
    process_historical_data raises [ValueError] and the world is
    unchanged. *)
Theorem process_historical_data_length_mismatch (fsqrt : Q -> Q) (ds : list Q)
    (cols : list (string * list json)) (c : string * list json) (w : world) :
  In c cols -> length (snd c) <> length ds ->
  process_historical_data fsqrt ds cols w =
  (Raise (ValueError "All arrays must be of the same length"), w).
Proof.
  intros Hin Hlen. unfold process_historical_data, pd_dataframe.
  replace (forallb _ cols) with false; [reflexivity|]. symmetry. apply not_true_iff_false.
  rewrite forallb_forall. intros H. apply Hlen. apply Nat.eqb_eq, H, Hin.
Qed.

(** A market capitalisation of zero is not guarded: on a 30-day
    series whose market caps and volumes are 0 (the value get_token_data
    fills in for a timestamp without a market-cap or volume point),
    [volume_to_mcap] and [market_cap_change] are missing on every row,
    back-fill included, where the specification asks for a sentinel and
    for no missing value. *)
Theorem process_zero_market_cap_nan (w : world) :
  let ds := (fun i => inject_Z (Z.of_nat i)) <$> seq 0 30 in
  let zeros := (fun _ => JNum 0) <$> seq 0 30 in
  let s := MarketClient.mk_token_series ds ((fun i => JNum (inject_Z (Z.of_nat i + 1))) <$> seq 0 30)
             zeros zeros in
  exists fr, process_historical_data (fun q => q) ds (token_dict s) w = (Ret fr, w) /\
    Forall (fun x => is_nan x = true) (get_col "volume_to_mcap" (fr_cols fr)) /\
    Forall (fun x => is_nan x = true) (get_col "market_cap_change" (fr_cols fr)) /\
    length (get_col "volume_to_mcap" (fr_cols fr)) = 30%nat.
Proof.
  cbv zeta. eexists; split; [vm_compute; reflexivity|].
  vm_compute. split; [|split]; repeat constructor.
Qed.

Lemma process_historical_data_complete_witness :
  let w := mk_world [] [] [] 1700000000 [] [] in
  let ds := (fun i => inject_Z (Z.of_nat i)) <$> seq 0 30 in
  let ps := (fun i => inject_Z (Z.of_nat i + 1)) <$> seq 0 30 in
  let ms := (fun i => inject_Z (Z.of_nat i * 10 + 5)) <$> seq 0 30 in
  let s := MarketClient.mk_token_series ds (JNum <$> ps) (JNum <$> ms) (JNum <$> ds) in
  exists fr, process_historical_data (fun q => q) ds (token_dict s) w = (Ret fr, w) /\
    col_names fr = TOKEN_COLUMNS /\
    Forall (fun c => Forall (fun x => is_nan x = false) (snd c)) (fr_cols fr).
Proof.
  intros w ds ps ms s.
  apply (process_historical_data_complete (fun q => q) s ps ms ds w); try reflexivity.
  - split; [|split]; reflexivity.
  - vm_compute. repeat constructor.
  - vm_compute. repeat constructor.
Defined.

Lemma normalize_wf_witness :
  frame_wf (mk_frame [2; 1]%Q [("price", [Fin 1; Fin 2]); ("volume", [Fin 3; NaN])]) /\
  frame_wf (normalize (fun q => q) (mk_frame [2; 1]%Q [("price", [Fin 1; Fin 2]); ("volume", [Fin 3; NaN])])).
Proof.
  split; [repeat constructor|].
  apply normalize_wf. repeat constructor.
Defined.

Lemma process_historical_data_length_mismatch_witness :
  let w := mk_world [] [] [] 1700000000 [] [] in
  In ("price", [JNum 1]) [("price", [JNum 1])] /\ length (snd ("price", [JNum 1])) <> length ([] : list Q) /\
  process_historical_data (fun q => q) [] [("price", [JNum 1])] w =
  (Raise (ValueError "All arrays must be of the same length"), w).
Proof.
  intros w. split; [left; reflexivity|split; [cbn; lia|]].
  apply (process_historical_data_length_mismatch _ _ _ ("price", [JNum 1])); [left; reflexivity | cbn; lia].
Defined.

End Normalizer.
