(* ===== verification/Forecast.v ===== *)
(** The forecast adapter of src/ml_predictor.py: [predict_prices]
    (lines 11-31) dispatching to [predict_with_arima] (lines 33-92),
    [predict_with_lstm] (lines 94-185) and [predict_with_prophet]
    (lines 187-239).  The fitted models (statsmodels' ARIMA, the Keras
    network, Prophet) are external: they enter through the interface
    [ForecastModels]; everything the module computes around them (the
    sorted history, the min-max scaling, the autoregressive window, the
    forecast dates, the bounds, numpy's broadcasting and pandas' [iloc])
    is modelled.  The history is the frame of Normalizer; dates are
    seconds. *)

From Stdlib Require Import Qabs.
From S2P Require Import Prelude Normalizer.

Open Scope string_scope.

Module Forecast.
Import Normalizer.

(** [timedelta(days=1)] in seconds. *)
Definition DAY : Q := 86400.

(** The dict returned by the three predictors ([accuracy] only by
    ARIMA). *)
Record forecast : Type := mk_forecast {
  fc_date : list Q;
  fc_predicted_price : list num;
  fc_upper_bound : list num;
  fc_lower_bound : list num;
  fc_accuracy : option num
}.

(** ** numpy and Python helpers *)

(** IEEE [<]: false when either side is NaN. *)
Definition nltb (x y : num) : bool :=
  match x, y with
  | Fin a, Fin b => qltb a b
  | NaN, _ | _, NaN => false
  | NInf, NInf | PInf, _ => false
  | NInf, _ => true
  | Fin _, PInf => true
  | Fin _, NInf => false
  end.

(** Python's [min(xs)] and [max(xs)]: the first element, replaced by
    every later one that compares smaller (larger); an empty sequence
    raises [ValueError]. *)
Definition py_min_list (xs : list num) : M num :=
  match xs with
  | [] => py_raise (ValueError "min() arg is an empty sequence")
  | x :: rest => mret (fold_left (fun m y => if nltb y m then y else m) rest x)
  end.

Definition py_max_list (xs : list num) : M num :=
  match xs with
  | [] => py_raise (ValueError "max() arg is an empty sequence")
  | x :: rest => mret (fold_left (fun m y => if nltb m y then y else m) rest x)
  end.

(** A binary numpy operation with broadcasting: equal lengths pair
    elementwise, a length-1 operand is repeated, anything else raises
    [ValueError] ("operands could not be broadcast together"). *)
Definition np_binop (f : num -> num -> num) (a b : list num) : M (list num) :=
  if Nat.eqb (length a) (length b) then mret (zip_with f a b)
  else match a, b with
       | [x], _ => mret (f x <$> b)
       | _, [y] => mret ((fun x => f x y) <$> a)
       | _, _ => py_raise (ValueError "operands could not be broadcast together")
       end.

(** [np.maximum(x, 0)]: NaN propagates. *)
Definition np_maximum0 (x : num) : num :=
  match x with
  | NaN => NaN
  | _ => if nltb x (Fin 0) then Fin 0 else x
  end.

Definition nabs (x : num) : num :=
  match x with Fin q => Fin (Qabs q) | NInf => PInf | y => y end.

(** [np.mean]: the mean of an empty array is NaN. *)
Definition np_mean (xs : list num) : num := ndiv (nsum xs) (Fin (inject_Z (Z.of_nat (length xs)))).

(** [df.iloc[-d:]]: the last [d] rows; [-0] is [0], so [d = 0] keeps
    every row. *)
Definition iloc_last {A} (d : nat) (xs : list A) : list A :=
  if Nat.eqb d 0 then xs else drop (length xs - d) xs.

(** [df['date'].iloc[-1]]. *)
Definition iloc_last1 {A} (xs : list A) : M A :=
  match last xs with Some x => mret x | None => py_raise IndexError end.

(** [[last_date + timedelta(days=i+1) for i in range(prediction_days)]]. *)
Definition forecast_dates (last_date : Q) (prediction_days : nat) : list Q :=
  (fun i => last_date + inject_Z (Z.of_nat (S i)) * DAY)%Q <$> seq 0 prediction_days.

(** Prophet's [make_future_dataframe(periods)]: the distinct history
    dates in order, then [periods] daily dates after the last date of a
    row whose price is not NaN ([self.history] keeps those rows only). *)
Fixpoint dedup_sorted (xs : list Q) : list Q :=
  match xs with
  | x :: (y :: _) as rest => if Qeq_bool x y then dedup_sorted rest else x :: dedup_sorted rest
  | _ => xs
  end.

Definition make_future_dataframe (rows : list (Q * num)) (periods : nat) : list Q :=
  let hist := List.filter (fun r => negb (is_nan (snd r))) rows in
  let last_date := match last hist with Some r => fst r | None => 0%Q end in
  dedup_sorted (fst <$> rows) ++ forecast_dates last_date periods.

(** Keras' [TimeseriesGenerator(data, data, length=n)] raises
    [ValueError] unless some window of [n] values has a target, that is
    unless the data has more than [n] values. *)
Definition timeseries_generator (n : nat) (data : list num) : M unit :=
  if Nat.ltb n (length data) then mret tt
  else py_raise (ValueError "start_index > end_index").

(** [df.sort_values('date')] and [df['price'].values]: the dates and
    prices in date order; a frame without a price column raises
    [KeyError]. *)
Definition history (df : frame) : M (list Q * list num) :=
  let df := sort_by_date df in
  if has_col "price" (fr_cols df) then mret (fr_date df, get_col "price" (fr_cols df))
  else py_raise (KeyError "price").

(** ** The external models *)

(** What the module uses of statsmodels, Keras and Prophet.  ARIMA
    (order (5, 1, 0)) is fitted on the prices; [arima_forecast p n] is
    [forecast(steps=n)], [arima_forecast_variance p n] the variance of
    those [n] steps, and [arima_predict p s e] is [predict(start=s,
    end=e)], one value per index from [s] to [e].  [lstm_fit] builds and
    trains the network on the scaled prices, and [lstm_predict] is
    [model.predict] on one window of 14 values.  [prophet_fit] fits
    Prophet on the (ds, y) rows and [prophet_predict] gives [(yhat,
    yhat_upper, yhat_lower)] for each date of the future frame. *)
Class ForecastModels : Type := {
  arima_forecast : list num -> nat -> M (list num);
  arima_forecast_variance : list num -> nat -> M (list num);
  arima_predict : list num -> nat -> nat -> M (list num);
  lstm_fit : list num -> M unit;
  lstm_predict : list num -> M num;
  prophet_fit : list (Q * num) -> M unit;
  prophet_predict : list Q -> M (list (num * num * num));
  arima_predict_length : forall p s e w ys w',
    arima_predict p s e w = (Ret ys, w') -> length ys = S e - s;
  prophet_predict_length : forall ds w out w',
    prophet_predict ds w = (Ret out, w') -> length out = length ds
}.

Section WithModels.
Context `{ForecastModels}.
(** [np.sqrt]. *)
Variable fsqrt : Q -> Q.

(** ** ARIMA (lines 33-92) *)

Definition predict_with_arima (df : frame) (prediction_days : nat) : M forecast :=
  h <- history df ;;
  let '(dates, prices) := h in
  fc <- arima_forecast prices prediction_days ;;
  last_date <- iloc_last1 dates ;;
  let dates' := forecast_dates last_date prediction_days in
  var <- arima_forecast_variance prices prediction_days ;;
  let forecast_std := nsqrt fsqrt <$> var in
  margin <- np_binop nmul [Fin (196 # 100)] forecast_std ;;
  lower_bound <- np_binop nsub fc margin ;;
  upper_bound <- np_binop nadd fc margin ;;
  let lower_bound := np_maximum0 <$> lower_bound in
  predictions <- arima_predict prices 1 (length prices) ;;
  err <- np_binop nsub (drop 1 prices) predictions ;;
  rel <- np_binop ndiv err (drop 1 prices) ;;
  let mape := nmul (np_mean (nabs <$> rel)) (Fin 100) in
  mret (mk_forecast dates' fc upper_bound lower_bound (Some (nsub (Fin 100) mape))).

(** ** LSTM (lines 94-185) *)

(** [n_input = 14]. *)
Definition n_input : nat := 14.

(** [(prices - min_price) / (max_price - min_price)]. *)
Definition min_max_scale (mn mx : num) (prices : list num) : list num :=
  (fun p => ndiv (nsub p mn) (nsub mx mn)) <$> prices.

(** [(p * (max_price - min_price)) + min_price]. *)
Definition denormalize (mn mx : num) (ps : list num) : list num :=
  (fun p => nadd (nmul p (nsub mx mn)) mn) <$> ps.

(** [prices_normalized[-n_input:].reshape((1, n_input, n_features))]:
    the reshape raises unless exactly [n_input] values are left. *)
Definition last_window (xs : list num) : M (list num) :=
  let w := drop (length xs - n_input) xs in
  if Nat.eqb (length w) n_input then mret w
  else py_raise (ValueError "cannot reshape array").

(** The loop of lines 156-168 with [k] iterations left: predict the next
    value from the window, then [pop(0)] and [append] it. *)
Fixpoint lstm_loop (k : nat) (current_sequence : list num) : M (list num) :=
  match k with
  | O => mret []
  | S k' =>
      next_value <- lstm_predict current_sequence ;;
      rest <- lstm_loop k' (tail current_sequence ++ [next_value]) ;;
      mret (next_value :: rest)
  end.

Definition predict_with_lstm (df : frame) (prediction_days : nat) : M forecast :=
  h <- history df ;;
  let '(dates, prices) := h in
  min_price <- py_min_list prices ;;
  max_price <- py_max_list prices ;;
  let prices_normalized := min_max_scale min_price max_price prices in
  timeseries_generator n_input prices_normalized ;;;
  lstm_fit prices_normalized ;;;
  last_sequence <- last_window prices_normalized ;;
  predicted_normalized <- lstm_loop prediction_days last_sequence ;;
  let predicted_prices := denormalize min_price max_price predicted_normalized in
  last_date <- iloc_last1 dates ;;
  mret (mk_forecast (forecast_dates last_date prediction_days) predicted_prices
          ((fun p => nmul p (Fin (11 # 10))) <$> predicted_prices)
          ((fun p => nmul p (Fin (9 # 10))) <$> predicted_prices) None).

(** ** Prophet (lines 187-239) *)

Definition predict_with_prophet (df : frame) (prediction_days : nat) : M forecast :=
  h <- history df ;;
  let '(dates, prices) := h in
  let prophet_df := zip dates prices in
  prophet_fit prophet_df ;;;
  let future := make_future_dataframe prophet_df prediction_days in
  rows <- prophet_predict future ;;
  let rows := iloc_last prediction_days rows in
  let ds := iloc_last prediction_days future in
  mret (mk_forecast ds ((fun r => fst (fst r)) <$> rows) ((fun r => snd (fst r)) <$> rows)
                    (snd <$> rows) None).

(** ** predict_prices (lines 11-31) *)

Definition predict_prices (df : frame) (model_type : string) (prediction_days : nat) : M forecast :=
  if String.eqb model_type "ARIMA" then predict_with_arima df prediction_days
  else if String.eqb model_type "LSTM" then predict_with_lstm df prediction_days
  else if String.eqb model_type "Prophet" then predict_with_prophet df prediction_days
  else py_raise (ValueError ("Unknown model type: " ++ model_type)).

(** The autoregressive forecast as the spec describes it: each step
    predicts from the last [n_input] values of the history extended by
    the predictions so far.  [lstm_loop] refines it (theorem
    [lstm_loop_refines]). *)
Definition lastn {A} (n : nat) (xs : list A) : list A := drop (length xs - n) xs.

Fixpoint lstm_spec (k : nat) (hist : list num) : M (list num) :=
  match k with
  | O => mret []
  | S k' =>
      v <- lstm_predict (lastn n_input hist) ;;
      rest <- lstm_spec k' (hist ++ [v]) ;;
      mret (v :: rest)
  end.

End WithModels.

(** ** Shared lemmas *)

Lemma history_ret (df : frame) (dates : list Q) (prices : list num) (w w' : world) :
  history df w = (Ret (dates, prices), w') ->
  dates = fr_date (sort_by_date df) /\ prices = get_col "price" (fr_cols (sort_by_date df)) /\ w' = w.
Proof.
  unfold history. destruct (has_col _ _); unfold mret, py_raise; intros [=]; auto.
Qed.

Lemma history_eq (df : frame) (w : world) :
  has_col "price" (fr_cols (sort_by_date df)) = true ->
  history df w = (Ret (fr_date (sort_by_date df), get_col "price" (fr_cols (sort_by_date df))), w).
Proof. unfold history. by intros ->. Qed.

Lemma has_col_sort_by_date (name : string) (df : frame) :
  has_col name (fr_cols (sort_by_date df)) = has_col name (fr_cols df).
Proof.
  unfold has_col. cbn. induction (fr_cols df) as [|c cs IH]; cbn; [done|]. by rewrite IH.
Qed.

Lemma length_fr_date_sort (df : frame) :
  length (fr_date (sort_by_date df)) = length (fr_date df).
Proof. apply Permutation_length, sort_by_date_perm. Qed.

Lemma length_price_sort (df : frame) :
  frame_wf df -> has_col "price" (fr_cols df) = true ->
  length (get_col "price" (fr_cols (sort_by_date df))) = length (fr_date df).
Proof.
  intros Hwf Hc. rewrite <- length_fr_date_sort. apply length_get_col.
  - apply sort_by_date_wf, Hwf.
  - by rewrite has_col_sort_by_date.
Qed.

(** A broadcast of two operands of different lengths, neither of
    length 1, raises. *)
Lemma np_binop_mismatch (f : num -> num -> num) (a b : list num) (w : world) :
  length a <> length b -> length a <> 1 -> length b <> 1 ->
  np_binop f a b w = (Raise (ValueError "operands could not be broadcast together"), w).
Proof.
  unfold np_binop. intros Hab Ha Hb. apply Nat.eqb_neq in Hab. rewrite Hab.
  destruct a as [|x [|]]; cbn in Ha; try lia; destruct b as [|y [|]]; cbn in Hb; try lia; reflexivity.
Qed.

Lemma forecast_dates_seq (l : Q) (s d : nat) :
  Sorted Qlt ((fun i => l + inject_Z (Z.of_nat (S i)) * DAY)%Q <$> seq s d).
Proof.
  revert s. induction d as [|d IH]; intros s; cbn; constructor; [apply IH|].
  destruct d; cbn; constructor. unfold DAY.
  rewrite (Nat2Z.inj_succ (S s)), <- Z.add_1_r, inject_Z_plus.
  change (inject_Z 1) with 1%Q. lra.
Qed.

Lemma forecast_dates_lookup (l : Q) (d i : nat) :
  i < d -> forecast_dates l d !! i = Some (l + inject_Z (Z.of_nat (S i)) * DAY)%Q.
Proof. intros Hi. unfold forecast_dates. rewrite list_lookup_fmap, lookup_seq_lt; done. Qed.

Lemma length_forecast_dates (l : Q) (d : nat) : length (forecast_dates l d) = d.
Proof. unfold forecast_dates. by rewrite length_fmap, length_seq. Qed.

#[export] Hint Rewrite length_forecast_dates : pyrw.

(** [iloc[-d:]] of a frame whose last [d] rows are [ys]. *)
Lemma iloc_last_app {A} (d : nat) (xs ys : list A) :
  d <> 0 -> length ys = d -> iloc_last d (xs ++ ys) = ys.
Proof.
  unfold iloc_last. intros Hd Hys. apply Nat.eqb_neq in Hd. rewrite Hd, length_app, Hys.
  rewrite Nat.add_sub. by rewrite drop_app_length.
Qed.


(** ** The LSTM loop *)

Section Lstm.
Context `{ForecastModels}.

Lemma tail_drop {A} (m : nat) (l : list A) : tail (drop m l) = drop (S m) l.
Proof. revert l. induction m as [|m IH]; intros [|x l]; cbn; auto. Qed.

Lemma lastn_snoc {A} (n : nat) (xs : list A) (v : A) :
  n <> 0 -> n <= length xs -> lastn n (xs ++ [v])%list = (tail (lastn n xs) ++ [v])%list.
Proof.
  unfold lastn. intros Hn Hle. rewrite length_app. cbn.
  rewrite drop_app_le by lia. rewrite tail_drop. do 2 f_equal. lia.
Qed.

Lemma length_lastn {A} (n : nat) (xs : list A) : n <= length xs -> length (lastn n xs) = n.
Proof. unfold lastn. rewrite length_drop. lia. Qed.

Lemma lstm_loop_S (k : nat) (s : list num) :
  lstm_loop (S k) s = (v <- lstm_predict s ;; rest <- lstm_loop k (tail s ++ [v])%list ;; mret (v :: rest)).
Proof. reflexivity. Qed.

Lemma lstm_spec_S (k : nat) (hist : list num) :
  lstm_spec (S k) hist =
  (v <- lstm_predict (lastn n_input hist) ;; rest <- lstm_spec k (hist ++ [v])%list ;; mret (v :: rest)).
Proof. reflexivity. Qed.

(** C32: The window and the history stay in step: [lstm_loop] on the last
    [n_input] values computes what [lstm_spec] computes on the whole
    history. *)
Lemma lstm_loop_spec (k : nat) (hist : list num) (w : world) :
  n_input <= length hist -> lstm_loop k (lastn n_input hist) w = lstm_spec k hist w.
Proof.
  revert hist w. induction k as [|k IH]; intros hist w Hle; [reflexivity|].
  rewrite lstm_loop_S, lstm_spec_S.
  unfold mbind at 1 3. destruct (lstm_predict (lastn n_input hist) w) as [[v|e] w1]; [|reflexivity].
  rewrite <- lastn_snoc by (unfold n_input in *; lia). unfold mbind. rewrite IH by (rewrite length_app; lia).
  reflexivity.
Qed.

Section Total.
Hypothesis lstm_predict_total : forall s w, exists v w', lstm_predict s w = (Ret v, w').

Lemma lstm_loop_total (k : nat) (s : list num) (w : world) :
  exists ys w', lstm_loop k s w = (Ret ys, w') /\ length ys = k.
Proof.
  revert s w. induction k as [|k IH]; intros s w; [by exists [], w|]. rewrite lstm_loop_S.
  destruct (lstm_predict_total s w) as (v & w1 & Hv). rewrite (mbind_ret _ _ _ _ _ Hv).
  destruct (IH (tail s ++ [v])%list w1) as (ys & w2 & Hys & Hlen). rewrite (mbind_ret _ _ _ _ _ Hys).
  exists (v :: ys), w2. cbn. auto.
Qed.

End Total.

Lemma last_window_eq (xs : list num) :
  n_input <= length xs -> last_window xs = mret (lastn n_input xs).
Proof.
  intros Hle. unfold last_window. fold (lastn n_input xs). by rewrite length_lastn, Nat.eqb_refl.
Qed.

Lemma timeseries_generator_ok (n : nat) (xs : list num) (w : world) :
  n < length xs -> timeseries_generator n xs w = (Ret tt, w).
Proof. unfold timeseries_generator. intros Hn. apply Nat.ltb_lt in Hn. by rewrite Hn. Qed.

Lemma iloc_last1_eq {A} (xs : list A) (x : A) : last xs = Some x -> iloc_last1 xs = mret x.
Proof. unfold iloc_last1. by intros ->. Qed.

Lemma length_min_max_scale (mn mx : num) (xs : list num) : length (min_max_scale mn mx xs) = length xs.
Proof. apply length_fmap. Qed.

Lemma length_denormalize (mn mx : num) (xs : list num) : length (denormalize mn mx xs) = length xs.
Proof. apply length_fmap. Qed.

Lemma last_sorted_dates (df : frame) (n : nat) :
  n < length (fr_date df) -> exists ld, last (fr_date (sort_by_date df)) = Some ld.
Proof.
  intros Hn. destruct (last (fr_date (sort_by_date df))) as [ld|] eqn:El; [by exists ld|].
  apply last_None in El. pose proof (length_fr_date_sort df) as Hl. rewrite El in Hl. cbn in Hl. lia.
Qed.

End Lstm.

(** ** Prophet's frames *)

Lemma get_col_fmap (name : string) (f : column -> column) cols :
  has_col name cols = true ->
  get_col name ((fun c => (fst c, f (snd c))) <$> cols) = f (get_col name cols).
Proof.
  unfold has_col, get_col. induction cols as [|[nm v] cs IH]; cbn; [discriminate|].
  destruct (String.eqb nm name); cbn; [done | exact IH].
Qed.

Lemma get_col_sort_perm (name : string) (df : frame) :
  frame_wf df -> has_col name (fr_cols df) = true ->
  get_col name (fr_cols (sort_by_date df)) ≡ₚ get_col name (fr_cols df).
Proof.
  intros Hwf Hc. cbn. rewrite get_col_fmap by done. apply reorder_perm.
  rewrite date_order_perm, (length_get_col _ (length (fr_date df))); done.
Qed.

Lemma last_zip {A B} (xs : list A) (ys : list B) :
  length xs = length ys -> fst <$> last (zip xs ys) = last xs.
Proof.
  revert ys. induction xs as [|x [|x' xs] IH]; intros [|y [|y' ys]] Hl; cbn in *; try done; try lia.
  apply (IH (y' :: ys)). cbn. lia.
Qed.

Lemma list_filter_all {A} (P : A -> bool) (l : list A) : Forall (fun x => P x = true) l -> List.filter P l = l.
Proof. induction 1 as [|x l Hx _ IH]; [done|]. cbn. by rewrite Hx, IH. Qed.

Lemma zip_no_nan (ds : list Q) (ps : list num) :
  Forall (fun x => is_nan x = false) ps ->
  Forall (fun r : Q * num => negb (is_nan (snd r)) = true) (zip ds ps).
Proof.
  intros Hp. revert ds. induction Hp as [|p ps Hp _ IH]; intros [|d ds]; cbn; constructor; auto.
  cbn. by rewrite Hp.
Qed.

(** The future frame of a NaN-free history: its distinct dates, then
    the forecast dates. *)
Lemma make_future_dataframe_eq (ds : list Q) (ps : list num) (ld : Q) (d : nat) :
  length ds = length ps -> Forall (fun x => is_nan x = false) ps -> last ds = Some ld ->
  make_future_dataframe (zip ds ps) d = (dedup_sorted ds ++ forecast_dates ld d)%list.
Proof.
  intros Hl Hp El. unfold make_future_dataframe. rewrite list_filter_all by (by apply zip_no_nan).
  rewrite fst_zip by lia. pose proof (last_zip ds ps Hl) as Hz. rewrite El in Hz.
  destruct (last (zip ds ps)) as [[a b]|]; by inversion Hz.
Qed.

Lemma length_iloc_last {A} (d : nat) (xs : list A) :
  d <> 0 -> d <= length xs -> length (iloc_last d xs) = d.
Proof. unfold iloc_last. intros Hd Hle. apply Nat.eqb_neq in Hd. rewrite Hd, length_drop. lia. Qed.

(** ** Clipping and scaling *)

Lemma np_maximum0_nonneg (x : num) : nltb (np_maximum0 x) (Fin 0) = false.
Proof.
  destruct x as [q| | |]; cbn; try reflexivity.
  destruct (qltb q 0) eqn:Hq; cbn; [reflexivity | exact Hq].
Qed.

Lemma fold_min_fin (rest : list num) (x : Q) :
  Forall (fun y => exists q, y = Fin q) rest ->
  exists m, fold_left (fun m y => if nltb y m then y else m) rest (Fin x) = Fin m /\
            (m <= x)%Q /\ Forall (fun y => exists q, y = Fin q /\ (m <= q)%Q) rest.
Proof.
  intros Hr. revert x. induction Hr as [|y rest [q ->] _ IH]; intros x; cbn; [exists x; split; [done | split; [lra | constructor]]|].
  destruct (qltb q x) eqn:Hq.
  - apply qltb_spec in Hq. destruct (IH q) as (m & -> & Hm & Hall).
    exists m. split; [done | split; [lra | constructor; [exists q; split; [done | lra] | done]]].
  - apply not_true_iff_false in Hq. rewrite qltb_spec in Hq. destruct (IH x) as (m & -> & Hm & Hall).
    exists m. split; [done | split; [lra | constructor; [exists q; split; [done | lra] | done]]].
Qed.

Lemma fold_max_fin (rest : list num) (x : Q) :
  Forall (fun y => exists q, y = Fin q) rest ->
  exists m, fold_left (fun m y => if nltb m y then y else m) rest (Fin x) = Fin m /\
            (x <= m)%Q /\ Forall (fun y => exists q, y = Fin q /\ (q <= m)%Q) rest.
Proof.
  intros Hr. revert x. induction Hr as [|y rest [q ->] _ IH]; intros x; cbn; [exists x; split; [done | split; [lra | constructor]]|].
  destruct (qltb x q) eqn:Hq.
  - apply qltb_spec in Hq. destruct (IH q) as (m & -> & Hm & Hall).
    exists m. split; [done | split; [lra | constructor; [exists q; split; [done | lra] | done]]].
  - apply not_true_iff_false in Hq. rewrite qltb_spec in Hq. destruct (IH x) as (m & -> & Hm & Hall).
    exists m. split; [done | split; [lra | constructor; [exists q; split; [done | lra] | done]]].
Qed.

(** ** Theorems *)

Section Props.
Context `{ForecastModels}.
Variable fsqrt : Q -> Q.

(** [predict_prices] with a model name other than "ARIMA", "LSTM"
    and "Prophet" raises [ValueError("Unknown model type: ...")] and
    changes nothing. *)
Theorem predict_prices_unknown_model (df : frame) (model_type : string) (d : nat) (w : world) :
  model_type ∉ ["ARIMA"; "LSTM"; "Prophet"] ->
  predict_prices fsqrt df model_type d w =
  (Raise (ValueError ("Unknown model type: " ++ model_type)), w).
Proof.
  intros Hm. unfold predict_prices.
  repeat match goal with
  | |- context [String.eqb ?a ?b] => destruct (String.eqb_spec a b) as [->|_]; [set_solver|]
  end.
  reflexivity.
Qed.

(** C4: [predict_with_arima] never returns on a history of three or
    more prices: [prices[1:]] has one value fewer than [predict(start=1,
    end=len(prices))], so the MAPE line raises [ValueError] (numpy cannot
    broadcast the two), whatever the fitted model does. *)
Theorem predict_with_arima_never_returns (df : frame) (d : nat) (w w' : world) (r : forecast) :
  3 <= length (get_col "price" (fr_cols (sort_by_date df))) ->
  predict_with_arima fsqrt df d w <> (Ret r, w').
Proof.
  intros Hn Hr. unfold predict_with_arima in Hr.
  apply mbind_inv in Hr as ([dates prices] & w1 & Hh & Hr).
  apply history_ret in Hh as (_ & Hp & ->). rewrite <- Hp in Hn.
  do 7 (apply mbind_inv in Hr as (? & ? & ? & Hr)).
  match goal with Hp : arima_predict _ _ _ _ = _ |- _ => apply arima_predict_length in Hp end.
  apply mbind_inv in Hr as (? & ? & He & _).
  rewrite np_binop_mismatch in He; [discriminate | rewrite ?length_drop; lia ..].
Qed.

(** on finite prices the LSTM's scaling [(prices - min) / (max -
    min)] maps every price into [0, 1] when the prices are not all equal;
    when they are all equal every scaled value is NaN ([0/0]), and the
    network is trained on NaN. *)
Theorem min_max_scale_bounds (prices : list num) (w : world) :
  prices <> [] -> Forall (fun x => exists q, x = Fin q) prices ->
  exists lo hi, py_min_list prices w = (Ret (Fin lo), w) /\ py_max_list prices w = (Ret (Fin hi), w) /\
    ((lo < hi)%Q -> Forall (fun x => exists q, x = Fin q /\ (0 <= q <= 1)%Q)
                         (min_max_scale (Fin lo) (Fin hi) prices)) /\
    ((lo == hi)%Q -> Forall (fun x => x = NaN) (min_max_scale (Fin lo) (Fin hi) prices)).
Proof.
  intros Hne Hfin. destruct prices as [|x rest]; [done|]. inversion Hfin as [|? ? [p ->] Hrest]; subst.
  destruct (fold_min_fin rest p Hrest) as (lo & Elo & Hlo & Halo).
  destruct (fold_max_fin rest p Hrest) as (hi & Ehi & Hhi & Hahi).
  assert (Hall : Forall (fun y => exists q, y = Fin q /\ (lo <= q <= hi)%Q) (Fin p :: rest)).
  { constructor; [exists p; split; [done | split; lra]|]. apply Forall_forall. intros y Hy.
    pose proof (proj1 (Forall_forall _ _) Halo y Hy) as (q & Eq & Hq1).
    pose proof (proj1 (Forall_forall _ _) Hahi y Hy) as (q' & Eq' & Hq2).
    rewrite Eq in Eq'. injection Eq' as <-. exists q. split; [done | split; lra]. }
  exists lo, hi. cbn [py_min_list py_max_list]. rewrite Elo, Ehi. split_and!; [done | done | |].
  all: intros Hlh; unfold min_max_scale; apply Forall_fmap; eapply Forall_impl; [exact Hall|].
  all: intros y (q & -> & Hq); cbn [compose nsub nneg nadd ndiv].
  - replace (Qeq_bool (hi + - lo) 0) with false
      by (symmetry; apply not_true_iff_false; rewrite Qeq_bool_iff; lra).
    eexists; split; [reflexivity | split]; [apply Qle_shift_div_l | apply Qle_shift_div_r]; lra.
  - rewrite !(proj2 (Qeq_bool_iff _ _)) by lra. reflexivity.
Qed.

(** whenever [predict_with_arima] returns, its lower bound is
    clipped: no value is below 0 ([np.maximum(lower_bound, 0)]; NaN stays
    NaN). *)
Theorem predict_with_arima_lower_bound (df : frame) (d : nat) (w w' : world) (r : forecast) :
  predict_with_arima fsqrt df d w = (Ret r, w') ->
  Forall (fun x => nltb x (Fin 0) = false) (fc_lower_bound r).
Proof.
  intros Hr. unfold predict_with_arima in Hr.
  apply mbind_inv in Hr as ([dates prices] & w1 & _ & Hr).
  repeat (apply mbind_inv in Hr as (? & ? & _ & Hr)).
  injection Hr as <- _. cbn. apply Forall_fmap, Forall_true. intros y. apply np_maximum0_nonneg.
Qed.

End Props.


Section LstmRuns.
Context `{ForecastModels}.
Hypothesis lstm_fit_total : forall xs w, exists w', lstm_fit xs w = (Ret tt, w').
Hypothesis lstm_predict_total : forall s w, exists v w', lstm_predict s w = (Ret v, w').

(** C17: when the network's training and prediction calls return,
    [predict_with_lstm] on a well-formed history of at least 15 rows
    returns: its dates are the [prediction_days] days after the last
    historical date, it has one predicted price per day, and its bounds
    are 110% and 90% of the predicted prices. *)
Theorem predict_with_lstm_returns (df : frame) (d : nat) (w : world) :
  frame_wf df -> has_col "price" (fr_cols df) = true -> 15 <= length (fr_date df) ->
  exists r w', predict_with_lstm df d w = (Ret r, w') /\
    Some (fc_date r) = (fun ld => forecast_dates ld d) <$> last (fr_date (sort_by_date df)) /\
    length (fc_predicted_price r) = d /\
    fc_upper_bound r = (fun p => nmul p (Fin (11 # 10))) <$> fc_predicted_price r /\
    fc_lower_bound r = (fun p => nmul p (Fin (9 # 10))) <$> fc_predicted_price r.
Proof.
  intros Hwf Hc Hn. pose proof (length_price_sort df Hwf Hc) as Hlp.
  destruct (last_sorted_dates df 0 ltac:(lia)) as [ld El].
  rewrite <- has_col_sort_by_date in Hc. unfold predict_with_lstm.
  rewrite (mbind_ret _ _ _ _ _ (history_eq df w Hc)). rewrite El.
  remember (get_col "price" (fr_cols (sort_by_date df))) as prices eqn:Ep.
  destruct prices as [|x rest]; [cbn in Hlp; lia|].
  cbv beta iota delta [py_min_list py_max_list mbind mret].
  rewrite timeseries_generator_ok by (rewrite length_min_max_scale; unfold n_input; lia).
  match goal with |- context [lstm_fit ?a ?w] => destruct (lstm_fit_total a w) as [w1 Hf]; rewrite Hf end.
  rewrite last_window_eq by (rewrite length_min_max_scale; unfold n_input; lia).
  cbv beta iota delta [mret].
  match goal with |- context [lstm_loop ?k ?s ?w] =>
    destruct (lstm_loop_total lstm_predict_total k s w) as (ys & w2 & Hys & Hlen); rewrite Hys end.
  rewrite (iloc_last1_eq _ _ El). cbv beta iota delta [mret].
  eexists _, _. split; [reflexivity|]. cbn. by rewrite length_denormalize.
Qed.

End LstmRuns.

(** [predict_with_lstm] on a well-formed history of 1 to 14 rows
    raises [ValueError] before training anything: Keras'
    [TimeseriesGenerator] needs more rows than the 14-step window. *)
Theorem predict_with_lstm_short_history `{ForecastModels} (df : frame) (d : nat) (w : world) :
  frame_wf df -> has_col "price" (fr_cols df) = true -> 1 <= length (fr_date df) <= 14 ->
  predict_with_lstm df d w = (Raise (ValueError "start_index > end_index"), w).
Proof.
  intros Hwf Hc Hn. pose proof (length_price_sort df Hwf Hc) as Hlp.
  rewrite <- has_col_sort_by_date in Hc. unfold predict_with_lstm.
  rewrite (mbind_ret _ _ _ _ _ (history_eq df w Hc)).
  remember (get_col "price" (fr_cols (sort_by_date df))) as prices eqn:Ep.
  destruct prices as [|x rest]; [cbn in Hlp; lia|].
  cbv beta iota delta [py_min_list py_max_list mbind mret timeseries_generator].
  replace (Nat.ltb n_input _) with false; [reflexivity|].
  symmetry. apply Nat.ltb_ge. rewrite length_min_max_scale. unfold n_input. lia.
Qed.

Section ProphetRuns.
Context `{ForecastModels}.
Hypothesis prophet_fit_total : forall rows w, exists w', prophet_fit rows w = (Ret tt, w').
Hypothesis prophet_predict_total : forall ds w, exists out w', prophet_predict ds w = (Ret out, w').

Lemma prophet_steps (df : frame) (d : nat) (w : world) :
  has_col "price" (fr_cols df) = true ->
  exists rows w',
    length rows = length (make_future_dataframe (zip (fr_date (sort_by_date df))
                                                     (get_col "price" (fr_cols (sort_by_date df)))) d) /\
    predict_with_prophet df d w =
    mret (let future := make_future_dataframe (zip (fr_date (sort_by_date df))
                                                   (get_col "price" (fr_cols (sort_by_date df)))) d in
          mk_forecast (iloc_last d future) ((fun r => fst (fst r)) <$> iloc_last d rows)
                      ((fun r => snd (fst r)) <$> iloc_last d rows) (snd <$> iloc_last d rows) None) w'.
Proof.
  intros Hc. rewrite <- has_col_sort_by_date in Hc. unfold predict_with_prophet.
  rewrite (mbind_ret _ _ _ _ _ (history_eq df w Hc)). cbv beta iota zeta.
  match goal with |- context [mbind (prophet_fit ?a) _ ?w] => destruct (prophet_fit_total a w) as [w1 Hf] end.
  rewrite (mbind_ret _ _ _ _ _ Hf).
  match goal with |- context [mbind (prophet_predict ?a) _ _] =>
    destruct (prophet_predict_total a w1) as (rows & w2 & Hp) end.
  rewrite (mbind_ret _ _ _ _ _ Hp). exists rows, w2. split; [|reflexivity].
  by apply prophet_predict_length in Hp.
Qed.

(** when Prophet's fit and predict calls return, [predict_with_prophet]
    on a well-formed, NaN-free history and a positive horizon returns
    exactly [prediction_days] rows, dated the days after the last
    historical date. *)
Theorem predict_with_prophet_dates (df : frame) (d : nat) (w : world) :
  frame_wf df -> has_col "price" (fr_cols df) = true ->
  Forall (fun x => is_nan x = false) (get_col "price" (fr_cols df)) ->
  1 <= length (fr_date df) -> d <> 0 ->
  exists r w', predict_with_prophet df d w = (Ret r, w') /\
    Some (fc_date r) = (fun ld => forecast_dates ld d) <$> last (fr_date (sort_by_date df)) /\
    length (fc_predicted_price r) = d /\ length (fc_upper_bound r) = d /\ length (fc_lower_bound r) = d.
Proof.
  intros Hwf Hc Hnan Hn Hd. destruct (last_sorted_dates df 0 ltac:(lia)) as [ld El].
  pose proof (length_price_sort df Hwf Hc) as Hlp. pose proof (length_fr_date_sort df) as Hld.
  rewrite <- get_col_sort_perm in Hnan by done.
  destruct (prophet_steps df d w Hc) as (rows & w' & Hrows & ->).
  rewrite (make_future_dataframe_eq _ _ ld) in * by (done || lia).
  rewrite length_app, length_forecast_dates in Hrows.
  eexists _, _. split; [reflexivity|]. rewrite El.
  cbn [fc_date fc_predicted_price fc_upper_bound fc_lower_bound].
  rewrite iloc_last_app by (rewrite ?length_forecast_dates; done).
  rewrite !length_fmap, length_iloc_last by lia. auto.
Qed.

(** with [prediction_days = 0], [forecast.iloc[-0:]] is the whole
    frame: [predict_with_prophet] returns the fitted history, one row per
    distinct historical date, instead of an empty forecast. *)
Theorem predict_with_prophet_zero_days (df : frame) (w : world) :
  frame_wf df -> has_col "price" (fr_cols df) = true ->
  exists r w', predict_with_prophet df 0 w = (Ret r, w') /\
    fc_date r = dedup_sorted (fr_date (sort_by_date df)) /\
    length (fc_predicted_price r) = length (fc_date r).
Proof.
  intros Hwf Hc. pose proof (length_price_sort df Hwf Hc) as Hlp. pose proof (length_fr_date_sort df).
  destruct (prophet_steps df 0 w Hc) as (rows & w' & Hrows & ->).
  eexists _, _. split; [reflexivity|]. cbn. unfold make_future_dataframe in *. cbn in *.
  rewrite app_nil_r in *. rewrite fst_zip in * by lia. split; [done|]. by rewrite length_fmap.
Qed.

End ProphetRuns.

(** ** Concrete models for the witnesses

    Every model call succeeds: ARIMA forecasts and back-predicts the
    constant [v] with unit variance, the network predicts [v] for every
    window, Prophet predicts [(v, v, v)] for every date. *)

#[local, refine] Instance const_models (v : num) : ForecastModels := {
  arima_forecast _ n := mret (repeat v n);
  arima_forecast_variance _ n := mret (repeat (Fin 1) n);
  arima_predict _ s e := mret (repeat v (S e - s));
  lstm_fit _ := mret tt;
  lstm_predict _ := mret v;
  prophet_fit _ := mret tt;
  prophet_predict ds := mret ((fun _ => (v, v, v)) <$> ds)
}.
Proof.
  - intros p s e w ys w' [= <- _]. apply repeat_length.
  - intros ds w out w' [= <- _]. apply length_fmap.
Defined.

Definition w0 : world := mk_world [] [] [] 1700000000 [] [].

(** A frame of [n] daily rows with prices [1, 2, ..., n]. *)
Definition daily_frame (n : nat) : frame :=
  mk_frame ((fun i => inject_Z (Z.of_nat i) * DAY)%Q <$> seq 0 n)
           [("price", (fun i => Fin (inject_Z (Z.of_nat (S i)))) <$> seq 0 n)].

Lemma predict_prices_unknown_model_witness :
  ("GARCH" ∉ ["ARIMA"; "LSTM"; "Prophet"]) /\
  @predict_prices (const_models (Fin 1)) (fun q => q) (daily_frame 3) "GARCH" 7 w0 =
  (Raise (ValueError ("Unknown model type: " ++ "GARCH")), w0).
Proof.
  assert (Hm : "GARCH" ∉ ["ARIMA"; "LSTM"; "Prophet"]) by set_solver.
  split; [exact Hm | apply (predict_prices_unknown_model (fun q => q) (daily_frame 3) "GARCH" 7 w0 Hm)].
Defined.

Lemma predict_with_arima_never_returns_witness :
  3 <= length (get_col "price" (fr_cols (sort_by_date (daily_frame 3)))) /\
  @predict_with_arima (const_models (Fin 1)) (fun q => q) (daily_frame 3) 7 w0 <>
  (Ret (mk_forecast [] [] [] [] None), w0).
Proof.
  assert (Hn : 3 <= length (get_col "price" (fr_cols (sort_by_date (daily_frame 3))))) by (vm_compute; lia).
  split; [exact Hn | apply (predict_with_arima_never_returns (fun q => q) (daily_frame 3) 7 w0 w0 _ Hn)].
Defined.


Lemma const_models_total (v : num) :
  (forall xs w, exists w', @lstm_fit (const_models v) xs w = (Ret tt, w')) /\
  (forall s w, exists x w', @lstm_predict (const_models v) s w = (Ret x, w')) /\
  (forall rows w, exists w', @prophet_fit (const_models v) rows w = (Ret tt, w')) /\
  (forall ds w, exists out w', @prophet_predict (const_models v) ds w = (Ret out, w')).
Proof. split_and!; intros; eexists; try eexists; reflexivity. Qed.

Lemma daily_frame_ok (n : nat) :
  frame_wf (daily_frame n) /\ has_col "price" (fr_cols (daily_frame n)) = true /\
  length (fr_date (daily_frame n)) = n.
Proof.
  unfold daily_frame, frame_wf. cbn. rewrite !length_fmap, length_seq.
  split; [|split; [reflexivity | reflexivity]]. constructor; [|constructor]. cbn. by rewrite length_fmap, length_seq.
Qed.

Lemma lstm_loop_spec_witness :
  n_input <= length (repeat (Fin 1) 15) /\
  @lstm_loop (const_models (Fin 0)) 3 (lastn n_input (repeat (Fin 1) 15)) w0 =
  @lstm_spec (const_models (Fin 0)) 3 (repeat (Fin 1) 15) w0.
Proof.
  assert (Hn : n_input <= length (repeat (Fin 1) 15)) by (cbn; unfold n_input; lia).
  split; [exact Hn | apply (lstm_loop_spec 3 _ w0 Hn)].
Defined.

Lemma predict_with_lstm_returns_witness :
  frame_wf (daily_frame 15) /\ has_col "price" (fr_cols (daily_frame 15)) = true /\
  15 <= length (fr_date (daily_frame 15)) /\
  exists r w', @predict_with_lstm (const_models (Fin (1 # 2))) (daily_frame 15) 30 w0 = (Ret r, w') /\
    Some (fc_date r) = (fun ld => forecast_dates ld 30) <$> last (fr_date (sort_by_date (daily_frame 15))) /\
    length (fc_predicted_price r) = 30 /\
    fc_upper_bound r = (fun p => nmul p (Fin (11 # 10))) <$> fc_predicted_price r /\
    fc_lower_bound r = (fun p => nmul p (Fin (9 # 10))) <$> fc_predicted_price r.
Proof.
  destruct (daily_frame_ok 15) as (Hwf & Hc & Hl). destruct (const_models_total (Fin (1 # 2))) as (Hf & Hp & _).
  split_and!; [exact Hwf | exact Hc | lia |].
  apply (predict_with_lstm_returns Hf Hp (daily_frame 15) 30 w0 Hwf Hc ltac:(lia)).
Defined.

Lemma predict_with_lstm_short_history_witness :
  frame_wf (daily_frame 10) /\ has_col "price" (fr_cols (daily_frame 10)) = true /\
  1 <= length (fr_date (daily_frame 10)) <= 14 /\
  @predict_with_lstm (const_models (Fin 0)) (daily_frame 10) 30 w0 =
  (Raise (ValueError "start_index > end_index"), w0).
Proof.
  destruct (daily_frame_ok 10) as (Hwf & Hc & Hl).
  assert (Hn : 1 <= length (fr_date (daily_frame 10)) <= 14) by lia.
  split_and!; [exact Hwf | exact Hc | lia | lia |].
  apply (predict_with_lstm_short_history (daily_frame 10) 30 w0 Hwf Hc Hn).
Defined.

Lemma predict_with_prophet_dates_witness :
  frame_wf (daily_frame 5) /\ has_col "price" (fr_cols (daily_frame 5)) = true /\
  Forall (fun x => is_nan x = false) (get_col "price" (fr_cols (daily_frame 5))) /\
  1 <= length (fr_date (daily_frame 5)) /\ 7 <> 0 /\
  exists r w', @predict_with_prophet (const_models (Fin 1)) (daily_frame 5) 7 w0 = (Ret r, w') /\
    Some (fc_date r) = (fun ld => forecast_dates ld 7) <$> last (fr_date (sort_by_date (daily_frame 5))) /\
    length (fc_predicted_price r) = 7 /\ length (fc_upper_bound r) = 7 /\ length (fc_lower_bound r) = 7.
Proof.
  destruct (daily_frame_ok 5) as (Hwf & Hc & Hl). destruct (const_models_total (Fin 1)) as (_ & _ & Hf & Hp).
  assert (Hnan : Forall (fun x => is_nan x = false) (get_col "price" (fr_cols (daily_frame 5))))
    by (cbn; repeat constructor).
  split_and!; [exact Hwf | exact Hc | exact Hnan | lia | lia |].
  apply (predict_with_prophet_dates Hf Hp (daily_frame 5) 7 w0 Hwf Hc Hnan ltac:(lia) ltac:(lia)).
Defined.

Lemma predict_with_prophet_zero_days_witness :
  frame_wf (daily_frame 5) /\ has_col "price" (fr_cols (daily_frame 5)) = true /\
  exists r w', @predict_with_prophet (const_models (Fin 1)) (daily_frame 5) 0 w0 = (Ret r, w') /\
    fc_date r = dedup_sorted (fr_date (sort_by_date (daily_frame 5))) /\
    length (fc_predicted_price r) = length (fc_date r).
Proof.
  destruct (daily_frame_ok 5) as (Hwf & Hc & Hl). destruct (const_models_total (Fin 1)) as (_ & _ & Hf & Hp).
  split_and!; [exact Hwf | exact Hc |].
  apply (predict_with_prophet_zero_days Hf Hp (daily_frame 5) w0 Hwf Hc).
Defined.

Lemma min_max_scale_bounds_witness :
  [Fin 3; Fin 1; Fin 2] <> [] /\ Forall (fun x => exists q, x = Fin q) [Fin 3; Fin 1; Fin 2] /\
  exists lo hi, py_min_list [Fin 3; Fin 1; Fin 2] w0 = (Ret (Fin lo), w0) /\
    py_max_list [Fin 3; Fin 1; Fin 2] w0 = (Ret (Fin hi), w0) /\
    ((lo < hi)%Q -> Forall (fun x => exists q, x = Fin q /\ (0 <= q <= 1)%Q)
                         (min_max_scale (Fin lo) (Fin hi) [Fin 3; Fin 1; Fin 2])) /\
    ((lo == hi)%Q -> Forall (fun x => x = NaN) (min_max_scale (Fin lo) (Fin hi) [Fin 3; Fin 1; Fin 2])).
Proof.
  assert (Hf : Forall (fun x => exists q, x = Fin q) [Fin 3; Fin 1; Fin 2]) by (repeat constructor; eauto).
  split_and!; [done | exact Hf |]. apply (min_max_scale_bounds [Fin 3; Fin 1; Fin 2] w0 ltac:(done) Hf).
Defined.

Lemma predict_with_arima_lower_bound_witness :
  exists r w', @predict_with_arima (const_models (Fin 1)) (fun q => q) (daily_frame 2) 7 w0 = (Ret r, w') /\
    Forall (fun x => nltb x (Fin 0) = false) (fc_lower_bound r).
Proof.
  destruct (@predict_with_arima (const_models (Fin 1)) (fun q => q) (daily_frame 2) 7 w0)
    as [[r|e] w'] eqn:E; pose proof E as E'; vm_compute in E'; [|discriminate].
  exists r, w'. split; [reflexivity | apply (predict_with_arima_lower_bound (fun q => q) _ _ _ _ _ E)].
Defined.


End Forecast.
