(* ===== verification/LocalStore.v ===== *)
(** The local store of src/database.py: the four SQLite tables created by
    init_database, pandas' [DataFrame.to_sql(if_exists='append')] used by
    save_data, the [INSERT OR REPLACE] of save_analysis_result and
    save_trending_topics, and the reads of get_historical_data,
    get_analysis_result and get_trending_topics.

    A database maps table names to tables; a table has its declared
    columns, its primary key and its rows in insertion (rowid) order; a
    row maps column names to SQL values.  SQLite's rules are written out:
    a row conflicts with another when its primary-key values are all
    equal and not NULL; a plain INSERT of a conflicting row fails with an
    IntegrityError; INSERT OR REPLACE deletes the conflicting rows and
    appends the new one; naming a column the table does not have is an
    OperationalError.  pandas runs each [to_sql] call in a transaction of
    its own: all its rows are inserted and committed, or none.  A float
    NaN is written as NULL.  Text is compared byte-wise (SQLite's BINARY
    collation), which is [String.compare]. *)

From S2P Require Import Prelude Config Calendar MarketClient Normalizer.

Open Scope string_scope.

Module LocalStore.

Import Calendar Normalizer.

(** ** SQL values, rows, tables *)

Inductive sql_value : Type :=
  | SNull
  | SNum (x : num)
  | SText (s : string).

Abbreviation row := (list (string * sql_value)) (only parsing).

Record table : Type := mk_table {
  tb_columns : list string;
  tb_pk : list string;
  tb_rows : list row
}.

Abbreviation db := (gmap string table) (only parsing).

(** A Python float as written by the sqlite3 driver. *)
Definition value_of_num (x : num) : sql_value := if is_nan x then SNull else SNum x.

Definition row_get (r : row) (c : string) : sql_value :=
  match List.find (fun p => String.eqb (fst p) c) r with
  | Some p => snd p
  | None => SNull
  end.

(** Equality of two key values; NULL equals nothing. *)
Definition key_eqb (a b : sql_value) : bool :=
  match a, b with
  | SText x, SText y => String.eqb x y
  | SNum (Fin x), SNum (Fin y) => Qeq_bool x y
  | SNum PInf, SNum PInf | SNum NInf, SNum NInf => true
  | _, _ => false
  end.

(** Two rows of a table with a primary key clash on it. *)
Definition conflict (pk : list string) (r1 r2 : row) : bool :=
  negb (bool_decide (pk = [])) && forallb (fun c => key_eqb (row_get r1 c) (row_get r2 c)) pk.

(** The row a table stores for an INSERT naming the columns of [r]:
    every column of the table, NULL where not given. *)
Definition full_row (cols : list string) (r : row) : row := (fun c => (c, row_get r c)) <$> cols.

Definition columns_known (cols : list string) (r : row) : bool :=
  forallb (fun p => bool_decide (fst p ∈ cols)) r.

(** A plain INSERT into a table. *)
Definition insert_row (name : string) (tb : table) (r : row) : table + exn :=
  if columns_known (tb_columns tb) r then
    let r' := full_row (tb_columns tb) r in
    if existsb (conflict (tb_pk tb) r') (tb_rows tb) then inr (IntegrityError name)
    else inl (mk_table (tb_columns tb) (tb_pk tb) (tb_rows tb ++ [r']))
  else inr (OperationalError ("table " ++ name ++ " has no column named")).

(** [executemany] of the INSERT: the first failure aborts. *)
Fixpoint insert_rows (name : string) (tb : table) (rs : list row) : table + exn :=
  match rs with
  | [] => inl tb
  | r :: rest =>
      match insert_row name tb r with
      | inl tb' => insert_rows name tb' rest
      | inr e => inr e
      end
  end.

(** [INSERT OR REPLACE]: the rows clashing with the new one are deleted
    and the new row is appended. *)
Definition replace_row (name : string) (tb : table) (r : row) : table + exn :=
  if columns_known (tb_columns tb) r then
    let r' := full_row (tb_columns tb) r in
    inl (mk_table (tb_columns tb) (tb_pk tb)
           (filter (fun r0 => negb (conflict (tb_pk tb) r' r0)) (tb_rows tb) ++ [r']))
  else inr (OperationalError ("table " ++ name ++ " has no column named")).

(** ** init_database (lines 45-96) *)

Definition create_table_if_not_exists (name : string) (cols pk : list string) (d : db) : db :=
  match d !! name with
  | Some _ => d
  | None => <[name := mk_table cols pk []]> d
  end.

Definition init_database (d : db) : db :=
  let d := create_table_if_not_exists "market_data"
             ["date"; "market_cap"; "volume"; "btc_dominance"] ["date"] d in
  let d := create_table_if_not_exists "token_data"
             ["token"; "date"; "price"; "market_cap"; "volume"] ["token"; "date"] d in
  let d := create_table_if_not_exists "analysis_results"
             ["token"; "date"; "analysis_type"; "result"] ["token"; "date"; "analysis_type"] d in
  create_table_if_not_exists "trending_topics" ["date"; "topics"] ["date"] d.

(** ** DataFrame.to_sql(name, conn, if_exists='append', index=False) *)

(** A DataFrame as [to_sql] sees it: its column names and its rows. *)
Record sql_frame : Type := mk_sql_frame {
  sf_columns : list string;
  sf_rows : list row
}.

Definition to_sql_append (name : string) (df : sql_frame) (d : db) : db + exn :=
  let tb := match d !! name with
            | Some tb => tb
            | None => mk_table (sf_columns df) [] []
            end in
  match sf_rows df with
  | [] => inl (<[name := tb]> d)
  | rs =>
      match insert_rows name tb rs with
      | inl tb' => inl (<[name := tb']> d)
      | inr e => inr e
      end
  end.

(** ** save_data (lines 98-138) *)

(** The rows of a DataFrame: the date column written by
    [dt.strftime('%Y-%m-%d %H:%M:%S')] (whole seconds), then its other
    columns. *)
Definition frame_rows (fr : frame) : list row :=
  imap (fun i d => ("date", SText (strftime (Qfloor d))) ::
                   ((fun c => (fst c, value_of_num (nth i (snd c) NaN))) <$> fr_cols fr))
       (fr_date fr).

Definition market_df (fr : frame) : sql_frame := mk_sql_frame ("date" :: col_names fr) (frame_rows fr).

Definition TOKEN_TABLE_COLUMNS : list string := ["token"; "date"; "price"; "market_cap"; "volume"].

(** [df_token['token'] = token], the date conversion, and
    [df_token[['token', 'date', 'price', 'market_cap', 'volume']]], which
    raises [KeyError] when a column is missing. *)
Definition token_df (token : string) (fr : frame) : option sql_frame :=
  if forallb (fun c => has_col c (fr_cols fr)) ["price"; "market_cap"; "volume"] then
    Some (mk_sql_frame TOKEN_TABLE_COLUMNS
      (imap (fun i d =>
         [("token", SText token); ("date", SText (strftime (Qfloor d)));
          ("price", value_of_num (nth i (get_col "price" (fr_cols fr)) NaN));
          ("market_cap", value_of_num (nth i (get_col "market_cap" (fr_cols fr)) NaN));
          ("volume", value_of_num (nth i (get_col "volume" (fr_cols fr)) NaN))]) (fr_date fr)))
  else None.

(** The loop over [token_data.items()]; the first exception leaves the
    loop and is printed. *)
Fixpoint save_tokens (toks : list (string * frame)) (d : db) : db * option exn :=
  match toks with
  | [] => (d, None)
  | (tok, fr) :: rest =>
      match token_df tok fr with
      | None => (d, Some (KeyError "not in index"))
      | Some df =>
          match to_sql_append "token_data" df d with
          | inl d' => save_tokens rest d'
          | inr e => (d, Some e)
          end
      end
  end.

(** save_data: the database afterwards and the exception printed, if any. *)
Definition save_data (market : frame) (toks : list (string * frame)) (d : db) : db * option exn :=
  let d := init_database d in
  match to_sql_append "market_data" (market_df market) d with
  | inr e => (d, Some e)
  | inl d => save_tokens toks d
  end.

(** ** save_analysis_result and save_trending_topics (lines 201-234, 274-305) *)

Definition replace_into (name : string) (r : row) (d : db) : db * option exn :=
  match d !! name with
  | None => (d, Some (OperationalError ("no such table: " ++ name)))
  | Some tb =>
      match replace_row name tb r with
      | inl tb' => (<[name := tb']> d, None)
      | inr e => (d, Some e)
      end
  end.

(** [now] is [datetime.now()]; [result_json] is [json.dumps(result)]. *)
Definition save_analysis_result (token analysis_type result_json : string) (now : Z) (d : db) :
    db * option exn :=
  replace_into "analysis_results"
    [("token", SText token); ("date", SText (strftime now));
     ("analysis_type", SText analysis_type); ("result", SText result_json)]
    (init_database d).

Definition save_trending_topics (topics_json : string) (now : Z) (d : db) : db * option exn :=
  replace_into "trending_topics" [("date", SText (strftime now)); ("topics", SText topics_json)]
    (init_database d).

(** ** Reads (lines 140-199, 236-272, 307-341) *)

Definition text_of (v : sql_value) : string := match v with SText s => s | _ => "" end.

Definition date_of (r : row) : string := text_of (row_get r "date").

(** Python's truth value of an optional string argument. *)
Definition str_arg (o : option string) : option string :=
  match o with
  | Some s => if String.eqb s "" then None else Some s
  | None => None
  end.

(** [WHERE date >= ? AND date <= ?], each bound present when given. *)
Definition in_range (start_date end_date : option string) (r : row) : bool :=
  match str_arg start_date with Some a => String.leb a (date_of r) | None => true end &&
  match str_arg end_date with Some b => String.leb (date_of r) b | None => true end.

#[export] Instance date_leb_dec :
  RelDecision (fun r1 r2 : row => String.leb (date_of r1) (date_of r2) = true).
Proof. intros r1 r2. apply bool_dec. Defined.

#[export] Instance date_leb_total : Total (fun r1 r2 : row => String.leb (date_of r1) (date_of r2) = true).
Proof. intros r1 r2. apply String.leb_total. Qed.

(** [ORDER BY date]. *)
Definition order_by_date (rs : list row) : list row :=
  merge_sort (fun r1 r2 : row => String.leb (date_of r1) (date_of r2) = true) rs.

(** [pd.to_datetime] on the date column: a parse error raises. *)
Definition with_instants (rs : list row) : option (list (Z * row)) :=
  mapM (fun r => (fun t => (t, r)) <$> to_datetime (date_of r)) rs.

Definition token_of (r : row) : string := text_of (row_get r "token").

(** get_historical_data: [None] is the [(None, None)] of the handler. *)
Definition get_historical_data (start_date end_date : option string) (d : db) :
    option (list (Z * row) * list (string * list (Z * row))) :=
  mtb ← d !! "market_data";
  market ← with_instants (order_by_date (filter (in_range start_date end_date) (tb_rows mtb)));
  ttb ← d !! "token_data";
  let toks := remove_dups (token_of <$> tb_rows ttb) in
  tdata ← mapM (fun tok =>
             (fun rs => (tok, rs)) <$>
               with_instants (order_by_date
                 (filter (fun r => String.eqb (token_of r) tok && in_range start_date end_date r)
                         (tb_rows ttb)))) toks;
  Some (market, tdata).

(** [ORDER BY date DESC LIMIT ?] of get_analysis_result. *)
Definition get_analysis_result (token analysis_type : string) (limit : nat) (d : db) :
    list (string * string) :=
  match d !! "analysis_results" with
  | None => []
  | Some tb =>
      (fun r => (date_of r, text_of (row_get r "result"))) <$>
        take limit (reverse (order_by_date
          (filter (fun r => String.eqb (token_of r) token &&
                            String.eqb (text_of (row_get r "analysis_type")) analysis_type)
                  (tb_rows tb))))
  end.

(** [ORDER BY date DESC LIMIT ?] of get_trending_topics. *)
Definition get_trending_topics (limit : nat) (d : db) : list (string * string) :=
  match d !! "trending_topics" with
  | None => []
  | Some tb =>
      (fun r => (date_of r, text_of (row_get r "topics"))) <$>
        take limit (reverse (order_by_date (tb_rows tb)))
  end.

(** ** The store's invariant *)

(** No two rows of a table clash on its primary key. *)
Fixpoint keys_uniqueb (pk : list string) (rows : list row) : bool :=
  match rows with
  | [] => true
  | r :: rest => negb (existsb (conflict pk r) rest) && keys_uniqueb pk rest
  end.

(** Every table is one of the four of [DB_CONFIG] with its columns and
    key, and no key is stored twice. *)
Definition db_wf (d : db) : Prop :=
  forall name tb, d !! name = Some tb ->
    (exists tc, In tc Config.DB_CONFIG_tables /\ Config.tc_name tc = name /\
                Config.tc_columns tc = tb_columns tb /\ Config.tc_primary_key tc = tb_pk tb) /\
    keys_uniqueb (tb_pk tb) (tb_rows tb) = true.

(** The operations of database.py that write, as steps of a state
    machine on the database. *)
Inductive store_step : db -> db -> Prop :=
  | step_init d : store_step d (init_database d)
  | step_save_data m toks d : store_step d (fst (save_data m toks d))
  | step_save_analysis tok ty res now d : store_step d (fst (save_analysis_result tok ty res now d))
  | step_save_topics topics now d : store_step d (fst (save_trending_topics topics now d)).

Definition reachable (d : db) : Prop := rtc store_step ∅ d.

(** ** Keys *)

Lemma key_eqb_sym (a b : sql_value) : key_eqb a b = key_eqb b a.
Proof.
  destruct a as [|[x| | |]|x], b as [|[y| | |]|y]; cbn; try reflexivity.
  - apply eq_true_iff_eq. rewrite !Qeq_bool_iff. split; intros; symmetry; assumption.
  - apply String.eqb_sym.
Qed.

Lemma conflict_sym (pk : list string) (r1 r2 : row) : conflict pk r1 r2 = conflict pk r2 r1.
Proof.
  unfold conflict. f_equal. induction pk as [|c pk IH]; cbn; [done|]. by rewrite key_eqb_sym, IH.
Qed.

Lemma keys_uniqueb_snoc (pk : list string) (rows : list row) (r : row) :
  keys_uniqueb pk (rows ++ [r]) = keys_uniqueb pk rows && negb (existsb (conflict pk r) rows).
Proof.
  induction rows as [|r0 rows IH]; cbn; [by destruct (conflict pk r []), pk|].
  rewrite IH, existsb_app. clear IH. cbn. rewrite orb_false_r, (conflict_sym pk r0 r).
  destruct (existsb (conflict pk r0) rows), (keys_uniqueb pk rows), (conflict pk r r0),
    (existsb (conflict pk r) rows); reflexivity.
Qed.

Lemma existsb_filter {A} (f g : A -> bool) (l : list A) :
  existsb g (filter f l) = true -> existsb g l = true.
Proof.
  induction l as [|x l IH]; cbn; [done|]. destruct (f x); cbn.
  - intros [H|H]%orb_true_iff; apply orb_true_iff; [by left | right; by apply IH].
  - intros H. apply orb_true_iff. right. by apply IH.
Qed.

Lemma keys_uniqueb_filter (pk : list string) (f : row -> bool) (rows : list row) :
  keys_uniqueb pk rows = true -> keys_uniqueb pk (filter f rows) = true.
Proof.
  induction rows as [|r rows IH]; cbn; [done|]. intros [H1 H2]%andb_true_iff.
  destruct (f r); cbn; [|by apply IH]. apply andb_true_iff. split; [|by apply IH].
  apply negb_true_iff. apply negb_true_iff in H1. destruct (existsb _ (filter f rows)) eqn:E; [|done].
  apply existsb_filter in E. congruence.
Qed.

(** ** Table operations keep the key unique *)

Definition table_ok (cols pk : list string) (tb : table) : Prop :=
  tb_columns tb = cols /\ tb_pk tb = pk /\ keys_uniqueb pk (tb_rows tb) = true.

Lemma insert_row_ok (name : string) (cols pk : list string) (tb tb' : table) (r : row) :
  table_ok cols pk tb -> insert_row name tb r = inl tb' -> table_ok cols pk tb'.
Proof.
  intros (Hc & <- & Hu). unfold insert_row.
  destruct (columns_known _ r); [|discriminate].
  destruct (existsb _ _) eqn:E; [discriminate|]. intros [= <-].
  split; [done|]. split; [done|]. cbn. by rewrite keys_uniqueb_snoc, Hu, E.
Qed.

Lemma insert_rows_ok (name : string) (cols pk : list string) (tb tb' : table) (rs : list row) :
  table_ok cols pk tb -> insert_rows name tb rs = inl tb' -> table_ok cols pk tb'.
Proof.
  revert tb. induction rs as [|r rs IH]; intros tb Hok; cbn; [by intros [= <-]|].
  destruct (insert_row name tb r) as [tb1|e] eqn:E; [|discriminate].
  apply IH. by eapply insert_row_ok.
Qed.

Lemma replace_row_ok (name : string) (cols pk : list string) (tb tb' : table) (r : row) :
  table_ok cols pk tb -> replace_row name tb r = inl tb' -> table_ok cols pk tb'.
Proof.
  intros (Hc & <- & Hu). unfold replace_row. destruct (columns_known _ r); [|discriminate].
  intros [= <-]. split; [done|]. split; [done|]. cbn. rewrite keys_uniqueb_snoc.
  apply andb_true_iff. split; [by apply keys_uniqueb_filter|].
  apply negb_true_iff. apply not_true_iff_false. intros (r0 & Hin & Hc0)%existsb_exists.
  apply list_elem_of_In, list_elem_of_filter in Hin as [Hn _].
  apply Is_true_true, negb_true_iff in Hn. congruence.
Qed.

(** ** Database operations keep the invariant *)

Lemma db_wf_table (d : db) (name : string) (tb : table) :
  db_wf d -> d !! name = Some tb -> table_ok (tb_columns tb) (tb_pk tb) tb.
Proof. intros Hwf Hl. split; [done|]. split; [done|]. apply (Hwf _ _ Hl). Qed.

Lemma db_wf_update (d : db) (name : string) (tb tb' : table) :
  db_wf d -> d !! name = Some tb -> table_ok (tb_columns tb) (tb_pk tb) tb' ->
  db_wf (<[name := tb']> d).
Proof.
  intros Hwf Hl (Hc & Hp & Hu) n t. rewrite lookup_insert_Some.
  intros [[<- <-]|[_ Hn]]; [|by apply Hwf].
  destruct (Hwf _ _ Hl) as [(tc & Hin & Hn & Hcols & Hpk) _].
  split; [exists tc; rewrite Hc, Hp; done|]. by rewrite Hp.
Qed.

Lemma create_wf (name : string) (cols pk : list string) (d : db) :
  In (Config.mk_table_config name cols pk) Config.DB_CONFIG_tables ->
  db_wf d -> db_wf (create_table_if_not_exists name cols pk d).
Proof.
  intros Hin Hwf. assert (Htc : exists tc, In tc Config.DB_CONFIG_tables /\ Config.tc_name tc = name /\
              Config.tc_columns tc = cols /\ Config.tc_primary_key tc = pk) by (eexists; eauto). unfold create_table_if_not_exists. destruct (d !! name) eqn:E; [done|].
  intros n t. rewrite lookup_insert_Some. intros [[<- <-]|[_ Hn]]; [|by apply Hwf].
  split; [exact Htc|done].
Qed.

Lemma create_keeps (name m : string) (cols pk : list string) (d : db) :
  is_Some (d !! m) -> is_Some (create_table_if_not_exists name cols pk d !! m).
Proof.
  unfold create_table_if_not_exists. destruct (d !! name); [done|].
  intros H. destruct (decide (name = m)) as [->|Hne]; [by rewrite lookup_insert_eq|].
  by rewrite lookup_insert_ne.
Qed.

Lemma create_has (name : string) (cols pk : list string) (d : db) :
  is_Some (create_table_if_not_exists name cols pk d !! name).
Proof.
  unfold create_table_if_not_exists. destruct (d !! name) eqn:E; [by rewrite E|].
  by rewrite lookup_insert_eq.
Qed.

Lemma init_database_wf (d : db) : db_wf d -> db_wf (init_database d).
Proof.
  intros Hwf. unfold init_database.
  repeat (apply create_wf; [cbn; repeat first [left; reflexivity | right]|]). exact Hwf.
Qed.

(** After init_database the four tables exist. *)
Lemma init_database_has (d : db) (name : string) :
  In name ["market_data"; "token_data"; "analysis_results"; "trending_topics"] ->
  is_Some (init_database d !! name).
Proof.
  unfold init_database. intros H. repeat destruct H as [<-|H];
    repeat first [apply create_has | apply create_keeps]. contradiction.
Qed.

Lemma to_sql_append_wf (name : string) (df : sql_frame) (d d' : db) :
  db_wf d -> is_Some (d !! name) -> to_sql_append name df d = inl d' ->
  db_wf d' /\ forall m, is_Some (d !! m) -> is_Some (d' !! m).
Proof.
  intros Hwf [tb Hl]. unfold to_sql_append. rewrite Hl.
  assert (Hk : forall tb' m, is_Some (d !! m) -> is_Some (<[name := tb']> d !! m)).
  { intros tb' m Hm. destruct (decide (name = m)) as [->|Hne]; [by rewrite lookup_insert_eq|].
    by rewrite lookup_insert_ne. }
  destruct (sf_rows df) as [|r rs]; [intros [= <-]|].
  - split; [|apply Hk]. eapply db_wf_update; [done|exact Hl|]. by eapply db_wf_table.
  - destruct (insert_rows name tb (r :: rs)) as [tb'|e] eqn:E; [intros [= <-]|discriminate].
    split; [|apply Hk]. eapply db_wf_update; [done|exact Hl|].
    eapply insert_rows_ok; [|exact E]. by eapply db_wf_table.
Qed.

Lemma save_tokens_wf (toks : list (string * frame)) (d : db) :
  db_wf d -> is_Some (d !! "token_data") -> db_wf (fst (save_tokens toks d)).
Proof.
  revert d. induction toks as [|[tok fr] toks IH]; intros d Hwf Ht; cbn; [done|].
  destruct (token_df tok fr) as [df|]; [|done].
  destruct (to_sql_append "token_data" df d) as [d'|e] eqn:E; [|done].
  destruct (to_sql_append_wf _ _ _ _ Hwf Ht E) as [Hwf' Hk]. apply IH; [done|by apply Hk].
Qed.

Lemma save_data_wf (m : frame) (toks : list (string * frame)) (d : db) :
  db_wf d -> db_wf (fst (save_data m toks d)).
Proof.
  intros Hwf. pose proof (init_database_wf d Hwf) as Hi. unfold save_data.
  destruct (to_sql_append _ _ _) as [d'|e] eqn:E; [|done].
  destruct (to_sql_append_wf _ _ _ _ Hi (init_database_has d "market_data" ltac:(cbn; tauto)) E)
    as [Hwf' Hk].
  apply save_tokens_wf; [done|]. apply Hk, init_database_has. cbn; tauto.
Qed.

Lemma replace_into_wf (name : string) (r : row) (d : db) :
  db_wf d -> db_wf (fst (replace_into name r d)).
Proof.
  intros Hwf. unfold replace_into. destruct (d !! name) as [tb|] eqn:Hl; [|done].
  destruct (replace_row name tb r) as [tb'|e] eqn:E; [|done]. cbn.
  eapply db_wf_update; [done|exact Hl|]. eapply replace_row_ok; [|exact E]. by eapply db_wf_table.
Qed.

Lemma store_step_wf (d d' : db) : store_step d d' -> db_wf d -> db_wf d'.
Proof.
  destruct 1; intros Hwf.
  - by apply init_database_wf.
  - by apply save_data_wf.
  - by apply replace_into_wf, init_database_wf.
  - by apply replace_into_wf, init_database_wf.
Qed.

(** C11: Invariant of the local store: in every database the program can
    reach from an empty file by init_database, save_data,
    save_analysis_result and save_trending_topics, each table is one of
    the four declared in [DB_CONFIG], with its columns and primary key,
    and no primary key is stored twice. *)
Theorem reachable_wf (d : db) : reachable d -> db_wf d.
Proof.
  unfold reachable. intros H.
  assert (Hgen : forall d1 d2, rtc store_step d1 d2 -> db_wf d1 -> db_wf d2).
  { induction 1 as [|d1 d2 d3 Hs _ IH]; [done|]. intros Hwf. by apply IH, (store_step_wf d1). }
  apply (Hgen ∅); [done|]. intros n t. by rewrite lookup_empty.
Qed.

(** ** What save_data does with the frames app.py passes *)

Lemma has_col_fmap (x : string) (f : string * column -> column) (cols : list (string * column)) :
  has_col x ((fun c => (fst c, f c)) <$> cols) = has_col x cols.
Proof. unfold has_col. induction cols as [|c cols IH]; cbn; [done|]. f_equal. exact IH. Qed.

Lemma has_col_add_moving_averages (x : string) cols (col : string) :
  has_col x cols = true -> has_col x (add_moving_averages cols col) = true.
Proof.
  intros H. unfold add_moving_averages. destruct (has_col col cols); [|done].
  by rewrite !has_col_set_col, H.
Qed.

Lemma has_col_fold_moving_averages (x : string) cols (names : list string) :
  has_col x cols = true -> has_col x (fold_left add_moving_averages names cols) = true.
Proof.
  revert cols. induction names as [|n names IH]; intros cols H; cbn; [done|].
  by apply IH, has_col_add_moving_averages.
Qed.

(** Normalizing a frame with a market-cap column adds [market_cap_change]. *)
Lemma normalize_market_cap_change (fsqrt : Q -> Q) (fr : frame) :
  has_col "market_cap" (fr_cols fr) = true ->
  has_col "market_cap_change" (fr_cols (normalize fsqrt fr)) = true.
Proof.
  intros H. unfold normalize. cbn [fr_cols]. rewrite (has_col_fmap _ (fun c => bfill (snd c))).
  apply has_col_fold_moving_averages. unfold sort_by_date. cbn [fr_cols].
  rewrite <- (has_col_fmap "market_cap" (fun c => reorder NaN (date_order (fr_date fr)) (snd c)))
    in H.
  set (cols := (fun c => (fst c, reorder NaN (date_order (fr_date fr)) (snd c))) <$> fr_cols fr) in *.
  assert (Hm : has_col "market_cap" (if has_col "price" cols then
            set_col "volatility" (rolling (std fsqrt) 10 (get_col "daily_return"
              (set_col "daily_return" (scale 100 (pct_change (get_col "price" cols))) cols)))
            (set_col "daily_return" (scale 100 (pct_change (get_col "price" cols))) cols)
          else cols) = true) by (destruct (has_col "price" cols); by rewrite ?has_col_set_col, H).
  rewrite Hm. destruct (_ && _); rewrite ?has_col_set_col, ?String.eqb_refl, ?orb_true_r; reflexivity.
Qed.

Lemma pd_dataframe_names (ds : list Q) (cols : list (string * list json)) (fr : frame)
    (w w' : world) :
  pd_dataframe ds cols w = (Ret fr, w') -> fst <$> fr_cols fr = fst <$> cols /\ fr_date fr = ds.
Proof.
  unfold pd_dataframe. destruct (forallb _ cols); [|discriminate].
  destruct (mapM _ cols) as [cs|] eqn:E; [|discriminate]. intros [= <- _]. cbn. split; [|done].
  apply mapM_Some in E. induction E as [|c c' cols cs' Hc _ IH]; cbn; [done|].
  rewrite IH. f_equal. destruct (mapM json_to_num (snd c)); cbn in Hc; [|discriminate].
  by injection Hc as <-.
Qed.

Lemma has_col_names (x : string) (cols : list (string * column)) :
  has_col x cols = bool_decide (x ∈ fst <$> cols).
Proof.
  unfold has_col. induction cols as [|c cols IH]; cbn; [done|]. rewrite IH.
  destruct (String.eqb_spec (fst c) x) as [->|Hne].
  - symmetry. apply bool_decide_eq_true. left.
  - cbn. apply eq_true_iff_eq. rewrite !bool_decide_eq_true, elem_of_cons.
    split; [intros H; by right | intros [H|H]; [congruence | exact H]].
Qed.

Lemma columns_known_false (cols : list string) (r : row) (x : string) :
  x ∈ fst <$> r -> x ∉ cols -> columns_known cols r = false.
Proof.
  intros Hx Hn. apply not_true_iff_false. unfold columns_known. rewrite forallb_forall.
  intros H. apply list_elem_of_fmap in Hx as (p & -> & Hp%list_elem_of_In).
  apply H, bool_decide_eq_true in Hp. contradiction.
Qed.

Lemma init_market_table (d : db) :
  db_wf d -> exists tb, init_database d !! "market_data" = Some tb /\
    tb_columns tb = ["date"; "market_cap"; "volume"; "btc_dominance"].
Proof.
  intros Hwf. destruct (init_database_has d "market_data" ltac:(cbn; tauto)) as [tb Htb].
  exists tb. split; [done|].
  destruct (init_database_wf d Hwf _ _ Htb) as [(tc & Hin & Hn & Hc & _) _].
  rewrite <- Hc. cbn in Hin. by repeat destruct Hin as [<-|Hin]; cbn in Hn; try discriminate.
Qed.

Lemma frame_rows_head (fr : frame) :
  fr_date fr <> [] -> exists r rest, frame_rows fr = r :: rest /\ fst <$> r = "date" :: col_names fr.
Proof.
  unfold frame_rows. destruct (fr_date fr) as [|d0 ds]; [done|]. intros _. cbn.
  eexists _, _. split; [reflexivity|]. cbn. f_equal. unfold col_names.
  rewrite <- list_fmap_compose. reflexivity.
Qed.

(** C14: save_data cannot store what app.py gives it: app.py passes the
    normalized market DataFrame, whose derived columns ([market_cap_change]
    at least) the [market_data] table does not have, so the first
    [to_sql] fails with an OperationalError that save_data prints; no
    market row and no token row is written, whatever the token frames
    are, and the database is left as init_database made it. *)
Theorem save_data_processed_market_fails (fsqrt : Q -> Q) (ms : MarketClient.market_series)
    (toks : list (string * frame)) (d : db) (fr : frame) (w w' : world) :
  db_wf d -> MarketClient.ms_date ms <> [] ->
  process_historical_data fsqrt (MarketClient.ms_date ms) (market_dict ms) w = (Ret fr, w') ->
  save_data fr toks d = (init_database d, Some (OperationalError "table market_data has no column named")).
Proof.
  intros Hwf Hne Hp. unfold process_historical_data in Hp.
  apply mbind_inv in Hp as (fr0 & w1 & Hdf & Hn). injection Hn as <- _.
  apply pd_dataframe_names in Hdf as [Hnames Hdates].
  assert (Hmc : has_col "market_cap_change" (fr_cols (normalize fsqrt fr0)) = true).
  { apply normalize_market_cap_change. rewrite has_col_names, Hnames.
    apply bool_decide_eq_true. unfold market_dict. cbn. apply elem_of_cons. by left. }
  destruct (init_market_table d Hwf) as (tb & Htb & Hcols).
  destruct (frame_rows_head (normalize fsqrt fr0)) as (r & rest & Hrows & Hr).
  { intros Hnil. pose proof (Permutation_length (sort_by_date_perm fr0)) as Hl.
    change (fr_date (sort_by_date fr0)) with (fr_date (normalize fsqrt fr0)) in Hl.
    rewrite Hnil, Hdates in Hl. destruct (MarketClient.ms_date ms); [done|discriminate]. }
  unfold save_data, to_sql_append. rewrite Htb. cbn [market_df sf_rows]. rewrite Hrows. cbn.
  unfold insert_row. rewrite (columns_known_false _ r "market_cap_change"); [reflexivity| |].
  - rewrite Hr. apply elem_of_cons. right. unfold col_names.
    apply (bool_decide_eq_true _). rewrite <- has_col_names. exact Hmc.
  - rewrite Hcols. cbn. rewrite !elem_of_cons, elem_of_nil. intuition discriminate.
Qed.

Lemma db_wf_empty : db_wf ∅.
Proof. intros n t. by rewrite lookup_empty. Qed.

Lemma insert_row_shape (name : string) (tb tb' : table) (r : row) :
  insert_row name tb r = inl tb' ->
  tb_columns tb' = tb_columns tb /\ tb_pk tb' = tb_pk tb /\
  tb_rows tb' = (tb_rows tb ++ [full_row (tb_columns tb) r])%list /\
  existsb (conflict (tb_pk tb) (full_row (tb_columns tb) r)) (tb_rows tb) = false.
Proof.
  unfold insert_row. destruct (columns_known _ r); [|discriminate].
  destruct (existsb _ _) eqn:E; [discriminate|]. by intros [= <-].
Qed.

(** An INSERT batch containing a row whose key is stored fails. *)
Lemma insert_rows_conflict (name : string) (tb : table) (rs : list row) (r r0 : row) :
  In r rs -> In r0 (tb_rows tb) -> conflict (tb_pk tb) (full_row (tb_columns tb) r) r0 = true ->
  exists e, insert_rows name tb rs = inr e.
Proof.
  revert tb. induction rs as [|a rs IH]; intros tb Hin H0 Hc; [done|]. cbn.
  destruct (insert_row name tb a) as [tb'|e] eqn:E; [|eauto].
  destruct (insert_row_shape _ _ _ _ E) as (Hcols & Hpk & Hrows & Hno).
  destruct Hin as [<-|Hin].
  - exfalso. apply not_true_iff_false in Hno. apply Hno, existsb_exists. eauto.
  - apply IH; [done| |by rewrite Hcols, Hpk]. rewrite Hrows. apply in_or_app. by left.
Qed.

Lemma to_sql_append_other (name n : string) (df : sql_frame) (d d' : db) :
  name <> n -> to_sql_append name df d = inl d' -> d' !! n = d !! n.
Proof.
  intros Hne. unfold to_sql_append. destruct (sf_rows df); [intros [= <-]; by rewrite lookup_insert_ne|].
  destruct (insert_rows _ _ _); [intros [= <-]; by rewrite lookup_insert_ne | discriminate].
Qed.

(** C29: A second save of a stored (token, date) key does not replace the
    stored row: whatever happens to the market frame, the [token_data]
    table is left exactly as it was (the stored price stays) and
    save_data prints an exception, where the specification asks for
    the second value to be kept. *)
Theorem save_data_duplicate_key (m fr : frame) (tok : string) (d : db) (df : sql_frame)
    (tb : table) (r r0 : row) :
  init_database d !! "token_data" = Some tb -> token_df tok fr = Some df ->
  In r (sf_rows df) -> In r0 (tb_rows tb) ->
  conflict (tb_pk tb) (full_row (tb_columns tb) r) r0 = true ->
  fst (save_data m [(tok, fr)] d) !! "token_data" = Some tb /\ snd (save_data m [(tok, fr)] d) <> None.
Proof.
  intros Htb Hdf Hin H0 Hc. unfold save_data.
  destruct (to_sql_append "market_data" _ _) as [d'|e] eqn:Em; [|done].
  rewrite <- (to_sql_append_other "market_data" "token_data" _ _ _ ltac:(done) Em) in Htb.
  cbn. rewrite Hdf. unfold to_sql_append. rewrite Htb.
  destruct (sf_rows df) as [|a rs] eqn:Hrs; [done|].
  destruct (insert_rows_conflict "token_data" tb (a :: rs) r r0) as [e He]; [done..|].
  by rewrite He.
Qed.

Lemma save_data_processed_market_fails_witness :
  let ms := MarketClient.mk_market_series [1700000000%Q] [JNum 5] [JNum 1] [JNum 50] in
  let w := mk_world [] [] [] 1700000000 [] [] in
  exists fr, process_historical_data (fun q => q) (MarketClient.ms_date ms) (market_dict ms) w = (Ret fr, w) /\
    save_data fr [] ∅ = (init_database ∅, Some (OperationalError "table market_data has no column named")).
Proof.
  intros ms w. eexists. split; [vm_compute; reflexivity|].
  apply (save_data_processed_market_fails (fun q => q) ms [] ∅ _ w w);
    [exact db_wf_empty | discriminate | vm_compute; reflexivity].
Defined.

Lemma save_data_duplicate_key_witness :
  let m := mk_frame [] [] in
  let t1 := mk_frame [1700000000%Q] [("price", [Fin 100]); ("market_cap", [Fin 5]); ("volume", [Fin 1])] in
  let t2 := mk_frame [1700000000%Q] [("price", [Fin 200]); ("market_cap", [Fin 5]); ("volume", [Fin 1])] in
  let d1 := fst (save_data m [("BTC", t1)] ∅) in
  let r1 := [("token", SText "BTC"); ("date", SText "2023-11-14 22:13:20"); ("price", SNum (Fin 100));
             ("market_cap", SNum (Fin 5)); ("volume", SNum (Fin 1))] in
  let r2 := [("token", SText "BTC"); ("date", SText "2023-11-14 22:13:20"); ("price", SNum (Fin 200));
             ("market_cap", SNum (Fin 5)); ("volume", SNum (Fin 1))] in
  let tb := mk_table TOKEN_TABLE_COLUMNS ["token"; "date"] [r1] in
  fst (save_data m [("BTC", t2)] d1) !! "token_data" = Some tb /\ snd (save_data m [("BTC", t2)] d1) <> None.
Proof.
  intros m t1 t2 d1 r1 r2 tb.
  apply (save_data_duplicate_key m t2 "BTC" d1 (mk_sql_frame TOKEN_TABLE_COLUMNS [r2]) tb r2 r1);
    [vm_compute; reflexivity | vm_compute; reflexivity | left; reflexivity | left; reflexivity |
     vm_compute; reflexivity].
Defined.

(** ** INSERT OR REPLACE keeps one row per key *)

(** After init_database, a declared table has its declared columns and key. *)
Lemma init_table (d : db) (name : string) (cols pk : list string) :
  db_wf d -> In (Config.mk_table_config name cols pk) Config.DB_CONFIG_tables ->
  exists tb, init_database d !! name = Some tb /\ tb_columns tb = cols /\ tb_pk tb = pk.
Proof.
  intros Hwf Hin.
  destruct (init_database_has d name) as [tb Htb].
  { cbn in Hin. repeat destruct Hin as [Hin|Hin]; try (injection Hin; intros; subst); cbn; tauto. }
  exists tb. split; [done|].
  destruct (init_database_wf d Hwf _ _ Htb) as [(tc & Hin' & Hn & Hc & Hp) _].
  rewrite <- Hc, <- Hp. clear Htb. cbn in Hin, Hin'.
  repeat destruct Hin' as [<-|Hin']; try contradiction; cbn in Hn |- *; subst name;
    repeat destruct Hin as [Hin|Hin]; try contradiction; injection Hin; intros; subst;
    try discriminate; done.
Qed.

Lemma filter_conflict_replaced (pk : list string) (r : row) (rows : list row) :
  filter (fun r0 => conflict pk r r0) (filter (fun r0 => negb (conflict pk r r0)) rows) = [].
Proof.
  induction rows as [|r0 rows IH]; [done|]. destruct (conflict pk r r0) eqn:E.
  - rewrite filter_cons_False; [exact IH|]. rewrite E. cbn. tauto.
  - rewrite filter_cons_True by (rewrite E; exact I).
    rewrite filter_cons_False; [exact IH|]. rewrite E. cbn. tauto.
Qed.

(** save_analysis_result is an upsert: afterwards the
    [analysis_results] table holds exactly one row with the saved
    (token, date, analysis_type) key, and it carries the saved result,
    whatever was stored under that key before. *)
Theorem save_analysis_result_upsert (tok ty res : string) (now : Z) (d : db) :
  db_wf d ->
  let r := [("token", SText tok); ("date", SText (strftime now)); ("analysis_type", SText ty);
            ("result", SText res)] in
  exists tb, fst (save_analysis_result tok ty res now d) !! "analysis_results" = Some tb /\
    snd (save_analysis_result tok ty res now d) = None /\
    filter (fun r0 => conflict (tb_pk tb) r r0) (tb_rows tb) = [r].
Proof.
  intros Hwf r. destruct (init_table d "analysis_results" ["token"; "date"; "analysis_type"; "result"]
                            ["token"; "date"; "analysis_type"]) as (tb & Htb & Hc & Hp);
    [done | cbn; tauto |].
  unfold save_analysis_result, replace_into. rewrite Htb. unfold replace_row. subst r.
  generalize (strftime now) as dt. intros dt.
  rewrite Hc. cbn [columns_known forallb fst]. rewrite !bool_decide_eq_true_2 by set_solver. cbn.
  eexists. split; [by rewrite lookup_insert_eq|]. split; [done|]. cbn [tb_pk tb_rows].
  rewrite Hp, filter_app, filter_conflict_replaced. cbn. by rewrite !String.eqb_refl.
Qed.

(** ** The date filter of get_historical_data *)

Lemma strftime_nonempty (t : Z) : String.eqb (strftime t) "" = false.
Proof. unfold strftime. destruct (civil_from_days _) as [[y m] d]. cbn [pad]. by rewrite string_app_cons. Qed.

Lemma leb_strftime (t1 t2 : Z) :
  MIN_TIMESTAMP <= t1 <= MAX_TIMESTAMP -> MIN_TIMESTAMP <= t2 <= MAX_TIMESTAMP ->
  String.leb (strftime t1) (strftime t2) = true <-> t1 <= t2.
Proof.
  intros H1 H2. unfold String.leb. rewrite compare_strftime by assumption.
  destruct (Z.compare_spec t1 t2); split; intros; (discriminate || lia || reflexivity).
Qed.

(** The text filter of get_historical_data is the time filter: for
    stored dates and bounds written by [strftime], a row passes
    [date >= start AND date <= end] exactly when its instant lies between
    the two instants, bounds included. *)
Theorem in_range_instants (ta tb t : Z) (r : row) :
  MIN_TIMESTAMP <= ta <= MAX_TIMESTAMP -> MIN_TIMESTAMP <= tb <= MAX_TIMESTAMP ->
  MIN_TIMESTAMP <= t <= MAX_TIMESTAMP -> date_of r = strftime t ->
  in_range (Some (strftime ta)) (Some (strftime tb)) r = true <-> ta <= t <= tb.
Proof.
  intros Ha Hb Ht Hr. unfold in_range, str_arg. rewrite !strftime_nonempty, Hr.
  rewrite andb_true_iff, !leb_strftime by assumption. lia.
Qed.

Lemma compare_app_longer (p c : string) (a : ascii) :
  String.compare (p ++ String a c) p = Gt.
Proof.
  induction p as [|b p IH]; [reflexivity|]. rewrite string_app_cons, string_compare_cons. exact IH.
Qed.

Lemma strftime_split (t : Z) :
  let '(y, m, d) := civil_from_days (t / 86400) in
  exists rest, strftime t = ((pad 4 y ++ "-" ++ pad 2 m ++ "-" ++ pad 2 d) ++ String " " rest)%string.
Proof.
  unfold strftime. destruct (civil_from_days (t / 86400)) as [[y m] d].
  eexists. rewrite !string_app_assoc. reflexivity.
Qed.

(** C39: An end date given as a day ([YYYY-MM-DD]) excludes that whole
    day: a row stored at any time of that day, midnight included,
    compares greater than the bare date and is filtered out, where the
    specification asks for an inclusive range. *)
Theorem end_day_excluded (t : Z) (r : row) :
  date_of r = strftime t ->
  let '(y, m, d) := civil_from_days (t / 86400) in
  in_range None (Some (pad 4 y ++ "-" ++ pad 2 m ++ "-" ++ pad 2 d)) r = false.
Proof.
  intros Hr. pose proof (strftime_split t) as Hs.
  destruct (civil_from_days (t / 86400)) as [[y m] d]. destruct Hs as [rest Hs].
  unfold in_range, str_arg. rewrite Hr, Hs. cbn [pad]. rewrite string_app_cons. cbn [String.eqb].
  unfold String.leb. rewrite <- string_app_cons. by rewrite compare_app_longer.
Qed.

Lemma save_analysis_result_upsert_witness :
  db_wf ∅ /\
  exists tb, fst (save_analysis_result "BTC" "whitepaper" "{}" 1700000000 ∅) !! "analysis_results" = Some tb /\
    snd (save_analysis_result "BTC" "whitepaper" "{}" 1700000000 ∅) = None /\
    filter (fun r0 => conflict (tb_pk tb)
              [("token", SText "BTC"); ("date", SText (strftime 1700000000));
               ("analysis_type", SText "whitepaper"); ("result", SText "{}")] r0) (tb_rows tb) =
    [[("token", SText "BTC"); ("date", SText (strftime 1700000000));
      ("analysis_type", SText "whitepaper"); ("result", SText "{}")]].
Proof. split; [exact db_wf_empty|]. apply (save_analysis_result_upsert _ _ _ _ ∅ db_wf_empty). Defined.

Lemma in_range_instants_witness :
  let r := [("date", SText (strftime 1700000000))] in
  (MIN_TIMESTAMP <= 1699999999 <= MAX_TIMESTAMP) /\ (MIN_TIMESTAMP <= 1700000001 <= MAX_TIMESTAMP) /\
  (MIN_TIMESTAMP <= 1700000000 <= MAX_TIMESTAMP) /\ date_of r = strftime 1700000000 /\
  in_range (Some (strftime 1699999999)) (Some (strftime 1700000001)) r = true.
Proof.
  intros r. unfold MIN_TIMESTAMP, MAX_TIMESTAMP.
  split; [lia|]. split; [lia|]. split; [lia|]. split; [reflexivity|].
  apply (in_range_instants 1699999999 1700000001 1700000000 r); unfold MIN_TIMESTAMP, MAX_TIMESTAMP;
    (lia || reflexivity).
Defined.

Lemma end_day_excluded_witness :
  date_of [("date", SText (strftime 1700000000))] = strftime 1700000000 /\
  in_range None (Some "2023-11-14") [("date", SText "2023-11-14 22:13:20")] = false.
Proof.
  split; [reflexivity|].
  exact (end_day_excluded 1700000000 [("date", SText (strftime 1700000000))] eq_refl).
Defined.

(** ** Saving a raw market series and reading it back *)

Lemma row_get_full_row (cols : list string) (r : row) (c : string) :
  In c cols -> row_get (full_row cols r) c = row_get r c.
Proof.
  unfold row_get, full_row. induction cols as [|c' cols IH]; [done|]. intros Hin. cbn.
  destruct (String.eqb_spec c' c) as [->|Hne]; [done|]. apply IH. destruct Hin; [congruence|done].
Qed.

Lemma frame_rows_dates (fr : frame) :
  (fun r => row_get r "date") <$> frame_rows fr = (fun q => SText (strftime (Qfloor q))) <$> fr_date fr.
Proof. unfold frame_rows. rewrite fmap_imap. by rewrite <- imap_const. Qed.

(** Keys made of distinct date strings never clash. *)
Lemma keys_unique_dates (rows : list row) :
  Forall (fun r => exists s, row_get r "date" = SText s) rows -> NoDup (date_of <$> rows) ->
  keys_uniqueb ["date"] rows = true.
Proof.
  induction rows as [|r rows IH]; intros Hs Hnd; [done|]. cbn in Hnd.
  apply NoDup_cons in Hnd as [Hn Hnd]. inversion Hs as [|? ? [s Hr] Hs']; subst.
  cbn. rewrite IH by done. rewrite andb_true_r. apply negb_true_iff, not_true_iff_false.
  intros (r' & Hin & Hc)%existsb_exists. unfold conflict in Hc. cbn in Hc.
  rewrite Hr, andb_true_r in Hc. apply Hn. apply list_elem_of_fmap. exists r'.
  split; [|by apply list_elem_of_In].
  destruct (proj1 (List.Forall_forall _ _) Hs' r' Hin) as [s' Hr'].
  unfold date_of. rewrite Hr, Hr'. rewrite Hr' in Hc. cbn in Hc |- *.
  by apply String.eqb_eq in Hc as ->.
Qed.

Lemma keys_uniqueb_app_cons (pk : list string) (l1 l2 : list row) (x : row) :
  keys_uniqueb pk (l1 ++ x :: l2) = true -> existsb (conflict pk x) l1 = false.
Proof.
  induction l1 as [|a l1 IH]; [done|]. cbn. intros [H1 H2]%andb_true_iff.
  rewrite IH by exact H2. rewrite orb_false_r. apply negb_true_iff in H1.
  rewrite existsb_app in H1. apply orb_false_iff in H1 as [_ H1]. cbn in H1.
  apply orb_false_iff in H1 as [H1 _]. by rewrite conflict_sym.
Qed.

(** An INSERT batch of fresh keys appends all its rows. *)
Lemma insert_rows_fresh (name : string) (tb : table) (rs : list row) :
  Forall (fun r => columns_known (tb_columns tb) r = true) rs ->
  keys_uniqueb (tb_pk tb) (tb_rows tb ++ (full_row (tb_columns tb) <$> rs))%list = true ->
  insert_rows name tb rs =
  inl (mk_table (tb_columns tb) (tb_pk tb) (tb_rows tb ++ (full_row (tb_columns tb) <$> rs))%list).
Proof.
  revert tb. induction rs as [|r rs IH]; intros tb Hk Hu; cbn.
  - by rewrite app_nil_r; destruct tb.
  - inversion Hk as [|? ? Hr Hk']; subst. unfold insert_row. rewrite Hr.
    rewrite (keys_uniqueb_app_cons _ _ _ _ Hu). rewrite IH; cbn; [by rewrite <- app_assoc|done|].
    by rewrite <- app_assoc.
Qed.

Lemma filter_all {A} (P : A -> bool) (l : list A) :
  Forall (fun x => P x = true) l -> filter (fun x => P x) l = l.
Proof.
  induction 1 as [|x l Hx _ IH]; [done|]. rewrite filter_cons_True by (rewrite Hx; exact I).
  by rewrite IH.
Qed.

Lemma frame_rows_names (fr : frame) :
  Forall (fun r => fst <$> r = "date" :: col_names fr) (frame_rows fr).
Proof.
  apply List.Forall_forall. intros r Hr. apply list_elem_of_In, list_elem_of_lookup in Hr as [i Hi].
  unfold frame_rows in Hi. rewrite list_lookup_imap in Hi.
  destruct (fr_date fr !! i); cbn in Hi; [|discriminate]. injection Hi as <-. cbn. f_equal.
  unfold col_names. rewrite <- list_fmap_compose. reflexivity.
Qed.

Lemma strftime_inj (t1 t2 : Z) :
  MIN_TIMESTAMP <= t1 <= MAX_TIMESTAMP -> MIN_TIMESTAMP <= t2 <= MAX_TIMESTAMP ->
  strftime t1 = strftime t2 -> t1 = t2.
Proof.
  intros H1 H2 He. pose proof (compare_strftime t1 t2 H1 H2) as Hc.
  rewrite He, string_compare_refl in Hc. symmetry in Hc. by apply Z.compare_eq_iff in Hc.
Qed.

Lemma with_instants_all (h : row -> Z) (l : list row) :
  Forall (fun r => to_datetime (date_of r) = Some (h r)) l ->
  with_instants l = Some ((fun r => (h r, r)) <$> l).
Proof.
  intros H. unfold with_instants. apply mapM_Some_2. apply Forall2_fmap_r, Forall_Forall2_diag.
  eapply Forall_impl; [exact H|]. intros r Hr. cbv beta. by rewrite Hr.
Qed.

Lemma to_sql_append_eq (name : string) (df : sql_frame) (d : db) (tb tb' : table) :
  d !! name = Some tb -> insert_rows name tb (sf_rows df) = inl tb' ->
  to_sql_append name df d = inl (<[name := tb']> d).
Proof.
  intros Hl Hi. unfold to_sql_append. rewrite Hl.
  destruct (sf_rows df); [by injection Hi as <-|by rewrite Hi].
Qed.

Definition MARKET_TABLE_COLUMNS : list string := ["date"; "market_cap"; "volume"; "btc_dominance"].

(** The rows a market frame gives the table, and their date texts. *)
Lemma market_rows_dates (m : frame) :
  Forall (fun q => MIN_TIMESTAMP <= Qfloor q <= MAX_TIMESTAMP) (fr_date m) ->
  date_of <$> (full_row MARKET_TABLE_COLUMNS <$> frame_rows m) = (fun q => strftime (Qfloor q)) <$> fr_date m /\
  Forall (fun r => exists t, MIN_TIMESTAMP <= t <= MAX_TIMESTAMP /\ date_of r = strftime t)
         (full_row MARKET_TABLE_COLUMNS <$> frame_rows m).
Proof.
  intros Hrange. set (rows := full_row MARKET_TABLE_COLUMNS <$> frame_rows m).
  assert (Hdates : date_of <$> rows = (fun q => strftime (Qfloor q)) <$> fr_date m).
  { subst rows. rewrite <- list_fmap_compose.
    transitivity (text_of <$> ((fun r => row_get r "date") <$> frame_rows m)).
    - rewrite <- list_fmap_compose. apply list_fmap_ext. intros i r _.
      unfold compose, date_of. rewrite row_get_full_row; [done|cbn; tauto].
    - rewrite frame_rows_dates, <- list_fmap_compose. done. }
  split; [exact Hdates|].
  assert (HF0 : Forall (fun s => exists t, MIN_TIMESTAMP <= t <= MAX_TIMESTAMP /\ s = strftime t)
                       (date_of <$> rows)).
  { rewrite Hdates, Forall_fmap. eapply Forall_impl; [exact Hrange|]. intros q Hq. exists (Qfloor q). split; [exact Hq | reflexivity]. }
  apply List.Forall_forall. intros r Hr. apply (proj1 (List.Forall_forall _ _) HF0).
  apply list_elem_of_In, list_elem_of_fmap_2, list_elem_of_In, Hr.
Qed.

(** Saving a market frame with the table's columns and distinct dates of
    years 1 to 9999 into a new database stores its rows. *)
Lemma save_market_fresh (m : frame) :
  Forall (fun c => In c MARKET_TABLE_COLUMNS) (col_names m) ->
  Forall (fun q => MIN_TIMESTAMP <= Qfloor q <= MAX_TIMESTAMP) (fr_date m) ->
  NoDup (Qfloor <$> fr_date m) ->
  save_data m [] ∅ =
    (<["market_data" := mk_table MARKET_TABLE_COLUMNS ["date"] (full_row MARKET_TABLE_COLUMNS <$> frame_rows m)]>
       (init_database ∅), None).
Proof.
  intros Hcols Hrange Hnd. destruct (market_rows_dates m Hrange) as [Hdates HF].
  set (rows := full_row MARKET_TABLE_COLUMNS <$> frame_rows m) in *.
  assert (Hinit : init_database ∅ !! "market_data" = Some (mk_table MARKET_TABLE_COLUMNS ["date"] []))
    by reflexivity.
  assert (Hknown : Forall (fun r => columns_known MARKET_TABLE_COLUMNS r = true) (frame_rows m)).
  { eapply Forall_impl; [apply frame_rows_names|]. intros r Hr. unfold columns_known.
    apply forallb_forall. intros p Hp. apply bool_decide_eq_true_2.
    assert (Hf : fst p ∈ fst <$> r) by (apply list_elem_of_fmap_2, list_elem_of_In, Hp).
    rewrite Hr in Hf. apply elem_of_cons in Hf as [->|Hf]; [cbn; set_solver|].
    apply list_elem_of_In. apply list_elem_of_In in Hf. by apply (proj1 (List.Forall_forall _ _) Hcols). }
  assert (Hins : insert_rows "market_data" (mk_table MARKET_TABLE_COLUMNS ["date"] []) (frame_rows m) =
                 inl (mk_table MARKET_TABLE_COLUMNS ["date"] rows)).
  { rewrite insert_rows_fresh; [done|exact Hknown|]. cbn. apply keys_unique_dates.
    - eapply Forall_impl; [exact HF|]. intros r (t & _ & Ht). unfold date_of in Ht.
      destruct (row_get r "date") as [|x|s0]; [| |eauto]; exfalso; cbn [text_of] in Ht;
        pose proof (strftime_nonempty t) as Hne; rewrite <- Ht in Hne; cbn in Hne; discriminate.
    - change (NoDup (date_of <$> rows)). rewrite Hdates, (list_fmap_compose Qfloor strftime).
      apply NoDup_fmap_2_strong; [|exact Hnd]. intros x y Hx Hy. apply strftime_inj.
      + apply list_elem_of_fmap in Hx as (q & -> & Hq). by apply (Forall_forall _ _) with (x := q) in Hrange.
      + apply list_elem_of_fmap in Hy as (q & -> & Hq). by apply (Forall_forall _ _) with (x := q) in Hrange. }
  unfold save_data. by rewrite (to_sql_append_eq "market_data" (market_df m) _ _ _ Hinit Hins).
Qed.

(** The instant a stored date text reads back as. *)
Definition read_instant (r : row) : Z := match to_datetime (date_of r) with Some t => t | None => 0 end.

(** Reading a market table of a new database whose dates are stored
    instants: every row, sorted by date, with its instant. *)
Lemma historical_market_all (rows : list row) :
  Forall (fun r => exists t, MIN_TIMESTAMP <= t <= MAX_TIMESTAMP /\ date_of r = strftime t) rows ->
  get_historical_data None None (<["market_data" := mk_table MARKET_TABLE_COLUMNS ["date"] rows]> (init_database ∅)) =
    Some ((fun r => (read_instant r, r)) <$> order_by_date rows, []) /\
  Sorted Z.le ((fun r => read_instant r) <$> order_by_date rows).
Proof.
  intros HF.
  assert (Hh : Forall (fun r => to_datetime (date_of r) = Some (read_instant r) /\
                 MIN_TIMESTAMP <= read_instant r <= MAX_TIMESTAMP /\ date_of r = strftime (read_instant r)) rows).
  { eapply Forall_impl; [exact HF|]. intros r (t & Ht & Hr). unfold read_instant.
    rewrite Hr, to_datetime_strftime by exact Ht. auto. }
  assert (Hperm : order_by_date rows ≡ₚ rows) by apply merge_sort_Permutation.
  split.
  - unfold get_historical_data. cbn [fst]. rewrite lookup_insert_eq, option_bind_some. cbv beta. cbn [tb_rows].
    rewrite filter_all by (apply Forall_true; reflexivity).
    rewrite (with_instants_all read_instant); [|rewrite Hperm; eapply Forall_impl; [exact Hh|]; intros r [Hr _]; exact Hr].
    rewrite option_bind_some. rewrite lookup_insert_ne by done. reflexivity.
  - apply (Sorted_fmap_on (fun r => MIN_TIMESTAMP <= read_instant r <= MAX_TIMESTAMP /\
      date_of r = strftime (read_instant r)) (fun r1 r2 : row => String.leb (date_of r1) (date_of r2) = true)).
    + rewrite Hperm. eapply Forall_impl; [exact Hh|]. intros r (_ & H1 & H2). split; assumption.
    + intros x y [Hx Ex] [Hy Ey]. rewrite Ex, Ey. by apply leb_strftime.
    + apply Sorted_merge_sort, _.
Qed.

(** C16: Round trip through the store: saving a market series with the
    table's columns, distinct whole-second dates and years 1 to 9999
    into a new database succeeds, and get_historical_data without bounds
    gives back every saved row, in ascending date order, with the
    instants it was saved at. *)
Theorem save_load_roundtrip (m : frame) :
  Forall (fun c => In c MARKET_TABLE_COLUMNS) (col_names m) ->
  Forall (fun q => MIN_TIMESTAMP <= Qfloor q <= MAX_TIMESTAMP) (fr_date m) ->
  NoDup (Qfloor <$> fr_date m) ->
  snd (save_data m [] ∅) = None /\
  exists market, get_historical_data None None (fst (save_data m [] ∅)) = Some (market, []) /\
    Sorted Z.le (fst <$> market) /\ (fst <$> market) ≡ₚ (Qfloor <$> fr_date m) /\
    (snd <$> market) ≡ₚ (full_row MARKET_TABLE_COLUMNS <$> frame_rows m).
Proof.
  intros Hcols Hrange Hnd. rewrite (save_market_fresh m Hcols Hrange Hnd). split; [done|].
  destruct (market_rows_dates m Hrange) as [Hdates HF].
  set (rows := full_row MARKET_TABLE_COLUMNS <$> frame_rows m) in *.
  destruct (historical_market_all rows HF) as [Eh Hs].
  assert (Hperm : order_by_date rows ≡ₚ rows) by apply merge_sort_Permutation.
  exists ((fun r => (read_instant r, r)) <$> order_by_date rows). split_and!; [exact Eh | by rewrite <- list_fmap_compose | |].
  - rewrite <- list_fmap_compose, Hperm. cbn.
    transitivity ((fun s => match to_datetime s with Some t => t | None => 0 end) <$> (date_of <$> rows));
      [by rewrite <- list_fmap_compose|]. rewrite Hdates, <- list_fmap_compose.
    apply reflexive_eq, list_fmap_ext. intros i q Hi. unfold compose. cbv beta. rewrite to_datetime_strftime; [done|].
    by apply (Forall_lookup_1 _ _ _ _ Hrange Hi).
  - rewrite <- list_fmap_compose. cbn. rewrite list_fmap_id. exact Hperm.
Qed.

Lemma save_load_roundtrip_witness :
  let m := mk_frame [1700086400%Q; 1700000000%Q]
             [("market_cap", [Fin 7; Fin 5]); ("volume", [Fin 2; Fin 1]); ("btc_dominance", [Fin 51; Fin 50])] in
  Forall (fun c => In c MARKET_TABLE_COLUMNS) (col_names m) /\
  Forall (fun q => MIN_TIMESTAMP <= Qfloor q <= MAX_TIMESTAMP) (fr_date m) /\
  NoDup (Qfloor <$> fr_date m) /\
  snd (save_data m [] ∅) = None /\
  exists market, get_historical_data None None (fst (save_data m [] ∅)) = Some (market, []) /\
    Sorted Z.le (fst <$> market) /\ (fst <$> market) ≡ₚ (Qfloor <$> fr_date m) /\
    (snd <$> market) ≡ₚ (full_row MARKET_TABLE_COLUMNS <$> frame_rows m).
Proof.
  intros m.
  assert (H1 : Forall (fun c => In c MARKET_TABLE_COLUMNS) (col_names m))
    by (repeat constructor; cbn; intuition).
  assert (H2 : Forall (fun q => MIN_TIMESTAMP <= Qfloor q <= MAX_TIMESTAMP) (fr_date m))
    by (repeat constructor; unfold MIN_TIMESTAMP, MAX_TIMESTAMP; vm_compute; discriminate).
  assert (H3 : NoDup (Qfloor <$> fr_date m))
    by (apply (bool_decide_unpack (NoDup (Qfloor <$> fr_date m))); vm_compute; reflexivity).
  split; [exact H1|]. split; [exact H2|]. split; [exact H3|].
  exact (save_load_roundtrip m H1 H2 H3).
Defined.

Lemma reachable_wf_witness :
  reachable (fst (save_trending_topics "[]" 1700000000 ∅)) /\
  db_wf (fst (save_trending_topics "[]" 1700000000 ∅)).
Proof.
  assert (H : reachable (fst (save_trending_topics "[]" 1700000000 ∅)))
    by (apply rtc_once; constructor).
  split; [exact H | apply reachable_wf, H].
Defined.

End LocalStore.
