(* ===== verification/News.v ===== *)
(** The news and sentiment component of src/news_analyzer.py:
    [get_trending_topics] (lines 16-36) trying News API (lines 38-80),
    then CryptoPanic (lines 82-136), then the mock data (lines 316-437);
    [process_articles] (lines 138-203) grouping articles by title words
    and ordering the groups at random; [extract_tokens_from_articles]
    (lines 205-314) counting token mentions and a word-list sentiment.
    Articles are decoded JSON values; [.get], [.lower()] and iteration
    raise as Python does on values of the wrong type.  Dates are read
    with the regular expression [datetime.strptime] builds for
    "%Y-%m-%dT%H:%M:%SZ" and written with "%B %d, %Y". *)

From Stdlib Require Import Qminmax.
From stdpp Require Import pretty.
From S2P Require Import Prelude Calendar.

Open Scope string_scope.

Module News.

(** ** Python strings *)

(** [str.isspace] on one character (code points below 256). *)
Definition py_isspace (c : ascii) : bool :=
  let n := nat_of_ascii c in
  (Nat.leb 9 n && Nat.leb n 13) || (Nat.leb 28 n && Nat.leb n 32) || Nat.eqb n 133 || Nat.eqb n 160.

(** [str.split()] with no separator: the maximal runs of non-space
    characters.  [cur] is the word being read, reversed. *)
Fixpoint split_go (cur : list ascii) (s : string) : list string :=
  match s with
  | EmptyString => match cur with [] => [] | _ => [string_of_list_ascii (rev cur)] end
  | String c s' =>
      if py_isspace c then
        match cur with [] => split_go [] s' | _ => string_of_list_ascii (rev cur) :: split_go [] s' end
      else split_go (c :: cur) s'
  end.

Definition py_split (s : string) : list string := split_go [] s.

(** [len(set(words))] and [len(a & b)]: sets as duplicate-free lists. *)
Definition py_set (ws : list string) : list string := remove_dups ws.

Definition py_intersection (a b : list string) : list string :=
  List.filter (fun x => bool_decide (x ∈ b)) (py_set a).

(** ** Decoded JSON values *)

(** [obj.get(k, default)]: only dicts have [get]. *)
Definition obj_get (j : json) (k : string) (default : json) : M json :=
  match j with
  | JObj kvs => mret (match json_lookup k kvs with Some v => v | None => default end)
  | _ => py_raise AttributeError
  end.

(** [x.lower()]: only strings have [lower]. *)
Definition py_lower (j : json) : M string :=
  match j with JStr s => mret (str_lower s) | _ => py_raise AttributeError end.

(** ** Dates: [datetime.strptime(s, "%Y-%m-%dT%H:%M:%SZ")] *)

(** The alternatives of one directive of [_strptime], in the order the
    regular expression tries them, each with its value and the rest of
    the input.  [two p] reads two digits [a b] with [p a b]; [one p] one
    digit. *)
Definition two (p : Z -> Z -> bool) (s : string) : list (Z * string) :=
  match s with
  | String c1 (String c2 rest) =>
      match Calendar.digit_value c1, Calendar.digit_value c2 with
      | Some a, Some b => if p a b then [(10 * a + b, rest)%Z] else []
      | _, _ => []
      end
  | _ => []
  end.

Definition one (p : Z -> bool) (s : string) : list (Z * string) :=
  match s with
  | String c rest => match Calendar.digit_value c with
                     | Some a => if p a then [(a, rest)] else []
                     | None => []
                     end
  | _ => []
  end.

(** [%Y]: [\d\d\d\d]. *)
Definition field_Y (s : string) : list (Z * string) :=
  match Calendar.take_digits_acc 4 0 s with Some r => [r] | None => [] end.

(** [%m]: [1[0-2]|0[1-9]|[1-9]]. *)
Definition field_m (s : string) : list (Z * string) :=
  two (fun a b => (a =? 1) && (b <=? 2))%Z s ++ two (fun a b => (a =? 0) && (1 <=? b))%Z s ++
  one (fun a => 1 <=? a)%Z s.

(** [%d]: [3[0-1]|[1-2]\d|0[1-9]|[1-9]| [1-9]]. *)
Definition field_d (s : string) : list (Z * string) :=
  two (fun a b => (a =? 3) && (b <=? 1))%Z s ++ two (fun a _ => (1 <=? a) && (a <=? 2))%Z s ++
  two (fun a b => (a =? 0) && (1 <=? b))%Z s ++ one (fun a => 1 <=? a)%Z s ++
  match s with String " " rest => one (fun a => 1 <=? a)%Z rest | _ => [] end.

(** [%H]: [2[0-3]|[0-1]\d|\d]. *)
Definition field_H (s : string) : list (Z * string) :=
  two (fun a b => (a =? 2) && (b <=? 3))%Z s ++ two (fun a _ => a <=? 1)%Z s ++ one (fun _ => true) s.

(** [%M]: [[0-5]\d|\d]. *)
Definition field_M (s : string) : list (Z * string) :=
  two (fun a _ => a <=? 5)%Z s ++ one (fun _ => true) s.

(** [%S]: [6[0-1]|[0-5]\d|\d]. *)
Definition field_S (s : string) : list (Z * string) :=
  two (fun a b => (a =? 6) && (b <=? 1))%Z s ++ two (fun a _ => a <=? 5)%Z s ++ one (fun _ => true) s.

(** A literal of the format; the pattern is compiled with [IGNORECASE]. *)
Definition lit (c : ascii) (s : string) : option string :=
  match s with
  | String c' rest => if Ascii.eqb (ascii_lower c) (ascii_lower c') then Some rest else None
  | EmptyString => None
  end.

(** Backtracking: the first alternative with which the rest matches. *)
Fixpoint first_match {A B} (cands : list A) (k : A -> option B) : option B :=
  match cands with
  | [] => None
  | x :: xs => match k x with Some b => Some b | None => first_match xs k end
  end.

(** [format_regex.match(data_string)]: the six fields and the unread
    rest. *)
Definition strptime_match (s : string) : option (Z * Z * Z * Z * Z * Z * string) :=
  first_match (field_Y s) (fun '(y, r) =>
  r ← lit "-" r;
  first_match (field_m r) (fun '(mo, r) =>
  r ← lit "-" r;
  first_match (field_d r) (fun '(d, r) =>
  r ← lit "T" r;
  first_match (field_H r) (fun '(hh, r) =>
  r ← lit ":" r;
  first_match (field_M r) (fun '(mi, r) =>
  r ← lit ":" r;
  first_match (field_S r) (fun '(ss, r) =>
  r ← lit "Z" r;
  Some (y, mo, d, hh, mi, ss, r))))))).

(** [datetime.strptime]: unconverted data left after the match is an
    error, and [datetime] rejects year 0, a day past the end of the
    month and the seconds 60 and 61 that the pattern admits. *)
Definition strptime (s : string) : option (Z * Z * Z) :=
  match strptime_match s with
  | Some (y, mo, d, _, _, ss, "") =>
      if (1 <=? y)%Z && (d <=? Calendar.days_in_month y mo)%Z && (ss <=? 59)%Z
      then Some (y, mo, d) else None
  | _ => None
  end.

Definition month_name (m : Z) : string :=
  match m with
  | 1 => "January" | 2 => "February" | 3 => "March" | 4 => "April"
  | 5 => "May" | 6 => "June" | 7 => "July" | 8 => "August"
  | 9 => "September" | 10 => "October" | 11 => "November" | _ => "December"
  end%Z.

(** [strftime("%B %d, %Y")]; glibc writes [%Y] without padding. *)
Definition format_date (ymd : Z * Z * Z) : string :=
  let '(y, m, d) := ymd in
  month_name m ++ " " ++ Calendar.pad 2 d ++ ", " ++ pretty (Z.to_N y).

(** Lines 164-168: a bare [except] turns any failure, a non-string
    included ([TypeError]), into "Recent". *)
Definition date_str (published_at : json) : string :=
  match published_at with
  | JStr s => match strptime s with Some ymd => format_date ymd | None => "Recent" end
  | _ => "Recent"
  end.

(** ** process_articles (lines 138-203) *)

(** A topic dict of lines 174-180. *)
Record topic : Type := mk_topic {
  tp_title : json;
  tp_summary : json;
  tp_url : json;
  tp_date : string;
  tp_source : json
}.

(** Lines 185-196: the unprocessed articles whose title shares at least
    [min(3, len(title_words) // 2)] distinct words with [title_words]
    join the group. *)
Fixpoint absorb (title_words : list string) (others : list (nat * json)) (processed : gset nat) :
    M (gset nat) :=
  match others with
  | [] => mret processed
  | (j, other_article) :: rest =>
      if bool_decide (j ∈ processed) then absorb title_words rest processed else
      other_title <- obj_get other_article "title" (JStr "") ;;
      other_title <- py_lower other_title ;;
      let intersection := py_intersection title_words (py_split other_title) in
      if Nat.leb (Nat.min 3 (length (py_set title_words) / 2)) (length intersection)
      then absorb title_words rest ({[j]} ∪ processed)
      else absorb title_words rest processed
  end.

(** Lines 158-171 on one article: the new topic and its title. *)
Definition new_topic (article : json) : M (topic * json) :=
  title <- obj_get article "title" (JStr "") ;;
  description <- obj_get article "description" (JStr "") ;;
  url <- obj_get article "url" (JStr "") ;;
  published_at <- obj_get article "publishedAt" (JStr "") ;;
  source <- obj_get article "source" (JObj []) ;;
  source_name <- obj_get source "name" (JStr "News Source") ;;
  let summary := if py_truthy description then description else title in
  mret (mk_topic title summary url (date_str published_at) source_name, title).

Fixpoint group_loop (articles : list (nat * json)) (todo : list (nat * json)) (processed : gset nat)
    (topics : list topic) : M (list topic) :=
  match todo with
  | [] => mret topics
  | (i, article) :: todo' =>
      if bool_decide (i ∈ processed) then group_loop articles todo' processed topics else
      tt_ <- new_topic article ;;
      let '(t, title) := tt_ in
      title_lower <- py_lower title ;;
      processed <- absorb (py_split title_lower) articles ({[i]} ∪ processed) ;;
      group_loop articles todo' processed (topics ++ [t])
  end.

Definition enumerate {A} (xs : list A) : list (nat * A) := zip (seq 0 (length xs)) xs.

(** Decreasing order of the sort keys. *)
Definition key_ge {A} (a b : Q * A) : Prop := (fst b <= fst a)%Q.

#[export] Instance key_ge_dec {A} : RelDecision (@key_ge A).
Proof. intros a b. unfold key_ge. destruct (Qlt_le_dec (fst a) (fst b)); [right; lra | left; lra]. Defined.

(** [sorted(topics, key=lambda x: random.random(), reverse=True)]: one
    draw per topic in list order, then a stable sort by decreasing key. *)
Definition sort_random (topics : list topic) : M (list topic) :=
  keys <- py_repeat (length topics) py_random ;;
  mret (snd <$> merge_sort key_ge (zip keys topics)).

Definition process_articles (articles : list json) : M (list topic) :=
  topics <- group_loop (enumerate articles) (enumerate articles) ∅ [] ;;
  sorted_topics <- sort_random topics ;;
  mret (take 7 sorted_topics).

(** ** extract_tokens_from_articles (lines 205-314) *)

Definition common_tokens : list (string * string) :=
  [("BTC", "Bitcoin"); ("ETH", "Ethereum"); ("BNB", "Binance Coin"); ("SOL", "Solana");
   ("XRP", "XRP"); ("ADA", "Cardano"); ("DOGE", "Dogecoin"); ("SHIB", "Shiba Inu");
   ("MATIC", "Polygon"); ("DOT", "Polkadot"); ("LINK", "Chainlink"); ("ATOM", "Cosmos");
   ("AVAX", "Avalanche"); ("LTC", "Litecoin"); ("UNI", "Uniswap")].

Definition positive_words : list string :=
  ["bullish"; "surge"; "soar"; "gain"; "rally"; "climb"; "rise"; "positive";
   "breakthrough"; "adoption"; "partnership"; "success"; "growth"; "profit";
   "innovation"; "potential"; "opportunity"; "promising"; "optimistic"; "victory"].

(** As in the source, "bearish" is listed twice. *)
Definition negative_words : list string :=
  ["bearish"; "plunge"; "crash"; "drop"; "fall"; "decline"; "negative"; "bearish";
   "setback"; "concern"; "problem"; "issue"; "risk"; "loss"; "trouble"; "danger";
   "warning"; "collapse"; "downtrend"; "pessimistic"; "defeat"].

(** Lines 253-257: the lower-cased title and description joined by a
    space.  The second [get] of line 254 returns the value the first one
    tested. *)
Definition article_text (article : json) : M string :=
  title <- obj_get article "title" (JStr "") ;;
  title <- py_lower title ;;
  d <- obj_get article "description" JNull ;;
  description <- (if py_truthy d then py_lower d else mret "") ;;
  mret (title ++ " " ++ description).

(** Lines 259-270: [+0.1] per positive word and [-0.1] per negative word
    occurring in the text, capped to [[-1, 1]]. *)
Definition word_score (delta : Q) (words : list string) (text : string) (s : Q) : Q :=
  fold_left (fun acc word => if str_contains word text then (acc + delta)%Q else acc) words s.

Definition article_sentiment (text : string) : Q :=
  let s := word_score (-1 # 10) negative_words text (word_score (1 # 10) positive_words text 0) in
  Qmax (-1) (Qmin 1 s).

Definition mentions_token (text : string) (tok : string * string) : bool :=
  str_contains (str_lower (fst tok)) text || str_contains (str_lower (snd tok)) text.

(** The counters of lines 235-236, one [(mentions, sentiment)] per
    common token, and lines 273-279 for one article. *)
Definition count_article (text : string) (s : Q) (counts : list (nat * Q)) : list (nat * Q) :=
  zip_with (fun tok c => if mentions_token text tok then (S (fst c), snd c + s)%Q else c)
           common_tokens counts.

Fixpoint count_loop (articles : list json) (counts : list (nat * Q)) : M (list (nat * Q)) :=
  match articles with
  | [] => mret counts
  | article :: rest =>
      text <- article_text article ;;
      count_loop rest (count_article text (article_sentiment text) counts)
  end.

(** A row of the trending DataFrame. *)
Record token_row : Type := mk_token_row {
  tr_token : string;
  tr_mentions : nat;
  tr_sentiment : Q
}.

(** Lines 282-295: the average sentiment of each mentioned token, in
    the order of [common_tokens]. *)
Definition trending_rows (counts : list (nat * Q)) : list token_row :=
  omap (fun tc => let '(tok, (m, se)) := tc in
                  if Nat.ltb 0 m then Some (mk_token_row (fst tok) m (se / inject_Z (Z.of_nat m))%Q)
                  else None)
       (zip common_tokens counts).

Definition mentions_ge (a b : token_row) : Prop := (tr_mentions b <= tr_mentions a)%nat.

#[export] Instance mentions_ge_dec : RelDecision mentions_ge.
Proof. intros a b. unfold mentions_ge. apply _. Defined.

(** Line 297: [pd.DataFrame(rows).sort_values("mentions", ascending=False)].
    A frame built from no row has no column and raises [KeyError].  With
    at most 15 rows numpy's quicksort is an insertion sort, and pandas
    sorts the reversed array and reverses the result, so rows with equal
    mentions keep their order: a stable sort by decreasing mentions. *)
Definition sort_by_mentions (rows : list token_row) : M (list token_row) :=
  match rows with
  | [] => py_raise (KeyError "mentions")
  | _ => mret (merge_sort mentions_ge rows)
  end.

Record breakdown : Type := mk_breakdown {
  bd_community : Q;
  bd_technology : Q;
  bd_team : Q;
  bd_adoption : Q;
  bd_price : Q
}.

(** [min(1, max(-1, base + random.uniform(a, b)))]. *)
Definition clamped (base a b : Q) : M Q :=
  u <- py_uniform a b ;; mret (Qmin 1 (Qmax (-1) (base + u)))%Q.

Definition token_breakdown (base : Q) : M breakdown :=
  c <- clamped base (-3 # 10) (3 # 10) ;;
  t <- clamped base (-2 # 10) (4 # 10) ;;
  tm <- clamped base (-2 # 10) (2 # 10) ;;
  a <- clamped base (-4 # 10) (2 # 10) ;;
  p <- clamped base (-5 # 10) (5 # 10) ;;
  mret (mk_breakdown c t tm a p).

(** Lines 300-312, over the mentioned tokens in [common_tokens] order. *)
Fixpoint breakdown_loop (rows : list token_row) : M (list (string * breakdown)) :=
  match rows with
  | [] => mret []
  | r :: rest =>
      b <- token_breakdown (tr_sentiment r) ;;
      bs <- breakdown_loop rest ;;
      mret ((tr_token r, b) :: bs)
  end.

Definition extract_tokens_from_articles (articles : list json) :
    M (list token_row * list (string * breakdown)) :=
  counts <- count_loop articles ((fun _ => (0%nat, 0%Q)) <$> common_tokens) ;;
  let rows := trending_rows counts in
  trending_df <- sort_by_mentions rows ;;
  sentiment_breakdown <- breakdown_loop rows ;;
  mret (trending_df, sentiment_breakdown).

(** ** The two providers and the fallback *)

(** What both providers return, and the mock data. *)
Record trending : Type := mk_trending {
  td_topics : list topic;
  td_trending_tokens : list token_row;
  td_sentiment_breakdown : list (string * breakdown)
}.

(** [requests.get(...).json()]; the status code is not checked.  A
    failed request or a body that is not JSON raises. *)
Definition get_json (url : string) (params : list (string * json)) : M json :=
  r <- http_get url params ;;
  match r with
  | HttpResp _ (Some data) => mret data
  | _ => py_raise (RequestException None)
  end.

(** The processing shared by both providers: lines 62-74 and 120-130. *)
Definition analyze_articles (articles : json) : M trending :=
  xs <- py_iter (Some articles) ;;
  topics <- process_articles xs ;;
  ys <- py_iter (Some articles) ;;
  tb <- extract_tokens_from_articles ys ;;
  mret (mk_trending topics (fst tb) (snd tb)).

(** [x == "ok"] on a decoded value: only the string "ok" is equal. *)
Definition is_str (lit : string) (j : json) : bool :=
  match j with JStr s => String.eqb s lit | _ => false end.

Section Providers.
(** [NEWS_API_KEY] and [CRYPTO_PANIC_API_KEY] (lines 13-14). *)
Variables NEWS_API_KEY CRYPTO_PANIC_API_KEY : string.

Definition news_api_params : list (string * json) :=
  [("q", JStr "cryptocurrency OR bitcoin OR ethereum OR blockchain"); ("sortBy", JStr "popularity");
   ("language", JStr "en"); ("pageSize", JNum 30); ("apiKey", JStr NEWS_API_KEY)].

(** get_trending_from_news_api (lines 38-80). *)
Definition get_trending_from_news_api : M (option trending) :=
  py_try
    (data <- get_json "https://newsapi.org/v2/everything" news_api_params ;;
     status <- obj_get data "status" JNull ;;
     ok <- (if is_str "ok" status
            then articles <- obj_get data "articles" JNull ;; mret (py_truthy articles)
            else mret false) ;;
     if ok then
       articles <- py_getitem data "articles" ;;
       t <- analyze_articles articles ;;
       mret (Some t)
     else mret None)
    (fun e => py_print_exn e ;;; mret None).

Definition crypto_panic_params : list (string * json) :=
  [("auth_token", JStr CRYPTO_PANIC_API_KEY); ("kind", JStr "news"); ("filter", JStr "hot");
   ("public", JStr "true")].

(** Lines 108-118: one CryptoPanic post in the News API shape. *)
Definition standardize (article : json) : M json :=
  title <- obj_get article "title" (JStr "") ;;
  description <- obj_get article "title" (JStr "") ;;
  url <- obj_get article "url" (JStr "") ;;
  published_at <- obj_get article "published_at" (JStr "") ;;
  source <- obj_get article "source" (JObj []) ;;
  name <- obj_get source "title" (JStr "Crypto News") ;;
  mret (JObj [("title", title); ("description", description); ("url", url);
              ("publishedAt", published_at); ("source", JObj [("name", name)])]).

(** get_trending_from_crypto_panic (lines 82-136). *)
Definition get_trending_from_crypto_panic : M (option trending) :=
  py_try
    (data <- get_json "https://cryptopanic.com/api/v1/posts/" crypto_panic_params ;;
     results <- obj_get data "results" JNull ;;
     if py_truthy results then
       articles <- py_getitem data "results" ;;
       xs <- py_iter (Some articles) ;;
       standardized_articles <- py_map standardize xs ;;
       t <- analyze_articles (JArr standardized_articles) ;;
       mret (Some t)
     else mret None)
    (fun e => py_print_exn e ;;; mret None).

(** ** generate_mock_trending_data (lines 316-437) *)

(** Line 325: the seven days ending today, read in UTC. *)
Definition mock_dates (now : Z) : list string :=
  (fun i => format_date (Calendar.civil_from_days (now / 86400 - Z.of_nat i)%Z)) <$> seq 0 7.

Definition mock_topics (dates : list string) : list topic := [
  mk_topic (JStr "Bitcoin ETF Approval Sparks Market Rally")
    (JStr "The SEC's approval of a Bitcoin ETF has led to a significant market rally with Bitcoin breaking through previous resistance levels. Analysts predict this could lead to increased institutional adoption.")
    (JStr "https://example.com/news/bitcoin-etf-approval") (nth 0 dates "") (JStr "Crypto News Today");
  mk_topic (JStr "Ethereum Completes Major Network Upgrade")
    (JStr "Ethereum has successfully completed its latest network upgrade, improving scalability and reducing gas fees. The upgrade is part of the network's long-term development roadmap.")
    (JStr "https://example.com/news/ethereum-upgrade") (nth 1 dates "") (JStr "Blockchain Insider");
  mk_topic (JStr "Major Bank Launches Cryptocurrency Custody Services")
    (JStr "A major international bank has announced the launch of cryptocurrency custody services for institutional clients, signaling growing mainstream acceptance of digital assets.")
    (JStr "https://example.com/news/bank-crypto-custody") (nth 2 dates "") (JStr "Financial Times");
  mk_topic (JStr "New Regulations Proposed for Stablecoins")
    (JStr "Regulatory authorities have proposed new frameworks for stablecoin issuers, aiming to increase transparency and ensure adequate reserves. The news has caused volatility in the stablecoin market.")
    (JStr "https://example.com/news/stablecoin-regulations") (nth 3 dates "") (JStr "Regulatory Watch");
  mk_topic (JStr "DeFi Protocol Reaches $10 Billion in Total Value Locked")
    (JStr "A leading decentralized finance protocol has reached a milestone of $10 billion in total value locked, highlighting the continued growth of the DeFi ecosystem despite market fluctuations.")
    (JStr "https://example.com/news/defi-milestone") (nth 4 dates "") (JStr "DeFi Daily");
  mk_topic (JStr "NFT Marketplace Announces Integration with Gaming Platform")
    (JStr "A major NFT marketplace has announced a strategic partnership with a popular gaming platform, enabling in-game asset tokenization and trading. The move is expected to accelerate NFT adoption.")
    (JStr "https://example.com/news/nft-gaming-integration") (nth 5 dates "") (JStr "NFT Pulse");
  mk_topic (JStr "Central Bank Digital Currency Trials Show Promising Results")
    (JStr "Several countries have reported successful trials of their Central Bank Digital Currency (CBDC) projects, with plans for wider implementation in the coming year. The development could impact the broader cryptocurrency market.")
    (JStr "https://example.com/news/cbdc-trials") (nth 6 dates "") (JStr "Central Bank Monitor")].

Definition mock_trending_tokens : list token_row :=
  [mk_token_row "BTC" 142 (62 # 100);
   mk_token_row "ETH" 124 (48 # 100);
   mk_token_row "SOL" 83 (35 # 100);
   mk_token_row "XRP" 71 (-22 # 100);
   mk_token_row "BNB" 69 (18 # 100);
   mk_token_row "ADA" 54 (5 # 100);
   mk_token_row "DOGE" 47 (75 # 100);
   mk_token_row "MATIC" 38 (31 # 100);
   mk_token_row "DOT" 32 (23 # 100);
   mk_token_row "LINK" 28 (42 # 100)].

Definition mock_sentiment_breakdown : list (string * breakdown) :=
  [("BTC", mk_breakdown (75 # 100) (58 # 100) (62 # 100) (81 # 100) (54 # 100));
   ("ETH", mk_breakdown (65 # 100) (72 # 100) (58 # 100) (63 # 100) (41 # 100));
   ("SOL", mk_breakdown (48 # 100) (65 # 100) (51 # 100) (42 # 100) (29 # 100));
   ("XRP", mk_breakdown (28 # 100) (-15 # 100) (-32 # 100) (-25 # 100) (-35 # 100));
   ("BNB", mk_breakdown (35 # 100) (25 # 100) (21 # 100) (32 # 100) (15 # 100))].

Definition generate_mock_trending_data : M trending :=
  now <- py_now ;;
  mret (mk_trending (mock_topics (mock_dates now)) mock_trending_tokens mock_sentiment_breakdown).

(** get_trending_topics (lines 16-36): an empty key skips its provider;
    a provider's [None] falls through. *)
Definition get_trending_topics : M trending :=
  trending_data <- (if String.eqb NEWS_API_KEY "" then mret None else get_trending_from_news_api) ;;
  trending_data <- (match trending_data with
                    | None => if String.eqb CRYPTO_PANIC_API_KEY "" then mret None
                              else get_trending_from_crypto_panic
                    | Some t => mret (Some t)
                    end) ;;
  match trending_data with
  | Some t => mret t
  | None => generate_mock_trending_data
  end.

End Providers.

(** ** Lemmas: reading the News API timestamps *)

(** The timestamps of News API, "YYYY-MM-DDTHH:MM:SSZ". *)
Definition iso_timestamp (y mo d hh mi ss : Z) : string :=
  Calendar.pad 4 y ++ "-" ++ Calendar.pad 2 mo ++ "-" ++ Calendar.pad 2 d ++ "T" ++
  Calendar.pad 2 hh ++ ":" ++ Calendar.pad 2 mi ++ ":" ++ Calendar.pad 2 ss ++ "Z".

Lemma pad2_eq (v : Z) :
  (0 <= v < 100)%Z ->
  Calendar.pad 2 v = String (Calendar.digit (v / 10)) (String (Calendar.digit (v mod 10)) "").
Proof. intros Hv. cbn. by rewrite Z.div_1_r. Qed.

Ltac divmod10 v :=
  pose proof (Z.div_mod v 10 ltac:(lia)); pose proof (Z.mod_pos_bound v 10 ltac:(lia));
  pose proof (Z.div_pos v 10 ltac:(lia) ltac:(lia)); pose proof (Z.div_lt_upper_bound v 10 10 ltac:(lia) ltac:(lia)).

Lemma two_pad (p : Z -> Z -> bool) (v : Z) (r : string) :
  (0 <= v < 100)%Z -> two p (Calendar.pad 2 v ++ r) = if p (v / 10) (v mod 10)%Z then [(v, r)] else [].
Proof.
  intros Hv. rewrite pad2_eq by done. divmod10 v.
  rewrite !string_app_cons, string_app_nil_l. unfold two. cbv beta iota.
  rewrite !Calendar.digit_value_digit by lia. destruct (p _ _); [|done]. do 3 f_equal. lia.
Qed.

Lemma lit_eq (c : ascii) (r : string) : lit c (String c r) = Some r.
Proof. unfold lit. by rewrite Ascii.eqb_refl. Qed.

Lemma first_match_head {A B} (x : A) (xs : list A) (k : A -> option B) (b : B) :
  k x = Some b -> first_match (x :: xs) k = Some b.
Proof. cbn. by intros ->. Qed.

(** The candidate that backtracking tries first is the two-digit one. *)
Ltac first_candidate :=
  repeat match goal with
  | |- exists rest, ((if ?c then _ else _) ++ _)%list = _ => destruct c eqn:?; [eexists; reflexivity|]; cbn [app]
  end;
  exfalso; rewrite ?andb_false_iff, ?Z.eqb_neq, ?Z.leb_gt in *; lia.

Lemma field_m_pad (m : Z) (r : string) :
  (1 <= m <= 12)%Z -> exists rest, field_m (Calendar.pad 2 m ++ r) = (m, r) :: rest.
Proof. intros Hm. unfold field_m. rewrite !two_pad by lia. divmod10 m. first_candidate. Qed.

Lemma field_d_pad (d : Z) (r : string) :
  (1 <= d <= 31)%Z -> exists rest, field_d (Calendar.pad 2 d ++ r) = (d, r) :: rest.
Proof. intros Hd. unfold field_d. rewrite !two_pad by lia. divmod10 d. first_candidate. Qed.

Lemma field_H_pad (h : Z) (r : string) :
  (0 <= h <= 23)%Z -> exists rest, field_H (Calendar.pad 2 h ++ r) = (h, r) :: rest.
Proof. intros Hh. unfold field_H. rewrite !two_pad by lia. divmod10 h. first_candidate. Qed.

Lemma field_M_pad (m : Z) (r : string) :
  (0 <= m <= 59)%Z -> exists rest, field_M (Calendar.pad 2 m ++ r) = (m, r) :: rest.
Proof. intros Hm. unfold field_M. rewrite !two_pad by lia. divmod10 m. first_candidate. Qed.

Lemma field_S_pad (s : Z) (r : string) :
  (0 <= s <= 59)%Z -> exists rest, field_S (Calendar.pad 2 s ++ r) = (s, r) :: rest.
Proof. intros Hs. unfold field_S. rewrite !two_pad by lia. divmod10 s. first_candidate. Qed.


Lemma field_Y_pad (y : Z) (r : string) :
  (0 <= y <= 9999)%Z -> field_Y (Calendar.pad 4 y ++ r) = [(y, r)].
Proof. intros Hy. unfold field_Y. rewrite Calendar.take_digits_pad by (cbn; lia). do 3 f_equal. Qed.

(** The timestamps News API sends are read back: for a valid date
    and time, [date_str] of "YYYY-MM-DDTHH:MM:SSZ" is the date written
    with "%B %d, %Y", not "Recent". *)
Theorem date_str_iso (y mo d hh mi ss : Z) :
  (1 <= y <= 9999)%Z -> (1 <= mo <= 12)%Z -> (1 <= d <= Calendar.days_in_month y mo)%Z ->
  (0 <= hh <= 23)%Z -> (0 <= mi <= 59)%Z -> (0 <= ss <= 59)%Z ->
  date_str (JStr (iso_timestamp y mo d hh mi ss)) = format_date (y, mo, d).
Proof.
  intros Hy Hmo Hd Hhh Hmi Hss.
  assert (Hdim : (Calendar.days_in_month y mo <= 31)%Z)
    by (unfold Calendar.days_in_month; repeat case_match; lia).
  unfold date_str, strptime, strptime_match, iso_timestamp.
  rewrite field_Y_pad by lia. cbn [first_match]. rewrite ?string_app_cons, ?string_app_nil_l, lit_eq; cbn [base.mbind option_bind]; cbv beta iota.
  do 5 (match goal with
         | |- context [field_m (Calendar.pad 2 ?v ++ ?r)] => destruct (field_m_pad v r ltac:(lia)) as [? ->]
         | |- context [field_d (Calendar.pad 2 ?v ++ ?r)] => destruct (field_d_pad v r ltac:(lia)) as [? ->]
         | |- context [field_H (Calendar.pad 2 ?v ++ ?r)] => destruct (field_H_pad v r ltac:(lia)) as [? ->]
         | |- context [field_M (Calendar.pad 2 ?v ++ ?r)] => destruct (field_M_pad v r ltac:(lia)) as [? ->]
         | |- context [field_S (Calendar.pad 2 ?v ++ ?r)] => destruct (field_S_pad v r ltac:(lia)) as [? ->]
         end; cbn [first_match]; rewrite ?string_app_cons, ?string_app_nil_l, lit_eq; cbn [base.mbind option_bind]; cbv beta iota).
  replace ((1 <=? y)%Z && (d <=? Calendar.days_in_month y mo)%Z && (ss <=? 59)%Z) with true; [done|].
  symmetry. rewrite !andb_true_iff, !Z.leb_le. lia.
Qed.


(** ** Lemmas: articles and their grouping *)

Local Open Scope nat_scope.

(** The articles whose fields [process_articles] reads are well typed:
    a dict whose title, when present, is a string, and whose source, when
    present, is a dict. *)
Definition str_or_absent (k : string) (kvs : list (string * json)) : bool :=
  match json_lookup k kvs with None | Some (JStr _) => true | _ => false end.

Definition title_ok (a : json) : bool :=
  match a with JObj kvs => str_or_absent "title" kvs | _ => false end.

Definition topic_ok (a : json) : bool :=
  match a with
  | JObj kvs => str_or_absent "title" kvs &&
                match json_lookup "source" kvs with None | Some (JObj _) => true | _ => false end
  | _ => false
  end.

Definition title_of (a : json) : string :=
  match a with
  | JObj kvs => match json_lookup "title" kvs with Some (JStr s) => s | _ => "" end
  | _ => ""
  end.

Lemma topic_ok_title (a : json) : topic_ok a = true -> title_ok a = true.
Proof. destruct a; cbn; try done. by intros [? _]%andb_true_iff. Qed.

Lemma obj_get_title (a : json) : title_ok a = true -> obj_get a "title" (JStr "") = mret (JStr (title_of a)).
Proof.
  destruct a as [| | | | |kvs]; try discriminate. unfold title_ok, str_or_absent. cbn.
  destruct (json_lookup "title" kvs) as [[]|]; done.
Qed.

Lemma lower_title (a : json) (w : world) :
  title_ok a = true -> (t <- obj_get a "title" (JStr "") ;; py_lower t) w = (Ret (str_lower (title_of a)), w).
Proof. intros H. by rewrite obj_get_title. Qed.

Lemma new_topic_ok (a : json) (w : world) :
  topic_ok a = true -> exists tp, new_topic a w = (Ret (tp, JStr (title_of a)), w).
Proof.
  intros H. pose proof (obj_get_title a (topic_ok_title a H)) as Ht.
  destruct a as [| | | | |kvs]; try discriminate. unfold new_topic. rewrite Ht.
  cbn in H. apply andb_true_iff in H as [_ Hs]. cbn. destruct (json_lookup "source" kvs) as [[]|]; try done; eauto.
Qed.

(** Absorbing never fails on titled articles and keeps what was
    processed; with a title of at most one distinct word the threshold is
    [min(3, 0) = 0] and every article joins the group. *)
Lemma absorb_ok (tw : list string) (others : list (nat * json)) (P : gset nat) (w : world) :
  Forall (fun ja => title_ok (snd ja) = true) others ->
  exists P', absorb tw others P w = (Ret P', w) /\ P ⊆ P' /\
    (length (py_set tw) <= 1 -> forall j, j ∈ fst <$> others -> j ∈ P').
Proof.
  intros Hok. revert P. induction Hok as [|[j a] others Ha _ IH]; intros P; cbn [absorb].
  { exists P. split_and!; [done | done | intros _ j Hj; set_solver]. }
  cbn in Ha. case_bool_decide as Hj.
  - destruct (IH P) as (P' & -> & Hsub & Hall). exists P'. split_and!; [done | done |].
    intros Hlen k [-> | Hk]%elem_of_cons; [set_solver | auto].
  - unfold mbind at 1. rewrite (obj_get_title _ Ha). unfold mbind, py_lower, mret. cbv beta iota.
    match goal with |- context [if Nat.leb ?a ?b then _ else _] => destruct (Nat.leb a b) eqn:Hle end;
    [destruct (IH ({[j]} ∪ P)) as (P' & -> & Hsub & Hall) | destruct (IH P) as (P' & -> & Hsub & Hall)];
    exists P'; split_and!; try done; try set_solver.
    intros Hlen k [-> | Hk]%elem_of_cons; [|auto].
    exfalso. apply Nat.leb_gt in Hle. assert (length (py_set tw) / 2 = 0) by (apply Nat.div_small; lia). lia.
Qed.

Lemma group_loop_skip (arts todo : list (nat * json)) (P : gset nat) (ts : list topic) (w : world) :
  Forall (fun ia => fst ia ∈ P) todo -> group_loop arts todo P ts w = (Ret ts, w).
Proof.
  induction 1 as [|[i a] todo Hi _ IH]; [reflexivity|]. cbn [group_loop]. by rewrite bool_decide_true.
Qed.

Lemma group_loop_ok (arts todo : list (nat * json)) (P : gset nat) (ts : list topic) (w : world) :
  Forall (fun ja => title_ok (snd ja) = true) arts -> Forall (fun ia => topic_ok (snd ia) = true) todo ->
  exists ts', group_loop arts todo P ts w = (Ret ts', w) /\
    length ts <= length ts' <= length ts + length todo /\
    (forall i a todo', todo = (i, a) :: todo' -> i ∉ P -> length ts < length ts').
Proof.
  intros Harts Htodo. revert P ts. induction Htodo as [|[i a] todo Ha _ IH]; intros P ts.
  { exists ts. split_and!; [done | cbn; lia | cbn; lia | by intros ? ? ? ?]. }
  cbn in Ha. cbn [group_loop]. case_bool_decide as Hi.
  - destruct (IH P ts) as (ts' & -> & Hl & _). exists ts'. split_and!; [done | lia | cbn; lia |].
    by intros ? ? ? [= -> _ _].
  - destruct (new_topic_ok a w Ha) as [tp Htp]. unfold mbind at 1. rewrite Htp.
    unfold mbind, py_lower, mret. cbv beta iota.
    destruct (absorb_ok (py_split (str_lower (title_of a))) arts ({[i]} ∪ P) w Harts) as (P' & Hab & _ & _).
    rewrite Hab.
    destruct (IH P' (ts ++ [tp])%list) as (ts' & -> & Hl & _). rewrite length_app in Hl. cbn in Hl.
    exists ts'. split_and!; [done | lia | cbn; lia | intros; lia].
Qed.

Lemma merge_sort_length {A} (R : relation A) `{!RelDecision R} (l : list A) :
  length (merge_sort R l) = length l.
Proof. apply Permutation_length, merge_sort_Permutation. Qed.

Lemma py_repeat_ok {A} (n : nat) (c : M A) (w : world) :
  (forall w, exists a w', c w = (Ret a, w')) ->
  exists xs w', py_repeat n c w = (Ret xs, w') /\ length xs = n.
Proof.
  intros Hc. revert w. induction n as [|n IH]; intros w; [by exists [], w|]. cbn [py_repeat].
  destruct (Hc w) as (a & w1 & Ha). rewrite (mbind_ret _ _ _ _ _ Ha).
  destruct (IH w1) as (xs & w2 & Hxs & Hl). rewrite (mbind_ret _ _ _ _ _ Hxs). exists (a :: xs), w2. cbn. auto.
Qed.

Lemma py_random_ok (w : world) : exists u w', py_random w = (Ret u, w').
Proof. rewrite py_random_eq. eauto. Qed.

Lemma sort_random_ok (ts : list topic) (w : world) :
  exists ts' w', sort_random ts w = (Ret ts', w') /\ length ts' = length ts.
Proof.
  unfold sort_random. destruct (py_repeat_ok (length ts) py_random w py_random_ok) as (ks & w1 & Hk & Hl).
  rewrite (mbind_ret _ _ _ _ _ Hk). eexists _, _. split; [reflexivity|].
  rewrite length_fmap, merge_sort_length, length_zip. lia.
Qed.

Lemma enumerate_cons {A} (x : A) (xs : list A) :
  enumerate (x :: xs) = (0, x) :: zip (seq 1 (length xs)) xs.
Proof. reflexivity. Qed.

Lemma Forall_zip_seq {A} (P : A -> Prop) (xs : list A) (s : nat) :
  Forall P xs -> Forall (fun ia => P (snd ia)) (zip (seq s (length xs)) xs).
Proof. intros H. revert s. induction H as [|x xs Hx _ IH]; intros s; cbn; constructor; auto. Qed.

Lemma Forall_enumerate {A} (P : A -> Prop) (xs : list A) :
  Forall P xs -> Forall (fun ia => P (snd ia)) (enumerate xs).
Proof. apply Forall_zip_seq. Qed.


(** A topic whose title has at most one distinct word absorbs every
    article of [arts]. *)
Lemma group_loop_short (arts todo : list (nat * json)) (i : nat) (a : json) (P : gset nat)
    (ts : list topic) (w : world) :
  topic_ok a = true -> Forall (fun ja => title_ok (snd ja) = true) arts ->
  length (py_set (py_split (str_lower (title_of a)))) <= 1 ->
  Forall (fun ia => fst ia ∈ fst <$> arts) todo -> i ∉ P ->
  exists tp, group_loop arts ((i, a) :: todo) P ts w = (Ret (ts ++ [tp])%list, w).
Proof.
  intros Ha Harts Hlen Htodo Hi. cbn [group_loop]. rewrite bool_decide_false by done.
  destruct (new_topic_ok a w Ha) as [tp Htp]. exists tp. unfold mbind at 1. rewrite Htp.
  unfold mbind, py_lower, mret. cbv beta iota.
  destruct (absorb_ok (py_split (str_lower (title_of a))) arts ({[i]} ∪ P) w Harts) as (P' & -> & _ & Hall).
  apply group_loop_skip. eapply Forall_impl; [exact Htodo|]. intros ia Hia. by apply Hall.
Qed.

Lemma length_enumerate {A} (xs : list A) : length (enumerate xs) = length xs.
Proof. unfold enumerate. rewrite length_zip, length_seq. lia. Qed.

(** [process_articles] never fails on well-typed articles, and
    returns at most 7 topics, at most one per article, and at least one
    when there is an article. *)
Theorem process_articles_bounds (articles : list json) (w : world) :
  Forall (fun a => topic_ok a = true) articles ->
  exists ts w', process_articles articles w = (Ret ts, w') /\
    length ts <= 7 /\ length ts <= length articles /\ (articles <> [] -> 1 <= length ts).
Proof.
  intros Hok. pose proof (Forall_enumerate _ _ Hok) as Ht.
  assert (Harts : Forall (fun ja => title_ok (snd ja) = true) (enumerate articles))
    by (eapply Forall_impl; [exact Ht | intros ia; apply topic_ok_title]).
  destruct (group_loop_ok _ _ ∅ [] w Harts Ht) as (ts & Hg & Hl & Hfirst).
  unfold process_articles. rewrite (mbind_ret _ _ _ _ _ Hg).
  destruct (sort_random_ok ts w) as (ts' & w' & Hs & Hl'). rewrite (mbind_ret _ _ _ _ _ Hs).
  exists (take 7 ts'), w'. rewrite length_enumerate in Hl. cbn in Hl. split_and!; [done | rewrite length_take; lia.. |].
  intros Hne. destruct articles as [|a rest]; [done|]. rewrite enumerate_cons in Hfirst.
  specialize (Hfirst 0 a _ eq_refl ltac:(set_solver)). cbn in Hfirst. rewrite length_take. lia.
Qed.

(** C27: An article whose title has at most one distinct word (an empty
    or one-word title) swallows every later article: the threshold
    [min(3, len(title_words) // 2)] is 0, so a first article with such a
    title leaves exactly one topic whatever the other articles say. *)
Theorem process_articles_short_title (a0 : json) (rest : list json) (w : world) :
  topic_ok a0 = true -> Forall (fun a => title_ok a = true) rest ->
  length (py_set (py_split (str_lower (title_of a0)))) <= 1 ->
  exists ts w', process_articles (a0 :: rest) w = (Ret ts, w') /\ length ts = 1.
Proof.
  intros Ha Hrest Hlen. unfold process_articles.
  assert (Harts : Forall (fun ja => title_ok (snd ja) = true) (enumerate (a0 :: rest))).
  { rewrite enumerate_cons. constructor; [by apply topic_ok_title|]. apply (Forall_zip_seq _ _ 1 Hrest). }
  destruct (group_loop_short (enumerate (a0 :: rest)) (zip (seq 1 (length rest)) rest) 0 a0 ∅ [] w
              Ha Harts Hlen) as [tp Hg].
  { apply Forall_forall. intros ia Hia. rewrite enumerate_cons. cbn [fmap list_fmap]. right.
    by apply list_elem_of_fmap_2. }
  { set_solver. }
  rewrite enumerate_cons, (mbind_ret _ _ _ _ _ Hg).
  destruct (sort_random_ok [tp] w) as (ts' & w' & Hs & Hl). rewrite (mbind_ret _ _ _ _ _ Hs).
  exists (take 7 ts'), w'. split; [done|]. rewrite length_take. cbn in Hl. lia.
Qed.


(** ** Lemmas: token mentions and sentiment *)

(** The articles whose text [extract_tokens_from_articles] can read: a
    dict with a string title (or none) and a string description (or a
    false value such as [None]). *)
Definition text_ok (a : json) : bool :=
  match a with
  | JObj kvs => str_or_absent "title" kvs &&
                match json_lookup "description" kvs with
                | Some (JStr _) | None => true
                | Some d => negb (py_truthy d)
                end
  | _ => false
  end.

Definition text_of (a : json) : string :=
  str_lower (title_of a) ++ " " ++
  match a with
  | JObj kvs => match json_lookup "description" kvs with Some (JStr s) => str_lower s | _ => "" end
  | _ => ""
  end.

Lemma text_ok_title (a : json) : text_ok a = true -> title_ok a = true.
Proof. destruct a; cbn; try done. by intros [? _]%andb_true_iff. Qed.

Lemma article_text_ok (a : json) (w : world) : text_ok a = true -> article_text a w = (Ret (text_of a), w).
Proof.
  intros H. pose proof (obj_get_title a (text_ok_title a H)) as Ht. unfold article_text.
  rewrite Ht. destruct a as [| | | | |kvs]; try discriminate. cbn in H |- *.
  apply andb_true_iff in H as [_ Hd]. unfold mbind, mret, text_of; cbv beta iota.
  destruct (json_lookup "description" kvs) as [[| | |ds| |]|]; cbn in Hd |- *;
    try (rewrite (proj1 (negb_true_iff _) Hd)); try reflexivity.
  destruct (String.eqb ds "") eqn:E; cbn; [apply String.eqb_eq in E as ->|]; reflexivity.
Qed.

Lemma count_loop_ok (articles : list json) (c : list (nat * Q)) (w : world) :
  Forall (fun a => text_ok a = true) articles ->
  count_loop articles c w =
  (Ret (fold_left (fun c a => count_article (text_of a) (article_sentiment (text_of a)) c) articles c), w).
Proof.
  intros H. revert c. induction H as [|a rest Ha _ IH]; intros c; [reflexivity|].
  cbn [count_loop fold_left]. rewrite (mbind_ret _ _ _ _ _ (article_text_ok a w Ha)). apply IH.
Qed.

Lemma count_article_none (text : string) (s : Q) (c : list (nat * Q)) :
  forallb (fun tok => negb (mentions_token text tok)) common_tokens = true ->
  length c = length common_tokens -> count_article text s c = c.
Proof.
  unfold count_article. generalize common_tokens. intros toks Hn Hl. revert c Hl.
  induction toks as [|tok toks IH]; intros [|x c] Hl; cbn in *; try done.
  apply andb_true_iff in Hn as [Ht Hn]. apply negb_true_iff in Ht. rewrite Ht. f_equal. apply IH; [done | lia].
Qed.

Lemma trending_rows_zero (toks : list (string * string)) :
  omap (fun tc => let '(tok, (m, se)) := tc in
                  if Nat.ltb 0 m then Some (mk_token_row (fst tok) m (se / inject_Z (Z.of_nat m))%Q)
                  else None)
       (zip toks ((fun _ => (0, 0%Q)) <$> toks)) = [].
Proof. induction toks as [|t toks IH]; [done|]. exact IH. Qed.

(** When no article mentions any token, [extract_tokens_from_articles]
    raises [KeyError('mentions')]: [pd.DataFrame([])] has no column to
    sort by.  The providers catch it and fall back. *)
Theorem extract_tokens_no_mention (articles : list json) (w : world) :
  Forall (fun a => text_ok a = true /\
                   forallb (fun tok => negb (mentions_token (text_of a) tok)) common_tokens = true) articles ->
  extract_tokens_from_articles articles w = (Raise (KeyError "mentions"), w).
Proof.
  intros H. unfold extract_tokens_from_articles.
  rewrite (mbind_ret _ _ _ _ _ (count_loop_ok articles _ w (Forall_impl _ _ _ H (fun a Ha => proj1 Ha)))).
  replace (fold_left _ articles _) with ((fun _ => (0, 0%Q)) <$> common_tokens).
  { unfold trending_rows. rewrite trending_rows_zero. reflexivity. }
  symmetry. induction H as [|a rest [_ Hn] _ IH]; [done|]. cbn [fold_left].
  rewrite count_article_none; [exact IH | exact Hn | by rewrite length_fmap].
Qed.


(** A value in [[-1, 1]], and the clamp [max(-1, min(1, x))] of lines
    270 and 306-311. *)
Definition unit_range (x : Q) : Prop := (-1 <= x <= 1)%Q.

Lemma clamp_max_min (x : Q) : unit_range (Qmax (-1) (Qmin 1 x)).
Proof.
  split; [apply Q.le_max_l|]. apply Q.max_lub; [discriminate | apply Q.le_min_l].
Qed.

Lemma clamp_min_max (x : Q) : unit_range (Qmin 1 (Qmax (-1) x)).
Proof.
  split; [|apply Q.le_min_l]. apply Q.min_glb; [discriminate | apply Q.le_max_l].
Qed.

Lemma article_sentiment_range (text : string) : unit_range (article_sentiment text).
Proof. apply clamp_max_min. Qed.

(** After [n] articles, every token has at most [n] mentions and a summed
    sentiment of at most its mentions in absolute value. *)
Definition counts_inv (n : nat) (c : list (nat * Q)) : Prop :=
  Forall (fun x => fst x <= n /\
                   (- inject_Z (Z.of_nat (fst x)) <= snd x <= inject_Z (Z.of_nat (fst x)))%Q) c.

Lemma counts_inv_zero : counts_inv 0 ((fun _ => (0, 0%Q)) <$> common_tokens).
Proof. apply Forall_fmap, Forall_true. intros x. cbn. split; [lia | split; discriminate]. Qed.

Lemma count_article_inv (n : nat) (text : string) (s : Q) (c : list (nat * Q)) :
  unit_range s -> counts_inv n c -> counts_inv (S n) (count_article text s c).
Proof.
  intros [Hs1 Hs2] Hc. unfold count_article, counts_inv in *. generalize common_tokens as toks.
  induction Hc as [|[m se] c [Hm [Hse1 Hse2]] _ IH]; intros [|tok toks]; cbn; constructor; auto.
  cbn in Hm, Hse1, Hse2. destruct (mentions_token text tok); cbn; split; try lia; [|split; lra].
  rewrite Nat2Z.inj_succ, <- Z.add_1_r, inject_Z_plus. change (inject_Z 1) with 1%Q. split; lra.
Qed.

Lemma count_loop_inv (articles : list json) (n : nat) (c c' : list (nat * Q)) (w w' : world) :
  count_loop articles c w = (Ret c', w') -> counts_inv n c -> counts_inv (n + length articles) c'.
Proof.
  revert n c w. induction articles as [|a rest IH]; intros n c w Hr Hc; cbn in Hr.
  - injection Hr as <- _. by rewrite Nat.add_0_r.
  - apply mbind_inv in Hr as (text & w1 & _ & Hr). cbn. rewrite <- Nat.add_succ_comm.
    eapply IH; [exact Hr|]. apply count_article_inv; [apply article_sentiment_range | exact Hc].
Qed.

Lemma trending_rows_inv (n : nat) (c : list (nat * Q)) :
  counts_inv n c ->
  Forall (fun r => 1 <= tr_mentions r <= n /\ unit_range (tr_sentiment r)) (trending_rows c).
Proof.
  unfold trending_rows, counts_inv. generalize common_tokens as toks. intros toks Hc. revert toks.
  induction Hc as [|[m se] c [Hm [Hse1 Hse2]] _ IH]; intros [|tok toks]; cbn; try constructor.
  cbn in Hm, Hse1, Hse2. destruct m as [|m']; [apply IH|]. constructor; [|apply IH]. cbn.
  assert (Hq : (0 < inject_Z (Z.of_nat (S m')))%Q) by (change 0%Q with (inject_Z 0); rewrite <- Zlt_Qlt; lia).
  split; [lia | split]; [apply Qle_shift_div_l | apply Qle_shift_div_r]; lra.
Qed.

#[export] Instance mentions_ge_total : Total mentions_ge.
Proof. intros a b. unfold mentions_ge. lia. Qed.

Lemma sort_by_mentions_ret (rows rows' : list token_row) (w w' : world) :
  sort_by_mentions rows w = (Ret rows', w') -> Sorted mentions_ge rows' /\ rows' ≡ₚ rows.
Proof.
  unfold sort_by_mentions. destruct rows; [discriminate|]. intros [= <- _].
  split; [apply Sorted_merge_sort, _ | apply merge_sort_Permutation].
Qed.

Definition breakdown_ok (b : breakdown) : Prop :=
  unit_range (bd_community b) /\ unit_range (bd_technology b) /\ unit_range (bd_team b) /\
  unit_range (bd_adoption b) /\ unit_range (bd_price b).

Lemma clamped_ret (base a b x : Q) (w w' : world) : clamped base a b w = (Ret x, w') -> unit_range x.
Proof. unfold clamped. intros (u & w1 & _ & Hr)%mbind_inv. injection Hr as <- _. apply clamp_min_max. Qed.

Lemma token_breakdown_ret (base : Q) (b : breakdown) (w w' : world) :
  token_breakdown base w = (Ret b, w') -> breakdown_ok b.
Proof.
  unfold token_breakdown. intros H.
  repeat (apply mbind_inv in H as (? & ? & ?%clamped_ret & H)). injection H as <- _.
  unfold breakdown_ok. cbn. auto.
Qed.

Lemma breakdown_loop_ret (rows : list token_row) (bd : list (string * breakdown)) (w w' : world) :
  breakdown_loop rows w = (Ret bd, w') ->
  fst <$> bd = tr_token <$> rows /\ Forall (fun kb => breakdown_ok (snd kb)) bd.
Proof.
  revert bd w w'. induction rows as [|r rows IH]; intros bd w w' H; cbn in H.
  - by injection H as <- _.
  - apply mbind_inv in H as (b & w1 & Hb%token_breakdown_ret & H).
    apply mbind_inv in H as (bs & w2 & Hbs & H). injection H as <- _.
    destruct (IH bs w1 w2 Hbs) as [Hk Hf]. cbn. rewrite Hk. split; [done | by constructor].
Qed.

(** Whenever [extract_tokens_from_articles] returns, its rows are sorted
    by decreasing mentions, each token has between 1 and [len(articles)]
    mentions and an average sentiment in [[-1, 1]], each has a sentiment
    breakdown, and every breakdown value lies in [[-1, 1]]. *)
Lemma extract_tokens_inv (articles : list json) (rows : list token_row) (bd : list (string * breakdown))
    (w w' : world) :
  extract_tokens_from_articles articles w = (Ret (rows, bd), w') ->
  Sorted mentions_ge rows /\
  Forall (fun r => 1 <= tr_mentions r <= length articles /\ unit_range (tr_sentiment r)) rows /\
  Forall (fun r => tr_token r ∈ fst <$> bd) rows /\ Forall (fun kb => breakdown_ok (snd kb)) bd.
Proof.
  unfold extract_tokens_from_articles. intros H.
  apply mbind_inv in H as (c & w1 & Hc & H).
  apply mbind_inv in H as (srt & w2 & Hs & H). apply mbind_inv in H as (bd' & w3 & Hb & H).
  injection H as <- <- _.
  pose proof (trending_rows_inv _ _ (count_loop_inv _ 0 _ _ _ _ Hc counts_inv_zero)) as Hrows.
  destruct (sort_by_mentions_ret _ _ _ _ Hs) as [Hsorted Hperm].
  destruct (breakdown_loop_ret _ _ _ _ Hb) as [Hkeys Hbd].
  split_and!; [done | by rewrite Hperm | | done].
  rewrite Hperm. apply Forall_forall. intros r Hr. rewrite Hkeys. by apply list_elem_of_fmap_2.
Qed.

(** ** Lemmas: what [get_trending_topics] returns *)

(** The shape app.py relies on (lines 627-660 of app.py): at most seven
    topics, tokens by decreasing mentions with sentiments in [[-1, 1]], a
    breakdown for each of the five tokens it looks up, every breakdown
    value in [[-1, 1]]. *)
Definition trending_wf (t : trending) : Prop :=
  length (td_topics t) <= 7 /\ Sorted mentions_ge (td_trending_tokens t) /\
  Forall (fun r => unit_range (tr_sentiment r)) (td_trending_tokens t) /\
  Forall (fun r => tr_token r ∈ fst <$> td_sentiment_breakdown t) (take 5 (td_trending_tokens t)) /\
  Forall (fun kb => breakdown_ok (snd kb)) (td_sentiment_breakdown t).

Lemma process_articles_ret (xs : list json) (ts : list topic) (w w' : world) :
  process_articles xs w = (Ret ts, w') -> length ts <= 7.
Proof.
  unfold process_articles. intros (? & ? & _ & H)%mbind_inv. apply mbind_inv in H as (? & ? & _ & H).
  injection H as <- _. rewrite length_take. lia.
Qed.

Lemma analyze_articles_wf (articles : json) (t : trending) (w w' : world) :
  analyze_articles articles w = (Ret t, w') -> trending_wf t.
Proof.
  unfold analyze_articles. intros (xs & w1 & _ & H)%mbind_inv.
  apply mbind_inv in H as (ts & w2 & Hts%process_articles_ret & H).
  apply mbind_inv in H as (ys & w3 & _ & H). apply mbind_inv in H as ([rows bd] & w4 & Hx & H).
  injection H as <- _. destruct (extract_tokens_inv _ _ _ _ _ Hx) as (Hs & Hr & Hk & Hb).
  split_and!; cbn; try done.
  - eapply Forall_impl; [exact Hr | by intros r [_ ?]].
  - apply Forall_take, Hk.
Qed.

(** A provider wrapped in [try ... except Exception: print(e); return
    None] always returns, and what it returns is [None] or a result of
    its body. *)
Lemma provider_ret (c : M (option trending)) (w : world) :
  (forall w t w', c w = (Ret (Some t), w') -> trending_wf t) ->
  exists o w', py_try c (fun e => py_print_exn e ;;; mret None) w = (Ret o, w') /\
    forall t, o = Some t -> trending_wf t.
Proof.
  intros Hc. unfold py_try. destruct (c w) as [[o|e] w1] eqn:E.
  - exists o, w1. split; [done|]. intros t ->. eapply Hc, E.
  - unfold mbind. rewrite py_print_exn_eq. eexists _, _. split; [reflexivity | discriminate].
Qed.

Lemma news_api_ret (key : string) (w : world) :
  exists o w', get_trending_from_news_api key w = (Ret o, w') /\ forall t, o = Some t -> trending_wf t.
Proof.
  apply provider_ret. intros w0 t w' H.
  apply mbind_inv in H as (? & ? & _ & H). apply mbind_inv in H as (? & ? & _ & H).
  apply mbind_inv in H as ([] & ? & _ & H); [|discriminate].
  apply mbind_inv in H as (? & ? & _ & H). apply mbind_inv in H as (t' & ? & Ht & H).
  injection H as <- _. eapply analyze_articles_wf, Ht.
Qed.

Lemma crypto_panic_ret (key : string) (w : world) :
  exists o w', get_trending_from_crypto_panic key w = (Ret o, w') /\ forall t, o = Some t -> trending_wf t.
Proof.
  apply provider_ret. intros w0 t w' H.
  apply mbind_inv in H as (? & ? & _ & H). apply mbind_inv in H as (? & ? & _ & H).
  destruct (py_truthy _); [|discriminate].
  do 3 (apply mbind_inv in H as (? & ? & _ & H)). apply mbind_inv in H as (t' & ? & Ht & H).
  injection H as <- _. eapply analyze_articles_wf, Ht.
Qed.

Lemma mock_wf (now : Z) :
  trending_wf (mk_trending (mock_topics (mock_dates now)) mock_trending_tokens mock_sentiment_breakdown).
Proof.
  unfold trending_wf, unit_range, breakdown_ok. cbn [td_topics td_trending_tokens td_sentiment_breakdown].
  split_and!.
  - cbn. lia.
  - repeat constructor; unfold mentions_ge; cbn; lia.
  - repeat constructor; cbn; apply Qle_bool_iff; reflexivity.
  - repeat constructor; cbn; set_solver.
  - repeat constructor; cbn; apply Qle_bool_iff; reflexivity.
Qed.


(** C25: [get_trending_topics] never raises, whichever keys are set and
    whatever the providers answer, and what it returns has the shape
    the dashboard reads: at most seven topics, tokens by decreasing
    mentions with sentiments in [[-1, 1]], a breakdown for each of the
    first five tokens, and breakdown values in [[-1, 1]]. *)
Theorem get_trending_topics_wf (NEWS_API_KEY CRYPTO_PANIC_API_KEY : string) (w : world) :
  exists t w', get_trending_topics NEWS_API_KEY CRYPTO_PANIC_API_KEY w = (Ret t, w') /\ trending_wf t.
Proof.
  unfold get_trending_topics.
  assert (Hfirst : exists o w1, (if String.eqb NEWS_API_KEY "" then mret None
                                 else get_trending_from_news_api NEWS_API_KEY) w = (Ret o, w1) /\
                                forall t, o = Some t -> trending_wf t).
  { destruct (String.eqb NEWS_API_KEY ""); [eexists _, _; split; [reflexivity | discriminate] | apply news_api_ret]. }
  destruct Hfirst as (o & w1 & H1 & Hw1). rewrite (mbind_ret _ _ _ _ _ H1).
  assert (Hsecond : exists o' w2, (match o with
                                   | None => if String.eqb CRYPTO_PANIC_API_KEY "" then mret None
                                             else get_trending_from_crypto_panic CRYPTO_PANIC_API_KEY
                                   | Some t => mret (Some t)
                                   end) w1 = (Ret o', w2) /\ forall t, o' = Some t -> trending_wf t).
  { destruct o as [t|].
    - eexists _, _. split; [reflexivity|]. intros t' [= <-]. by apply Hw1.
    - destruct (String.eqb CRYPTO_PANIC_API_KEY ""); [eexists _, _; split; [reflexivity | discriminate] | apply crypto_panic_ret]. }
  destruct Hsecond as (o' & w2 & H2 & Hw2). rewrite (mbind_ret _ _ _ _ _ H2).
  destruct o' as [t|]; [exists t, w2; split; [reflexivity | by apply Hw2]|].
  eexists _, _. split; [reflexivity | apply mock_wf].
Qed.


(** ** Substrings *)

Lemma prefix_app (s t : string) : String.prefix s t = true <-> exists y, t = (s ++ y)%string.
Proof.
  revert t. induction s as [|a s IH]; intros [|b t].
  - split; [intros _; exists ""; reflexivity | reflexivity].
  - split; [intros _; exists (String b t); reflexivity | reflexivity].
  - split; [discriminate | intros [y Hy]; discriminate].
  - cbn. destruct (ascii_dec a b) as [<-|Hab].
    + rewrite IH. split; intros [y Hy]; exists y; [by rewrite Hy | by injection Hy].
    + split; [discriminate | intros [y Hy]; injection Hy as ? _; congruence].
Qed.

Lemma str_contains_eq (s t : string) :
  str_contains s t = String.prefix s t || match t with "" => false | String _ t' => str_contains s t' end.
Proof. by destruct t. Qed.

Lemma str_contains_app (s t : string) :
  str_contains s t = true <-> exists x y, t = (x ++ s ++ y)%string.
Proof.
  induction t as [|c t IH]; rewrite str_contains_eq, orb_true_iff, prefix_app.
  - split.
    + intros [[y Hy] | Hf]; [exists "", y; exact Hy | discriminate].
    + intros (x & y & Hy). destruct x; [left; by exists y | discriminate].
  - rewrite IH. split.
    + intros [[y Hy] | (x & y & ->)]; [exists "", y; exact Hy | by exists (String c x), y].
    + intros ([|c' x] & y & Hy); [left; by exists y|]. injection Hy as -> ->. right. by exists x, y.
Qed.

(** [a in b] and [b in c] give [a in c]. *)
Lemma str_contains_trans (a b c : string) :
  str_contains a b = true -> str_contains b c = true -> str_contains a c = true.
Proof.
  rewrite !str_contains_app. intros (x1 & y1 & ->) (x2 & y2 & ->).
  exists (x2 ++ x1)%string, (y1 ++ y2)%string. by rewrite !string_app_assoc.
Qed.

(** Mentions are substrings: any text that contains "community"
    mentions Uniswap (its symbol "uni" is inside the word), so a headline
    about a project's community counts as a UNI mention; the same holds
    of "eth" in "whether" or "method" and "sol" in "solution". *)
Theorem token_substring_mention (text : string) :
  str_contains "community" text = true ->
  ("UNI", "Uniswap") ∈ common_tokens /\ mentions_token text ("UNI", "Uniswap") = true.
Proof.
  intros H. split; [cbn; set_solver|]. unfold mentions_token. apply orb_true_iff. left.
  eapply str_contains_trans; [|exact H]. reflexivity.
Qed.

(** "bearish" is in the negative word list twice: an article whose
    only sentiment word is "bearish" scores -0.2, while one whose only
    sentiment word is "bullish" scores +0.1. *)
Example article_sentiment_bearish_twice :
  (article_sentiment "analysts turn bearish" == -(1 # 5))%Q /\
  (article_sentiment "analysts turn bullish" == 1 # 10)%Q.
Proof. split; apply Qeq_bool_iff; vm_compute; reflexivity. Qed.


(** ** Witnesses *)

Definition w1 : world := mk_world [] [] [1 # 2; 1 # 3; 1 # 4; 1 # 5; 1 # 6; 1 # 7; 1 # 8] 1700000000 [] [].

Lemma date_str_iso_witness :
  (1 <= 2024 <= 9999)%Z /\ (1 <= 3 <= 12)%Z /\ (1 <= 5 <= Calendar.days_in_month 2024 3)%Z /\
  (0 <= 10 <= 23)%Z /\ (0 <= 20 <= 59)%Z /\ (0 <= 30 <= 59)%Z /\
  date_str (JStr (iso_timestamp 2024 3 5 10 20 30)) = format_date (2024, 3, 5)%Z.
Proof.
  assert (Hd : (1 <= 5 <= Calendar.days_in_month 2024 3)%Z) by (cbn; lia).
  split; [lia|]. split; [lia|]. split; [exact Hd|]. split; [lia|]. split; [lia|]. split; [lia|].
  apply (date_str_iso 2024 3 5 10 20 30 ltac:(lia) ltac:(lia) Hd ltac:(lia) ltac:(lia) ltac:(lia)).
Defined.

Definition art (title desc : string) : json :=
  JObj [("title", JStr title); ("description", JStr desc); ("url", JStr "https://example.com");
        ("publishedAt", JStr "2024-03-05T10:20:30Z"); ("source", JObj [("name", JStr "Wire")])].

Lemma process_articles_bounds_witness :
  Forall (fun a => topic_ok a = true) [art "Bitcoin hits new high" ""; art "Solana upgrade ships" ""] /\
  exists ts w', process_articles [art "Bitcoin hits new high" ""; art "Solana upgrade ships" ""] w1 = (Ret ts, w') /\
    length ts <= 7 /\ length ts <= length [art "Bitcoin hits new high" ""; art "Solana upgrade ships" ""] /\
    ([art "Bitcoin hits new high" ""; art "Solana upgrade ships" ""] <> [] -> 1 <= length ts).
Proof.
  assert (H : Forall (fun a => topic_ok a = true) [art "Bitcoin hits new high" ""; art "Solana upgrade ships" ""])
    by (repeat constructor).
  split; [exact H | apply (process_articles_bounds _ w1 H)].
Defined.

Lemma process_articles_short_title_witness :
  topic_ok (art "Bitcoin" "") = true /\ Forall (fun a => title_ok a = true) [art "Ethereum upgrade goes live" ""] /\
  length (py_set (py_split (str_lower (title_of (art "Bitcoin" ""))))) <= 1 /\
  exists ts w', process_articles [art "Bitcoin" ""; art "Ethereum upgrade goes live" ""] w1 = (Ret ts, w') /\
    length ts = 1.
Proof.
  assert (Hr : Forall (fun a => title_ok a = true) [art "Ethereum upgrade goes live" ""]) by (repeat constructor).
  assert (Hl : length (py_set (py_split (str_lower (title_of (art "Bitcoin" ""))))) <= 1) by (vm_compute; lia).
  split_and!; [reflexivity | exact Hr | exact Hl |].
  apply (process_articles_short_title (art "Bitcoin" "") _ w1 eq_refl Hr Hl).
Defined.

Lemma extract_tokens_no_mention_witness :
  Forall (fun a => text_ok a = true /\
                   forallb (fun tok => negb (mentions_token (text_of a) tok)) common_tokens = true)
         [art "Markets calm" "A quiet day"] /\
  extract_tokens_from_articles [art "Markets calm" "A quiet day"] w1 = (Raise (KeyError "mentions"), w1).
Proof.
  assert (H : Forall (fun a => text_ok a = true /\
                               forallb (fun tok => negb (mentions_token (text_of a) tok)) common_tokens = true)
                     [art "Markets calm" "A quiet day"]) by (repeat constructor; vm_compute; reflexivity).
  split; [exact H | apply (extract_tokens_no_mention _ w1 H)].
Defined.

Lemma token_substring_mention_witness :
  str_contains "community" "community call recap" = true /\
  ("UNI", "Uniswap") ∈ common_tokens /\ mentions_token "community call recap" ("UNI", "Uniswap") = true.
Proof.
  assert (H : str_contains "community" "community call recap" = true) by reflexivity.
  split; [exact H | apply (token_substring_mention _ H)].
Defined.

End News.
