(* ===== verification/Utils.v ===== *)
(** * Utils: the formatting and helper functions of [src/utils.py]

    [format_currency] and [format_percentage] (Python's fixed-point
    [f"{x:.{p}f}"] on the value, with the [T]/[B]/[M]/[K] suffixes),
    [generate_random_data] (a random walk over a day range, in the world
    monad of the prelude), [get_comparable_tokens] (the peer group of a
    token among the top tokens) and [sanitize_input] (the character blacklist).
    [calculate_date_range] and [extract_time_period] of the same file are in
    [Dates].  Floats are exact rationals; the rounding of [:.pf] is
    half-to-even on that exact value. *)

From Stdlib Require Import Qabs.
From stdpp Require Import pretty.
From S2P Require Import Prelude Analyzer Calendar Forecast.
Import Analyzer Calendar Forecast.

Module Utils.

(** ** Fixed-point formatting *)

(** IEEE [<=]: false when either side is NaN. *)
Definition nleb (x y : num) : bool :=
  match x, y with
  | Fin a, Fin b => Qle_bool a b
  | NaN, _ | _, NaN => false
  | NInf, _ | _, PInf => true
  | _, _ => false
  end.

(** [f"{x:.{p}f}"]: the magnitude rounded to [p] decimals, written as the
    integer part, a dot and exactly [p] digits (no dot when [p = 0]); a
    negative value keeps its sign even when it rounds to zero. *)
Definition fmt_fixed (p : nat) (x : num) : string :=
  match x with
  | NaN => "nan"
  | PInf => "inf"
  | NInf => "-inf"
  | Fin q =>
      let n := round_half_even (Qabs q * inject_Z (10 ^ Z.of_nat p)) in
      (if qltb q 0 then "-" else "") ++ pretty (Z.to_N (n / 10 ^ Z.of_nat p)) ++
      match p with O => "" | S _ => "." ++ pad p (n mod 10 ^ Z.of_nat p) end
  end.

Definition suffixed (p : nat) (a scale : num) (suffix : string) : string :=
  "$" ++ fmt_fixed p (ndiv a scale) ++ suffix.

(** [format_currency(value, precision)]; [None] is Python's [None]. *)
Definition format_currency (value : option num) (precision : nat) : string :=
  match value with
  | None => "N/A"
  | Some v =>
      let abs_value := nabs v in
      let formatted :=
        if nleb (Fin 1000000000000) abs_value then suffixed precision abs_value (Fin 1000000000000) "T"
        else if nleb (Fin 1000000000) abs_value then suffixed precision abs_value (Fin 1000000000) "B"
        else if nleb (Fin 1000000) abs_value then suffixed precision abs_value (Fin 1000000) "M"
        else if nleb (Fin 1000) abs_value then suffixed precision abs_value (Fin 1000) "K"
        else "$" ++ fmt_fixed precision abs_value in
      if nltb v (Fin 0) then "-" ++ formatted else formatted
  end.

(** [format_percentage(value, precision)]. *)
Definition format_percentage (value : option num) (precision : nat) : string :=
  match value with
  | None => "N/A"
  | Some v => fmt_fixed precision v ++ "%"
  end.

(** ** [generate_random_data] *)

(** [values.append(values[-1] * (1 + random.uniform(-volatility, volatility)))]
    for [i in range(1, days)]; [last] is [values[-1]]. *)
Fixpoint random_walk (k : nat) (last volatility : Q) : M (list Q) :=
  match k with
  | O => mret []
  | S k' =>
      change <- py_uniform (- volatility) volatility ;;
      let v := (last * (1 + change))%Q in
      rest <- random_walk k' v volatility ;;
      mret (v :: rest)
  end.

(** [pd.DataFrame({'date': dates, 'value': values})] rejects columns of
    different lengths. *)
Definition pd_dataframe2 {A B} (c1 : list A) (c2 : list B) : M (list (A * B)) :=
  if Nat.eqb (length c1) (length c2) then mret (combine c1 c2)
  else py_raise (ValueError "All arrays must be of the same length").

(** Instants are seconds; [(end_date - start_date).days] floors. *)
Definition generate_random_data (start_date end_date : Z) (base_value volatility : Q)
    : M (list (Z * Q)) :=
  let days := ((end_date - start_date) / 86400 + 1)%Z in
  let dates := map (fun i => (start_date + 86400 * Z.of_nat i)%Z) (seq 0 (Z.to_nat days)) in
  walk <- random_walk (Nat.pred (Z.to_nat days)) base_value volatility ;;
  pd_dataframe2 dates (base_value :: walk).

(** ** [get_comparable_tokens] *)

Definition token_groups : list (string * list string) :=
  [("layer1", ["BTC"; "ETH"; "SOL"; "ADA"; "DOT"; "AVAX"]);
   ("defi", ["UNI"; "AAVE"; "COMP"; "MKR"; "SNX"; "SUSHI"]);
   ("exchange", ["BNB"; "CRO"; "FTT"; "KCS"; "OKB"; "HT"]);
   ("meme", ["DOGE"; "SHIB"; "ELON"; "FLOKI"; "SAMO"]);
   ("gaming", ["AXS"; "MANA"; "SAND"; "ENJ"; "ILV"; "GALA"]);
   ("oracle", ["LINK"; "BAND"; "API3"; "TRB"]);
   ("privacy", ["XMR"; "ZEC"; "DASH"; "SCRT"]);
   ("storage", ["FIL"; "STORJ"; "AR"; "SC"])].

(** [t in xs] on a list of strings. *)
Definition py_in (t : string) (xs : list string) : bool := existsb (String.eqb t) xs.

(** The [for group, tokens in token_groups.items(): ... break] loop. *)
Fixpoint find_group (token : string) (gs : list (string * list string)) : option (string * list string) :=
  match gs with
  | [] => None
  | (g, ts) :: rest => if py_in token ts then Some (g, ts) else find_group token rest
  end.

Definition get_comparable_tokens (token : string) (top_tokens : list string) (count : nat)
    : list string :=
  match find_group token token_groups with
  | Some (g, ts) =>
      if negb (String.eqb g "") then
        let comparable := List.filter (fun t => negb (String.eqb t token) && py_in t top_tokens) ts in
        let comparable :=
          if Nat.ltb (length comparable) count then
            let additional := List.filter (fun t => negb (String.eqb t token) &&
                                                    negb (py_in t comparable)) top_tokens in
            (comparable ++ firstn (Nat.sub count (length comparable)) additional)%list
          else comparable in
        firstn count comparable
      else firstn count (List.filter (fun t => negb (String.eqb t token)) top_tokens)
  | None => firstn count (List.filter (fun t => negb (String.eqb t token)) top_tokens)
  end.

(** ** [sanitize_input] *)

(** The character class of the raw pattern, by character code:
    backslash, quote, double quote, semicolon, backquote, dollar, angle
    brackets, ampersand and bar. *)
Definition dangerous (c : ascii) : bool :=
  existsb (Nat.eqb (nat_of_ascii c)) [92; 39; 34; 59; 96; 36; 60; 62; 38; 124]%nat.

Fixpoint str_filter (f : ascii -> bool) (s : string) : string :=
  match s with
  | EmptyString => EmptyString
  | String c s' => if f c then String c (str_filter f s') else str_filter f s'
  end.

(** [if not text: return ""] then [re.sub(pattern, '', text)]. *)
Definition sanitize_input (text : option string) : string :=
  match text with
  | None | Some EmptyString => ""
  | Some s => str_filter (fun c => negb (dangerous c)) s
  end.


(** ** Lemmas *)

Section Lemmas.
Local Open Scope nat_scope.

Lemma py_in_spec (t : string) (xs : list string) : py_in t xs = true <-> In t xs.
Proof.
  unfold py_in. rewrite existsb_exists. split.
  - intros (x & Hx & E). apply String.eqb_eq in E. by subst.
  - intros H. exists t. split; [done | apply String.eqb_refl].
Qed.

Lemma filter_andb {A} (f g : A -> bool) (l : list A) :
  List.filter (fun x => f x && g x) l = List.filter g (List.filter f l).
Proof. induction l as [|x l IH]; cbn; [done|]. destruct (f x); cbn; [destruct (g x)|]; by rewrite IH. Qed.

(** The members of [T] that are in [C] are exactly [C], when both are
    duplicate-free and [C] is a part of [T]. *)
Lemma filter_in_length (C T : list string) :
  List.NoDup C -> List.NoDup T -> incl C T -> length (List.filter (fun t => py_in t C) T) = length C.
Proof.
  intros HC HT Hinc. apply Nat.le_antisymm; apply NoDup_incl_length.
  - by apply List.NoDup_filter.
  - intros x Hx. apply filter_In in Hx as [_ Hx]. by apply py_in_spec.
  - done.
  - intros x Hx. apply filter_In. split; [by apply Hinc | by apply py_in_spec].
Qed.

Lemma filter_notin_length (C T : list string) :
  List.NoDup C -> List.NoDup T -> incl C T ->
  length (List.filter (fun t => negb (py_in t C)) T) = length T - length C.
Proof.
  intros HC HT Hinc. assert (H := filter_length (fun t => py_in t C) T). cbv beta in H.
  rewrite filter_in_length in H by done. lia.
Qed.

(** A prefix of a duplicate-free list. *)
Lemma firstn_part (n : nat) (L : list string) :
  List.NoDup L ->
  List.NoDup (firstn n L) /\ incl (firstn n L) L /\ length (firstn n L) = Nat.min n (length L).
Proof.
  intros HL. rewrite <- (firstn_skipn n L) in HL. split; [by apply NoDup_app_remove_r in HL|].
  split; [|apply length_firstn]. intros x Hx. rewrite <- (firstn_skipn n L).
  apply in_or_app. by left.
Qed.

(** Every group of the table is named and lists each symbol once. *)
Lemma find_group_ok (token g : string) (ts : list string) :
  find_group token token_groups = Some (g, ts) -> g <> "" /\ List.NoDup ts.
Proof.
  cbn [find_group token_groups].
  repeat (destruct (py_in token _); [intros [= <- <-]; split;
    [discriminate | apply NoDup_ListNoDup, (bool_decide_unpack _); vm_compute; exact I]|]).
  intros [=].
Qed.

Lemma not_token_in (token t : string) (top : list string) :
  In t (List.filter (fun t => negb (String.eqb t token)) top) <-> In t top /\ t <> token.
Proof.
  rewrite filter_In, negb_true_iff, String.eqb_neq. done.
Qed.

(** The four facts of the comparable list, from the list [L] it is a
    prefix of. *)
Lemma comparable_from_part (count : nat) (token : string) (top_tokens L : list string) :
  let T := List.filter (fun t => negb (String.eqb t token)) top_tokens in
  List.NoDup L -> incl L T -> Nat.min count (length L) = Nat.min count (length T) ->
  List.NoDup (firstn count L) /\ (forall t, In t (firstn count L) -> In t top_tokens /\ t <> token) /\
  length (firstn count L) = Nat.min count (length T).
Proof.
  intros T HL HLT Hm. destruct (firstn_part count L HL) as (H1 & H2 & H3).
  split; [done|]. split; [|lia]. intros t Ht. apply not_token_in. by apply HLT, H2.
Qed.

(** [:.pf] on a value within half a unit of an integer gives that
    integer. *)
Lemma round_half_even_near (z : Z) (q : Q) :
  (inject_Z z - (1 # 2) < q < inject_Z z + (1 # 2))%Q -> round_half_even q = z.
Proof.
  intros [H1 H2]. unfold round_half_even. set (f := Qfloor q).
  pose proof (Qfloor_le q) as Hf. pose proof (Qlt_floor q) as Hf1. fold f in Hf, Hf1.
  rewrite inject_Z_plus in Hf1. change (inject_Z 1) with 1%Q in Hf1.
  assert (f < z + 1)%Z by (rewrite Zlt_Qlt, inject_Z_plus; change (inject_Z 1) with 1%Q; lra).
  assert (z < f + 2)%Z by (rewrite Zlt_Qlt, inject_Z_plus; change (inject_Z 2) with 2%Q; lra).
  assert (z = f \/ z = f + 1)%Z as [->| ->] by lia.
  - rewrite (proj2 (qltb_spec _ _)) by lra. reflexivity.
  - rewrite inject_Z_plus in H1, H2. change (inject_Z 1) with 1%Q in H1, H2.
    rewrite qltb_false by lra.
    rewrite (proj2 (qltb_spec _ _)) by lra. reflexivity.
Qed.

Lemma nleb_fin (a b : Q) : nleb (Fin a) (Fin b) = true <-> (a <= b)%Q.
Proof. apply Qle_bool_iff. Qed.

Lemma nleb_fin_false (a b : Q) : (b < a)%Q -> nleb (Fin a) (Fin b) = false.
Proof. intros H. apply not_true_iff_false. rewrite nleb_fin. lra. Qed.

Lemma str_filter_in (f : ascii -> bool) (s : string) (c : ascii) :
  In c (list_ascii_of_string (str_filter f s)) -> f c = true.
Proof.
  induction s as [|d s IH]; cbn; [done|]. destruct (f d) eqn:E; cbn; [|done].
  intros [<-|H]; [done | by apply IH].
Qed.

Lemma str_filter_idem (f : ascii -> bool) (s : string) :
  str_filter f (str_filter f s) = str_filter f s.
Proof. induction s as [|d s IH]; cbn; [done|]. destruct (f d) eqn:E; cbn; [rewrite E|]; congruence. Qed.

Lemma map_combine_eq {A B} (l1 : list A) (l2 : list B) :
  length l1 = length l2 -> map fst (combine l1 l2) = l1 /\ map snd (combine l1 l2) = l2.
Proof.
  revert l2. induction l1 as [|a l1 IH]; intros [|b l2]; cbn; intros H;
    [done | discriminate | discriminate |].
  destruct (IH l2) as [-> ->]; [lia | done].
Qed.

Lemma py_uniform_eq (a b : Q) (w : world) :
  py_uniform a b w = (Ret (uniform_value a b (nth 0 (w_rand w) 0%Q)), with_rand w (tail (w_rand w))).
Proof. unfold py_uniform, mbind, mret. by rewrite py_random_eq. Qed.

(** The walk draws one change per step; with a volatility below 1 every
    factor [1 + change] is positive, so the walk stays positive. *)
Lemma random_walk_ok (volatility : Q) (k : nat) :
  (0 <= volatility < 1)%Q ->
  forall last w, (0 < last)%Q -> Forall (fun u => 0 <= u < 1)%Q (w_rand w) ->
  exists vs w', random_walk k last volatility w = (Ret vs, w') /\ length vs = k /\
    Forall (fun v => 0 < v)%Q vs.
Proof.
  intros Hv. induction k as [|k IH]; intros last w Hl Hw; [by exists [], w|].
  cbn [random_walk]. rewrite (mbind_ret _ _ _ _ _ (py_uniform_eq _ _ w)).
  pose proof (draw_in_unit _ 0 Hw) as Hu.
  pose proof (uniform_value_bounds (- volatility) volatility _ ltac:(lra) Hu) as Hc.
  set (v := (last * (1 + uniform_value (- volatility) volatility (nth 0 (w_rand w) 0)))%Q).
  assert (Hvp : (0 < v)%Q) by (apply Qmult_lt_0_compat; [done | lra]).
  assert (Hw' : Forall (fun u => 0 <= u < 1)%Q (w_rand (with_rand w (tail (w_rand w))))).
  { cbn. destruct (w_rand w); [constructor | by inversion Hw]. }
  destruct (IH v _ Hvp Hw') as (vs & w' & E & Hlen & Hpos).
  rewrite (mbind_ret _ _ _ _ _ E). exists (v :: vs), w'. cbn. auto.
Qed.

End Lemmas.

(** ** Properties *)

(** C19: [get_comparable_tokens] on a duplicate-free list of top tokens
    returns distinct top tokens other than [token], as many as asked for
    when that many are available: [min(count, |top_tokens - {token}|)]. *)
Theorem get_comparable_tokens_spec (token : string) (top_tokens : list string) (count : nat) :
  List.NoDup top_tokens ->
  List.NoDup (get_comparable_tokens token top_tokens count) /\
  (forall t, In t (get_comparable_tokens token top_tokens count) -> In t top_tokens /\ t <> token) /\
  length (get_comparable_tokens token top_tokens count) =
    Nat.min count (length (List.filter (fun t => negb (String.eqb t token)) top_tokens)).
Proof.
  intros Htop. set (T := List.filter (fun t => negb (String.eqb t token)) top_tokens).
  assert (HT : List.NoDup T) by (by apply List.NoDup_filter).
  unfold get_comparable_tokens. cbv zeta. fold T.
  destruct (find_group token token_groups) as [[g ts]|] eqn:Hg;
    [|apply comparable_from_part; [done | apply incl_refl | done]].
  destruct (find_group_ok _ _ _ Hg) as [Hgn Hts].
  rewrite (proj2 (String.eqb_neq g "") Hgn). cbn [negb].
  set (C := List.filter (fun t => negb (String.eqb t token) && py_in t top_tokens) ts).
  assert (HC : List.NoDup C) by (by apply List.NoDup_filter).
  assert (HCT : incl C T).
  { intros x Hx. apply filter_In in Hx as [_ Hx]. apply andb_prop in Hx as [Hx1 Hx2].
    apply filter_In. split; [by apply py_in_spec | done]. }
  pose proof (NoDup_incl_length HC HCT) as HCl.
  destruct (Nat.ltb_spec (length C) count) as [Hlt|Hge];
    [|apply comparable_from_part; [done | done | fold T; lia]].
  rewrite filter_andb. fold T.
  pose proof (filter_notin_length C T HC HT HCT) as HA.
  set (A := List.filter (fun t => negb (py_in t C)) T) in *.
  destruct (firstn_part (count - length C) A (List.NoDup_filter _ HT)) as (HA1 & HA2 & HA3).
  apply comparable_from_part.
  - apply List.NoDup_app; [done|done|]. intros x Hx Hx'.
    apply HA2, filter_In in Hx' as [_ Hx']. apply negb_true_iff in Hx'.
    rewrite (proj2 (py_in_spec x C) Hx) in Hx'. discriminate.
  - intros x Hx. apply in_app_or in Hx as [Hx|Hx]; [by apply HCT | exact (incl_filter _ _ x (HA2 x Hx))].
  - fold T. rewrite length_app, HA3, HA. lia.
Qed.

(** C31: [format_currency(x)] for [999995 < x < 1e6] (below the million
    boundary) prints [$1000.00K]: the [K] band is chosen before rounding,
    and rounding to two decimals carries into a four-digit thousand count. *)
Theorem format_currency_thousands_rollover (x : Q) :
  (999995 < x < 1000000)%Q -> format_currency (Some (Fin x)) 2 = "$1000.00K".
Proof.
  intros [H1 H2]. unfold format_currency, suffixed. cbn [nabs nltb].
  assert (Ha : (Qabs x == x)%Q) by (apply Qabs_pos; lra).
  rewrite (nleb_fin_false 1000000000000), (nleb_fin_false 1000000000),
    (nleb_fin_false 1000000) by (rewrite Ha; lra).
  rewrite (proj2 (nleb_fin 1000 _)) by (rewrite Ha; lra).
  rewrite ndiv_fin by (intros E; vm_compute in E; discriminate).
  rewrite (qltb_false x 0) by lra. unfold fmt_fixed. cbv zeta.
  assert (Hq : (Qabs x / 1000 == x * (1 # 1000))%Q) by (rewrite Ha; reflexivity).
  rewrite (qltb_false _ 0) by (rewrite Hq; lra).
  rewrite (round_half_even_near 100000).
  - reflexivity.
  - replace (inject_Z (10 ^ Z.of_nat 2)) with 100%Q by reflexivity.
    rewrite Hq, Qabs_pos by lra. change (inject_Z 100000) with 100000%Q. split; lra.
Qed.

(** [sanitize_input] leaves none of the ten blacklisted characters in
    its result, and sanitizing a sanitized text changes nothing. *)
Theorem sanitize_input_safe (text : option string) :
  (forall c, In c (list_ascii_of_string (sanitize_input text)) -> dangerous c = false) /\
  sanitize_input (Some (sanitize_input text)) = sanitize_input text.
Proof.
  assert (Hs : forall s, sanitize_input (Some s) = str_filter (fun c => negb (dangerous c)) s)
    by (intros []; reflexivity).
  split.
  - intros c. destruct text as [s|]; [rewrite Hs|done].
    intros H. apply str_filter_in in H. by apply negb_true_iff.
  - rewrite Hs. destruct text as [s|]; [rewrite Hs; apply str_filter_idem | reflexivity].
Qed.

(** with [start_date <= end_date], a positive base value, a volatility
    in [[0, 1)] and draws of [random.random()] in [[0, 1)],
    [generate_random_data] returns one row per day of
    [(end_date - start_date).days + 1], dated [start_date + i] days in
    order, starting at the base value and positive throughout. *)
Theorem generate_random_data_ok (start_date end_date : Z) (base_value volatility : Q) (w : world) :
  (start_date <= end_date)%Z -> (0 < base_value)%Q -> (0 <= volatility < 1)%Q ->
  Forall (fun u => 0 <= u < 1)%Q (w_rand w) ->
  exists rows w', generate_random_data start_date end_date base_value volatility w = (Ret rows, w') /\
    map fst rows = map (fun i => (start_date + 86400 * Z.of_nat i)%Z)
                       (seq 0 (Z.to_nat ((end_date - start_date) / 86400 + 1))) /\
    hd_error (map snd rows) = Some base_value /\ Forall (fun v => 0 < v)%Q (map snd rows).
Proof.
  intros Hse Hb Hv Hw. unfold generate_random_data. cbv zeta.
  assert (Hd : (0 <= (end_date - start_date) / 86400)%Z) by (apply Z.div_pos; lia).
  set (n := Z.to_nat ((end_date - start_date) / 86400 + 1)).
  destruct (random_walk_ok volatility (Nat.pred n) Hv base_value w Hb Hw) as (vs & w' & E & Hl & Hp).
  rewrite (mbind_ret _ _ _ _ _ E). unfold pd_dataframe2.
  rewrite length_map, length_seq. cbn [length].
  rewrite (proj2 (Nat.eqb_eq _ _)) by (unfold n; lia).
  destruct (map_combine_eq (map (fun i => (start_date + 86400 * Z.of_nat i)%Z) (seq 0 n))
                           (base_value :: vs)) as [H1 H2];
    [rewrite length_map, length_seq; cbn; unfold n; lia|].
  exists (combine (map (fun i => (start_date + 86400 * Z.of_nat i)%Z) (seq 0 n)) (base_value :: vs)), w'.
  rewrite H1, H2. do 3 (split; [reflexivity|]). by constructor.
Qed.

(** for [end_date < start_date], [generate_random_data] raises
    [ValueError] without drawing: the date list is empty while the value
    list always holds the base value. *)
Theorem generate_random_data_reversed (start_date end_date : Z) (base_value volatility : Q) (w : world) :
  (end_date < start_date)%Z ->
  generate_random_data start_date end_date base_value volatility w =
    (Raise (ValueError "All arrays must be of the same length"), w).
Proof.
  intros Hes. unfold generate_random_data. cbv zeta.
  assert (Hd : ((end_date - start_date) / 86400 < 0)%Z) by (apply Z.div_lt_upper_bound; lia).
  replace (Z.to_nat ((end_date - start_date) / 86400 + 1)) with 0%nat by lia.
  reflexivity.
Qed.

(** ** Witnesses *)

Definition w_walk : world := mk_world [] [] [1 # 2; 0; 1 # 4]%Q 0 [] [].

Lemma get_comparable_tokens_spec_witness :
  List.NoDup ["BTC"; "ETH"; "USDT"; "SOL"] /\
  (List.NoDup (get_comparable_tokens "ETH" ["BTC"; "ETH"; "USDT"; "SOL"] 3) /\
   (forall t, In t (get_comparable_tokens "ETH" ["BTC"; "ETH"; "USDT"; "SOL"] 3) ->
              In t ["BTC"; "ETH"; "USDT"; "SOL"] /\ t <> "ETH") /\
   length (get_comparable_tokens "ETH" ["BTC"; "ETH"; "USDT"; "SOL"] 3) =
     Nat.min 3 (length (List.filter (fun t => negb (String.eqb t "ETH")) ["BTC"; "ETH"; "USDT"; "SOL"]))).
Proof.
  assert (H : List.NoDup ["BTC"; "ETH"; "USDT"; "SOL"])
    by (apply NoDup_ListNoDup, (bool_decide_unpack _); vm_compute; exact I).
  split; [exact H | exact (get_comparable_tokens_spec "ETH" _ 3 H)].
Defined.

Lemma format_currency_thousands_rollover_witness :
  (999995 < 999999 < 1000000)%Q /\ format_currency (Some (Fin 999999)) 2 = "$1000.00K".
Proof.
  assert (H : (999995 < 999999 < 1000000)%Q) by (split; lra).
  split; [exact H | exact (format_currency_thousands_rollover 999999 H)].
Defined.

Lemma generate_random_data_ok_witness :
  exists rows w', generate_random_data 0 172800 100 (1 # 20) w_walk = (Ret rows, w') /\
    map fst rows = map (fun i => (0 + 86400 * Z.of_nat i)%Z) (seq 0 (Z.to_nat ((172800 - 0) / 86400 + 1))) /\
    hd_error (map snd rows) = Some 100%Q /\ Forall (fun v => 0 < v)%Q (map snd rows).
Proof.
  apply generate_random_data_ok; [lia | lra | split; lra |].
  repeat constructor; lra.
Defined.

Lemma generate_random_data_reversed_witness :
  generate_random_data 86400 0 100 (1 # 20) w_walk =
    (Raise (ValueError "All arrays must be of the same length"), w_walk).
Proof. apply generate_random_data_reversed. lia. Defined.

End Utils.
