(* ===== verification/Stats.v ===== *)
(** * Stats: the statistics of [src/data_processor.py]

    [calculate_stats] (lines 48-135: per-column tables of formatted
    statistics), [detect_outliers] (lines 162-187: the z-score filter) and
    [calculate_risk_metrics] (lines 189-231: Sharpe ratio, maximum
    drawdown, VaR and CVaR at 95%).  A DataFrame is the [frame] of
    [Normalizer]; the pandas reductions skip [NaN] ([skipna=True]), the
    numpy ones do not.  [np.sqrt], [scipy.stats.skew] and
    [scipy.stats.kurtosis] are the library functions [fsqrt], [skew] and
    [kurtosis] of the section: only a lower bound on [fsqrt] is assumed
    where a theorem needs one. *)

From Stdlib Require Import Qabs.
From stdpp Require Import pretty.
From S2P Require Import Prelude Analyzer Calendar Forecast Normalizer Utils.
Import Analyzer Calendar Forecast Normalizer Utils.

Module Stats.

(** ** pandas and numpy reductions *)

(** [Series.dropna()]. *)
Definition valid (xs : column) : column := List.filter (fun x => negb (is_nan x)) xs.

(** The order of the sort: IEEE [<=] (total on non-[NaN] values). *)
Definition num_le (x y : num) : Prop := nleb x y = true.

#[export] Instance num_le_dec : RelDecision num_le.
Proof. intros x y. unfold num_le. apply _. Defined.

Definition ser_mean (xs : column) : num := mean (valid xs).

(** [Series.min()] / [Series.max()]: [NaN] for no valid value. *)
Definition ser_min (xs : column) : num :=
  match valid xs with
  | [] => NaN
  | x :: rest => fold_left (fun a y => if nltb y a then y else a) rest x
  end.

Definition ser_max (xs : column) : num :=
  match valid xs with
  | [] => NaN
  | x :: rest => fold_left (fun a y => if nltb a y then y else a) rest x
  end.

(** [Series.median()]: the middle valid value, or the mean of the two. *)
Definition ser_median (xs : column) : num :=
  let s := merge_sort num_le (valid xs) in
  let n := length s in
  if Nat.eqb n 0 then NaN
  else if Nat.odd n then nth (n / 2) s NaN
  else ndiv (nadd (nth (n / 2 - 1) s NaN) (nth (n / 2) s NaN)) (Fin 2).

(** [Series.iloc[i]] with Python's negative indices. *)
Definition py_iloc {A} (i : Z) (xs : list A) : M A :=
  let n := Z.of_nat (length xs) in
  let j := if (i <? 0)%Z then (n + i)%Z else i in
  if ((0 <=? j) && (j <? n))%Z then
    match nth_error xs (Z.to_nat j) with Some x => mret x | None => py_raise IndexError end
  else py_raise IndexError.

(** [floor(log10 n)] for [n >= 1]; the fuel is the binary length of [n],
    which is at least its decimal length. *)
Fixpoint log10_fuel (fuel : nat) (n : Z) : Z :=
  match fuel with
  | O => 0
  | S f => if (n <? 10)%Z then 0 else (1 + log10_fuel f (n / 10))%Z
  end.

Definition zlog10 (n : Z) : Z := log10_fuel (Pos.size_nat (Z.to_pos n)) n.

(** [f"{x:.{p}e}"]: one digit, [p] decimals and a signed exponent of at
    least two digits. *)
Definition sci_parts (p : nat) (a : Q) : Z * Z :=
  if Qeq_bool a 0 then (0, 0)%Z
  else
    let k0 := (zlog10 (Qnum a) - zlog10 (Zpos (Qden a)))%Z in
    let k := if qltb a (10 ^ k0) then (k0 - 1)%Z else k0 in
    let m := round_half_even (a / 10 ^ k * inject_Z (10 ^ Z.of_nat p)) in
    if (m =? 10 ^ Z.of_nat (S p))%Z then (10 ^ Z.of_nat p, k + 1)%Z else (m, k).

Definition fmt_exp (p : nat) (x : num) : string :=
  match x with
  | NaN => "nan"
  | PInf => "inf"
  | NInf => "-inf"
  | Fin q =>
      let '(m, k) := sci_parts p (Qabs q) in
      (if qltb q 0 then "-" else "") ++ pretty (Z.to_N (m / 10 ^ Z.of_nat p)) ++
      match p with O => "" | S _ => "." ++ pad p (m mod 10 ^ Z.of_nat p) end ++
      "e" ++ (if (k <? 0)%Z then "-" else "+") ++
      (if (Z.abs k <? 10)%Z then pad 2 (Z.abs k) else pretty (Z.to_N (Z.abs k)))
  end.

(** A [Metric]-indexed table: [pd.DataFrame({'Metric': ..., 'Value': ...})
    .set_index('Metric')]. *)
Definition table : Type := list (string * string).

Definition price_metrics : list string :=
  ["Mean"; "Median"; "Min"; "Max"; "Std Dev"; "Skewness"; "Kurtosis";
   "7-Day Change (%)"; "30-Day Change (%)"].

Definition size_metrics : list string :=
  ["Mean"; "Median"; "Min"; "Max"; "Std Dev"; "7-Day Change (%)"; "30-Day Change (%)"].

Definition volatility_metrics : list string := ["Mean"; "Median"; "Min"; "Max"; "Current"].

(** [f"{((xs.iloc[-1] / xs.iloc[-min(k, len(df))]) - 1) * 100:.2f}%"]. *)
Definition change_pct (k : nat) (xs : column) (nrows : nat) : M string :=
  last <- py_iloc (-1) xs ;;
  past <- py_iloc (- Z.of_nat (Nat.min k nrows)) xs ;;
  mret (fmt_fixed 2 (nmul (nsub (ndiv last past) (Fin 1)) (Fin 100)) ++ "%").

(** Floats up to [Qeq]: the same IEEE value, whatever the representation
    of its rational.  Computations that differ only by how a rational is
    written (a square root given up to [Qeq], say) agree up to [num_eq]. *)
Definition num_eq (x y : num) : Prop :=
  match x, y with Fin a, Fin b => (a == b)%Q | _, _ => x = y end.

Section WithScipy.
Variable fsqrt : Q -> Q.
Variables skew kurtosis : column -> num.

Definition ser_std (xs : column) : num := std fsqrt (valid xs).

(** The price table, lines 61-79. *)
Definition price_table (xs : column) (nrows : nat) : M table :=
  c7 <- change_pct 7 xs nrows ;;
  c30 <- change_pct 30 xs nrows ;;
  mret (combine price_metrics
          ["$" ++ fmt_fixed 4 (ser_mean xs); "$" ++ fmt_fixed 4 (ser_median xs);
           "$" ++ fmt_fixed 4 (ser_min xs); "$" ++ fmt_fixed 4 (ser_max xs);
           "$" ++ fmt_fixed 4 (ser_std xs);
           fmt_fixed 4 (skew (valid xs)); fmt_fixed 4 (kurtosis (valid xs)); c7; c30]).

(** The market-cap and volume tables, lines 82-118. *)
Definition size_table (xs : column) (nrows : nat) : M table :=
  c7 <- change_pct 7 xs nrows ;;
  c30 <- change_pct 30 xs nrows ;;
  mret (combine size_metrics
          ["$" ++ fmt_exp 2 (ser_mean xs); "$" ++ fmt_exp 2 (ser_median xs);
           "$" ++ fmt_exp 2 (ser_min xs); "$" ++ fmt_exp 2 (ser_max xs);
           "$" ++ fmt_exp 2 (ser_std xs); c7; c30]).

(** The volatility table, lines 121-133. *)
Definition volatility_table (xs : column) : M table :=
  cur <- py_iloc (-1) xs ;;
  mret (combine volatility_metrics
          [fmt_fixed 2 (ser_mean xs) ++ "%"; fmt_fixed 2 (ser_median xs) ++ "%";
           fmt_fixed 2 (ser_min xs) ++ "%"; fmt_fixed 2 (ser_max xs) ++ "%";
           fmt_fixed 2 cur ++ "%"]).

(** [if name in df.columns: stats_dict[key] = table(df[name])]. *)
Definition stats_entry (cols : list (string * column)) (name key : string)
    (tbl : column -> M table) : M (list (string * table)) :=
  if has_col name cols then t <- tbl (get_col name cols) ;; mret [(key, t)] else mret [].

(** [calculate_stats(df)], lines 48-135: the dict in insertion order. *)
Definition calculate_stats (fr : frame) : M (list (string * table)) :=
  let cols := fr_cols fr in
  let nrows := length (fr_date fr) in
  p <- stats_entry cols "price" "price_stats" (fun xs => price_table xs nrows) ;;
  m <- stats_entry cols "market_cap" "market_cap_stats" (fun xs => size_table xs nrows) ;;
  v <- stats_entry cols "volume" "volume_stats" (fun xs => size_table xs nrows) ;;
  s <- stats_entry cols "volatility" "volatility_stats" volatility_table ;;
  mret (p ++ m ++ v ++ s)%list.

(** ** [detect_outliers], lines 162-187 *)

(** [pd.DataFrame()]. *)
Definition empty_frame : frame := mk_frame [] [].

(** [df.iloc[idx]]: the rows at the positions [idx]. *)
Definition iloc_rows (idx : list nat) (fr : frame) : frame :=
  mk_frame ((fun i => nth i (fr_date fr) 0%Q) <$> idx)
           ((fun c => (fst c, (fun i => nth i (snd c) NaN) <$> idx)) <$> fr_cols fr).

(** [np.abs(stats.zscore(xs))]: distances to the mean in population
    standard deviations ([ddof=0]). *)
Definition zscores (xs : column) : column :=
  let m := mean xs in
  let sd := nsqrt fsqrt (mean ((fun x => nmul (nsub x m) (nsub x m)) <$> xs)) in
  (fun x => nabs (ndiv (nsub x m) sd)) <$> xs.

(** [np.where(z_scores > threshold)[0]]: positions in the array. *)
Definition where_gt (threshold : Q) (zs : column) : list nat :=
  List.filter (fun i => nltb (Fin threshold) (nth i zs NaN)) (seq 0 (length zs)).

Definition detect_outliers (fr : frame) (column : string) (threshold : Q) : frame :=
  if negb (has_col column (fr_cols fr)) then empty_frame
  else
    let outliers_idx := where_gt threshold (zscores (valid (get_col column (fr_cols fr)))) in
    if Nat.ltb 0 (length outliers_idx) then iloc_rows outliers_idx fr else empty_frame.

(** ** [calculate_risk_metrics], lines 189-231 *)

Record risk := mk_risk {
  sharpe_ratio : num;
  max_drawdown : num;
  var_95 : num;
  cvar_95 : num
}.

(** [Series.cumprod()] and [Series.cummax()], skipping [NaN]. *)
Fixpoint cumprod_from (acc : num) (xs : column) : column :=
  match xs with
  | [] => []
  | x :: rest => if is_nan x then NaN :: cumprod_from acc rest
                 else let a := nmul acc x in a :: cumprod_from a rest
  end.

(** [acc] is [NaN] until the first valid value. *)
Fixpoint cummax_from (acc : num) (xs : column) : column :=
  match xs with
  | [] => []
  | x :: rest => if is_nan x then NaN :: cummax_from acc rest
                 else let a := if is_nan acc || nltb acc x then x else acc in
                      a :: cummax_from a rest
  end.

(** numpy's [_lerp(a, b, t)]. *)
Definition lerp (a b : num) (t : Q) : num :=
  if qltb t (1 # 2) then nadd a (nmul (nsub b a) (Fin t))
  else nsub b (nmul (nsub b a) (Fin (1 - t))).

(** [np.percentile(xs, q)] (linear): [NaN] if any value is, [IndexError]
    on an empty array. *)
Definition np_percentile (xs : column) (q : Q) : M num :=
  let s := merge_sort num_le xs in
  let n := length s in
  if Nat.eqb n 0 then py_raise IndexError
  else if existsb is_nan xs then mret NaN
  else
    let h := (inject_Z (Z.of_nat (n - 1)) * (q / 100))%Q in
    let lo := Z.to_nat (Qfloor h) in
    mret (lerp (nth lo s NaN) (nth (Nat.min (S lo) (n - 1)) s NaN) (h - inject_Z (Qfloor h))).

Definition calculate_risk_metrics (fr : frame) : M (option risk) :=
  let cols := fr_cols fr in
  if negb (has_col "price" cols) || negb (has_col "daily_return" cols) then mret None
  else
    let dr := get_col "daily_return" cols in
    let risk_free_rate := Fin (2 / 100 / 365) in
    let mean_return := ser_mean dr in
    let std_return := ser_std dr in
    let sharpe := if nltb (Fin 0) std_return
                  then nmul (ndiv (nsub mean_return risk_free_rate) std_return) (Fin (fsqrt 365))
                  else Fin 0 in
    let cumulative := cumprod_from (Fin 1) ((fun x => nadd (Fin 1) (ndiv x (Fin 100))) <$> dr) in
    let running_max := cummax_from NaN cumulative in
    let drawdown := zip_with (fun c r => nmul (nsub (ndiv c r) (Fin 1)) (Fin 100)) cumulative running_max in
    var <- np_percentile dr 5 ;;
    mret (Some (mk_risk sharpe (ser_min drawdown) var
                        (ser_mean (List.filter (fun x => nleb x var) dr)))).

End WithScipy.

(** ** Lemmas *)

Section Lemmas.
Local Open Scope nat_scope.

(** A present value with a property: [Fin q] with [P q]. *)
Definition fin_with (P : Q -> Prop) (x : num) : Prop := exists q, x = Fin q /\ P q.

Lemma fold_pick {A} (c : A -> A -> bool) (rest : list A) (x : A) :
  In (fold_left (fun a y => if c a y then y else a) rest x) (x :: rest).
Proof.
  revert x. induction rest as [|y rest IH]; intros x; cbn; [by left|].
  destruct (c x y); [right; apply IH|].
  destruct (IH x) as [E|E]; [by left | by right; right].
Qed.

Lemma valid_fin (P : Q -> Prop) (xs : column) : Forall (fin_with P) xs -> valid xs = xs.
Proof. intros H. apply list_filter_all. eapply Forall_impl; [exact H|]. by intros x (q & -> & _). Qed.

(** [Series.min()] of present values with a property has it. *)
Lemma ser_min_with (P : Q -> Prop) (xs : column) :
  xs <> [] -> Forall (fin_with P) xs -> fin_with P (ser_min xs).
Proof.
  intros Hne H. unfold ser_min. rewrite (valid_fin P xs H).
  destruct xs as [|x rest]; [done|]. rewrite List.Forall_forall in H. apply H, fold_pick.
Qed.

(** The sum of [n] present values in [[L, H]] lies in [[a + n L, a + n H]]. *)
Lemma fold_nadd_bounds (L H : Q) (xs : column) (a : Q) :
  Forall (fin_with (fun q => L <= q <= H)%Q) xs ->
  exists s, fold_left nadd xs (Fin a) = Fin s /\
    (a + inject_Z (Z.of_nat (length xs)) * L <= s <= a + inject_Z (Z.of_nat (length xs)) * H)%Q.
Proof.
  intros Hxs. revert a. induction Hxs as [|x xs (q & -> & Hq) _ IH]; intros a; cbn [fold_left].
  - exists a. split; [done|]. replace (inject_Z (Z.of_nat (length []))) with 0%Q by reflexivity.
    split; lra.
  - destruct (IH (a + q)%Q) as (s & Hs & Hb). exists s. split; [done|].
    replace (inject_Z (Z.of_nat (length (Fin q :: xs))))
      with (inject_Z (Z.of_nat (length xs)) + 1)%Q
      by (change 1%Q with (inject_Z 1); rewrite <- inject_Z_plus; f_equal; cbn [length]; lia).
    split; nra.
Qed.

(** The mean of present values in [[L, H]] is present and in [[L, H]]. *)
Lemma mean_bounds (L H : Q) (xs : column) :
  xs <> [] -> Forall (fin_with (fun q => L <= q <= H)%Q) xs ->
  fin_with (fun m => L <= m <= H)%Q (mean xs).
Proof.
  intros Hne Hxs. destruct (fold_nadd_bounds L H xs 0 Hxs) as (s & Hs & Hb).
  assert (Hn : (0 < inject_Z (Z.of_nat (length xs)))%Q).
  { change 0%Q with (inject_Z 0). rewrite <- Zlt_Qlt. destruct xs; [done|]. cbn. lia. }
  unfold mean, nsum. rewrite Hs, ndiv_fin by lra. eexists; split; [reflexivity|].
  split; [apply Qle_shift_div_l | apply Qle_shift_div_r]; nra.
Qed.

(** numpy's interpolation lies between its two ends. *)
Lemma lerp_between (a b t : Q) :
  (0 <= t < 1)%Q ->
  exists v, lerp (Fin a) (Fin b) (t) = Fin v /\ (a <= v \/ b <= v)%Q /\ (v <= a \/ v <= b)%Q.
Proof.
  intros Ht. unfold lerp. destruct (qltb t (1 # 2)); cbn; eexists; (split; [reflexivity|]);
    (destruct (Qlt_le_dec a b); [split; [left | right] | split; [right | left]]); nra.
Qed.

(** [np.percentile(xs, q)] of present values in [[L, H]], [0 <= q <= 100],
    is present, in [[L, H]], and at least one of the values. *)
Lemma np_percentile_fin (L H q : Q) (xs : column) (w : world) :
  xs <> [] -> (0 <= q <= 100)%Q -> Forall (fin_with (fun r => L <= r <= H)%Q) xs ->
  exists v a, np_percentile xs q w = (Ret (Fin v), w) /\ (L <= v <= H)%Q /\
              In (Fin a) xs /\ (a <= v)%Q.
Proof.
  intros Hne Hq Hxs. unfold np_percentile.
  pose proof (merge_sort_Permutation num_le xs) as Hp.
  set (s := merge_sort num_le xs) in *. set (n := length s).
  assert (Hn : n = length xs) by (apply Permutation_length, Hp).
  assert (Hn0 : n <> 0) by (rewrite Hn; destruct xs; [done | cbn; lia]).
  rewrite (proj2 (Nat.eqb_neq _ _) Hn0).
  assert (Hnan : existsb is_nan xs = false).
  { apply not_true_iff_false. intros (x & Hx & Hx')%existsb_exists.
    rewrite List.Forall_forall in Hxs. destruct (Hxs x Hx) as (r & -> & _). discriminate. }
  rewrite Hnan. cbv zeta.
  set (N := inject_Z (Z.of_nat (n - 1))).
  assert (HN : (0 <= N)%Q) by (unfold N; change 0%Q with (inject_Z 0); rewrite <- Zle_Qle; lia).
  set (h := (N * (q / 100))%Q).
  assert (Hh : (0 <= h <= N)%Q).
  { unfold h. change (q / 100)%Q with (q * (1 # 100))%Q. split; nra. }
  pose proof (Qfloor_le h) as F1. pose proof (Qlt_floor h) as F2.
  rewrite inject_Z_plus in F2. change (inject_Z 1) with 1%Q in F2.
  assert (Hf0 : (0 <= Qfloor h)%Z)
    by (rewrite <- (Qfloor_Z 0); apply Qfloor_resp_le; change (inject_Z 0) with 0%Q; lra).
  assert (Hf1 : (Qfloor h <= Z.of_nat (n - 1))%Z) by (rewrite Zle_Qle; fold N; lra).
  assert (Hin : forall i, i < n -> fin_with (fun r => L <= r <= H)%Q (nth i s NaN) /\ In (nth i s NaN) xs).
  { intros i Hi. assert (Hi' : In (nth i s NaN) xs) by (apply (Permutation_in _ Hp), nth_In; lia).
    split; [|done]. rewrite List.Forall_forall in Hxs. by apply Hxs. }
  destruct (Hin (Z.to_nat (Qfloor h)) ltac:(lia)) as [(a & Ea & Ha) Ia].
  destruct (Hin (Nat.min (S (Z.to_nat (Qfloor h))) (n - 1)) ltac:(lia)) as [(b & Eb & Hb) Ib].
  rewrite Ea, Eb. destruct (lerp_between a b (h - inject_Z (Qfloor h))) as (v & Ev & Hv1 & Hv2);
    [split; lra|].
  rewrite Ev. destruct Hv1 as [Hv1|Hv1].
  - exists v, a. split; [done|]. split; [split; lra | split; [by rewrite <- Ea | done]].
  - exists v, b. split; [done|]. split; [split; lra | split; [by rewrite <- Eb | done]].
Qed.

(** The cumulative product of positive factors stays positive. *)
Lemma cumprod_pos (a : Q) (xs : column) :
  (0 < a)%Q -> Forall (fin_with (fun q => 0 < q)%Q) xs ->
  Forall (fin_with (fun q => 0 < q)%Q) (cumprod_from (Fin a) xs).
Proof.
  intros Ha Hxs. revert a Ha. induction Hxs as [|x xs (q & -> & Hq) _ IH]; intros a Ha; cbn; [done|].
  constructor; [eexists; split; [reflexivity | by apply Qmult_lt_0_compat]|].
  apply IH. by apply Qmult_lt_0_compat.
Qed.

(** The running maximum of positive values bounds each of them. *)
Lemma cummax_above (acc : num) (cs : column) :
  (acc = NaN \/ fin_with (fun q => 0 < q)%Q acc) -> Forall (fin_with (fun q => 0 < q)%Q) cs ->
  Forall2 (fun c r => exists qc qr, c = Fin qc /\ r = Fin qr /\ (0 < qc <= qr)%Q)
          cs (cummax_from acc cs).
Proof.
  intros Hacc Hcs. revert acc Hacc. induction Hcs as [|c cs (q & -> & Hq) _ IH]; intros acc Hacc; cbn;
    [constructor|].
  destruct Hacc as [->|(a & -> & Ha)]; cbn.
  - constructor; [exists q, q; split; [done | split; [done | split; lra]]|]. apply IH. right. by exists q.
  - destruct (qltb a q) eqn:E.
    + constructor; [exists q, q; split; [done | split; [done | split; lra]]|]. apply IH. right. by exists q.
    + apply not_true_iff_false in E. rewrite qltb_spec in E.
      constructor; [exists q, a; split; [done | split; [done | split; lra]]|]. apply IH. right. by exists a.
Qed.

Lemma zip_with_Forall2 {A B C} (P : A -> B -> Prop) (R : C -> Prop) (f : A -> B -> C) l1 l2 :
  Forall2 P l1 l2 -> (forall a b, P a b -> R (f a b)) -> Forall R (zip_with f l1 l2).
Proof. intros H HR. induction H; cbn; constructor; auto. Qed.

(** [(c / running_max - 1) * 100] lies in [(-100, 0]]. *)
Lemma drawdown_bounds (qc qr : Q) :
  (0 < qc <= qr)%Q ->
  fin_with (fun d => -100 < d <= 0)%Q (nmul (nsub (ndiv (Fin qc) (Fin qr)) (Fin 1)) (Fin 100)).
Proof.
  intros Hc. rewrite ndiv_fin by lra. cbn. eexists; split; [reflexivity|].
  assert (0 < qc / qr)%Q by (apply Qlt_shift_div_l; lra).
  assert (qc / qr <= 1)%Q by (apply Qle_shift_div_r; lra).
  split; lra.
Qed.

Lemma length_cumprod_from (acc : num) (xs : column) : length (cumprod_from acc xs) = length xs.
Proof. revert acc. induction xs as [|x xs IH]; intros acc; cbn; [done|]. by destruct (is_nan x); cbn; rewrite IH. Qed.

(** The CVaR is the mean of the returns up to the VaR, one of which is
    a return. *)
Lemma cvar_bounds (L v a : Q) (dr : column) :
  Forall (fin_with (fun q => L <= q)%Q) dr -> In (Fin a) dr -> (a <= v)%Q ->
  fin_with (fun c => L <= c <= v)%Q (ser_mean (List.filter (fun x => nleb x (Fin v)) dr)).
Proof.
  intros Hdr Ia Ha.
  assert (Hf : Forall (fin_with (fun q => L <= q <= v)%Q) (List.filter (fun x => nleb x (Fin v)) dr)).
  { apply List.Forall_forall. intros x [Hx Hle]%filter_In. rewrite List.Forall_forall in Hdr.
    destruct (Hdr x Hx) as (q & -> & Hq). apply nleb_fin in Hle. by exists q. }
  unfold ser_mean. rewrite (valid_fin _ _ Hf). apply mean_bounds; [|done].
  intros E. assert (Hin : In (Fin a) (List.filter (fun x => nleb x (Fin v)) dr))
    by (apply filter_In; split; [done | by apply nleb_fin]).
  by rewrite E in Hin.
Qed.

(** The drawdown series of returns above [-100%] lies in [(-100, 0]]. *)
Lemma drawdown_series_bounds (L : Q) (dr : column) :
  (-100 < L)%Q -> Forall (fin_with (fun q => L <= q)%Q) dr ->
  let cumulative := cumprod_from (Fin 1) ((fun x => nadd (Fin 1) (ndiv x (Fin 100))) <$> dr) in
  Forall (fin_with (fun d => -100 < d <= 0)%Q)
    (zip_with (fun c r => nmul (nsub (ndiv c r) (Fin 1)) (Fin 100)) cumulative (cummax_from NaN cumulative)) /\
  length (zip_with (fun c r => nmul (nsub (ndiv c r) (Fin 1)) (Fin 100)) cumulative (cummax_from NaN cumulative))
    = length dr.
Proof.
  intros HL Hdr cumulative.
  assert (Hpos : Forall (fin_with (fun q => 0 < q)%Q) cumulative).
  { apply cumprod_pos; [lra|]. rewrite Forall_fmap. eapply Forall_impl; [exact Hdr|].
    intros x (q & -> & Hq). unfold compose. rewrite ndiv_fin by (intros E; vm_compute in E; discriminate).
    cbn. eexists; split; [reflexivity|]. change (q / 100)%Q with (q * (1 # 100))%Q. lra. }
  pose proof (cummax_above NaN cumulative (or_introl eq_refl) Hpos) as H2.
  split.
  - eapply zip_with_Forall2; [exact H2|]. intros c r (qc & qr & -> & -> & Hc). by apply drawdown_bounds.
  - rewrite length_zip_with, <- (Forall2_length _ _ _ H2). unfold cumulative.
    rewrite length_cumprod_from, length_fmap. lia.
Qed.

(** [xs.iloc[-k]] for [1 <= k <= len(xs)]. *)
Lemma py_iloc_neg {A} (k : nat) (xs : list A) (d : A) (w : world) :
  1 <= k <= length xs -> py_iloc (- Z.of_nat k) xs w = (Ret (nth (length xs - k) xs d), w).
Proof.
  intros Hk. unfold py_iloc. rewrite (proj2 (Z.ltb_lt _ _)) by lia.
  rewrite (proj2 (andb_true_iff _ _)) by (split; [apply Z.leb_le | apply Z.ltb_lt]; lia).
  replace (Z.to_nat (Z.of_nat (length xs) + - Z.of_nat k)) with (length xs - k) by lia.
  rewrite (nth_error_nth' xs d) by lia. reflexivity.
Qed.

Lemma py_iloc_last {A} (xs : list A) (d : A) (w : world) :
  xs <> [] -> py_iloc (-1) xs w = (Ret (nth (length xs - 1) xs d), w).
Proof. intros Hne. apply (py_iloc_neg 1). destruct xs; [done | cbn; lia]. Qed.

Lemma change_pct_ok (k : nat) (xs : column) (w : world) :
  1 <= k -> xs <> [] -> exists s, change_pct k xs (length xs) w = (Ret s, w).
Proof.
  intros Hk Hne. assert (Hl : 1 <= length xs) by (destruct xs; [done | cbn; lia]).
  unfold change_pct. rewrite (mbind_ret _ _ _ _ _ (py_iloc_last xs NaN w Hne)).
  rewrite (mbind_ret _ _ _ _ _ (py_iloc_neg (Nat.min k (length xs)) xs NaN w ltac:(lia))). eauto.
Qed.

(** One [if name in df.columns] block of [calculate_stats] on a
    rectangular frame whose tables are computed without error. *)
Lemma stats_entry_ok (cols : list (string * column)) (name key : string)
    (tbl : column -> M table) (n : nat) (w : world) :
  Forall (fun c => length (snd c) = n) cols ->
  (forall xs, length xs = n -> exists t, tbl xs w = (Ret t, w)) ->
  exists e, stats_entry cols name key tbl w = (Ret e, w) /\
            map fst e = if has_col name cols then [key] else [].
Proof.
  intros Hc Ht. unfold stats_entry. destruct (has_col name cols) eqn:E; [|by exists []].
  destruct (Ht _ (length_get_col name n cols Hc E)) as (t & Et).
  rewrite (mbind_ret _ _ _ _ _ Et). by exists [(key, t)].
Qed.

(** [calculate_stats] on a rectangular frame with at least one row
    returns one table per present column, under its key. *)
Lemma calculate_stats_ok (fsqrt : Q -> Q) (skew kurtosis : column -> num) (fr : frame) (w : world) :
  frame_wf fr -> fr_date fr <> [] ->
  exists d, calculate_stats fsqrt skew kurtosis fr w = (Ret d, w) /\
    map fst d = ((if has_col "price" (fr_cols fr) then ["price_stats"] else []) ++
                 (if has_col "market_cap" (fr_cols fr) then ["market_cap_stats"] else []) ++
                 (if has_col "volume" (fr_cols fr) then ["volume_stats"] else []) ++
                 (if has_col "volatility" (fr_cols fr) then ["volatility_stats"] else []))%list.
Proof.
  intros Hwf Hne. unfold calculate_stats. cbv zeta.
  set (n := length (fr_date fr)).
  assert (Hn : 1 <= n) by (unfold n; destruct (fr_date fr); [done | cbn; lia]).
  assert (Hne' : forall xs : column, length xs = n -> xs <> []) by (intros xs Hx E; subst xs; cbn in Hx; lia).
  assert (Hc : forall k xs, 1 <= k -> length xs = n -> exists s, change_pct k xs n w = (Ret s, w))
    by (intros k xs Hk Hx; rewrite <- Hx; apply change_pct_ok; [done | by apply Hne']).
  destruct (stats_entry_ok (fr_cols fr) "price" "price_stats" (fun xs => price_table fsqrt skew kurtosis xs n) n w Hwf)
    as (p & Ep & Hp).
  { intros xs Hx. destruct (Hc 7 xs ltac:(lia) Hx) as (c7 & E7). destruct (Hc 30 xs ltac:(lia) Hx) as (c30 & E30).
    unfold price_table. rewrite (mbind_ret _ _ _ _ _ E7), (mbind_ret _ _ _ _ _ E30). eauto. }
  destruct (stats_entry_ok (fr_cols fr) "market_cap" "market_cap_stats" (fun xs => size_table fsqrt xs n) n w Hwf)
    as (m & Em & Hm).
  { intros xs Hx. destruct (Hc 7 xs ltac:(lia) Hx) as (c7 & E7). destruct (Hc 30 xs ltac:(lia) Hx) as (c30 & E30).
    unfold size_table. rewrite (mbind_ret _ _ _ _ _ E7), (mbind_ret _ _ _ _ _ E30). eauto. }
  destruct (stats_entry_ok (fr_cols fr) "volume" "volume_stats" (fun xs => size_table fsqrt xs n) n w Hwf)
    as (v & Ev & Hv).
  { intros xs Hx. destruct (Hc 7 xs ltac:(lia) Hx) as (c7 & E7). destruct (Hc 30 xs ltac:(lia) Hx) as (c30 & E30).
    unfold size_table. rewrite (mbind_ret _ _ _ _ _ E7), (mbind_ret _ _ _ _ _ E30). eauto. }
  destruct (stats_entry_ok (fr_cols fr) "volatility" "volatility_stats" volatility_table n w Hwf)
    as (t & Et & Ht).
  { intros xs Hx. unfold volatility_table. rewrite (mbind_ret _ _ _ _ _ (py_iloc_last xs NaN w (Hne' xs Hx))). eauto. }
  rewrite (mbind_ret _ _ _ _ _ Ep), (mbind_ret _ _ _ _ _ Em), (mbind_ret _ _ _ _ _ Ev), (mbind_ret _ _ _ _ _ Et).
  eexists; split; [reflexivity|]. by rewrite !map_app, Hp, Hm, Hv, Ht.
Qed.

End Lemmas.

(** ** Floats up to [Qeq] *)

#[export] Instance num_eq_equiv : Equivalence num_eq.
Proof.
  split.
  - intros [q| | |]; cbn; reflexivity.
  - intros [a| | |] [b| | |]; cbn; intros H; try discriminate; try done; by symmetry.
  - intros [a| | |] [b| | |] [c| | |]; cbn; intros H1 H2; try discriminate; try done; by rewrite H1.
Qed.

#[export] Instance qltb_proper : Proper (Qeq ==> Qeq ==> eq) qltb.
Proof.
  intros a a' Ha b b' Hb. unfold qltb. f_equal. apply Bool.eq_iff_eq_true.
  by rewrite !Qle_bool_iff, Ha, Hb.
Qed.

#[export] Instance Qeq_bool_proper : Proper (Qeq ==> Qeq ==> eq) Qeq_bool.
Proof.
  intros a a' Ha b b' Hb. apply Bool.eq_iff_eq_true. by rewrite !Qeq_bool_iff, Ha, Hb.
Qed.

(** Turns the tests on [a] into tests on [a'] when [H : a == a']. *)
Ltac qtests_rw H :=
  lazymatch type of H with
  | (?a == ?a')%Q =>
      repeat first [ rewrite (Qeq_bool_proper a a' H 0%Q 0%Q (Qeq_refl 0))
                   | rewrite (qltb_proper 0%Q 0%Q (Qeq_refl 0) a a' H)
                   | rewrite (qltb_proper a a' H 0%Q 0%Q (Qeq_refl 0)) ]
  end.

#[export] Instance Fin_proper : Proper (Qeq ==> num_eq) Fin.
Proof. intros a b H. exact H. Qed.

#[export] Instance ndiv_proper : Proper (num_eq ==> num_eq ==> num_eq) ndiv.
Proof.
  intros [a| | |] [a'| | |] Ha [b| | |] [b'| | |] Hb; cbn in Ha, Hb |- *;
    try discriminate; try reflexivity; try qtests_rw Ha; try qtests_rw Hb; try reflexivity.
  destruct (Qeq_bool b' 0); [destruct (Qeq_bool a' 0); reflexivity|]. cbn. by rewrite Ha, Hb.
Qed.

#[export] Instance nabs_proper : Proper (num_eq ==> num_eq) nabs.
Proof. intros [a| | |] [a'| | |] Ha; cbn in *; try discriminate; try reflexivity. by rewrite Ha. Qed.

#[export] Instance nltb_proper : Proper (num_eq ==> num_eq ==> eq) nltb.
Proof.
  intros [a| | |] [a'| | |] Ha [b| | |] [b'| | |] Hb; cbn in Ha, Hb |- *;
    try discriminate; try reflexivity. by rewrite Ha, Hb.
Qed.

Lemma nth_Forall2_num_eq (zs zs' : column) (i : nat) :
  Forall2 num_eq zs zs' -> num_eq (nth i zs NaN) (nth i zs' NaN).
Proof.
  intros H. revert i. induction H as [|z z' zs zs' Hz _ IH]; intros [|i]; cbn; [done..| |]; auto.
Qed.

(** [np.where(z > t)] only reads the values. *)
Lemma where_gt_ext (t : Q) (zs zs' : column) :
  Forall2 num_eq zs zs' -> where_gt t zs = where_gt t zs'.
Proof.
  intros H. unfold where_gt. rewrite (Forall2_length _ _ _ H). apply filter_ext. intros i.
  by rewrite (nth_Forall2_num_eq zs zs' i H).
Qed.

(** The z-scores only depend on the square root of the variance. *)
Lemma zscores_sqrt_ext (f g : Q -> Q) (xs : column) :
  (forall q, mean ((fun x => nmul (nsub x (mean xs)) (nsub x (mean xs))) <$> xs) = Fin q ->
             (f q == g q)%Q) ->
  Forall2 num_eq (zscores f xs) (zscores g xs).
Proof.
  intros Hfg. unfold zscores. cbv zeta. apply Forall2_fmap, Forall_Forall2_diag, Forall_forall.
  intros x _. apply nabs_proper, ndiv_proper; [reflexivity|].
  destruct (mean _) as [q| | |] eqn:E; cbn; [|done..]. destruct (qltb q 0); [done|]. exact (Hfg q eq_refl).
Qed.

(** ** Properties *)

(** C18: the "7-Day" and "30-Day" changes of [calculate_stats] compare the
    last value with the one [k - 1] rows before it ([iloc[-k]]): for a
    column [pre ++ a :: mid ++ [e]] with [k - 2] values in [mid], the
    [k]-day change is [(e / a - 1) * 100], [a] being [k - 1] rows above
    [e]. *)
Theorem change_pct_points_back (k : nat) (pre mid : column) (a e : num) (w : world) :
  (2 <= k)%nat -> length mid = (k - 2)%nat ->
  change_pct k (pre ++ a :: mid ++ [e])%list (length (pre ++ a :: mid ++ [e])%list) w =
    (Ret (fmt_fixed 2 (nmul (nsub (ndiv e a) (Fin 1)) (Fin 100)) ++ "%"), w).
Proof.
  intros Hk Hm. set (xs := (pre ++ a :: mid ++ [e])%list).
  assert (Hx : xs = ((pre ++ a :: mid) ++ [e])%list) by (unfold xs; rewrite <- app_assoc; reflexivity).
  assert (Hl : length xs = (length pre + k)%nat)
    by (unfold xs; rewrite length_app; cbn [length]; rewrite length_app; cbn [length]; lia).
  assert (Hne : xs <> []) by (intros E; rewrite E in Hl; cbn in Hl; lia).
  unfold change_pct. rewrite (mbind_ret _ _ _ _ _ (py_iloc_last xs NaN w Hne)).
  rewrite Nat.min_l by lia. rewrite (mbind_ret _ _ _ _ _ (py_iloc_neg k xs NaN w ltac:(lia))).
  replace (nth (length xs - 1) xs NaN) with e.
  - replace (nth (length xs - k) xs NaN) with a; [reflexivity|].
    rewrite Hl. replace (length pre + k - k)%nat with (length pre) by lia.
    unfold xs. rewrite app_nth2, Nat.sub_diag by lia. reflexivity.
  - rewrite Hx at 2. rewrite app_nth2; rewrite Hx, length_app in *; cbn [length] in *; [|lia].
    replace (_ - _)%nat with 0%nat by lia. reflexivity.
Qed.


(** C13: on a frame with [price] and [daily_return] columns whose returns
    are present, in [[L, H]] and above [-100%], [calculate_risk_metrics]
    returns its four metrics; the maximum drawdown lies in [(-100, 0]] and
    [L <= cvar_95 <= var_95 <= H]. *)
Theorem calculate_risk_metrics_bounds (fsqrt : Q -> Q) (fr : frame) (L H : Q) (w : world) :
  has_col "price" (fr_cols fr) = true -> has_col "daily_return" (fr_cols fr) = true ->
  get_col "daily_return" (fr_cols fr) <> [] -> (-100 < L)%Q ->
  Forall (fin_with (fun q => L <= q <= H)%Q) (get_col "daily_return" (fr_cols fr)) ->
  exists r, calculate_risk_metrics fsqrt fr w = (Ret (Some r), w) /\
    fin_with (fun d => -100 < d <= 0)%Q (max_drawdown r) /\
    exists v c, var_95 r = Fin v /\ cvar_95 r = Fin c /\ (L <= c <= v /\ v <= H)%Q.
Proof.
  intros Hp Hd Hne HL Hxs. unfold calculate_risk_metrics. rewrite Hp, Hd. cbn [negb orb]. cbv zeta.
  set (dr := get_col "daily_return" (fr_cols fr)) in *.
  destruct (np_percentile_fin L H 5 dr w Hne ltac:(split; lra) Hxs) as (v & a & Ev & Hv & Ia & Ha).
  rewrite (mbind_ret _ _ _ _ _ Ev). eexists; split; [reflexivity|]. cbn [max_drawdown var_95 cvar_95].
  assert (HxL : Forall (fin_with (fun q => L <= q)%Q) dr)
    by (eapply Forall_impl; [exact Hxs|]; intros x (q & -> & Hq); exists q; split; [done | lra]).
  destruct (drawdown_series_bounds L dr HL HxL) as [Hdd Hlen]. split.
  - apply ser_min_with; [|exact Hdd]. intros E. rewrite E in Hlen. by destruct dr.
  - destruct (cvar_bounds L v a dr HxL Ia Ha) as (c & Ec & Hc).
    exists v, c. split; [done|]. split; [exact Ec|]. split; [lra|]. lra.
Qed.

(** A frame whose first price is missing and whose last price, 4, lies
    more than three standard deviations from the mean of the others. *)
Definition nan_first_frame : frame :=
  mk_frame [0; 1; 2; 3; 4; 5; 6; 7; 8; 9; 10; 11; 12; 13]%Q
    [("price", NaN :: Fin 1 :: repeat (Fin 0) 11 ++ [Fin 4])%list].


(** ** Witnesses *)

Definition risk_frame : frame :=
  mk_frame [0; 1; 2]%Q [("price", [Fin 100; Fin 105; Fin 102]); ("daily_return", [Fin 5; Fin 5; Fin (-3)])].

Lemma calculate_risk_metrics_bounds_witness :
  exists r, calculate_risk_metrics (fun q => q) risk_frame (mk_world [] [] [] 0 [] []) =
              (Ret (Some r), mk_world [] [] [] 0 [] []) /\
    fin_with (fun d => -100 < d <= 0)%Q (max_drawdown r) /\
    exists v c, var_95 r = Fin v /\ cvar_95 r = Fin c /\ ((-3) <= c <= v /\ v <= 5)%Q.
Proof.
  apply calculate_risk_metrics_bounds; [reflexivity | reflexivity | discriminate | lra |].
  repeat constructor; eexists; (split; [reflexivity | split; lra]).
Defined.

Lemma change_pct_points_back_witness :
  change_pct 7 ([Fin 1] ++ Fin 2 :: [Fin 3; Fin 4; Fin 5; Fin 6; Fin 7] ++ [Fin 8])%list
    (length ([Fin 1] ++ Fin 2 :: [Fin 3; Fin 4; Fin 5; Fin 6; Fin 7] ++ [Fin 8])%list)
    (mk_world [] [] [] 0 [] []) =
  (Ret (fmt_fixed 2 (nmul (nsub (ndiv (Fin 8) (Fin 2)) (Fin 1)) (Fin 100)) ++ "%"),
   mk_world [] [] [] 0 [] []).
Proof. apply change_pct_points_back; [lia | reflexivity]. Defined.

(** A square root exact on [196/169]. *)
Definition sqrt_196_169 (q : Q) : Q := if Qeq_bool q (196 # 169) then 14 # 13 else 0.


End Stats.
