(* ===== verification/Correlation.v ===== *)
(** * Correlation: [calculate_correlation_matrix] of [src/data_processor.py]

    Lines 137-160: the price series of each token indexed by date
    ([pd.DataFrame(data).set_index('date')['price']]), the frame pandas
    builds from the dict of series (the union of their indexes, each
    series reindexed on it, [NaN] where a token has no price that day),
    and [DataFrame.corr()]: Pearson's coefficient of each pair of columns
    over the rows where both values are finite, computed as pandas'
    [libalgos.nancorr] does, with Welford's running means and sums of
    products, for [min_periods = 1].  The token data of a token is a
    [frame] of [Normalizer]; the dict's keys are distinct, so the loop of
    lines 150-152 fills [price_data] in the dict's order.  The square root
    of [nancorr] is the parameter [fsqrt]. *)

From Stdlib Require Import Qabs.
From S2P Require Import Prelude Forecast Normalizer Stats.
Import Forecast Normalizer Stats.

Module Correlation.

Local Open Scope Q_scope.

(** ** Series and their indexes *)

(** A pandas Series: its index labels (dates) and its values. *)
Record series := mk_series { s_index : list Q; s_values : column }.

(** [pd.DataFrame(data).set_index('date')['price']]. *)
Definition price_series (fr : frame) : M series :=
  if has_col "price" (fr_cols fr) then mret (mk_series (fr_date fr) (get_col "price" (fr_cols fr)))
  else py_raise (KeyError "price").

(** The loop of lines 150-152. *)
Fixpoint price_data (token_data_dict : list (string * frame)) : M (list (string * series)) :=
  match token_data_dict with
  | [] => mret []
  | (token, data) :: rest =>
      s <- price_series data ;; ps <- price_data rest ;; mret ((token, s) :: ps)
  end.

(** [Index.equals]: the same labels in the same order. *)
Fixpoint index_equals (a b : list Q) : bool :=
  match a, b with
  | [], [] => true
  | x :: a', y :: b' => Qeq_bool x y && index_equals a' b'
  | _, _ => false
  end.

(** [not Index.is_unique]. *)
Fixpoint has_dup_labels (ix : list Q) : bool :=
  match ix with
  | [] => false
  | x :: rest => existsb (Qeq_bool x) rest || has_dup_labels rest
  end.

(** The list without the first label equal to [q]. *)
Fixpoint remove_label (q : Q) (ix : list Q) : list Q :=
  match ix with
  | [] => []
  | x :: rest => if Qeq_bool q x then rest else x :: remove_label q rest
  end.

(** The labels of [b] that [a] does not already have as many times. *)
Fixpoint extra_labels (a b : list Q) : list Q :=
  match b with
  | [] => []
  | y :: b' => if existsb (Qeq_bool y) a then extra_labels (remove_label y a) b'
               else y :: extra_labels a b'
  end.

#[export] Instance Qle_rel_dec : RelDecision Qle.
Proof.
  intros a b. destruct (Qle_bool a b) eqn:E; [left; by apply Qle_bool_iff|].
  right. intros H%Qle_bool_iff. congruence.
Defined.

(** [Index.union(other, sort=None)]: [self] when [other] equals it or is
    empty, [other] when [self] is empty; otherwise each label as many
    times as in the index that has it most often, sorted. *)
Definition index_union (a b : list Q) : list Q :=
  if index_equals a b || Nat.eqb (length b) 0 then a
  else if Nat.eqb (length a) 0 then b
  else merge_sort Qle (a ++ extra_labels a b).

(** [union_indexes]: the index of [pd.DataFrame(price_data)]. *)
Definition frame_index (ss : list series) : list Q :=
  match ss with
  | [] => []
  | s :: rest => fold_left (fun ix s' => index_union ix (s_index s')) rest (s_index s)
  end.

(** The value at the first label equal to [q], or [NaN]. *)
Fixpoint value_at (q : Q) (ix : list Q) (vs : column) : num :=
  match ix, vs with
  | x :: ix', v :: vs' => if Qeq_bool q x then v else value_at q ix' vs'
  | _, _ => NaN
  end.

(** [Series.reindex(index)]: nothing to do on an equal index; a series
    with duplicate labels cannot be reindexed. *)
Definition reindex (s : series) (ix : list Q) : M column :=
  if index_equals (s_index s) ix then mret (s_values s)
  else if has_dup_labels (s_index s)
  then py_raise (ValueError "cannot reindex on an axis with duplicate labels")
  else mret ((fun q => value_at q (s_index s) (s_values s)) <$> ix).

(** [pd.DataFrame(price_data)]: the columns, in the dict's order. *)
Definition price_df (price_data : list (string * series)) : M (list (string * column)) :=
  let ix := frame_index (snd <$> price_data) in
  py_map (fun p => v <- reindex (snd p) ix ;; mret (fst p, v)) price_data.

(** ** [DataFrame.corr()]: [libalgos.nancorr] *)

(** The rows where both values are finite ([np.isfinite] mask). *)
Fixpoint complete_pairs (xs ys : column) : list (Q * Q) :=
  match xs, ys with
  | Fin a :: xs', Fin b :: ys' => (a, b) :: complete_pairs xs' ys'
  | _ :: xs', _ :: ys' => complete_pairs xs' ys'
  | _, _ => []
  end.

(** The running values of [nancorr]'s inner loop. *)
Record welford := mk_welford {
  nobs : nat; meanx : Q; meany : Q; ssqdmx : Q; ssqdmy : Q; covxy : Q
}.

Definition welford0 : welford := mk_welford 0 0 0 0 0 0.

(** One row: [nobs += 1], [meanx += 1. / nobs * dx], ..., each sum of
    products updated with the new mean and the old difference. *)
Definition welford_step (st : welford) (p : Q * Q) : welford :=
  let '(vx, vy) := p in
  let n := S (nobs st) in
  let dx := vx - meanx st in
  let dy := vy - meany st in
  let mx := meanx st + 1 / inject_Z (Z.of_nat n) * dx in
  let my := meany st + 1 / inject_Z (Z.of_nat n) * dy in
  mk_welford n mx my (ssqdmx st + (vx - mx) * dx) (ssqdmy st + (vy - my) * dy)
             (covxy st + (vx - mx) * dy).

Section WithSqrt.
Variable fsqrt : Q -> Q.

(** The coefficient of columns [x] and [y]: [NaN] without a complete row
    ([nobs < minp]) or when [sqrt(ssqdmx * ssqdmy)] is 0. *)
Definition nancorr_pair (xs ys : column) : num :=
  let st := fold_left welford_step (complete_pairs xs ys) welford0 in
  if Nat.ltb (nobs st) 1 then NaN
  else
    let divisor := fsqrt (ssqdmx st * ssqdmy st) in
    if Qeq_bool divisor 0 then NaN else Fin (covxy st / divisor).

(** The correlation matrix: labels for rows and columns, and its rows.
    Entry [(i, j)] is computed once, with [x] the column of the larger
    index ([for xi in range(K): for yi in range(xi + 1)]). *)
Record corr_frame := mk_corr { c_labels : list string; c_rows : list (list num) }.

Definition corr (cols : list (string * column)) : corr_frame :=
  let col i := nth i (snd <$> cols) [] in
  mk_corr (fst <$> cols)
    ((fun i => (fun j => nancorr_pair (col (Nat.max i j)) (col (Nat.min i j))) <$> seq 0 (length cols))
       <$> seq 0 (length cols)).

Definition calculate_correlation_matrix (token_data_dict : list (string * frame)) : M corr_frame :=
  pd <- price_data token_data_dict ;;
  cols <- price_df pd ;;
  mret (corr cols).

(** The textbook two-pass coefficient: the means first, then the sums of
    products of the deviations. *)
Definition ref_pearson (xs ys : column) : num :=
  let ps := complete_pairs xs ys in
  match ps with
  | [] => NaN
  | _ =>
      let n := inject_Z (Z.of_nat (length ps)) in
      let mx := fold_right (fun p a => fst p + a) 0 ps / n in
      let my := fold_right (fun p a => snd p + a) 0 ps / n in
      let sxx := fold_right (fun p a => (fst p - mx) * (fst p - mx) + a) 0 ps in
      let syy := fold_right (fun p a => (snd p - my) * (snd p - my) + a) 0 ps in
      let sxy := fold_right (fun p a => (fst p - mx) * (snd p - my) + a) 0 ps in
      let divisor := fsqrt (sxx * syy) in
      if Qeq_bool divisor 0 then NaN else Fin (sxy / divisor)
  end.

End WithSqrt.

(** ** Welford's sums *)

Definition sumq (f : Q * Q -> Q) (ps : list (Q * Q)) : Q := fold_right (fun p a => f p + a) 0 ps.

Definition nQ (n : nat) : Q := inject_Z (Z.of_nat n).

(** The running values after [n] rows with the given raw sums. *)
Definition winv (st : welford) (n : nat) (sx sy sxx syy sxy : Q) : Prop :=
  nobs st = n /\ sx == meanx st * nQ n /\ sy == meany st * nQ n /\
  sxx == ssqdmx st + meanx st * meanx st * nQ n /\
  syy == ssqdmy st + meany st * meany st * nQ n /\
  sxy == covxy st + meanx st * meany st * nQ n.

Lemma nQ_S (n : nat) : nQ (S n) == nQ n + 1.
Proof. unfold nQ. rewrite Nat2Z.inj_succ, <- Z.add_1_r, inject_Z_plus. reflexivity. Qed.

Lemma nQ_nonneg (n : nat) : 0 <= nQ n.
Proof. unfold nQ. change 0 with (inject_Z 0). rewrite <- Zle_Qle. lia. Qed.

Lemma nQ_pos (n : nat) : (0 < n)%nat -> 0 < nQ n.
Proof. intros H. unfold nQ. change 0 with (inject_Z 0). rewrite <- Zlt_Qlt. lia. Qed.

Lemma winv_step (st : welford) (n : nat) (sx sy sxx syy sxy x y : Q) :
  winv st n sx sy sxx syy sxy ->
  winv (welford_step st (x, y)) (S n) (sx + x) (sy + y) (sxx + x * x) (syy + y * y) (sxy + x * y).
Proof.
  destruct st as [k mx my ssx ssy cxy]. unfold winv, welford_step; cbn.
  intros (-> & H1 & H2 & H3 & H4 & H5). split; [done|].
  change (inject_Z (Z.of_nat (S n))) with (nQ (S n)). rewrite nQ_S.
  pose proof (nQ_nonneg n). assert (~ nQ n + 1 == 0) by lra.
  rewrite H1, H2, H3, H4, H5. repeat split; field; done.
Qed.

Lemma winv_compat (st : welford) (n : nat) (a b c d e a' b' c' d' e' : Q) :
  winv st n a b c d e -> a == a' -> b == b' -> c == c' -> d == d' -> e == e' ->
  winv st n a' b' c' d' e'.
Proof.
  unfold winv. intros (H0 & H1 & H2 & H3 & H4 & H5) E1 E2 E3 E4 E5.
  rewrite <- E1, <- E2, <- E3, <- E4, <- E5. repeat split; assumption.
Qed.

Lemma winv_fold (ps : list (Q * Q)) (st : welford) (n : nat) (sx sy sxx syy sxy : Q) :
  winv st n sx sy sxx syy sxy ->
  winv (fold_left welford_step ps st) (n + length ps)
    (sx + sumq fst ps) (sy + sumq snd ps) (sxx + sumq (fun p => fst p * fst p) ps)
    (syy + sumq (fun p => snd p * snd p) ps) (sxy + sumq (fun p => fst p * snd p) ps).
Proof.
  revert st n sx sy sxx syy sxy. unfold sumq.
  induction ps as [|[x y] ps IH]; intros st n sx sy sxx syy sxy H; cbn.
  - rewrite Nat.add_0_r. eapply winv_compat; [exact H | ring..].
  - replace (n + S (length ps))%nat with (S n + length ps)%nat by lia.
    eapply winv_compat; [exact (IH _ _ _ _ _ _ _ (winv_step _ _ _ _ _ _ _ x y H)) | ring..].
Qed.

(** The sum of products of deviations from [c] and [d], from the raw sums. *)
Lemma sumq_deviations (f g : Q * Q -> Q) (c d : Q) (ps : list (Q * Q)) :
  sumq (fun p => (f p - c) * (g p - d)) ps ==
    sumq (fun p => f p * g p) ps - c * sumq g ps - d * sumq f ps + c * d * nQ (length ps).
Proof.
  induction ps as [|p ps IH]; cbn [sumq fold_right length].
  - unfold nQ. cbn. ring.
  - fold (sumq (fun p => (f p - c) * (g p - d)) ps) (sumq (fun p => f p * g p) ps) (sumq g ps) (sumq f ps).
    rewrite IH, nQ_S. ring.
Qed.

(** Welford's loop computes the two-pass sums. *)
Lemma welford_two_pass (ps : list (Q * Q)) :
  ps <> [] ->
  let st := fold_left welford_step ps welford0 in
  let n := nQ (length ps) in
  let mx := sumq fst ps / n in
  let my := sumq snd ps / n in
  nobs st = length ps /\
  ssqdmx st == sumq (fun p => (fst p - mx) * (fst p - mx)) ps /\
  ssqdmy st == sumq (fun p => (snd p - my) * (snd p - my)) ps /\
  covxy st == sumq (fun p => (fst p - mx) * (snd p - my)) ps.
Proof.
  intros Hne st n mx my.
  assert (H0 : winv welford0 0 0 0 0 0 0) by (unfold winv; cbn; repeat split; reflexivity).
  destruct (winv_fold ps _ _ _ _ _ _ _ H0) as (Hn & H1 & H2 & H3 & H4 & H5).
  fold st in Hn, H1, H2, H3, H4, H5. cbn [Nat.add] in *. fold n in H1, H2, H3, H4, H5.
  assert (Hp : 0 < n) by (apply nQ_pos; destruct ps; [done | cbn; lia]).
  rewrite !Qplus_0_l in H1, H2, H3, H4, H5.
  assert (Ex : mx == meanx st) by (unfold mx; rewrite H1; field; lra).
  assert (Ey : my == meany st) by (unfold my; rewrite H2; field; lra).
  rewrite !sumq_deviations. fold n. split; [done|].
  rewrite Ex, Ey, H1, H2, H3, H4, H5. split; [|split]; ring.
Qed.

(** ** Cauchy-Schwarz and the bounds of a coefficient *)

Lemma sumq_sq_nonneg (f : Q * Q -> Q) (ps : list (Q * Q)) : 0 <= sumq (fun p => f p * f p) ps.
Proof.
  induction ps as [|p ps IH]; cbn; [lra|]. fold (sumq (fun p => f p * f p) ps).
  pose proof (Qsquare_mul_nonneg (f p)). lra.
Qed.

Lemma cauchy_schwarz (f g : Q * Q -> Q) (ps : list (Q * Q)) :
  sumq (fun p => f p * g p) ps * sumq (fun p => f p * g p) ps <=
  sumq (fun p => f p * f p) ps * sumq (fun p => g p * g p) ps.
Proof.
  induction ps as [|p ps IH]; cbn [sumq fold_right]; [lra|].
  fold (sumq (fun p => f p * g p) ps) (sumq (fun p => f p * f p) ps) (sumq (fun p => g p * g p) ps) in *.
  pose proof (sumq_sq_nonneg f ps) as HA. pose proof (sumq_sq_nonneg g ps) as HB.
  set (S := sumq (fun p => f p * g p) ps) in *. set (A := sumq (fun p => f p * f p) ps) in *.
  set (B := sumq (fun p => g p * g p) ps) in *. set (a := f p). set (b := g p).
  destruct (Qlt_le_dec 0 A) as [HA'|HA'].
  - assert (HX : 0 <= a * a * B + A * b * b - 2 * a * b * S).
    { assert (0 <= A * (a * a * B + A * b * b - 2 * a * b * S)).
      { pose proof (Qsquare_mul_nonneg (A * b - a * S)). pose proof (Qsquare_mul_nonneg a). nra. }
      destruct (Qlt_le_dec (a * a * B + A * b * b - 2 * a * b * S) 0); [nra | lra]. }
    nra.
  - assert (HS : S * S <= 0) by nra. pose proof (Qsquare_mul_nonneg S).
    assert (S == 0) by (destruct (Qlt_le_dec 0 S); [nra | destruct (Qlt_le_dec S 0); nra]).
    pose proof (Qsquare_mul_nonneg a). pose proof (Qsquare_mul_nonneg b). nra.
Qed.

(** A coefficient divided by a square root no smaller than its absolute
    value lies in [[-1, 1]]. *)
Lemma ratio_bounds (c d : Q) : ~ d == 0 -> Qabs c <= d -> -1 <= c / d <= 1.
Proof.
  intros Hd Hc. pose proof (Qabs_nonneg c). assert (Hp : 0 < d) by (apply Qnot_eq_sym in Hd; lra).
  apply Qabs_Qle_condition in Hc. split.
  - apply Qle_shift_div_l; [exact Hp | lra].
  - apply Qle_shift_div_r; [exact Hp | lra].
Qed.

Lemma Qabs_square (c : Q) : Qabs c * Qabs c == c * c.
Proof. rewrite <- Qabs_Qmult. apply Qabs_pos, Qsquare_mul_nonneg. Qed.

Section Bounds.
Variable fsqrt : Q -> Q.
(** [np.sqrt] is at least every nonnegative [r] with [r * r] below its argument. *)
Hypothesis fsqrt_lower : forall q r, 0 <= r -> r * r <= q -> r <= fsqrt q.

Lemma nancorr_pair_bounds (xs ys : column) :
  nancorr_pair fsqrt xs ys = NaN \/ exists c, nancorr_pair fsqrt xs ys = Fin c /\ -1 <= c <= 1.
Proof.
  unfold nancorr_pair. destruct (complete_pairs xs ys) as [|p ps] eqn:E; [by left|].
  destruct (welford_two_pass (p :: ps)) as (Hn & Hx & Hy & Hc); [done|].
  cbv zeta. rewrite Hn. cbn [length Nat.ltb Nat.leb].
  set (st := fold_left welford_step (p :: ps) welford0) in *.
  destruct (Qeq_bool _ 0) eqn:Ed; [by left | right]. eexists; split; [reflexivity|].
  apply Qeq_bool_neq in Ed. apply ratio_bounds; [exact Ed|].
  apply fsqrt_lower; [apply Qabs_nonneg|]. rewrite Qabs_square, Hx, Hy, Hc.
  apply (cauchy_schwarz (fun p => fst p - _) (fun p => snd p - _)).
Qed.

End Bounds.

(** ** The frame and the matrix *)

Lemma price_data_ok (d : list (string * frame)) (w : world) :
  Forall (fun p => has_col "price" (fr_cols (snd p)) = true) d ->
  price_data d w =
    (Ret ((fun p => (fst p, mk_series (fr_date (snd p)) (get_col "price" (fr_cols (snd p))))) <$> d), w).
Proof.
  intros H. induction H as [|[t fr] d Hp _ IH]; [reflexivity|]. cbn [price_data].
  unfold price_series at 1. cbn in Hp. rewrite Hp.
  rewrite (mbind_ret _ _ _ w w) by reflexivity. rewrite (mbind_ret _ _ _ w w IH). reflexivity.
Qed.

Lemma reindex_ok (s : series) (ix : list Q) (w : world) :
  has_dup_labels (s_index s) = false -> exists v, reindex s ix w = (Ret v, w).
Proof. intros H. unfold reindex. rewrite H. destruct (index_equals _ _); eauto. Qed.

Lemma price_df_ok (pd : list (string * series)) (w : world) :
  Forall (fun p => has_dup_labels (s_index (snd p)) = false) pd ->
  exists cols, price_df pd w = (Ret cols, w) /\ fst <$> cols = fst <$> pd.
Proof.
  unfold price_df. generalize (frame_index (snd <$> pd)) as ix. intros ix H.
  induction H as [|[t s] pd Hs _ (cols & IH & Hc)]; [by exists []|]. cbn [py_map].
  destruct (reindex_ok s ix w Hs) as (v & Hv).
  rewrite (mbind_ret _ _ _ w w) by (rewrite (mbind_ret _ _ _ w w Hv); reflexivity).
  rewrite (mbind_ret _ _ _ w w IH). exists ((t, v) :: cols). cbn. by rewrite Hc.
Qed.

Lemma corr_lookup (fsqrt : Q -> Q) (cols : list (string * column)) (i j : nat) :
  c_rows (corr fsqrt cols) !! i ≫= (.!! j) =
    if decide (i < length cols /\ j < length cols)%nat
    then Some (nancorr_pair fsqrt (nth (Nat.max i j) (snd <$> cols) []) (nth (Nat.min i j) (snd <$> cols) []))
    else None.
Proof.
  unfold corr. cbn [c_rows]. rewrite list_lookup_fmap.
  destruct (decide (i < length cols)%nat) as [Hi|Hi];
    [rewrite lookup_seq_lt by done | rewrite lookup_seq_ge by lia; by rewrite decide_False by lia].
  cbn. rewrite list_lookup_fmap.
  destruct (decide (j < length cols)%nat) as [Hj|Hj];
    [rewrite lookup_seq_lt by done | rewrite lookup_seq_ge by lia; by rewrite decide_False by lia].
  by rewrite decide_True by lia.
Qed.

Lemma num_eq_ratio (a a' d d' : Q) :
  a == a' -> d == d' ->
  num_eq (if Qeq_bool d 0 then NaN else Fin (a / d)) (if Qeq_bool d' 0 then NaN else Fin (a' / d')).
Proof.
  intros Ha Hd. rewrite (Qeq_bool_proper d d' Hd 0 0 (Qeq_refl 0)).
  destruct (Qeq_bool d' 0); cbn; [done|]. by rewrite Ha, Hd.
Qed.

(** ** Properties *)


(** C23: on tokens whose data have a price column and no repeated date,
    [calculate_correlation_matrix] returns: a square matrix labelled by
    the tokens in the dict's order, symmetric, whose entries are [NaN] or
    coefficients in [[-1, 1]], for any square root at least as large as
    every nonnegative [r] with [r * r] below its argument. *)
Theorem calculate_correlation_matrix_bounds (fsqrt : Q -> Q) (d : list (string * frame)) (w : world) :
  (forall q r, 0 <= r -> r * r <= q -> r <= fsqrt q) ->
  Forall (fun p => has_col "price" (fr_cols (snd p)) = true /\ has_dup_labels (fr_date (snd p)) = false) d ->
  exists m, calculate_correlation_matrix fsqrt d w = (Ret m, w) /\
    c_labels m = fst <$> d /\ length (c_rows m) = length d /\
    Forall (fun row => length row = length d /\
                       Forall (fun c => c = NaN \/ exists q, c = Fin q /\ -1 <= q <= 1) row) (c_rows m) /\
    (forall i j, c_rows m !! i ≫= (.!! j) = c_rows m !! j ≫= (.!! i)).
Proof.
  intros Hs Hd. unfold calculate_correlation_matrix.
  rewrite (mbind_ret _ _ _ w w (price_data_ok d w (Forall_impl _ _ _ Hd (fun p H => proj1 H)))).
  destruct (price_df_ok ((fun p => (fst p, mk_series (fr_date (snd p)) (get_col "price" (fr_cols (snd p)))))
                          <$> d) w) as (cols & Ec & Hc).
  { apply Forall_fmap. eapply Forall_impl; [exact Hd|]. by intros p [_ H]. }
  rewrite (mbind_ret _ _ _ w w Ec). eexists; split; [reflexivity|].
  assert (Hl : length cols = length d).
  { rewrite <- (length_fmap fst cols), Hc. by rewrite !length_fmap. }
  split; [|split; [|split]].
  - unfold corr; cbn [c_labels]. rewrite Hc, <- list_fmap_compose. reflexivity.
  - unfold corr; cbn [c_rows]. by rewrite length_fmap, length_seq.
  - unfold corr; cbn [c_rows]. apply Forall_fmap, Forall_forall. intros i _. unfold compose.
    rewrite length_fmap, length_seq, Hl. split; [done|].
    apply Forall_fmap, Forall_forall. intros j _. apply (nancorr_pair_bounds fsqrt Hs).
  - intros i j. rewrite !(corr_lookup fsqrt cols). rewrite Nat.max_comm, Nat.min_comm.
    by destruct (decide _), (decide _); [| exfalso; lia.. |].
Qed.

(** ** Witnesses *)

Definition corr_tokens : list (string * frame) :=
  [("BTC", mk_frame [0; 1; 2] [("price", [Fin 1; Fin 2; Fin 4])]);
   ("ETH", mk_frame [1; 2; 3] [("price", [Fin 3; Fin 1; Fin 2])])].

Lemma calculate_correlation_matrix_bounds_witness :
  exists m, calculate_correlation_matrix (fun q => q + 1) corr_tokens (mk_world [] [] [] 0 [] []) =
              (Ret m, mk_world [] [] [] 0 [] []) /\
    c_labels m = fst <$> corr_tokens /\ length (c_rows m) = length corr_tokens /\
    Forall (fun row => length row = length corr_tokens /\
                       Forall (fun c => c = NaN \/ exists q, c = Fin q /\ -1 <= q <= 1) row) (c_rows m) /\
    (forall i j, c_rows m !! i ≫= (.!! j) = c_rows m !! j ≫= (.!! i)).
Proof.
  apply calculate_correlation_matrix_bounds.
  - intros q r Hr Hq. pose proof (Qsquare_mul_nonneg (r - (1 # 2))). nra.
  - repeat constructor.
Defined.


End Correlation.
