(* ===== verification/App.v ===== *)
(** * App: one run of the Streamlit script [src/app.py]

    Streamlit executes the whole script from the top on every interaction:
    [st.set_page_config] and the stylesheet (lines 17-47), the sidebar
    widgets, the data loading (lines 80-107), then the seven tabs in
    order (lines 109-697) and the footer.  A run is modelled as a
    computation in the page monad [R]: the world monad of the prelude plus
    the list of page elements written so far, so that an uncaught
    exception keeps what was rendered before it.  The widgets' values are
    the [inputs] of the run (an index into a selectbox's options, [None]
    for a multiselect left at its default, a flag per button); plotly
    figures are elements carrying their title, after the checks plotly
    makes on the columns they name.  The services are the models of the
    other files: [MarketClient], [TokenResolver], [Normalizer], [LocalStore],
    [Stats], [Forecast], [Analyzer] and [News]. *)

From Stdlib Require Import Qabs Qminmax.
From stdpp Require Import pretty.
From S2P Require Import Prelude Calendar HttpClient Config TokenResolver MarketClient Normalizer Forecast Analyzer News LocalStore Utils Stats.
Import HttpClient Calendar TokenResolver MarketClient Normalizer Forecast Analyzer News LocalStore Utils Stats.

Module App.

(** ** Page elements and the page monad *)

Inductive element : Type :=
  | ETitle (s : string)
  | EHeader (s : string)
  | ESubheader (s : string)
  | EMetric (label value : string) (delta : option string)
  | EStatTable (t : Stats.table)
  | ETable (cols : list (string * list string))
  | EChart (title : string)
  | EText (s : string)
  | EPie (title : string) (rows : list (string * num))
  | EBar (title : string) (rows : list (string * num))
  | ETopic (index : nat) (title summary source : json) (date : string)
  | ERating (label : string) (r : Q)
  | EPrediction (dates : list Q) (prices : list num)
  | EException (prefix : string) (e : exn)
  | EError (s : string)
  | EWarning (s : string)
  | EInfo (s : string)
  | EHtml (s : string)                   (** [st.markdown(s, unsafe_allow_html=True)] *)
  | EColumn (k : nat) (el : element)     (** an element written [with columns[k]:] *)
  | ESidebar (el : element)              (** an element written with [st.sidebar] *)
  | EPageConfig (title icon layout sidebar_state : string).  (** [st.set_page_config] *)

(** Exceptions of a run: Python's, Streamlit's API errors, and the
    [StopException] raised by [st.stop()]. *)
Inductive app_exn : Type :=
  | PyExn (e : exn)
  | StreamlitAPIException (msg : string)
  | StopException.

Inductive result (A : Type) : Type :=
  | Done (a : A)
  | Failed (e : app_exn).
Arguments Done {A} a.
Arguments Failed {A} e.

Definition R (A : Type) : Type := world -> result A * list element * world.

Definition rret {A} (a : A) : R A := fun w => (Done a, [], w).

Definition rbind {A B} (c : R A) (k : A -> R B) : R B :=
  fun w => match c w with
           | (Done a, els, w') => let '(r, els', w'') := k a w' in (r, (els ++ els')%list, w'')
           | (Failed e, els, w') => (Failed e, els, w')
           end.

Notation "x <<- c ;; k" := (rbind c (fun x => k))
  (at level 100, c at next level, right associativity) : py_scope.

Definition rraise {A} (e : app_exn) : R A := fun w => (Failed e, [], w).

(** A service call of the other models: its Python exception propagates. *)
Definition lift {A} (c : M A) : R A :=
  fun w => match c w with
           | (Ret a, w') => (Done a, [], w')
           | (Raise e, w') => (Failed (PyExn e), [], w')
           end.

Definition emit (el : element) : R unit := fun w => (Done tt, [el], w).

(** [try: c except Exception as e: h(e)]: Python exceptions are caught;
    the elements [c] rendered before raising stay on the page. *)
Definition rtry {A} (c : R A) (h : exn -> R A) : R A :=
  fun w => match c w with
           | (Failed (PyExn e), els, w') => let '(r, els', w'') := h e w' in (r, (els ++ els')%list, w'')
           | o => o
           end.

(** A dict lookup [d[k]]. *)
Definition dict_get {V} (d : list (string * V)) (k : string) : R V :=
  match List.find (fun kv => String.eqb (fst kv) k) d with
  | Some kv => rret (snd kv)
  | None => rraise (PyExn (KeyError k))
  end.

(** ** Widgets *)

(** The widget values of a run. *)
Record inputs : Type := mk_inputs {
  in_timeframe : nat;                    (** sidebar "Select Time Period" *)
  in_selected : option (list string);    (** sidebar multiselect; [None]: default *)
  in_viz : nat;                          (** tab 2 "Select Visualization Type" *)
  in_stats_token : nat;                  (** tab 3 token selectbox *)
  in_compare : option (list string);     (** tab 4 multiselect *)
  in_metric : nat;                       (** tab 4 radio *)
  in_pct_timeframe : nat;                (** tab 4 "% Change" period *)
  in_pred_token : nat;                   (** tab 5 *)
  in_model : nat;                        (** tab 5 *)
  in_days : nat;                         (** tab 5 slider *)
  in_predict : bool;                     (** tab 5 button *)
  in_analysis_option : nat;              (** tab 6 radio *)
  in_project : nat;                      (** tab 6 selectbox, first option *)
  in_project_name : string;              (** tab 6 text input, second option *)
  in_url : string;                       (** tab 6 text input *)
  in_analyze : bool;                     (** tab 6 button *)
  in_refresh : bool                      (** tab 7 button *)
}.

(** [st.selectbox(label, options)] / [st.radio]: the chosen option, the
    first by default, [None] when there are no options. *)
Definition selectbox (options : list string) (i : nat) : option string :=
  match nth_error options i with Some o => Some o | None => head options end.

(** [choice == s] for a widget value ([None] equals no string). *)
Definition is_choice (o : option string) (s : string) : bool :=
  match o with Some x => String.eqb x s | None => false end.

(** [st.multiselect(label, options, default)]: every default value must
    be an option; the user picks options only. *)
Definition multiselect (options default : list string) (choice : option (list string)) :
    R (list string) :=
  if forallb (fun d => py_in d options) default then
    rret (match choice with
          | Some c => List.filter (fun t => py_in t options) c
          | None => default
          end)
  else rraise (StreamlitAPIException "Every Multiselect default value must exist in options").

(** [df[name]]. *)
Definition col_of (fr : frame) (name : string) : R column :=
  if has_col name (fr_cols fr) then rret (get_col name (fr_cols fr))
  else rraise (PyExn (KeyError name)).

Definition riloc {A} (i : Z) (xs : list A) : R A := lift (py_iloc i xs).

(** [f"{x:,.0f}"]: rounded to an integer, digits grouped by three. *)
Fixpoint insert_commas (cs : list ascii) (k : nat) : list ascii :=
  match cs with
  | [] => []
  | c :: cs' => if Nat.eqb k 3 then ","%char :: c :: insert_commas cs' 1 else c :: insert_commas cs' (S k)
  end.

Definition group_thousands (s : string) : string :=
  string_of_list_ascii (rev (insert_commas (rev (list_ascii_of_string s)) 0)).

Definition fmt_grouped (x : num) : string :=
  match x with
  | NaN => "nan"
  | PInf => "inf"
  | NInf => "-inf"
  | Fin q => (if qltb q 0 then "-" else "") ++
             group_thousands (pretty (Z.to_N (round_half_even (Qabs q))))
  end.

(** ** The run *)

Section Run.
Context `{ApiClient} `{ForecastModels} `{WhitepaperServices}.
Variable fsqrt : Q -> Q.
Variables skew kurtosis : column -> num.
Variables OPENAI_API_KEY NEWS_API_KEY CRYPTO_PANIC_API_KEY : string.

(** [load_token_data(tokens, period)], lines 86-91. *)
Fixpoint load_token_data (tokens : list string) (period : string) : M (list (string * token_series)) :=
  match tokens with
  | [] => mret []
  | t :: ts => d <- get_token_data t period ;; rest <- load_token_data ts period ;; mret ((t, d) :: rest)
  end.

(** [{token: process_historical_data(data) for token, data in token_data.items()}]. *)
Fixpoint process_tokens (token_data : list (string * token_series)) : M (list (string * frame)) :=
  match token_data with
  | [] => mret []
  | (t, s) :: rest =>
      fr <- process_historical_data fsqrt (ts_date s) (token_dict s) ;;
      frs <- process_tokens rest ;; mret ((t, fr) :: frs)
  end.

(** Lines 94-107: load, process and save; any exception is shown and
    stops the run.  The database is threaded through. *)
Definition load_data (timeframe : string) (selected_tokens : list string) (d : db) :
    R (frame * list (string * frame) * db) :=
  rtry (market_data <<- lift (get_market_data timeframe) ;;
        token_data <<- lift (load_token_data selected_tokens timeframe) ;;
        processed_market_data <<- lift (process_historical_data fsqrt (ms_date market_data)
                                                                (market_dict market_data)) ;;
        processed_token_data <<- lift (process_tokens token_data) ;;
        let '(d', printed) := save_data processed_market_data processed_token_data d in
        _ <<- lift (match printed with Some e => py_print_exn e | None => mret tt end) ;;
        rret (processed_market_data, processed_token_data, d'))
       (fun e => _ <<- emit (EException "Error loading data: " e) ;; rraise StopException).

(** Tab 1, lines 109-144. *)
Definition market_overview (all_tokens : list string) (market : frame) : R unit :=
  _ <<- emit (EHeader "Global Cryptocurrency Market Overview") ;;
  mc <<- col_of market "market_cap" ;;
  current_market_cap <<- riloc (-1) mc ;;
  _ <<- emit (EMetric "Total Market Cap" ("$" ++ fmt_grouped current_market_cap) None) ;;
  mc <<- col_of market "market_cap" ;;
  last <<- riloc (-1) mc ;;
  mc <<- col_of market "market_cap" ;;
  prev <<- riloc (-2) mc ;;
  let market_cap_change := nmul (nsub (ndiv last prev) (Fin 1)) (Fin 100) in
  _ <<- emit (EMetric "24h Change" (fmt_fixed 2 market_cap_change ++ "%")
                      (Some (fmt_fixed 2 market_cap_change ++ "%"))) ;;
  vol <<- col_of market "volume" ;;
  total_volume <<- riloc (-1) vol ;;
  _ <<- emit (EMetric "24h Volume" ("$" ++ fmt_grouped total_volume) None) ;;
  _ <<- emit (EMetric "Active Cryptocurrencies" (pretty (length all_tokens)) None) ;;
  _ <<- emit (ESubheader "Total Market Capitalization Over Time") ;;
  _ <<- col_of market "market_cap" ;;
  emit (EChart "Total Cryptocurrency Market Cap").

(** [data['market_cap'].iloc[-1]] for each token, in dict order. *)
Fixpoint latest_market_caps (tokens : list (string * frame)) : R (list (string * num)) :=
  match tokens with
  | [] => rret []
  | (t, fr) :: rest =>
      mc <<- col_of fr "market_cap" ;; x <<- riloc (-1) mc ;;
      xs <<- latest_market_caps rest ;; rret ((t, x) :: xs)
  end.

(** [sort_values('Market Cap', ascending=False)]: [NaN] last. *)
Definition cap_before (a b : string * num) : Prop := (is_nan (snd b) || nleb (snd b) (snd a)) = true.

#[export] Instance cap_before_dec : RelDecision cap_before.
Proof. intros a b. unfold cap_before. apply _. Defined.

(** The pie of lines 201-230: the selected tokens' market caps, and
    [Others] when the total market cap exceeds their sum. *)
Definition pie_rows (latest : list (string * num)) (market_last : num) : list (string * num) :=
  let total_selected := nsum (valid (snd <$> latest)) in
  let others := nsub market_last total_selected in
  if nltb (Fin 0) others then (latest ++ [("Others", others)])%list else latest.

(** The scatter data of lines 236-243. *)
Fixpoint scatter_points (tokens : list (string * frame)) : R (list (string * num * num * num)) :=
  match tokens with
  | [] => rret []
  | (t, fr) :: rest =>
      p <<- col_of fr "price" ;; p <<- riloc (-1) p ;;
      v <<- col_of fr "volume" ;; v <<- riloc (-1) v ;;
      m <<- col_of fr "market_cap" ;; m <<- riloc (-1) m ;;
      xs <<- scatter_points rest ;; rret ((t, p, v, m) :: xs)
  end.

Definition VIZ_TYPES : list string := ["Line Chart"; "Bar Chart"; "Pie Chart"; "Scatter Plot/Heatmap"].

(** Tab 2, lines 146-261. *)
Definition data_visualization (viz : nat) (market : frame) (tokens : list (string * frame)) : R unit :=
  _ <<- emit (EHeader "Cryptocurrency Data Visualization") ;;
  let viz_type := selectbox VIZ_TYPES viz in
  if is_choice viz_type "Line Chart" then
    _ <<- emit (ESubheader "Market Cap Trends") ;;
    _ <<- col_of market "market_cap" ;;
    _ <<- latest_market_caps tokens ;;
    emit (EChart "Market Cap Comparison")
  else if is_choice viz_type "Bar Chart" then
    _ <<- emit (ESubheader "Market Cap Comparison") ;;
    latest <<- latest_market_caps tokens ;;
    emit (EBar "Current Market Cap by Token" (merge_sort cap_before latest))
  else if is_choice viz_type "Pie Chart" then
    _ <<- emit (ESubheader "Market Share Distribution") ;;
    latest <<- latest_market_caps tokens ;;
    mc <<- col_of market "market_cap" ;;
    market_last <<- riloc (-1) mc ;;
    emit (EPie "Market Share Distribution" (pie_rows latest market_last))
  else
    _ <<- emit (ESubheader "Price vs. Volume Analysis") ;;
    _ <<- scatter_points tokens ;;
    emit (EChart "Price vs. Volume (bubble size = Market Cap)").

(** Tab 3, lines 263-301. *)
Definition statistical_analysis (choice : nat) (selected_tokens : list string) (market : frame)
    (tokens : list (string * frame)) : R unit :=
  _ <<- emit (EHeader "Statistical Analysis") ;;
  let token_for_stats := selectbox ("Total Market" :: selected_tokens) choice in
  data_for_stats <<- (if is_choice token_for_stats "Total Market" then rret market
                      else dict_get tokens (default "None" token_for_stats)) ;;
  stats <<- lift (calculate_stats fsqrt skew kurtosis data_for_stats) ;;
  _ <<- emit (ESubheader "Price Statistics") ;;
  t <<- dict_get stats "price_stats" ;;
  _ <<- emit (EStatTable t) ;;
  _ <<- emit (ESubheader "Market Cap Statistics") ;;
  t <<- dict_get stats "market_cap_stats" ;;
  _ <<- emit (EStatTable t) ;;
  _ <<- emit (ESubheader "Volatility Analysis") ;;
  if has_col "volatility" (fr_cols data_for_stats) then
    emit (EChart ("Price Volatility for " ++ default "None" token_for_stats))
  else rraise (PyExn (ValueError "Value of 'y' is not the name of a column in 'data_frame'")).

(** A value of the [pct_change_data] dict: the float just computed or a
    string formatted by an earlier iteration. *)
Inductive pyval : Type :=
  | PyFloat (x : num)
  | PyStr (s : string).

(** [f"{pct:.2f}%"]: the format code [f] rejects a string. *)
Definition fmt_pct (v : pyval) : R string :=
  match v with
  | PyFloat x => rret (fmt_fixed 2 x ++ "%")
  | PyStr _ => rraise (PyExn (ValueError "Unknown format code 'f' for object of type 'str'"))
  end.

Fixpoint fmt_pcts (vs : list pyval) : R (list string) :=
  match vs with
  | [] => rret []
  | v :: rest => s <<- fmt_pct v ;; ss <<- fmt_pcts rest ;; rret (s :: ss)
  end.

(** [pct_change_data]: the [Token] list and the value list under
    [f'% Change ({selected_timeframe})'], absent until first set. *)
Record pct_table : Type := mk_pct_table {
  pt_tokens : list string;
  pt_values : option (list string)
}.

(** One iteration of the loops of lines 378-393. *)
Definition pct_add (tbl : pct_table) (col : string) (pct_change : num) : R pct_table :=
  vals <<- fmt_pcts ((PyStr <$> default [] (pt_values tbl)) ++ [PyFloat pct_change])%list ;;
  rret (mk_pct_table (pt_tokens tbl ++ [col])%list (Some vals)).

Definition pct_change_of (start_value end_value : num) : num :=
  nmul (nsub (ndiv end_value start_value) (Fin 1)) (Fin 100).

(** The loops of lines 376-393 over the comparison columns: with a
    start date, the rows from that date on; without one, all rows. *)
Fixpoint pct_loop (start_date : option Q) (dates : list Q) (cols : list (string * column))
    (tbl : pct_table) : R pct_table :=
  match cols with
  | [] => rret tbl
  | (col, xs) :: rest =>
      tbl' <<- (match start_date with
                | Some sd =>
                    let kept := List.filter (fun dx => negb (qltb (fst dx) sd)) (zip dates xs) in
                    if Nat.eqb (length kept) 0 then rret tbl
                    else start_value <<- riloc 0 (snd <$> kept) ;;
                         end_value <<- riloc (-1) (snd <$> kept) ;;
                         pct_add tbl col (pct_change_of start_value end_value)
                | None =>
                    start_value <<- riloc 0 xs ;;
                    end_value <<- riloc (-1) xs ;;
                    pct_add tbl col (pct_change_of start_value end_value)
                end) ;;
      pct_loop start_date dates rest tbl'
  end.

Definition METRICS : list string := ["Market Cap"; "Price"; "Volume"; "Volatility"].

Definition metric_map : list (string * string) :=
  [("Market Cap", "market_cap"); ("Price", "price"); ("Volume", "volume"); ("Volatility", "volatility")].

Definition PCT_TIMEFRAMES : list string :=
  ["7 Days"; "30 Days"; "90 Days"; "Year to Date"; "1 Year"; "All Time"].

(** [df_comparison[token] = series]: aligned on the row labels of the
    market frame. *)
Definition align (n : nat) (xs : column) : column := (fun i => nth i xs NaN) <$> seq 0 n.

(** Lines 359-371 at the instant [today] (seconds). *)
Definition days_ago (selected_timeframe : option string) (today : Z) : option Z :=
  if is_choice selected_timeframe "7 Days" then Some 7%Z
  else if is_choice selected_timeframe "30 Days" then Some 30%Z
  else if is_choice selected_timeframe "90 Days" then Some 90%Z
  else if is_choice selected_timeframe "Year to Date" then
    let '(y, _, _) := civil_from_days (today / 86400) in
    Some ((today - days_from_civil y 1 1 * 86400) / 86400)%Z
  else if is_choice selected_timeframe "1 Year" then Some 365%Z
  else None.

(** [df_comparison[token] = processed_token_data[token][column]] for each
    token to compare. *)
Fixpoint compare_cols (tokens : list (string * frame)) (names : list string) (colname : string) (n : nat) :
    R (list (string * list num)) :=
  match names with
  | [] => rret []
  | t :: rest =>
      fr <<- dict_get tokens t ;; xs <<- col_of fr colname ;;
      cols <<- compare_cols tokens rest colname n ;; rret ((t, align n xs) :: cols)
  end.

(** Tab 4, lines 303-397. *)
Definition comparison (inp : inputs) (selected_tokens : list string) (market : frame)
    (tokens : list (string * frame)) : R unit :=
  _ <<- emit (EHeader "Cryptocurrency Comparison") ;;
  tokens_to_compare <<- multiselect selected_tokens
                          (firstn (Nat.min 3 (length selected_tokens)) selected_tokens) (in_compare inp) ;;
  match tokens_to_compare with
  | [] => emit (EWarning "Please select at least one token to compare.")
  | _ :: _ =>
      let selected_metric := selectbox METRICS (in_metric inp) in
      colname <<- dict_get metric_map (default "None" selected_metric) ;;
      let n := length (fr_date market) in
      total <<- (if is_choice selected_metric "Market Cap"
                 then mc <<- col_of market "market_cap" ;; rret [("Total Market", mc)]
                 else rret []) ;;
      toks <<- compare_cols tokens tokens_to_compare colname n ;;
      _ <<- emit (EChart (default "None" selected_metric ++ " Comparison")) ;;
      _ <<- emit (ESubheader "Percentage Change Analysis") ;;
      let selected_timeframe := selectbox PCT_TIMEFRAMES (in_pct_timeframe inp) in
      today <<- lift py_now ;;
      let start_date := option_map (fun d => inject_Z (today - d * 86400)) (days_ago selected_timeframe today) in
      tbl <<- pct_loop start_date (fr_date market) (total ++ toks)%list (mk_pct_table [] None) ;;
      emit (ETable (("Token", pt_tokens tbl) ::
                    match pt_values tbl with
                    | Some v => [("% Change (" ++ default "None" selected_timeframe ++ ")", v)]
                    | None => []
                    end))
  end.

Definition MODELS : list string := ["ARIMA"; "LSTM"; "Prophet"].

(** [st.slider(min_value=7, max_value=90, value=30, step=7)]. *)
Definition slider_days (v : nat) : nat := if (Nat.leb 7 v && Nat.leb v 90)%bool then v else 30.

(** Tab 5, lines 399-539. *)
Definition price_prediction (inp : inputs) (selected_tokens : list string) (tokens : list (string * frame)) :
    R unit :=
  _ <<- emit (EHeader "Cryptocurrency Price Prediction") ;;
  let token_for_prediction := default "None" (selectbox selected_tokens (in_pred_token inp)) in
  let model_type := default "None" (selectbox MODELS (in_model inp)) in
  let prediction_days := slider_days (in_days inp) in
  if in_predict inp then
    rtry (historical_data <<- dict_get tokens token_for_prediction ;;
          prediction_result <<- lift (predict_prices fsqrt historical_data model_type prediction_days) ;;
          _ <<- col_of historical_data "price" ;;
          _ <<- emit (EChart (token_for_prediction ++ " Price Prediction (" ++ pretty prediction_days ++ " Days)")) ;;
          _ <<- emit (ESubheader "Prediction Metrics") ;;
          prices <<- col_of historical_data "price" ;;
          current_price <<- riloc (-1) prices ;;
          predicted_price <<- riloc (-1) (fc_predicted_price prediction_result) ;;
          let price_change := pct_change_of current_price predicted_price in
          _ <<- emit (EMetric "Current Price" ("$" ++ fmt_fixed 2 current_price) None) ;;
          _ <<- emit (EMetric ("Predicted Price (" ++ pretty prediction_days ++ " days)")
                              ("$" ++ fmt_fixed 2 predicted_price) (Some (fmt_fixed 2 price_change ++ "%"))) ;;
          _ <<- emit (match fc_accuracy prediction_result with
                      | Some a => EMetric "Model Accuracy" (fmt_fixed 2 a ++ "%") None
                      | None => EMetric "Model" model_type None
                      end) ;;
          _ <<- emit (ESubheader "Prediction Details") ;;
          emit (EPrediction (fc_date prediction_result) (fc_predicted_price prediction_result)))
         (fun e => emit (EException "Prediction error: " e))
  else rret tt.

Definition ANALYSIS_OPTIONS : list string := ["Select from existing projects"; "Analyze a whitepaper URL"].

(** Tab 6, lines 541-613. *)
Definition project_analysis (inp : inputs) (selected_tokens : list string) : R unit :=
  _ <<- emit (EHeader "Cryptocurrency Project Analysis") ;;
  let analysis_option := selectbox ANALYSIS_OPTIONS (in_analysis_option inp) in
  let project := if is_choice analysis_option "Select from existing projects"
                 then default "None" (selectbox selected_tokens (in_project inp))
                 else in_project_name inp in
  let url := in_url inp in
  if in_analyze inp then
    if (is_choice analysis_option "Analyze a whitepaper URL" && String.eqb url "")%bool then
      emit (EWarning "Please enter a whitepaper URL for analysis.")
    else
      rtry (a <<- lift (analyze_whitepaper OPENAI_API_KEY project (Some url)) ;;
            _ <<- emit (ESubheader ("Analysis Results for " ++ project)) ;;
            _ <<- emit (EText "### Security Analysis") ;; _ <<- emit (EText (an_security a)) ;;
            _ <<- emit (EText "### Growth Potential") ;; _ <<- emit (EText (an_growth a)) ;;
            _ <<- emit (EText "### Investment Risk") ;; _ <<- emit (EText (an_risk a)) ;;
            _ <<- emit (EText "### Technology Uniqueness") ;; _ <<- emit (EText (an_technology a)) ;;
            _ <<- emit (EText "### Overall Summary") ;; _ <<- emit (EText (an_summary a)) ;;
            _ <<- emit (ESubheader "AI Ratings (0-10)") ;;
            _ <<- emit (ERating "Security Rating" (an_security_rating a)) ;;
            _ <<- emit (ERating "Growth Rating" (an_growth_rating a)) ;;
            _ <<- emit (ERating "Risk Rating" (an_risk_rating a)) ;;
            emit (ERating "Innovation Rating" (an_tech_rating a)))
           (fun e => emit (EException "Analysis error: " e))
  else rret tt.

(** [for i, topic in enumerate(trending_data['topics'])], lines 629-633. *)
Fixpoint show_topics (i : nat) (topics : list topic) : R unit :=
  match topics with
  | [] => rret tt
  | tp :: rest =>
      _ <<- emit (ETopic (S i) (tp_title tp) (tp_summary tp) (tp_source tp) (tp_date tp)) ;;
      show_topics (S i) rest
  end.

(** Tab 7, lines 615-697. *)
Definition trending_topics (refresh : bool) : R unit :=
  _ <<- emit (EHeader "Cryptocurrency Trending Topics") ;;
  if refresh then
    rtry (trending_data <<- lift (News.get_trending_topics NEWS_API_KEY CRYPTO_PANIC_API_KEY) ;;
          _ <<- emit (ESubheader "Current Trending Topics in Cryptocurrency") ;;
          _ <<- show_topics 0 (td_topics trending_data) ;;
          _ <<- emit (ESubheader "Trending Cryptocurrencies") ;;
          _ <<- (match td_trending_tokens trending_data with
                 | [] => rraise (PyExn (ValueError "Value of 'x' is not the name of a column in 'data_frame'"))
                 | _ => emit (EChart "Top Mentioned Cryptocurrencies by Sentiment")
                 end) ;;
          _ <<- emit (ESubheader "Sentiment Analysis for Top Cryptos") ;;
          emit (EChart "Sentiment Dimensions for Top 5 Trending Cryptocurrencies"))
         (fun e => emit (EException "Error fetching trending topics: " e))
  else emit (EInfo ("Click 'Refresh Trending Topics' to load the latest cryptocurrency trends " ++
                    "from news and social media.")).

(** Lines 699-701. *)
Definition footer : R unit :=
  _ <<- emit (EText "---") ;;
  now <<- lift py_now ;;
  _ <<- emit (EText ("Data refreshed on: " ++ strftime now)) ;;
  emit (EText "Data sources: CoinGecko, CoinMarketCap, Binance, News APIs, and Social Media").

(** The stylesheet of lines 25-47. *)
Definition APP_CSS : string :=
  Config.py_lines [
        "";
        "<style>";
        "    .main {";
        "        background-color: #f5f5f5;";
        "    }";
        ("    .stTabs [data-baseweb=" ++ Config.dq ++ "tab-list" ++ Config.dq ++ "] {");
        "        gap: 24px;";
        "    }";
        ("    .stTabs [data-baseweb=" ++ Config.dq ++ "tab" ++ Config.dq ++ "] {");
        "        height: 50px;";
        "        white-space: pre-wrap;";
        "        background-color: #f0f2f6;";
        "        border-radius: 4px 4px 0px 0px;";
        "        gap: 1px;";
        "        padding-top: 10px;";
        "        padding-bottom: 10px;";
        "    }";
        ("    .stTabs [aria-selected=" ++ Config.dq ++ "true" ++ Config.dq ++ "] {");
        "        background-color: #4f8bf9;";
        "        color: white;";
        "    }";
        "</style>";
        "" ].

(** The whole script, lines 50-701: the database after the run. *)
Definition app_run (inp : inputs) (d : db) : R db :=
  _ <<- emit (EPageConfig "Crypto Market Cap Analysis & Prediction" "📊" "wide" "expanded") ;;
  _ <<- emit (EHtml APP_CSS) ;;
  _ <<- emit (ETitle "Crypto Analysis Settings") ;;
  _ <<- emit (ESubheader "Time Period") ;;
  let timeframe := default "All Time" (selectbox Config.TIMEFRAMES (in_timeframe inp)) in
  _ <<- emit (ESubheader "Cryptocurrency Selection") ;;
  all_tokens <<- lift get_token_list ;;
  selected_tokens <<- multiselect all_tokens Config.TOP_TOKENS (in_selected inp) ;;
  _ <<- emit (ETitle "Cryptocurrency Market Cap Analysis & Prediction") ;;
  loaded <<- load_data timeframe selected_tokens d ;;
  let '(market, tokens, d') := loaded in
  _ <<- market_overview all_tokens market ;;
  _ <<- data_visualization (in_viz inp) market tokens ;;
  _ <<- statistical_analysis (in_stats_token inp) selected_tokens market tokens ;;
  _ <<- comparison inp selected_tokens market tokens ;;
  _ <<- price_prediction inp selected_tokens tokens ;;
  _ <<- project_analysis inp selected_tokens ;;
  _ <<- trending_topics (in_refresh inp) ;;
  _ <<- footer ;;
  rret d'.

End Run.

(** ** What a computation renders and returns *)

Section Page.
Variable P : element -> Prop.

(** Every element [c] renders satisfies [P]. *)
Definition emits_only {A} (c : R A) : Prop := forall w, Forall P (snd (fst (c w))).

(** [c] fails, rendering only elements satisfying [P]. *)
Definition fails_only {A} (c : R A) : Prop :=
  forall w, (exists e, fst (fst (c w)) = Failed e) /\ Forall P (snd (fst (c w))).

(** Every value [c] returns satisfies [Q]. *)
Definition post {A} (Q : A -> Prop) (c : R A) : Prop :=
  forall w a els w', c w = (Done a, els, w') -> Q a.

Lemma emits_rret {A} (a : A) : emits_only (rret a).
Proof. intros w. constructor. Qed.

Lemma emits_rraise {A} (e : app_exn) : emits_only (@rraise A e).
Proof. intros w. constructor. Qed.

Lemma emits_lift {A} (c : M A) : emits_only (lift c).
Proof. intros w. unfold lift. by destruct (c w) as [[a|e] w']. Qed.

Lemma emits_emit (el : element) : P el -> emits_only (emit el).
Proof. intros H w. by constructor. Qed.

Lemma emits_rbind {A B} (c : R A) (k : A -> R B) :
  emits_only c -> (forall a, emits_only (k a)) -> emits_only (rbind c k).
Proof.
  intros Hc Hk w. unfold rbind. specialize (Hc w). destruct (c w) as [[[a|e] els] w']; cbn in *; [|done].
  specialize (Hk a w'). destruct (k a w') as [[r els'] w'']. cbn in *. by apply Forall_app.
Qed.

Lemma emits_rtry {A} (c : R A) (h : exn -> R A) :
  emits_only c -> (forall e, emits_only (h e)) -> emits_only (rtry c h).
Proof.
  intros Hc Hh w. unfold rtry. specialize (Hc w). destruct (c w) as [[r els] w'].
  destruct r as [a|[e|m|]]; cbn in *; try done.
  specialize (Hh e w'). destruct (h e w') as [[r els'] w'']. cbn in *. by apply Forall_app.
Qed.

Lemma emits_dict_get {V} (d : list (string * V)) (k : string) : emits_only (dict_get d k).
Proof. unfold dict_get. destruct (List.find _ d); [apply emits_rret | apply emits_rraise]. Qed.

Lemma emits_col_of (fr : frame) (name : string) : emits_only (col_of fr name).
Proof. unfold col_of. destruct (has_col _ _); [apply emits_rret | apply emits_rraise]. Qed.

Lemma emits_multiselect (options default : list string) (choice : option (list string)) :
  emits_only (multiselect options default choice).
Proof. unfold multiselect. destruct (forallb _ _); [apply emits_rret | apply emits_rraise]. Qed.

Lemma fails_rbind {A B} (Q : A -> Prop) (c : R A) (k : A -> R B) :
  emits_only c -> post Q c -> (forall a, Q a -> fails_only (k a)) -> fails_only (rbind c k).
Proof.
  intros Hc Hq Hk w. unfold rbind. specialize (Hc w). specialize (Hq w).
  destruct (c w) as [[[a|e] els] w'] eqn:E; cbn in *; [|by split; [eexists|]].
  destruct (Hk a (Hq a els w' eq_refl) w') as [Hf He].
  destruct (k a w') as [[r els'] w'']. cbn in *. split; [done | by apply Forall_app].
Qed.

Lemma post_true {A} (c : R A) : post (fun _ => True) c.
Proof. done. Qed.

Lemma post_rret {A} (Q : A -> Prop) (a : A) : Q a -> post Q (rret a).
Proof. intros H w a' els w' [= <- _ _]. exact H. Qed.

Lemma post_rraise {A} (Q : A -> Prop) (e : app_exn) : post Q (rraise e).
Proof. intros w a els w' [=]. Qed.

Lemma post_lift {A} (Q : A -> Prop) (c : M A) :
  (forall w a w', c w = (Ret a, w') -> Q a) -> post Q (lift c).
Proof.
  intros H w a els w'. unfold lift. destruct (c w) as [[a'|e] w''] eqn:E; intros [=]; subst. by eapply H.
Qed.

Lemma post_rbind {A B} (Q1 : A -> Prop) (Q : B -> Prop) (c : R A) (k : A -> R B) :
  post Q1 c -> (forall a, Q1 a -> post Q (k a)) -> post Q (rbind c k).
Proof.
  intros Hc Hk w b els w'. unfold rbind. destruct (c w) as [[[a|e] els1] w1] eqn:E; [|intros [=]].
  destruct (k a w1) as [[r els2] w2] eqn:E2. intros [= -> _ ->]. eapply Hk; [by eapply Hc | exact E2].
Qed.

Lemma post_rtry {A} (Q : A -> Prop) (c : R A) (h : exn -> R A) :
  post Q c -> (forall e, post Q (h e)) -> post Q (rtry c h).
Proof.
  intros Hc Hh w a els w'. unfold rtry. destruct (c w) as [[r els1] w1] eqn:E.
  destruct r as [a'|[e|m|]].
  - intros [= -> -> ->]. by eapply Hc.
  - destruct (h e w1) as [[r els2] w2] eqn:E2. intros [= -> _ ->]. by eapply Hh.
  - intros [=].
  - intros [=].
Qed.

End Page.

(** ** The market frame has no [price] column *)

Lemma page_has_col_fmap (x : string) (f : string * column -> column) (cols : list (string * column)) :
  has_col x ((fun c => (fst c, f c)) <$> cols) = has_col x cols.
Proof. unfold has_col. induction cols as [|c cols IH]; cbn; [done|]. by rewrite IH. Qed.

Lemma has_col_add_ma (x : string) (cols : list (string * column)) (col : string) :
  has_col x (add_moving_averages cols col) =
  (has_col x cols || (has_col col cols && (String.eqb (col ++ "_7d_ma") x || String.eqb (col ++ "_30d_ma") x)))%bool.
Proof.
  unfold add_moving_averages. destruct (has_col col cols); cbn [andb].
  - by rewrite !has_col_set_col, orb_assoc.
  - by rewrite orb_false_r.
Qed.

(** The normalizer adds no [price] column and removes none. *)
Lemma has_col_normalize_price (fsqrt : Q -> Q) (fr : frame) :
  has_col "price" (fr_cols (normalize fsqrt fr)) = has_col "price" (fr_cols fr).
Proof.
  unfold normalize. cbv zeta. cbn [fr_cols]. rewrite page_has_col_fmap.
  cbn [fold_left]. rewrite !has_col_add_ma.
  replace (String.eqb ("price" ++ "_7d_ma") "price") with false by reflexivity.
  replace (String.eqb ("price" ++ "_30d_ma") "price") with false by reflexivity.
  replace (String.eqb ("market_cap" ++ "_7d_ma") "price") with false by reflexivity.
  replace (String.eqb ("market_cap" ++ "_30d_ma") "price") with false by reflexivity.
  replace (String.eqb ("volume" ++ "_7d_ma") "price") with false by reflexivity.
  replace (String.eqb ("volume" ++ "_30d_ma") "price") with false by reflexivity.
  rewrite !andb_false_r, !orb_false_r.
  assert (Hs : has_col "price" (fr_cols (sort_by_date fr)) = has_col "price" (fr_cols fr))
    by (unfold sort_by_date; cbn [fr_cols]; apply page_has_col_fmap).
  destruct (has_col "volume" _ && has_col "market_cap" _)%bool;
    [rewrite has_col_set_col; replace (String.eqb "volume_to_mcap" "price") with false by reflexivity;
     rewrite orb_false_r|];
  (destruct (has_col "market_cap" _);
    [rewrite has_col_set_col; replace (String.eqb "market_cap_change" "price") with false by reflexivity;
     rewrite orb_false_r|]);
  (destruct (has_col "price" (fr_cols (sort_by_date fr))) eqn:Ep;
    [rewrite !has_col_set_col, Ep; cbn; by rewrite <- Hs | by rewrite <- Hs]).
Qed.

Lemma page_has_col_names (x : string) (cols : list (string * column)) :
  has_col x cols = existsb (fun n => String.eqb n x) (fst <$> cols).
Proof. unfold has_col. induction cols as [|c cols IH]; cbn; [done|]. by rewrite IH. Qed.

(** [pd.DataFrame(d)] keeps the dict's column names. *)
Lemma page_pd_dataframe_names (ds : list Q) (cols : list (string * list json)) (w w' : world) (fr : frame) :
  pd_dataframe ds cols w = (Ret fr, w') -> fst <$> fr_cols fr = fst <$> cols.
Proof.
  unfold pd_dataframe. destruct (forallb _ _); [|intros [=]].
  destruct (mapM _ cols) as [cs|] eqn:E; [|intros [=]]. intros [= <- _]. cbn.
  apply mapM_Some_1 in E. induction E as [|x y xs ys Hxy _ IH]; cbn; [done|].
  rewrite IH. f_equal. destruct (mapM json_to_num (snd x)); cbn in Hxy; [|discriminate].
  by injection Hxy as <-.
Qed.

(** The processed market frame of app.py line 98 has no [price]. *)
Lemma market_frame_no_price (fsqrt : Q -> Q) (m : market_series) (w w' : world) (fr : frame) :
  process_historical_data fsqrt (ms_date m) (market_dict m) w = (Ret fr, w') ->
  has_col "price" (fr_cols fr) = false.
Proof.
  unfold process_historical_data, mbind. destruct (pd_dataframe _ _ w) as [[fr0|e] w1] eqn:E; [|intros [=]].
  intros [= <- _]. rewrite has_col_normalize_price, page_has_col_names, (page_pd_dataframe_names _ _ _ _ _ E).
  reflexivity.
Qed.

Lemma stats_entry_keys (cols : list (string * column)) (name key : string) (tbl : column -> M table)
    (w w' : world) (e : list (string * table)) :
  stats_entry cols name key tbl w = (Ret e, w') ->
  Forall (fun kv => fst kv = key) e /\ (has_col name cols = false -> e = []).
Proof.
  unfold stats_entry. destruct (has_col name cols); [|intros [= <- _]; split; [constructor | done]].
  unfold mbind. destruct (tbl _ w) as [[t|ex] w1]; [|intros [=]]. intros [= <- _].
  split; [by repeat constructor | discriminate].
Qed.

Lemma find_key_none {V} (k : string) (l : list (string * V)) :
  Forall (fun kv => String.eqb (fst kv) k = false) l -> List.find (fun kv => String.eqb (fst kv) k) l = None.
Proof. induction 1 as [|kv l Hkv _ IH]; cbn; [done|]. by rewrite Hkv. Qed.

(** Without a [price] column, [calculate_stats] has no [price_stats]. *)
Lemma calculate_stats_no_price_stats (fsqrt : Q -> Q) (skew kurtosis : column -> num) (fr : frame)
    (w w' : world) (st : list (string * Stats.table)) :
  has_col "price" (fr_cols fr) = false -> calculate_stats fsqrt skew kurtosis fr w = (Ret st, w') ->
  List.find (fun kv => String.eqb (fst kv) "price_stats") st = None.
Proof.
  intros Hp. unfold calculate_stats, mbind. cbv zeta.
  destruct (stats_entry _ "price" _ _ w) as [[p|e] w1] eqn:E1; [|intros [=]].
  destruct (stats_entry _ "market_cap" _ _ w1) as [[m|e] w2] eqn:E2; [|intros [=]].
  destruct (stats_entry _ "volume" _ _ w2) as [[v|e] w3] eqn:E3; [|intros [=]].
  destruct (stats_entry _ "volatility" _ _ w3) as [[t|e] w4] eqn:E4; [|intros [=]].
  intros [= <- _]. apply find_key_none.
  apply stats_entry_keys in E1 as [_ E1]. rewrite (E1 Hp).
  apply stats_entry_keys in E2 as [E2 _]. apply stats_entry_keys in E3 as [E3 _].
  apply stats_entry_keys in E4 as [E4 _].
  cbn [app]. repeat apply Forall_app_2;
    (eapply Forall_impl; [eassumption|]); intros kv ->; reflexivity.
Qed.

Lemma fails_rbind_first {A B} (P : element -> Prop) (c : R A) (k : A -> R B) :
  fails_only P c -> fails_only P (rbind c k).
Proof.
  intros Hc w. unfold rbind. destruct (Hc w) as [[e He] Hels].
  destruct (c w) as [[r els] w']. cbn in He, Hels. subst r. cbn. split; [by eexists | done].
Qed.

Lemma fails_rraise {A} (P : element -> Prop) (e : app_exn) : fails_only P (@rraise A e).
Proof. intros w. split; [by eexists | constructor]. Qed.

(** The elements of the tabs after the statistics one. *)
Definition not_comparison (el : element) : Prop := el <> EHeader "Cryptocurrency Comparison".

Ltac emits_step :=
  match goal with
  | H : emits_only _ ?c |- emits_only _ ?c => exact H
  | |- emits_only _ (rbind _ _) => apply emits_rbind; [|intros ?; cbv beta]
  | |- emits_only _ (rtry _ _) => apply emits_rtry; [|intros ?; cbv beta]
  | |- emits_only _ (emit _) => apply emits_emit; unfold not_comparison; discriminate
  | |- emits_only _ (rret _) => apply emits_rret
  | |- emits_only _ (rraise _) => apply emits_rraise
  | |- emits_only _ (lift _) => apply emits_lift
  | |- emits_only _ (riloc _ _) => apply emits_lift
  | |- emits_only _ (dict_get _ _) => apply emits_dict_get
  | |- emits_only _ (col_of _ _) => apply emits_col_of
  | |- emits_only _ (multiselect _ _ _) => apply emits_multiselect
  | |- emits_only _ (if ?b then _ else _) => destruct b
  | |- emits_only _ (match ?x with _ => _ end) => destruct x
  end.

Ltac emits_tac := repeat first [emits_step | progress cbv zeta].

Section Props.
Context `{ApiClient} `{ForecastModels} `{WhitepaperServices}.
Variable fsqrt : Q -> Q.
Variables skew kurtosis : column -> num.
Variables OPENAI_API_KEY NEWS_API_KEY CRYPTO_PANIC_API_KEY : string.

Lemma emits_latest_market_caps (tokens : list (string * frame)) :
  emits_only not_comparison (latest_market_caps tokens).
Proof. induction tokens as [|[t fr] rest IH]; cbn [latest_market_caps]; emits_tac. Qed.

Lemma emits_scatter_points (tokens : list (string * frame)) :
  emits_only not_comparison (scatter_points tokens).
Proof. induction tokens as [|[t fr] rest IH]; cbn [scatter_points]; emits_tac. Qed.

Lemma emits_before_stats (all_tokens : list string) (viz : nat) (market : frame)
    (tokens : list (string * frame)) :
  emits_only not_comparison (market_overview all_tokens market) /\
  emits_only not_comparison (data_visualization viz market tokens).
Proof.
  pose proof (emits_latest_market_caps tokens). pose proof (emits_scatter_points tokens).
  split; [unfold market_overview | unfold data_visualization]; emits_tac.
Qed.

Lemma emits_load_data (timeframe : string) (selected_tokens : list string) (d : db) :
  emits_only not_comparison (load_data fsqrt timeframe selected_tokens d).
Proof. unfold load_data. emits_tac. Qed.

(** A successful load returns a market frame without [price]. *)
Lemma load_data_post (timeframe : string) (selected_tokens : list string) (d : db) :
  post (fun x => has_col "price" (fr_cols (fst (fst x))) = false)
       (load_data fsqrt timeframe selected_tokens d).
Proof.
  unfold load_data. apply post_rtry; [|intros e; eapply post_rbind; [apply post_true | intros; apply post_rraise]].
  eapply post_rbind; [apply post_true | intros m _].
  eapply post_rbind; [apply post_true | intros toks _].
  eapply (post_rbind (fun fr => has_col "price" (fr_cols fr) = false));
    [apply post_lift; intros w fr w'; apply market_frame_no_price | intros fr Hfr].
  eapply post_rbind; [apply post_true | intros frs _].
  destruct (save_data fr frs d) as [d' printed].
  eapply post_rbind; [apply post_true | intros _ _]. by apply post_rret.
Qed.

(** The statistics tab on [Total Market] fails whenever the market
    frame has no [price]. *)
Lemma statistical_analysis_total_market_fails (selected_tokens : list string) (market : frame)
    (tokens : list (string * frame)) :
  has_col "price" (fr_cols market) = false ->
  fails_only not_comparison (statistical_analysis fsqrt skew kurtosis 0 selected_tokens market tokens).
Proof.
  intros Hp. unfold statistical_analysis. cbv zeta.
  replace (selectbox ("Total Market" :: selected_tokens) 0) with (Some "Total Market") by reflexivity.
  replace (is_choice (Some "Total Market") "Total Market") with true by reflexivity.
  apply (fails_rbind _ (fun _ => True)); [emits_tac | apply post_true | intros _ _; cbv beta].
  apply (fails_rbind _ (fun fr => fr = market)); [emits_tac | by apply post_rret | intros fr ->; cbv beta].
  apply (fails_rbind _ (fun st => List.find (fun kv => String.eqb (fst kv) "price_stats") st = None));
    [emits_tac | apply post_lift; intros w st w'; by apply calculate_stats_no_price_stats | intros st Hst; cbv beta].
  apply (fails_rbind _ (fun _ => True)); [emits_tac | apply post_true | intros _ _; cbv beta].
  apply fails_rbind_first. unfold dict_get. rewrite Hst. apply fails_rraise.
Qed.

Lemma rbind_done {A B} (c : R A) (k : A -> R B) (w w' : world) (a : A) (els : list element) :
  c w = (Done a, els, w') ->
  rbind c k w = let '(r, els', w'') := k a w' in (r, (els ++ els')%list, w'').
Proof. intros E. unfold rbind. by rewrite E. Qed.

Lemma lift_ret {A} (m : M A) (w w' : world) (a : A) : m w = (Ret a, w') -> lift m w = (Done a, [], w').
Proof. intros E. unfold lift. by rewrite E. Qed.

(** One column of the [All Time] loop: first and last value. *)
Lemma pct_step_all_time (tbl : pct_table) (col : string) (xs : column) (w : world) :
  xs <> [] ->
  (start_value <<- riloc 0 xs ;; end_value <<- riloc (-1) xs ;;
   pct_add tbl col (pct_change_of start_value end_value)) w =
  pct_add tbl col (pct_change_of (nth 0 xs NaN) (nth (length xs - 1) xs NaN)) w.
Proof.
  intros Hne. destruct xs as [|x xs']; [done|].
  rewrite (rbind_done _ _ w w x []) by reflexivity. unfold riloc.
  rewrite (rbind_done _ _ w w (nth (length (x :: xs') - 1) (x :: xs') NaN) [])
    by (apply lift_ret, py_iloc_last; discriminate).
  cbn [app nth]. destruct (pct_add _ _ _ w) as [[r els] w']. reflexivity.
Qed.

(** The [k]-th formatted value: the first is a float, the later ones
    are the strings formatted before. *)
Lemma pct_add_first (col : string) (x : num) (w : world) :
  pct_add (mk_pct_table [] None) col x w =
  (Done (mk_pct_table [col] (Some [fmt_fixed 2 x ++ "%"])), [], w).
Proof. reflexivity. Qed.

End Props.

Ltac skip_stage := apply (fails_rbind _ (fun _ => True)); [emits_tac | apply post_true | intros ? _; cbv beta].

(** ** Properties *)

(** C1: With the statistics selectbox at its default, [Total Market], no
    run of the script reaches the Comparison tab: the run ends with an
    uncaught exception (at the latest the [KeyError] of
    [stats['price_stats']], line 284, the market frame having no price
    column), and nothing of tabs 4 to 7 is rendered. *)
Theorem app_run_stops_at_statistics `{ApiClient} `{ForecastModels} `{WhitepaperServices}
    (fsqrt : Q -> Q) (skew kurtosis : column -> num) (OPENAI_API_KEY NEWS_API_KEY CRYPTO_PANIC_API_KEY : string)
    (inp : inputs) (d : db) (w : world) :
  in_stats_token inp = 0%nat ->
  (exists e, fst (fst (app_run fsqrt skew kurtosis OPENAI_API_KEY NEWS_API_KEY CRYPTO_PANIC_API_KEY inp d w))
             = Failed e) /\
  ~ In (EHeader "Cryptocurrency Comparison")
       (snd (fst (app_run fsqrt skew kurtosis OPENAI_API_KEY NEWS_API_KEY CRYPTO_PANIC_API_KEY inp d w))).
Proof.
  intros Hs.
  enough (Hf : fails_only not_comparison
                 (app_run fsqrt skew kurtosis OPENAI_API_KEY NEWS_API_KEY CRYPTO_PANIC_API_KEY inp d)).
  { destruct (Hf w) as [He Hels]. split; [exact He|].
    intros Hin. rewrite List.Forall_forall in Hels. by apply (Hels _ Hin). }
  unfold app_run. cbv zeta. do 8 skip_stage.
  apply (fails_rbind _ (fun x => has_col "price" (fr_cols (fst (fst x))) = false));
    [apply emits_load_data | apply load_data_post | intros [[market tokens] d'] Hm; cbn in Hm; cbv beta iota].
  apply (fails_rbind _ (fun _ => True)); [apply (proj1 (emits_before_stats _ 0 market tokens)) | apply post_true | intros _ _].
  apply (fails_rbind _ (fun _ => True)); [apply (proj2 (emits_before_stats [] _ market tokens)) | apply post_true | intros _ _].
  apply fails_rbind_first. rewrite Hs. by apply statistical_analysis_total_market_fails.
Qed.

(** C5: the percentage-change table of the Comparison tab cannot hold two
    rows: over all time ([days_ago is None]), as soon as two columns have
    values, the second iteration formats the string stored by the first
    with [:.2f] and raises [ValueError] (lines 390-393); with [Market Cap]
    selected, [Total Market] and one token already make two columns. *)
Theorem pct_loop_second_column_fails (dates : list Q) (c1 c2 : string) (xs1 xs2 : column)
    (rest : list (string * column)) (w : world) :
  xs1 <> [] -> xs2 <> [] ->
  pct_loop None dates ((c1, xs1) :: (c2, xs2) :: rest) (mk_pct_table [] None) w =
    (Failed (PyExn (ValueError "Unknown format code 'f' for object of type 'str'")), [], w).
Proof.
  intros H1 H2. cbn [pct_loop].
  rewrite (rbind_done _ _ w w _ []) by (rewrite pct_step_all_time by done; apply pct_add_first).
  cbn [app]. cbn [pct_loop].
  unfold rbind at 1. rewrite pct_step_all_time by done. reflexivity.
Qed.

(** C2: on a rectangular market frame with at least one row and no
    [price] column (every market frame [process_historical_data] builds),
    the statistics tab with its default selection [Total Market] renders
    its header and the "Price Statistics" subheader and raises
    [KeyError('price_stats')] (line 284). *)
Theorem statistical_analysis_total_market_keyerror (fsqrt : Q -> Q) (skew kurtosis : column -> num)
    (selected_tokens : list string) (market : frame) (tokens : list (string * frame)) (w : world) :
  frame_wf market -> fr_date market <> [] -> has_col "price" (fr_cols market) = false ->
  statistical_analysis fsqrt skew kurtosis 0 selected_tokens market tokens w =
    (Failed (PyExn (KeyError "price_stats")),
     [EHeader "Statistical Analysis"; ESubheader "Price Statistics"], w).
Proof.
  intros Hwf Hne Hp. destruct (calculate_stats_ok fsqrt skew kurtosis market w Hwf Hne) as (st & Est & _).
  pose proof (calculate_stats_no_price_stats _ _ _ _ _ _ _ Hp Est) as Hf.
  unfold statistical_analysis. cbv zeta.
  replace (selectbox ("Total Market" :: selected_tokens) 0) with (Some "Total Market") by reflexivity.
  replace (is_choice (Some "Total Market") "Total Market") with true by reflexivity.
  rewrite (rbind_done _ _ w w tt [EHeader "Statistical Analysis"]) by reflexivity. cbv beta.
  rewrite (rbind_done _ _ w w market []) by reflexivity. cbv beta.
  rewrite (rbind_done _ _ w w st []) by (apply lift_ret; exact Est). cbv beta.
  rewrite (rbind_done _ _ w w tt [ESubheader "Price Statistics"]) by reflexivity. cbv beta.
  unfold rbind at 1, dict_get. rewrite Hf. reflexivity.
Qed.

(** the pie of the Data Visualization tab never understates the
    market: when every selected token's market cap is a number, its
    slices add up to [max(total market cap, sum of the selected caps)]
    ([Others] is the difference when positive). *)
Theorem pie_rows_total (latest : list (string * num)) (market_cap : Q) :
  Forall (fun r => exists q, snd r = Fin q) latest ->
  exists total s, nsum (valid (snd <$> latest)) = Fin total /\
    nsum (valid (snd <$> pie_rows latest (Fin market_cap))) = Fin s /\ (s == Qmax market_cap total)%Q.
Proof.
  intros Hl.
  assert (Hf : Forall (fin_with (fun _ => True)) (snd <$> latest)).
  { rewrite Forall_fmap. eapply Forall_impl; [exact Hl|]. intros r [q Hq]. exists q. by rewrite <- Hq. }
  rewrite (valid_fin _ _ Hf). unfold pie_rows. rewrite (valid_fin _ _ Hf).
  destruct (nsum_Fin (fun _ => True) (snd <$> latest)) as (T & HT & _); [done | done | |].
  { eapply Forall_impl; [exact Hf|]. intros x (q & -> & _). eauto. }
  rewrite HT, nsub_fin. exists T. cbn [nltb].
  destruct (qltb 0 (market_cap - T)) eqn:E.
  - apply qltb_spec in E. rewrite fmap_app. unfold valid. rewrite List.filter_app. fold (valid (snd <$> latest)).
    rewrite (valid_fin _ _ Hf). cbn [List.filter fmap list_fmap snd is_nan negb].
    unfold nsum. rewrite fold_left_app. fold (nsum (snd <$> latest)). rewrite HT. cbn.
    eexists; split; [reflexivity | split; [reflexivity|]]. rewrite Q.max_l by lra. lra.
  - apply not_true_iff_false in E. rewrite qltb_spec in E. rewrite (valid_fin _ _ Hf), HT.
    eexists; split; [reflexivity | split; [reflexivity|]]. rewrite Q.max_r by lra. reflexivity.
Qed.

(** ** Witnesses *)

Definition default_inputs : inputs :=
  mk_inputs 0 None 0 0 None 0 0 0 0 30 false 0 0 "" "" false false.

Definition w_app : world := mk_world [] [] [] 0 [] [].

Lemma app_run_stops_at_statistics_witness :
  in_stats_token default_inputs = 0%nat /\
  (exists e, fst (fst (@app_run make_api_request_client (const_models (Fin 1)) (fixed_services "" 0 [] "")
                         (fun q => q) (fun _ => NaN) (fun _ => NaN) "" "" "" default_inputs empty w_app))
             = Failed e) /\
  ~ In (EHeader "Cryptocurrency Comparison")
       (snd (fst (@app_run make_api_request_client (const_models (Fin 1)) (fixed_services "" 0 [] "")
                   (fun q => q) (fun _ => NaN) (fun _ => NaN) "" "" "" default_inputs empty w_app))).
Proof.
  split; [reflexivity|].
  exact (@app_run_stops_at_statistics make_api_request_client (const_models (Fin 1)) (fixed_services "" 0 [] "")
           (fun q => q) (fun _ => NaN) (fun _ => NaN) "" "" "" default_inputs empty w_app eq_refl).
Defined.

Lemma pct_loop_second_column_fails_witness :
  pct_loop None [0; 1]%Q [("Total Market", [Fin 10; Fin 12]); ("BTC", [Fin 1; Fin 2])] (mk_pct_table [] None) w_app =
    (Failed (PyExn (ValueError "Unknown format code 'f' for object of type 'str'")), [], w_app).
Proof. apply pct_loop_second_column_fails; discriminate. Defined.

Definition market_frame1 : frame := mk_frame [0%Q] [("market_cap", [Fin 1]); ("volume", [Fin 2])].

Lemma statistical_analysis_total_market_keyerror_witness :
  statistical_analysis (fun q => q) (fun _ => NaN) (fun _ => NaN) 0 ["BTC"] market_frame1 [] w_app =
    (Failed (PyExn (KeyError "price_stats")),
     [EHeader "Statistical Analysis"; ESubheader "Price Statistics"], w_app).
Proof.
  apply statistical_analysis_total_market_keyerror; [repeat constructor | discriminate | reflexivity].
Defined.

Lemma pie_rows_total_witness :
  exists total s, nsum (valid (snd <$> [("BTC", Fin 3); ("ETH", Fin 2)])) = Fin total /\
    nsum (valid (snd <$> pie_rows [("BTC", Fin 3); ("ETH", Fin 2)] (Fin 10))) = Fin s /\
    (s == Qmax 10 total)%Q.
Proof. apply pie_rows_total. repeat constructor; eexists; reflexivity. Defined.

End App.
