(* ===== verification/Layout.v ===== *)
(** * Layout: the page helpers of [src/page_layout.py]

    [create_header] (lines 7-26), [create_sidebar_filters] (lines 28-84),
    [create_metric_cards] (lines 86-108), [create_chart] (lines 110-171),
    [create_section_header] (lines 173-186), [create_footer] (lines
    188-208) and [apply_theme] (lines 210-254), written in the page monad
    [R] of [App]: [st.columns] places elements in a column ([EColumn]),
    [st.sidebar] in the sidebar ([ESidebar]), and
    [st.markdown(..., unsafe_allow_html=True)] writes raw HTML ([EHtml]).
    app.py does not import this module.  A plotly figure is a record of
    the chart kind, the keyword arguments passed to plotly express and the
    layout set by [update_layout]; of plotly express's checks, only the
    one on column names is modelled.  [os.getenv] after [load_dotenv()] is
    the function [getenv] of the section. *)

From stdpp Require Import pretty.
From S2P Require Import Prelude Calendar HttpClient Config TokenResolver Utils App.
Import Calendar HttpClient Config TokenResolver Utils App.

Module Layout.

(** ** [create_header], lines 7-26 *)

Definition LOGO_HTML : string := "<h1 style='font-size: 3rem; margin-bottom: 0;'>📊</h1>".

Definition SUBTITLE_HTML : string :=
  py_lines [ "";
             "            <p style='margin-top: -0.8rem; font-size: 1.1rem; color: #777777;'>";
             "            Analyze, visualize, and predict cryptocurrency market trends";
             "            </p>";
             "            " ].

(** [col1, col2 = st.columns([1, 5])]: column 0 holds the logo, column 1
    the title and the subtitle. *)
Definition create_header : R unit :=
  _ <<- emit (EColumn 0 (EHtml LOGO_HTML)) ;;
  _ <<- emit (EColumn 1 (ETitle "Crypto Market Cap Analysis & Prediction")) ;;
  emit (EColumn 1 (EHtml SUBTITLE_HTML)).

(** ** [create_sidebar_filters], lines 28-84 *)

(** The widget values: the time period, the token selection ([None]: left
    at its default) and the three checkboxes of "Advanced Options". *)
Record sidebar_inputs : Type := mk_sidebar_inputs {
  sb_timeframe : nat;
  sb_selected : option (list string);
  sb_show_indicators : bool;
  sb_log_scale : bool;
  sb_dark_mode : bool
}.

(** The dict [filters]. *)
Record filters : Type := mk_filters {
  f_timeframe : option string;
  f_selected_tokens : list string;
  f_show_indicators : bool;
  f_log_scale : bool;
  f_dark_mode : bool
}.

Section Sidebar.
Context `{ApiClient}.
Variable getenv : string -> option string.

(** [if os.getenv(k)]: set and not empty. *)
Definition env_set (k : string) : bool :=
  match getenv k with Some v => negb (String.eqb v "") | None => false end.

Definition api_status : list (string * string) :=
  [("CoinGecko", if env_set "COINGECKO_API_KEY" then "✅ Connected" else "⚠️ Limited");
   ("OpenAI", if env_set "OPENAI_API_KEY" then "✅ Connected" else "❌ Disconnected");
   ("News API", if env_set "NEWS_API_KEY" then "✅ Connected" else "❌ Disconnected")].

Fixpoint show_status (st : list (string * string)) : R unit :=
  match st with
  | [] => rret tt
  | (api, status) :: rest =>
      _ <<- emit (ESidebar (EText ("**" ++ api ++ "**: " ++ status))) ;; show_status rest
  end.

Definition create_sidebar_filters (inp : sidebar_inputs) : R filters :=
  _ <<- emit (ESidebar (ETitle "Analysis Settings")) ;;
  _ <<- emit (ESidebar (ESubheader "Time Period")) ;;
  let timeframe := selectbox TIMEFRAMES (sb_timeframe inp) in
  _ <<- emit (ESidebar (ESubheader "Cryptocurrency Selection")) ;;
  all_tokens <<- rtry (lift get_token_list) (fun _ => rret TOP_TOKENS) ;;
  selected <<- multiselect all_tokens (firstn 5 TOP_TOKENS) (sb_selected inp) ;;
  _ <<- emit (ESidebar (EText "---")) ;;
  _ <<- emit (ESidebar (ESubheader "API Status")) ;;
  _ <<- show_status api_status ;;
  rret (mk_filters timeframe selected (sb_show_indicators inp) (sb_log_scale inp) (sb_dark_mode inp)).

End Sidebar.

(** ** [create_metric_cards], lines 86-108 *)

(** A metric dict: keys and values, [None] standing for Python's [None]. *)
Definition metric : Type := list (string * option string).

(** [st.metric]'s label must be a [str]. *)
Definition metric_label (o : option string) : R string :=
  match o with Some s => rret s | None => rraise (PyExn TypeError) end.

(** [st.metric] shows a [None] value as a dash. *)
Definition metric_value (o : option string) : string :=
  match o with Some s => s | None => "—" end.

(** [key in d], and [d[key]] when it is present. *)
Definition metric_find (m : metric) (k : string) : option (option string) :=
  snd <$> List.find (fun kv => String.eqb (fst kv) k) m.

(** One card in column [k]: the [delta] test first, then the lookups in
    the order of the call's arguments. *)
Definition metric_card (k : nat) (m : metric) : R unit :=
  match metric_find m "delta" with
  | Some (Some _) =>
      label <<- dict_get m "label" ;; value <<- dict_get m "value" ;; delta <<- dict_get m "delta" ;;
      l <<- metric_label label ;; emit (EColumn k (EMetric l (metric_value value) delta))
  | _ =>
      label <<- dict_get m "label" ;; value <<- dict_get m "value" ;;
      l <<- metric_label label ;; emit (EColumn k (EMetric l (metric_value value) None))
  end.

(** [for i, metric in enumerate(metrics): with columns[i % num_columns]]. *)
Fixpoint metric_cards (n i : nat) (ms : list metric) : R unit :=
  match ms with
  | [] => rret tt
  | m :: rest => _ <<- metric_card (i mod n) m ;; metric_cards n (S i) rest
  end.

(** [st.columns(num_columns)] refuses a count below 1. *)
Definition create_metric_cards (metrics : list metric) (num_columns : Z) : R unit :=
  if (num_columns <=? 0)%Z
  then rraise (StreamlitAPIException
         "The input argument to st.columns must be either a positive integer or a list of positive numeric weights.")
  else metric_cards (Z.to_nat num_columns) 0 metrics.

(** ** [create_chart], lines 110-171 *)

(** A keyword argument's value. *)
Inductive kwarg : Type :=
  | KStr (s : string)
  | KNum (q : Q)
  | KColors (m : list (json * string)).

(** A DataFrame with values of any type: its columns by name. *)
Definition pdata : Type := list (string * list json).

Record figure : Type := mk_figure {
  fig_kind : string;                     (** [px.line], [px.bar], [px.pie] or [px.scatter] *)
  fig_args : list (string * kwarg);      (** the keyword arguments passed to it *)
  fig_title : kwarg;                     (** [title_text] *)
  fig_height : kwarg;                    (** [height] *)
  fig_template : string
}.

Definition kw_get (kw : list (string * kwarg)) (k : string) : option kwarg :=
  snd <$> List.find (fun kv => String.eqb (fst kv) k) kw.

Definition kw_in (kw : list (string * kwarg)) (k : string) : bool :=
  existsb (fun kv => String.eqb (fst kv) k) kw.

(** [kwargs[k] = v] on a key that is not there: appended. *)
Definition kw_add (kw : list (string * kwarg)) (k : string) (v : kwarg) : list (string * kwarg) :=
  (kw ++ [(k, v)])%list.

(** [Series.unique()]: the distinct values in order of first appearance. *)
Fixpoint unique_values (seen : list json) (vs : list json) : list json :=
  match vs with
  | [] => rev seen
  | v :: rest => if existsb (json_key_eq v) seen then unique_values seen rest
                 else unique_values (v :: seen) rest
  end.

Definition DEFAULT_COLOR : string := "#4A90E2".

(** [CHART_COLORS[value]] if [value in CHART_COLORS], else
    [CHART_COLORS.get('default', '#4A90E2')]. *)
Definition chart_color (v : json) : string :=
  match v with
  | JStr s =>
      match List.find (fun kv => String.eqb (fst kv) s) CHART_COLORS with
      | Some kv => snd kv
      | None => default DEFAULT_COLOR (snd <$> List.find (fun kv => String.eqb (fst kv) "default") CHART_COLORS)
      end
  | _ => default DEFAULT_COLOR (snd <$> List.find (fun kv => String.eqb (fst kv) "default") CHART_COLORS)
  end.

Definition color_map (vs : list json) : list (json * string) := (fun v => (v, chart_color v)) <$> vs.

(** Lines 121-134: the colour map added when none is given and [color]
    names a column; [unique()] hashes the values, so a list or dict value
    raises [TypeError]. *)
Definition with_colors (data : pdata) (kw : list (string * kwarg)) : R (list (string * kwarg)) :=
  if kw_in kw "color_discrete_map" then rret kw
  else match kw_get kw "color" with
       | Some (KStr c) =>
           match List.find (fun col => String.eqb (fst col) c) data with
           | Some col =>
               if forallb hashable (snd col)
               then rret (kw_add kw "color_discrete_map" (KColors (color_map (unique_values [] (snd col)))))
               else rraise (PyExn TypeError)
           | None => rret kw
           end
       | _ => rret kw
       end.

(** plotly express: a string argument among [x], [y], [color], [names]
    and [values] must name a column. *)
Fixpoint px_check (data : pdata) (keys : list string) (kw : list (string * kwarg)) : R unit :=
  match keys with
  | [] => rret tt
  | k :: rest =>
      match kw_get kw k with
      | Some (KStr c) =>
          if existsb (fun col => String.eqb (fst col) c) data then px_check data rest kw
          else rraise (PyExn (ValueError ("Value of '" ++ k ++ "' is not the name of a column in 'data_frame'")))
      | _ => px_check data rest kw
      end
  end.

Definition PX_COLUMN_ARGS : list string := ["x"; "y"; "color"; "names"; "values"].

Definition CHART_TYPES : list string := ["line"; "bar"; "pie"; "scatter"].

Definition create_chart (chart_type : string) (data : pdata) (kwargs : list (string * kwarg)) : R figure :=
  let title := default (KStr "") (kw_get kwargs "title") in
  let height := default (KNum 500) (kw_get kwargs "height") in
  kw <<- with_colors data kwargs ;;
  if existsb (String.eqb chart_type) CHART_TYPES then
    _ <<- px_check data PX_COLUMN_ARGS kw ;;
    rret (mk_figure chart_type kw title height "plotly_white")
  else rraise (PyExn (ValueError ("Unsupported chart type: " ++ chart_type))).

(** ** [create_section_header], lines 173-186 *)

Definition create_section_header (title : string) (description : option string) : R unit :=
  _ <<- emit (EText ("## " ++ title)) ;;
  _ <<- (match description with
         | Some d => if String.eqb d "" then rret tt
                     else emit (EHtml ("<p style='color: #777777; margin-top: -0.5rem;'>" ++ d ++ "</p>"))
         | None => rret tt
         end) ;;
  emit (EText "---").

(** ** [create_footer], lines 188-208 *)

Definition FOOTER_HTML : string :=
  py_lines [ "";
             "            <div style='text-align: right;'>";
             "            Data sources: CoinGecko, CoinMarketCap, Binance";
             "            </div>";
             "            " ].

(** [datetime.now().year]. *)
Definition year_of (t : Z) : Z := let '(y, _, _) := civil_from_days (t / 86400) in y.

Definition create_footer : R unit :=
  now <<- lift py_now ;;
  _ <<- emit (EText "---") ;;
  now' <<- lift py_now ;;
  _ <<- emit (EColumn 0 (EText ("© " ++ pretty (year_of now) ++ " Crypto Market Analysis | Data refreshed: "
                                   ++ strftime now'))) ;;
  emit (EColumn 1 (EHtml FOOTER_HTML)).

(** ** [apply_theme], lines 210-254 *)

Definition DARK_CSS : string :=
  py_lines [
        "";
        "            <style>";
        "            .main {";
        "                background-color: #121212;";
        "                color: #f0f0f0;";
        "            }";
        ("            .stTabs [data-baseweb=" ++ dq ++ "tab-list" ++ dq ++ "] {");
        "                gap: 24px;";
        "            }";
        ("            .stTabs [data-baseweb=" ++ dq ++ "tab" ++ dq ++ "] {");
        "                height: 50px;";
        "                white-space: pre-wrap;";
        "                background-color: #1e1e1e;";
        "                border-radius: 4px 4px 0px 0px;";
        "                gap: 1px;";
        "                padding-top: 10px;";
        "                padding-bottom: 10px;";
        "                color: #f0f0f0;";
        "            }";
        ("            .stTabs [aria-selected=" ++ dq ++ "true" ++ dq ++ "] {");
        "                background-color: #2c5ade;";
        "                color: white;";
        "            }";
        "            h1, h2, h3, h4, h5, h6 {";
        "                color: #f0f0f0;";
        "            }";
        "            .stSidebar {";
        "                background-color: #1e1e1e;";
        "                color: #f0f0f0;";
        "            }";
        "            </style>";
        "            " ].

Definition apply_theme (dark_mode : bool) : R unit :=
  if dark_mode then emit (EHtml DARK_CSS) else emit (EHtml (ui_css UI_CONFIG)).

(** ** Lemmas *)

(** The card a well-formed metric dict renders in column [k]. *)
Definition card_of (k : nat) (m : metric) : element :=
  EColumn k (EMetric (default "" (default None (metric_find m "label")))
                     (metric_value (default None (metric_find m "value")))
                     (match metric_find m "delta" with Some (Some d) => Some d | _ => None end)).

(** A label that is a string and a value, [None] or not. *)
Definition well_formed_metric (m : metric) : Prop :=
  (exists l, metric_find m "label" = Some (Some l)) /\ is_Some (metric_find m "value").

Lemma dict_get_find (m : metric) (k : string) (v : option string) (w : world) :
  metric_find m k = Some v -> dict_get m k w = (Done v, [], w).
Proof.
  unfold metric_find, dict_get. destruct (List.find _ m) as [[k' v']|]; cbn; [|done]. by intros [= ->].
Qed.

Lemma metric_card_ok (k : nat) (m : metric) (w : world) :
  well_formed_metric m -> metric_card k m w = (Done tt, [card_of k m], w).
Proof.
  intros [[l Hl] [v Hv]]. unfold metric_card, card_of. rewrite Hl, Hv.
  destruct (metric_find m "delta") as [[d|]|] eqn:Hd; unfold rbind;
    rewrite (dict_get_find _ _ _ w Hl); cbv beta iota; rewrite (dict_get_find _ _ _ w Hv); cbv beta iota;
    try (rewrite (dict_get_find _ _ _ w Hd); cbv beta iota); reflexivity.
Qed.

Lemma metric_cards_ok (n i : nat) (ms : list metric) (w : world) :
  Forall well_formed_metric ms ->
  metric_cards n i ms w = (Done tt, imap (fun j m => card_of ((i + j) mod n) m) ms, w).
Proof.
  intros H. revert i. induction H as [|m ms Hm _ IH]; intros i; [reflexivity|].
  cbn [metric_cards]. rewrite (rbind_done _ _ w w tt _ (metric_card_ok _ m w Hm)), IH.
  cbn. rewrite Nat.add_0_r. do 3 f_equal. apply imap_ext. intros j x _. cbn. do 2 f_equal. lia.
Qed.

(** A value that is not a key of [CHART_COLORS]. *)
Definition unlisted (v : json) : Prop := forall s, v = JStr s -> ~ In s (fst <$> CHART_COLORS).

Lemma chart_color_unlisted (v : json) : unlisted v -> chart_color v = DEFAULT_COLOR.
Proof.
  intros Hv. destruct v as [| | |s| |]; try reflexivity. cbn [chart_color].
  destruct (List.find _ CHART_COLORS) as [kv|] eqn:E; [|reflexivity].
  exfalso. apply (Hv s eq_refl). apply find_some in E as [Hin Heq]. apply String.eqb_eq in Heq.
  subst s. by apply in_map.
Qed.

Lemma color_map_fst (vs : list json) : fst <$> color_map vs = vs.
Proof. induction vs as [|v vs IH]; cbn; [done | by f_equal]. Qed.

Lemma color_map_in (vs : list json) (v : json) (c : string) : In (v, c) (color_map vs) -> c = chart_color v.
Proof. unfold color_map. intros (v' & [= -> ->] & _)%in_map_iff. reflexivity. Qed.

Lemma rtry_done {A} (c : R A) (h : exn -> R A) (w w' : world) (a : A) (els : list element) :
  c w = (Done a, els, w') -> rtry c h w = (Done a, els, w').
Proof. intros E. unfold rtry. by rewrite E. Qed.

Lemma defaults_missing (r defaults : list string) (d : string) :
  In d defaults -> ~ In d r -> forallb (fun x => py_in x r) defaults = false.
Proof.
  intros Hd Hr. apply not_true_iff_false. intros Hall. rewrite forallb_forall in Hall.
  apply Hr, py_in_spec, Hall, Hd.
Qed.

(** ** Properties *)


(** C28: with a positive column count and metric dicts that each have a
    string label and a value, [create_metric_cards] renders one card per
    metric, in order, the [i]-th in column [i mod num_columns], with its
    delta when one is given and not [None]. *)
Theorem create_metric_cards_columns (ms : list metric) (n : Z) (w : world) :
  (0 < n)%Z -> Forall well_formed_metric ms ->
  create_metric_cards ms n w = (Done tt, imap (fun i m => card_of (i mod Z.to_nat n) m) ms, w).
Proof.
  intros Hn Hms. unfold create_metric_cards. rewrite (proj2 (Z.leb_gt n 0) Hn).
  exact (metric_cards_ok _ 0 ms w Hms).
Qed.

(** C20: when no colour map is given and [color] names a column,
    [create_chart]'s colour map has one entry per distinct value of the
    column, in order of appearance, and every value that is not a key of
    [CHART_COLORS] gets the same colour [#4A90E2]: the colours are not
    cycled, so two unlisted tokens cannot be told apart. *)
Theorem with_colors_unlisted_shared (data : pdata) (kw : list (string * kwarg)) (c : string)
    (vs : list json) (w : world) :
  kw_in kw "color_discrete_map" = false -> kw_get kw "color" = Some (KStr c) ->
  List.find (fun col => String.eqb (fst col) c) data = Some (c, vs) -> forallb hashable vs = true ->
  exists m, with_colors data kw w = (Done (kw_add kw "color_discrete_map" (KColors m)), [], w) /\
    fst <$> m = unique_values [] vs /\
    forall v c', In (v, c') m -> unlisted v -> c' = DEFAULT_COLOR.
Proof.
  intros Hm Hc Hf Hh. unfold with_colors. rewrite Hm, Hc, Hf. cbn [snd]. rewrite Hh.
  eexists; split; [reflexivity|]. split; [apply color_map_fst|].
  intros v c' Hin Hv. rewrite (color_map_in _ _ _ Hin). by apply chart_color_unlisted.
Qed.

(** C21: when the coin list CoinGecko returns lacks one of the first five
    tokens of [TOP_TOKENS], [create_sidebar_filters] stops with
    Streamlit's error on the multiselect's default, after the title and
    the first two subheaders of the sidebar. *)
Theorem create_sidebar_filters_missing_default `{ApiClient} (getenv : string -> option string)
    (inp : sidebar_inputs) (w : world) (st : Z) (coins : list json) (rest : list http_outcome)
    (syms : list string) (d : string) :
  w_net w = HttpResp st (Some (JArr coins)) :: rest -> is_http_error st = false ->
  Forall2 (fun c s => coin_symbol c = Some s) coins syms ->
  In d (firstn 5 TOP_TOKENS) -> ~ In d (str_upper <$> syms) ->
  create_sidebar_filters getenv inp w =
    (Failed (StreamlitAPIException "Every Multiselect default value must exist in options"),
     [ESidebar (ETitle "Analysis Settings"); ESidebar (ESubheader "Time Period");
      ESidebar (ESubheader "Cryptocurrency Selection")], after_get w COINS_LIST_URL []).
Proof.
  intros Hnet Hst Hsyms Hd Hmiss.
  destruct (get_token_list_sorted_set w st coins rest syms Hnet Hst Hsyms) as (r & Er & _ & _ & Hr).
  assert (Hnr : ~ In d r) by (intros Hin; apply Hmiss, list_elem_of_In, Hr, list_elem_of_In, Hin).
  unfold create_sidebar_filters. cbv zeta.
  do 3 (rewrite (rbind_done _ _ w w tt _) by reflexivity; cbv beta iota).
  rewrite (rbind_done _ _ w _ r [] (rtry_done _ _ w _ r [] (lift_ret _ w _ r Er))). cbv beta iota.
  unfold multiselect at 1. rewrite (defaults_missing r _ d Hd Hnr). reflexivity.
Qed.

(** ** Witnesses *)

Lemma create_metric_cards_columns_witness :
  create_metric_cards [[("label", Some "Price"); ("value", Some "$1"); ("delta", Some "+2%")];
                       [("label", Some "Volume"); ("value", None)]] 4 (mk_world [] [] [] 0 [] []) =
  (Done tt, imap (fun i m => card_of (i mod Z.to_nat 4) m)
              [[("label", Some "Price"); ("value", Some "$1"); ("delta", Some "+2%")];
               [("label", Some "Volume"); ("value", None)]], mk_world [] [] [] 0 [] []).
Proof.
  apply create_metric_cards_columns; [lia|].
  repeat constructor; (eexists; reflexivity).
Defined.

Definition chart_data : pdata :=
  [("Token", [JStr "PEPE"; JStr "WIF"; JStr "BTC"; JStr "PEPE"]); ("Price", [JNum 1; JNum 2; JNum 3; JNum 4])].

Lemma with_colors_unlisted_shared_witness :
  exists m, with_colors chart_data [("x", KStr "Token"); ("color", KStr "Token")] (mk_world [] [] [] 0 [] []) =
              (Done (kw_add [("x", KStr "Token"); ("color", KStr "Token")] "color_discrete_map" (KColors m)), [],
               mk_world [] [] [] 0 [] []) /\
    fst <$> m = unique_values [] [JStr "PEPE"; JStr "WIF"; JStr "BTC"; JStr "PEPE"] /\
    forall v c', In (v, c') m -> unlisted v -> c' = DEFAULT_COLOR.
Proof. apply (with_colors_unlisted_shared _ _ "Token"); reflexivity. Defined.

Lemma create_sidebar_filters_missing_default_witness :
  @create_sidebar_filters make_api_request_client (fun _ => None) (mk_sidebar_inputs 0 None false false false)
    (mk_world [] [HttpResp 200 (Some (JArr [coin "btc" "bitcoin"; coin "eth" "ethereum"]))] [] 0 [] []) =
    (Failed (StreamlitAPIException "Every Multiselect default value must exist in options"),
     [ESidebar (ETitle "Analysis Settings"); ESidebar (ESubheader "Time Period");
      ESidebar (ESubheader "Cryptocurrency Selection")],
     after_get (mk_world [] [HttpResp 200 (Some (JArr [coin "btc" "bitcoin"; coin "eth" "ethereum"]))] [] 0 [] [])
       COINS_LIST_URL []).
Proof.
  apply (@create_sidebar_filters_missing_default make_api_request_client _ _ _ 200
           [coin "btc" "bitcoin"; coin "eth" "ethereum"] [] ["btc"; "eth"] "BNB");
    [reflexivity | reflexivity | repeat constructor | cbn; tauto | cbn; intuition discriminate].
Defined.

End Layout.
