(* ===== verification/Launcher.v ===== *)
(** * Launcher: [src/run.py] and [src/setup.py]

    [python run.py [options]] imports its modules (and with them
    [setup.py] and [database.py], whose top level calls [load_dotenv()]
    and reads the database settings), parses its options with argparse,
    then checks or installs the dependencies, runs [setup_environment]
    and starts [streamlit run app.py].  The host is a record of the files
    and directories of the working directory, the environment variables,
    the installed third-party modules, the SQLite databases by path, what
    the process printed and the commands it ran.  python-dotenv's parser
    and pip are parameters ([parse_dotenv], [pip_install]); a database is
    the store of [LocalStore]. *)

From stdpp Require Import gmap.
From S2P Require Import Prelude LocalStore.
Import LocalStore.

Open Scope string_scope.
Local Open Scope Z_scope.

Module Launcher.

(** ** The host *)

(** What the process writes on its terminal: a line printed, argparse's
    help or usage error, or the traceback of an uncaught exception. *)
Inductive out_line : Type :=
  | OPrint (s : string)
  | OHelp
  | OUsageError (msg : string)
  | OTraceback (exn : string).

Record host : Type := mk_host {
  h_files : gmap string string;      (** regular files and their contents *)
  h_dirs : gset string;              (** directories *)
  h_env : gmap string string;        (** [os.environ] *)
  h_modules : gset string;           (** installed third-party modules *)
  h_dbs : gmap string db;            (** SQLite databases by file name *)
  h_out : list out_line;
  h_calls : list (list string)       (** commands run by [subprocess] *)
}.

Definition print (s : string) (h : host) : host :=
  mk_host (h_files h) (h_dirs h) (h_env h) (h_modules h) (h_dbs h) (h_out h ++ [OPrint s]) (h_calls h).

Definition emit_out (o : out_line) (h : host) : host :=
  mk_host (h_files h) (h_dirs h) (h_env h) (h_modules h) (h_dbs h) (h_out h ++ [o]) (h_calls h).

(** [os.path.exists(p)]: a file or a directory. *)
Definition path_exists (p : string) (h : host) : bool :=
  bool_decide (is_Some (h_files h !! p)) || bool_decide (p ∈ h_dirs h).

Definition write_file (p c : string) (h : host) : host :=
  mk_host (<[p := c]> (h_files h)) (h_dirs h) (h_env h) (h_modules h) (h_dbs h) (h_out h) (h_calls h).

Definition makedir (p : string) (h : host) : host :=
  mk_host (h_files h) ({[p]} ∪ h_dirs h) (h_env h) (h_modules h) (h_dbs h) (h_out h) (h_calls h).

Definition set_env (k v : string) (h : host) : host :=
  mk_host (h_files h) (h_dirs h) (<[k := v]> (h_env h)) (h_modules h) (h_dbs h) (h_out h) (h_calls h).

Definition run_command (cmd : list string) (h : host) : host :=
  mk_host (h_files h) (h_dirs h) (h_env h) (h_modules h) (h_dbs h) (h_out h) (h_calls h ++ [cmd]).

Definition set_db (p : string) (d : db) (h : host) : host :=
  mk_host (h_files h) (h_dirs h) (h_env h) (h_modules h) (<[p := d]> (h_dbs h)) (h_out h) (h_calls h).

Definition add_modules (ms : gset string) (h : host) : host :=
  mk_host (h_files h) (h_dirs h) (h_env h) (ms ∪ h_modules h) (h_dbs h) (h_out h) (h_calls h).

(** [os.getenv(k, default)]. *)
Definition getenv (h : host) (k dflt : string) : string := default dflt (h_env h !! k).

Section Launcher.
(** python-dotenv's parser: the assignments of a [.env] text, in order. *)
Variable parse_dotenv : string -> list (string * string).
(** [pip install -r requirements.txt]: the modules installed, or [None]
    when pip exits with an error. *)
Variable pip_install : host -> option (gset string).

(** ** Imports and the top level of database.py *)

Definition STDLIB : list string := ["os"; "subprocess"; "argparse"; "sys"; "sqlite3"; "datetime"; "json"].

Definition importable (h : host) (m : string) : bool :=
  bool_decide (m ∈ STDLIB) || bool_decide (m ∈ h_modules h).

(** The imports of [python run.py], in order: run.py's own (lines 2-6),
    setup.py's (lines 1-4) and database.py's (lines 1-6). *)
Definition START_IMPORTS : list string :=
  ["os"; "subprocess"; "argparse"; "sys";
   "os"; "argparse"; "dotenv";
   "os"; "sqlite3"; "pandas"; "datetime"; "json"; "dotenv"].

(** The first import that raises [ModuleNotFoundError]. *)
Definition first_missing (h : host) (ms : list string) : option string :=
  List.find (fun m => negb (importable h m)) ms.

(** The values a [.env] text assigns, the last assignment of a name
    winning. *)
Definition dotenv_vals (c : string) : gmap string string :=
  fold_left (fun m kv => <[fst kv := snd kv]> m) (parse_dotenv c) ∅.

(** [load_dotenv()]: the values of [.env] for the names the environment
    does not have yet ([override=False]). *)
Definition load_dotenv (h : host) : host :=
  match h_files h !! ".env" with
  | Some c =>
      let vals := dotenv_vals c in
      mk_host (h_files h) (h_dirs h) (h_env h ∪ vals) (h_modules h) (h_dbs h) (h_out h) (h_calls h)
  | None => h
  end.

(** The settings database.py reads when it is imported (lines 9-18). *)
Record db_settings : Type := mk_db_settings { DB_TYPE : string; DB_PATH : string; DB_NAME : string }.

Definition import_database (h : host) : host * db_settings :=
  let h := load_dotenv h in
  (h, mk_db_settings (getenv h "DB_TYPE" "sqlite") (getenv h "DB_PATH" "crypto_data.db")
                     (getenv h "DB_NAME" "crypto_analysis")).

(** [get_db_connection()] (database.py lines 20-43): the SQLite file
    [DB_PATH]; a PostgreSQL server when [DB_TYPE] is not sqlite and
    psycopg2 is installed, otherwise SQLite after a message. *)
Definition db_location (s : db_settings) (h : host) : host * string :=
  if String.eqb (str_lower (DB_TYPE s)) "sqlite" then (h, DB_PATH s)
  else if importable h "psycopg2" then (h, "postgresql:" ++ DB_NAME s)
  else (print "Error: psycopg2 module not found. Using SQLite instead." h, DB_PATH s).

(** [init_database()] on the database the settings designate. *)
Definition run_init_database (s : db_settings) (h : host) : host :=
  let '(h, loc) := db_location s h in
  set_db loc (init_database (default ∅ (h_dbs h !! loc))) h.

(** ** setup.py: [setup_environment] (lines 6-42) *)

Definition setup_environment (s : db_settings) (h : host) : host * option string :=
  let r :=
    if path_exists ".env" h then (h, None)
    else
      let h := print "Creating .env file from template..." h in
      if path_exists ".env.template" h then
        match h_files h !! ".env.template" with
        | Some c => (print ".env file created. Please edit it to add your API keys." (write_file ".env" c h), None)
        | None => (h, Some "IsADirectoryError: [Errno 21] Is a directory: '.env.template'")
        end
      else (print "Warning: .env.template file not found. Please create .env file manually." h, None) in
  match r with
  | (h, Some e) => (h, Some e)
  | (h, None) =>
      let h := load_dotenv h in
      let h := print "Initializing database..." h in
      let h := run_init_database s h in
      let h := print "Database initialized." h in
      let h := if path_exists "data" h then h else makedir "data" (print "Creating data directory: data" h) in
      (print "Setup complete!" h, None)
  end.

(** ** run.py: the dependency check, pip and streamlit (lines 8-57) *)

Definition DEPENDENCIES : list string := ["streamlit"; "pandas"; "numpy"; "plotly"; "requests"; "dotenv"].

Definition check_dependencies (h : host) : bool * host :=
  match first_missing h DEPENDENCIES with
  | Some m => (false, print ("Missing dependency: " ++ m) h)
  | None => (true, h)
  end.

Definition PIP_COMMAND : list string := ["python"; "-m"; "pip"; "install"; "-r"; "requirements.txt"].

Definition install_dependencies (h : host) : bool * host :=
  let h' := run_command PIP_COMMAND h in
  match pip_install h with
  | Some ms => (true, add_modules ms h')
  | None => (false, h')
  end.

(** [subprocess.call(command)]: the [streamlit] executable comes with the
    package; without it [FileNotFoundError] propagates. *)
Definition run_app (debug : bool) (h : host) : host * option string :=
  let '(cmd, h) := if debug then (["streamlit"; "run"; "app.py"; "--logger.level=debug"], set_env "DEBUG" "1" h)
                   else (["streamlit"; "run"; "app.py"], h) in
  if importable h "streamlit" then (run_command cmd h, None)
  else (h, Some "FileNotFoundError: [Errno 2] No such file or directory: 'streamlit'").

(** ** argparse (lines 60-66) *)

Record cli : Type := mk_cli { a_setup : bool; a_debug : bool; a_check_deps : bool; a_install_deps : bool }.

Definition LONG_OPTIONS : list string := ["--help"; "--setup"; "--debug"; "--check-deps"; "--install-deps"].

(** An argument as argparse first reads it: an option (with the text after
    [=] or after [-h]), an argument it will report as unrecognized, or an
    abbreviation of several options. *)
Inductive arg_class : Type :=
  | AOpt (o : string) (explicit : option string)
  | AExtra (s : string)
  | AAmbiguous (s : string) (matches : list string).

(** [s.split('=', 1)]. *)
Fixpoint split_eq (s : string) : string * option string :=
  match s with
  | "" => ("", None)
  | String c r => if Ascii.eqb c "=" then ("", Some r) else let '(a, b) := split_eq r in (String c a, b)
  end.

(** [_parse_optional]: an exact option, [--name=value], a unique prefix of
    a long option ([allow_abbrev]), [-h] followed by more characters; any
    other argument is unrecognized. *)
Definition classify_arg (s : string) : arg_class :=
  if String.eqb s "-h" then AOpt "--help" None
  else if existsb (String.eqb s) LONG_OPTIONS then AOpt s None
  else match s with
       | String "-" (String "-" _) =>
           let '(name, expl) := split_eq s in
           if existsb (String.eqb name) LONG_OPTIONS then AOpt name expl
           else match List.filter (fun o => String.prefix name o) LONG_OPTIONS with
                | [] => AExtra s
                | [o] => AOpt o expl
                | ms => AAmbiguous name ms
                end
       | String "-" (String "h" rest) => AOpt "--help" (Some rest)
       | _ => AExtra s
       end.

(** Everything after the first [--] is positional. *)
Fixpoint classify_args (args : list string) : list arg_class :=
  match args with
  | [] => []
  | a :: rest => if String.eqb a "--" then AExtra <$> rest else classify_arg a :: classify_args rest
  end.

Inductive parsed : Type :=
  | PArgs (a : cli)
  | PHelp
  | PError (msg : string).

Definition option_display (o : string) : string := if String.eqb o "--help" then "-h/--help" else o.

Fixpoint join_comma (l : list string) : string :=
  match l with [] => "" | [x] => x | x :: r => x ++ ", " ++ join_comma r end.

Fixpoint join_space (l : list string) : string :=
  match l with [] => "" | [x] => x | x :: r => x ++ " " ++ join_space r end.

Definition set_flag (a : cli) (o : string) : cli :=
  if String.eqb o "--setup" then mk_cli true (a_debug a) (a_check_deps a) (a_install_deps a)
  else if String.eqb o "--debug" then mk_cli (a_setup a) true (a_check_deps a) (a_install_deps a)
  else if String.eqb o "--check-deps" then mk_cli (a_setup a) (a_debug a) true (a_install_deps a)
  else if String.eqb o "--install-deps" then mk_cli (a_setup a) (a_debug a) (a_check_deps a) true
  else a.

(** The actions in order: an explicit argument to a flag is an error, help
    exits at once, the unrecognized arguments are reported at the end. *)
Fixpoint consume (cs : list arg_class) (a : cli) (extras : list string) : parsed :=
  match cs with
  | [] => if bool_decide (extras = []) then PArgs a
          else PError ("unrecognized arguments: " ++ join_space extras)
  | AOpt o (Some e) :: _ => PError ("argument " ++ option_display o ++ ": ignored explicit argument '" ++ e ++ "'")
  | AOpt o None :: rest => if String.eqb o "--help" then PHelp else consume rest (set_flag a o) extras
  | AExtra s :: rest => consume rest a (extras ++ [s])
  | AAmbiguous _ _ :: rest => consume rest a extras
  end.

Definition parse_args (argv : list string) : parsed :=
  let cs := classify_args argv in
  match List.find (fun c => match c with AAmbiguous _ _ => true | _ => false end) cs with
  | Some (AAmbiguous s ms) => PError ("ambiguous option: " ++ s ++ " could match " ++ join_comma ms)
  | _ => consume cs (mk_cli false false false false) []
  end.

(** ** [python run.py argv] (lines 59-91): the exit status and the host. *)

Definition exit_with_traceback (e : string) (h : host) : Z * host := (1, emit_out (OTraceback e) h).

Definition launch (argv : list string) (h : host) : Z * host :=
  match first_missing h START_IMPORTS with
  | Some m => exit_with_traceback ("ModuleNotFoundError: No module named '" ++ m ++ "'") h
  | None =>
      let '(h, s) := import_database h in
      match parse_args argv with
      | PHelp => (0, emit_out OHelp h)
      | PError msg => (2, emit_out (OUsageError msg) h)
      | PArgs a =>
          if a_check_deps a then
            let '(ok, h) := check_dependencies h in
            if ok then (0, print "All dependencies are installed." h)
            else (1, print "Some dependencies are missing. Run with --install-deps to install them." h)
          else
            let '(ok, h) :=
              if a_install_deps a then
                let '(ok, h) := install_dependencies (print "Installing dependencies..." h) in
                if ok then (true, print "Dependencies installed successfully." h)
                else (false, print "Failed to install dependencies." h)
              else (true, h) in
            if negb ok then (1, h)
            else
              let '(h, err) := if a_setup a then setup_environment s (print "Running setup..." h) else (h, None) in
              match err with
              | Some e => exit_with_traceback e h
              | None =>
                  let '(h, err) := run_app (a_debug a) h in
                  match err with Some e => exit_with_traceback e h | None => (0, h) end
              end
      end
  end.

(** ** Lemmas *)

Lemma no_env_file (h : host) : path_exists ".env" h = false -> h_files h !! ".env" = None.
Proof.
  unfold path_exists. intros [H1 _]%orb_false_iff. apply bool_decide_eq_false in H1.
  destruct (h_files h !! ".env"); [exfalso; apply H1; eauto | done].
Qed.
Lemma importable_same (h1 h2 : host) (m : string) :
  h_modules h1 = h_modules h2 -> importable h1 m = importable h2 m.
Proof. unfold importable. by intros ->. Qed.

Lemma importable_stdlib (h : host) (m : string) : m ∈ STDLIB -> importable h m = true.
Proof. intros Hm. unfold importable. by rewrite bool_decide_true. Qed.

Lemma first_missing_start (h : host) :
  first_missing h START_IMPORTS =
    if importable h "dotenv" then (if importable h "pandas" then None else Some "pandas") else Some "dotenv".
Proof.
  unfold first_missing, START_IMPORTS. cbn -[importable].
  rewrite !(importable_stdlib h) by (apply (bool_decide_unpack _); vm_compute; exact I).
  cbn. by destruct (importable h "dotenv"), (importable h "pandas").
Qed.

Lemma files_load (h : host) : h_files (load_dotenv h) = h_files h.
Proof. unfold load_dotenv. by destruct (h_files h !! ".env"). Qed.
Lemma dirs_load (h : host) : h_dirs (load_dotenv h) = h_dirs h.
Proof. unfold load_dotenv. by destruct (h_files h !! ".env"). Qed.
Lemma files_init (s : db_settings) (h : host) : h_files (run_init_database s h) = h_files h.
Proof. unfold run_init_database, db_location. by repeat case_match; simplify_eq. Qed.

(** The file system changes a run may make. *)
Definition files_after (h : host) (fs : gmap string string) : Prop :=
  fs = h_files h \/
  (path_exists ".env" h = false /\ exists t, h_files h !! ".env.template" = Some t /\ fs = <[".env" := t]> (h_files h)).

Ltac fs_simpl := repeat progress (cbn -[load_dotenv run_init_database path_exists]; rewrite ?files_init, ?files_load).

Lemma setup_files (s : db_settings) (h : host) : files_after h (h_files (fst (setup_environment s h))).
Proof.
  unfold setup_environment, files_after.
  destruct (path_exists ".env" h) eqn:E.
  - left. cbn -[load_dotenv run_init_database path_exists]. destruct (path_exists "data" _); by fs_simpl.
  - destruct (path_exists ".env.template" _) eqn:Et.
    + destruct (h_files _ !! ".env.template") as [c|] eqn:Ec; cbn -[load_dotenv run_init_database path_exists] in Ec |- *.
      * right. split; [done|]. exists c. split; [done|].
        destruct (path_exists "data" _); by fs_simpl.
      * by left.
    + left. cbn -[load_dotenv run_init_database path_exists]. destruct (path_exists "data" _); by fs_simpl.
Qed.

(** Two hosts with the same files and directories. *)
Definition same_fs (h1 h2 : host) : Prop := h_files h1 = h_files h2 /\ h_dirs h1 = h_dirs h2.

Lemma files_after_same (h1 h2 : host) (fs : gmap string string) :
  same_fs h1 h2 -> files_after h1 fs -> files_after h2 fs.
Proof. unfold files_after, path_exists. intros [-> ->]. done. Qed.

Lemma install_fs (h : host) : same_fs h (snd (install_dependencies h)).
Proof. unfold install_dependencies. by destruct (pip_install h). Qed.

Lemma run_app_files (d : bool) (h : host) : h_files (fst (run_app d h)) = h_files h.
Proof. unfold run_app. by destruct d; case_match. Qed.

Lemma substring_all (s : string) (n : nat) : (String.length s <= n)%nat -> String.substring 0 n s = s.
Proof.
  revert n. induction s as [|c s IH]; intros [|n] Hn; cbn in *; try done; [lia|]. f_equal. apply IH. lia.
Qed.

(** ** Properties *)

(** C6: on a fresh checkout (no [.env], a [.env.template] that sets
    [DB_PATH] to another file), [python run.py --setup] creates the tables
    in [crypto_data.db], not in the configured file: database.py read its
    settings when it was imported, before setup_environment created and
    loaded [.env].  The app it then starts runs with [DB_PATH] set to the
    configured file, which setup left untouched. *)
Theorem launch_setup_ignores_db_path (h : host) (tmpl p : string) :
  first_missing h START_IMPORTS = None -> importable h "streamlit" = true ->
  path_exists ".env" h = false -> h_files h !! ".env.template" = Some tmpl ->
  h_env h !! "DB_TYPE" = None -> h_env h !! "DB_PATH" = None ->
  dotenv_vals tmpl !! "DB_PATH" = Some p -> p <> "crypto_data.db" ->
  exists h', launch ["--setup"] h = (0%Z, h') /\
    h_dbs h' !! "crypto_data.db" = Some (init_database (default ∅ (h_dbs h !! "crypto_data.db"))) /\
    h_dbs h' !! p = h_dbs h !! p /\
    h_env h' !! "DB_PATH" = Some p /\
    last (h_calls h') = Some ["streamlit"; "run"; "app.py"].
Proof.
  intros Himp Hst Henv Htpl Hty Hpa Hp Hne.
  pose proof (no_env_file h Henv) as Hnone.
  assert (Hl : load_dotenv h = h) by (unfold load_dotenv; by rewrite Hnone).
  unfold launch. rewrite Himp. unfold import_database. rewrite Hl.
  unfold getenv. rewrite Hty, Hpa. cbn [default].
  replace (parse_args ["--setup"]) with (PArgs (mk_cli true false false false)) by reflexivity.
  cbn [a_check_deps a_install_deps a_setup a_debug negb].
  unfold setup_environment. unfold path_exists at 1 2. cbn [h_files h_dirs print]. fold (path_exists ".env" h).
  rewrite Henv, Htpl. rewrite (bool_decide_true (is_Some (Some tmpl))) by eauto. cbn [orb].
  set (h1 := print ".env file created. Please edit it to add your API keys."
               (write_file ".env" tmpl (print "Creating .env file from template..." (print "Running setup..." h)))).
  assert (Hl1 : load_dotenv h1 =
    mk_host (h_files h1) (h_dirs h1) (h_env h ∪ dotenv_vals tmpl)
            (h_modules h) (h_dbs h) (h_out h1) (h_calls h)).
  { unfold load_dotenv. subst h1. cbn. by simplify_map_eq. }
  rewrite Hl1. unfold run_init_database, db_location.
  cbn -[importable path_exists str_lower].
  replace (String.eqb (str_lower "sqlite") "sqlite") with true by reflexivity. cbn -[importable path_exists].
  destruct (path_exists "data" _); unfold run_app; cbn -[importable];
    (rewrite (importable_same _ h) by reflexivity); rewrite Hst; cbn;
    (eexists; split; [reflexivity|]); cbn.
  all: split_and!; first [by simplify_map_eq | by rewrite lookup_union_r | by rewrite last_snoc].
Qed.

(** C7: without python-dotenv or pandas installed, every run of
    [run.py], [--check-deps] included, stops at its imports (setup.py and
    database.py import them at the top level) with a traceback for the
    missing module: the dependency check, meant to report it, never runs. *)
Theorem launch_import_crash (argv : list string) (h : host) :
  importable h "dotenv" = false \/ importable h "pandas" = false ->
  exists m, In m ["dotenv"; "pandas"] /\
    launch argv h = (1%Z, emit_out (OTraceback ("ModuleNotFoundError: No module named '" ++ m ++ "'")) h).
Proof.
  intros H. unfold launch. rewrite first_missing_start.
  destruct (importable h "dotenv"), (importable h "pandas"); [by destruct H | ..];
    (eexists; split; [|reflexivity]; cbn; tauto).
Qed.





End Launcher.

(** ** Witnesses *)

(** A [.env] parser that reads one [DB_PATH=custom.db] line. *)
Definition parse_one (c : string) : list (string * string) :=
  if String.eqb c "DB_PATH=custom.db" then [("DB_PATH", "custom.db")] else [].

Definition fresh_checkout : host :=
  mk_host {[".env.template" := "DB_PATH=custom.db"]} ∅ ∅ {["dotenv"; "pandas"; "streamlit"]} ∅ [] [].

Lemma launch_setup_ignores_db_path_witness :
  exists h', launch parse_one (fun _ => None) ["--setup"] fresh_checkout = (0%Z, h') /\
    h_dbs h' !! "crypto_data.db" = Some (init_database (default ∅ (h_dbs fresh_checkout !! "crypto_data.db"))) /\
    h_dbs h' !! "custom.db" = h_dbs fresh_checkout !! "custom.db" /\
    h_env h' !! "DB_PATH" = Some "custom.db" /\
    last (h_calls h') = Some ["streamlit"; "run"; "app.py"].
Proof.
  apply (launch_setup_ignores_db_path parse_one (fun _ => None) fresh_checkout "DB_PATH=custom.db");
    try (vm_compute; reflexivity). discriminate.
Defined.

Lemma launch_import_crash_witness :
  exists m, In m ["dotenv"; "pandas"] /\
    launch parse_one (fun _ => None) ["--check-deps"] (mk_host ∅ ∅ ∅ ∅ ∅ [] []) =
      (1%Z, emit_out (OTraceback ("ModuleNotFoundError: No module named '" ++ m ++ "'")) (mk_host ∅ ∅ ∅ ∅ ∅ [] [])).
Proof. apply launch_import_crash. left. vm_compute. reflexivity. Defined.


End Launcher.
